(** * pulpo-bot: a shallow embedding of the picking-plan builder

    The Python sources under [pulpoFunctions/] and [pulpoManager/] are
    embedded function by function.  Python objects that are mutated in
    place (the product stock dictionary, the processed-order collections,
    the picker distributions) become fields of explicit state records that
    are threaded through a small state-and-exception monad; the WMS is
    reduced to what the code observes of it: the picking orders it is asked
    to create and the answers it gives.

    Conventions used throughout:
    - Python [int] is [Z]; a Python [float] that only ever holds a stock
      quantity is the integer it holds (a float holds it exactly below
      [2^53], the range of [Exact]); a label share is the double that
      [float] reads from the tag ([PyFloat.t]); a threshold scaled by a
      constant of the configuration is the rational [Q] it denotes;
    - a [dict] whose iteration order is observed is an association list in
      insertion order, a [dict] that is only looked up and updated is a
      [gmap];
    - a Python [set] of order ids that is only tested for membership is a
      [gset]; a [set] that is turned into a list before it is sent to the
      WMS is kept as the list of its elements in the order in which they
      were added (Python's own iteration order of a set is unspecified);
    - an exception is the [None] result of the monad; [try_] is a
      [try: ... except Exception: log] block. *)

From Stdlib Require Import ZArith QArith Qround String Ascii List Lia.
From Stdlib Require Import DecimalString DecimalN DecimalZ DecimalPos.
From Stdlib Require Import Sorting.Sorted Sorting.Permutation.
From stdpp Require Import gmap strings list.
Import ListNotations.

Open Scope string_scope.
Open Scope Z_scope.

(** ** Python built-ins used by the sources *)

Module Py.

(** [str(n)] for an [int]. *)
Definition str_int (z : Z) : string := NilZero.string_of_int (Z.to_int z).

(** A number that is formatted into a note: an [int], or a [float] holding
    an integral value (every float formatted by the program is a stock
    quantity).  [str] prints the latter with a trailing [.0] (for values
    below 10^16 in magnitude). *)
Inductive num : Type :=
| Int (z : Z)
| Float (z : Z).

Definition value (n : num) : Z :=
  match n with Int z => z | Float z => z end.

Definition str_num (n : num) : string :=
  match n with
  | Int z => str_int z
  | Float z => str_int z +:+ ".0"
  end.

(** [x - y] where [y] is an [int]: the result is a float iff [x] is. *)
Definition sub_int (x : num) (y : Z) : num :=
  match x with Int z => Int (z - y) | Float z => Float (z - y) end.

(** [s.startswith(p)]. *)
Definition startswith (p s : string) : bool := String.prefix p s.

(** [needle in hay] for strings. *)
Fixpoint contains (needle hay : string) : bool :=
  String.prefix needle hay ||
  match hay with
  | EmptyString => false
  | String _ hay' => contains needle hay'
  end.

(** [s.split(sep)] for a one-character separator. *)
Fixpoint split (sep : ascii) (s : string) : list string :=
  match s with
  | EmptyString => [EmptyString]
  | String c s' =>
      if Ascii.eqb c sep then EmptyString :: split sep s'
      else match split sep s' with
           | [] => [String c EmptyString]
           | h :: t => String c h :: t
           end
  end.

(** [round(q)]: to the nearest integer, ties to the even one. *)
Definition round (q : Q) : Z :=
  let f := Qfloor q in
  let r := (q - inject_Z f)%Q in
  match (r ?= 1 # 2)%Q with
  | Lt => f
  | Gt => f + 1
  | Eq => if Z.even f then f else f + 1
  end.

(** [math.ceil(a / b)] for positive [b]. *)
Definition ceil_div (a b : Z) : Z := Qceiling (inject_Z a / inject_Z b)%Q.

(** Membership of a key in an insertion-ordered dictionary, lookup, and
    [d[k] = v] (an existing key keeps its position). *)
Section Dict.
Context {V : Type}.

Fixpoint dict_get (k : Z) (d : list (Z * V)) : option V :=
  match d with
  | [] => None
  | (k', v) :: d' => if Z.eqb k k' then Some v else dict_get k d'
  end.

Fixpoint dict_set (k : Z) (v : V) (d : list (Z * V)) : list (Z * V) :=
  match d with
  | [] => [(k, v)]
  | (k', v') :: d' =>
      if Z.eqb k k' then (k', v) :: d' else (k', v') :: dict_set k v d'
  end.

End Dict.

(** [sorted(d.items(), key=value)]: ascending by value; entries with
    equal values keep their original relative order. *)
Fixpoint insert_asc {K : Type} (x : K * Z) (l : list (K * Z)) : list (K * Z) :=
  match l with
  | [] => [x]
  | y :: l' => if snd x <=? snd y then x :: y :: l' else y :: insert_asc x l'
  end.

Definition sorted_asc {K : Type} (l : list (K * Z)) : list (K * Z) :=
  fold_right insert_asc [] l.

(** [sorted(d.items(), key=value, reverse=True)]: descending by value;
    entries with equal values keep their original relative order. *)
Fixpoint insert_desc {K : Type} (x : K * Z) (l : list (K * Z)) : list (K * Z) :=
  match l with
  | [] => [x]
  | y :: l' => if snd x <? snd y then y :: insert_desc x l' else x :: y :: l'
  end.

Definition sorted_desc {K : Type} (l : list (K * Z)) : list (K * Z) :=
  fold_right insert_desc [] l.

End Py.

(** ** The state-and-exception monad *)

Definition M (S A : Type) : Type := S -> option A * S.

#[global] Instance M_ret {S : Type} : MRet (M S) := fun A a s => (Some a, s).

#[global] Instance M_bind {S : Type} : MBind (M S) := fun A B f m s =>
  match m s with
  | (Some a, s') => f a s'
  | (None, s') => (None, s')
  end.

Definition raise {S A : Type} : M S A := fun s => (None, s).

Definition get {S : Type} : M S S := fun s => (Some s, s).

Definition modify {S : Type} (f : S -> S) : M S unit := fun s => (Some tt, f s).

(** [try: body  except Exception: log]: whatever [body] changed before it
    raised stays changed. *)
Definition try_ {S : Type} (body : M S unit) : M S unit :=
  fun s => (Some tt, snd (body s)).

(** [for x in xs: body x]. *)
Fixpoint for_each {S A : Type} (xs : list A) (body : A -> M S unit) : M S unit :=
  match xs with
  | [] => mret tt
  | x :: xs' => body x ;; for_each xs' body
  end.

Definition when {S : Type} (b : bool) (m : M S unit) : M S unit :=
  if b then m else mret tt.

(** A partial result: [None] raises. *)
Definition of_option {S A : Type} (o : option A) : M S A :=
  match o with
  | Some a => mret a
  | None => raise
  end.

Definition exec {S A : Type} (m : M S A) (s : S) : S := snd (m s).
Definition result {S A : Type} (m : M S A) (s : S) : option A := fst (m s).

(** Python's [float], an IEEE 754 binary64 number.  A finite value is kept
    as the rational it holds, in lowest terms; the sign of a zero is not
    kept (the program compares label shares and tests their truth value,
    and both zeros behave alike there). *)
Module PyFloat.

Inductive t : Type :=
| Finite (q : Q)
| Inf (negative : bool)
| NaN.

(** [floor(log2(n / d))] for positive [n] and [d]. *)
Definition floor_log2 (n d : Z) : Z :=
  let k := Z.log2 n - Z.log2 d in
  if 0 <=? k
  then (if d * 2 ^ k <=? n then k else k - 1)
  else (if d <=? n * 2 ^ (- k) then k else k - 1).

(** [m * 2^e], in lowest terms. *)
Definition scale (m e : Z) : Q :=
  if 0 <=? e then inject_Z (m * 2 ^ e)
  else Qred (m # Z.to_pos (2 ^ (- e))).

(** The double nearest to a positive rational, ties to the even
    significand: 53 significant bits, the last one worth at least
    [2^-1074], and infinity from [2^1024] on. *)
Definition round_pos (q : Q) : t :=
  let e := Z.max (floor_log2 (Qnum q) (Z.pos (Qden q)) - 52) (-1074) in
  let m := Py.round (q / scale 1 e)%Q in
  if (0 <=? e) && (2 ^ 1024 <=? m * 2 ^ e) then Inf false
  else Finite (scale m e).

Definition opp (x : t) : t :=
  match x with
  | Finite q => Finite (Qred (- q))
  | Inf negative => Inf (negb negative)
  | NaN => NaN
  end.

(** The double nearest to a rational. *)
Definition round (q : Q) : t :=
  let q := Qred q in
  match (q ?= 0)%Q with
  | Eq => Finite 0
  | Gt => round_pos q
  | Lt => opp (round_pos (Qred (- q)))
  end.

(** Truth value: only a zero is false. *)
Definition truthy (x : t) : bool :=
  match x with
  | Finite q => negb (Qeq_bool q 0)
  | Inf _ | NaN => true
  end.

(** [x <= c] and [x >= c] for a number [c] of the configuration (an [int],
    or a [float] written with a few binary places, held exactly). *)
Definition leb (x : t) (c : Q) : bool :=
  match x with
  | Finite q => Qle_bool q c
  | Inf negative => negative
  | NaN => false
  end.

Definition geb (x : t) (c : Q) : bool :=
  match x with
  | Finite q => Qle_bool c q
  | Inf negative => negb negative
  | NaN => false
  end.

(** [float(n)] for an [int]: the nearest double, or [OverflowError] (here
    [None]) when there is none. *)
Definition of_int (n : Z) : option t :=
  match round (inject_Z n) with
  | Finite q => Some (Finite q)
  | Inf _ | NaN => None
  end.

(** [int(x)]: towards zero; an infinity or a NaN raises. *)
Definition to_int (x : t) : option Z :=
  match x with
  | Finite q => Some (Z.quot (Qnum q) (Z.pos (Qden q)))
  | Inf _ | NaN => None
  end.

(** [float(s)] for a string of ASCII characters without underscores (the
    strings the program hands to it are parts of a tag split at its
    underscores).  Blanks around the literal are dropped; then comes an
    optional sign and either [inf], [infinity] or [nan] in any case, or
    digits with an optional point and an optional exponent, with at least
    one digit before the exponent.  Anything else is Python's
    [ValueError], here [None]. *)
Definition digit_of (c : ascii) : option Z :=
  let n := Z.of_nat (nat_of_ascii c) in
  if (48 <=? n) && (n <=? 57) then Some (n - 48) else None.

(** Reads the longest run of digits at the head of [s]: its value on top
    of [acc], how many digits were read on top of [n], and what is left. *)
Fixpoint digits (s : string) (acc : Z) (n : nat) : Z * nat * string :=
  match s with
  | EmptyString => (acc, n, s)
  | String c s' =>
      match digit_of c with
      | Some d => digits s' (10 * acc + d) (S n)
      | None => (acc, n, s)
      end
  end.

Definition sign_of (s : string) : bool * string :=
  match s with
  | String "-" r => (true, r)
  | String "+" r => (false, r)
  | _ => (false, s)
  end.

(** What [str.isspace] accepts among the ASCII characters. *)
Definition is_space (c : ascii) : bool :=
  let n := Z.of_nat (nat_of_ascii c) in
  ((9 <=? n) && (n <=? 13)) || ((28 <=? n) && (n <=? 32)).

Fixpoint lstrip (s : string) : string :=
  match s with
  | EmptyString => EmptyString
  | String c r => if is_space c then lstrip r else s
  end.

Fixpoint rstrip (s : string) : string :=
  match s with
  | EmptyString => EmptyString
  | String c r =>
      match rstrip r with
      | EmptyString => if is_space c then EmptyString else String c EmptyString
      | r' => String c r'
      end
  end.

Definition lower (c : ascii) : ascii :=
  let n := nat_of_ascii c in
  if ((65 <=? n) && (n <=? 90))%nat then ascii_of_nat (n + 32) else c.

Fixpoint lowercase (s : string) : string :=
  match s with
  | EmptyString => EmptyString
  | String c r => String (lower c) (lowercase r)
  end.

(** The exponent part: nothing, or [e] or [E], an optional sign and at
    least one digit. *)
Definition exponent_of (s : string) : option (option Z) :=
  match s with
  | EmptyString => Some None
  | String c r =>
      if Ascii.eqb (lower c) "e" then
        let '(negative, r1) := sign_of r in
        match digits r1 0 0 with
        | (_, O, _) => None
        | (ev, _, EmptyString) => Some (Some (if negative then - ev else ev))
        | _ => None
        end
      else None
  end.

(** The number a literal without sign denotes, before it is rounded. *)
Definition number_of (s : string) : option Q :=
  let '(ip, ni, s2) := digits s 0 0 in
  let '(fp, nf, s3) :=
    match s2 with
    | String "." r => digits r 0 0
    | _ => (0, 0%nat, s2)
    end in
  if (ni + nf =? 0)%nat then None
  else
    let q := (inject_Z ip + inject_Z fp / inject_Z (10 ^ Z.of_nat nf))%Q in
    match exponent_of s3 with
    | None => None
    | Some None => Some q
    | Some (Some ex) =>
        Some (if 0 <=? ex then q * inject_Z (10 ^ ex)
              else q / inject_Z (10 ^ (- ex)))%Q
    end.

Definition of_string (s : string) : option t :=
  let '(negative, body) := sign_of (rstrip (lstrip s)) in
  let word := lowercase body in
  if String.eqb word "inf" || String.eqb word "infinity"
  then Some (Inf negative)
  else if String.eqb word "nan" then Some NaN
  else match number_of body with
       | Some q => Some (round (if negative then (- q)%Q else q))
       | None => None
       end.

End PyFloat.

(** ** [pulpoFunctions/]: the WMS client

    [askPulpo] is embedded over the answers the WMS gives to the successive
    attempts of one call.  The client-side throttle only sleeps (it reads
    the wall clock) and is left out; the sleeps of the retry loop are
    recorded. *)

Module Pulpo.

(** A decoded JSON body. *)
#[local] Set Warnings "-register-all".
Inductive Json : Type :=
| Null
| Bool (b : bool)
| Num (z : Z)
| Str (s : string)
| Arr (items : list Json)
| Dict (fields : list (string * Json)).

(** What one attempt meets. *)
Inductive Answer : Type :=
| Status (status_code : Z)     (* [raise_for_status] raises [HTTPError] *)
| Body (response_text : Json)  (* a good status and a body that decodes *)
| Broken.                      (* anything else: no connection, no JSON *)

Inductive Error : Type :=
| PulpoError (errorResponse : Json)
| HTTPError (status_code : Z)
| OtherError.

Inductive Outcome : Type :=
| Return (value : Json)
| ReturnNone                   (* the function body ends without [return] *)
| Raise (e : Error).

Record Run : Type := {
  outcome : Outcome;
  attempts : nat;                (* requests sent *)
  slept : list Z                 (* the [time.sleep] calls of the retry loop *)
}.

Definition get_field (key : string) (fields : list (string * Json)) : option Json :=
  match filter (fun f => fst f = key) fields with
  | f :: _ => Some (snd f)
  | [] => None
  end.

(** [key in x]; [None] is the [TypeError] of a value that is no container. *)
Definition json_in (key : string) (x : Json) : option bool :=
  match x with
  | Dict fields => Some (existsb (fun f => String.eqb key (fst f)) fields)
  | Arr items =>
      Some (existsb (fun i => match i with Str s => String.eqb key s | _ => false end) items)
  | Str s => Some (Py.contains key s)
  | Null | Bool _ | Num _ => None
  end.

(** [pulpoError.py], [is_api_rate_limit_error]: whether it is one, and the
    [delay] it stores; [None] is the [AttributeError] of [.get] on a body
    that is no dictionary. *)
Definition is_api_rate_limit_error (errorResponse : Json) : option (bool * Json) :=
  match json_in "message" errorResponse with
  | Some true =>
      match errorResponse with
      | Dict fields =>
          match get_field "message" fields with
          | Some (Str "api_rate_limit_reached") =>
              Some (true, default Null (get_field "retry_after_seconds" fields))
          | _ => Some (false, Null)
          end
      | _ => None
      end
  | _ => Some (false, Null)
  end.

(** The part of the [try] block after the body was decoded. *)
Definition shape (response_text : Json) : Outcome :=
  let listed :=
    match response_text with
    | Dict fields =>
        if existsb (fun f => String.eqb "total_results" (fst f)) fields
        then match filter (fun f => fst f <> "total_results") fields with
             | f :: _ => Some (snd f)
             | [] => None
             end
        else None
    | _ => None
    end in
  let created :=
    match response_text with
    | Dict fields => existsb (fun f => String.eqb "created" (fst f)) fields
    | _ => false
    end in
  let is_str := match response_text with Str _ => true | _ => false end in
  let fail :=
    match is_api_rate_limit_error response_text with
    | Some _ => Raise (PulpoError response_text)
    | None => Raise OtherError
    end in
  match listed with
  | Some value => Return value
  | None =>
      if created then Return response_text
      else match json_in "errors" response_text with
           | None => Raise OtherError
           | Some true => fail
           | Some false =>
               match json_in "message" response_text with
               | None => Raise OtherError
               | Some true => fail
               | Some false => if is_str then fail else Return response_text
               end
           end
  end.

Definition try_once (a : Answer) : Outcome :=
  match a with
  | Status status_code => Raise (HTTPError status_code)
  | Body response_text => shape response_text
  | Broken => Raise OtherError
  end.

(** [if e.delay: delay = e.delay] followed by [time.sleep(delay)]: the
    delay to sleep, or [None] when [sleep] rejects it. *)
Definition next_delay (e_delay : Json) (delay : Z) : option Z :=
  let d :=
    match e_delay with
    | Null | Bool false | Num 0 | Str EmptyString | Arr [] | Dict [] => Some delay
    | Num z => Some z
    | Bool true => Some 1
    | _ => None
    end in
  match d with
  | Some z => if z <? 0 then None else Some z
  | None => None
  end.

(** The [for attempt in range(retries)] loop, [remaining] turns before its
    end. *)
Fixpoint attempt_loop (remaining attempt : nat) (retries delay : Z)
    (wms : nat -> Answer) (slept : list Z) : Run :=
  match remaining with
  | O => {| outcome := ReturnNone; attempts := attempt; slept := slept |}
  | S remaining' =>
      let stop o := {| outcome := o; attempts := S attempt; slept := slept |} in
      match try_once (wms attempt) with
      | Raise (PulpoError e) =>
          match is_api_rate_limit_error e with
          | Some (true, e_delay) =>
              if Z.of_nat attempt <? retries - 1 then
                match next_delay e_delay delay with
                | Some d =>
                    attempt_loop remaining' (S attempt) retries d wms (slept ++ [d])%list
                | None => stop (Raise OtherError)
                end
              else stop (Raise (PulpoError e))
          | _ => stop (Raise (PulpoError e))
          end
      | Raise (HTTPError status_code) =>
          if status_code =? 429 then
            if delay <? 0 then stop (Raise OtherError)
            else attempt_loop remaining' (S attempt) retries delay wms
                   (slept ++ [delay])%list
          else stop (Raise (HTTPError status_code))
      | o => stop o
      end
  end.

Definition askPulpo (retries delay : Z) (wms : nat -> Answer) : Run :=
  attempt_loop (Z.to_nat retries) 0 retries delay wms [].

(** How a walk over the pages of an endpoint ends. *)
Inductive Ending : Type :=
| Exhausted                    (* the generator returns *)
| Raised (e : Error)           (* [askPulpo] raised *)
| AssertionError               (* the answer was no list *)
| Running.                     (* the turns looked at are used up *)

(** [iterator]: what the generator yields, in order, and how it ends.
    [ask limit offset] is the outcome of [askPulpo] for the query of one
    page ([params] holds neither [limit] nor [offset], as in every call of
    the sources); [turns] is the number of turns of the [while] loop that
    are looked at. *)
Fixpoint iterator_loop (turns : nat) (ask : Z -> Z -> Outcome)
    (stop_after_n_items : option Z) (page_size offset : Z) : list Json * Ending :=
  match turns with
  | O => ([], Running)
  | S turns' =>
      match ask page_size offset with
      | Return (Arr weclappObjList) =>
          let items := Z.of_nat (length weclappObjList) in
          let offset := offset + items in
          let stop_requested :=
            match stop_after_n_items with
            | Some n => negb (n =? 0) && (n <? offset)
            | None => false
            end in
          if stop_requested || (items <? page_size) || negb (0 <? items)
          then (weclappObjList, Exhausted)
          else
            let '(rest, ending) :=
              iterator_loop turns' ask stop_after_n_items page_size offset in
            ((weclappObjList ++ rest)%list, ending)
      | Return _ | ReturnNone => ([], AssertionError)
      | Raise e => ([], Raised e)
      end
  end.

Definition iterator (turns : nat) (ask : Z -> Z -> Outcome)
    (stop_after_n_items : option Z) (start_page page_size : Z) : list Json * Ending :=
  iterator_loop turns ask stop_after_n_items page_size start_page.

End Pulpo.

(** ** [pulpoManager/config.py] *)

Module config.

Definition ALTRUAN_LIEFERDIENST : Z := 807.
Definition ABHOLUNG : Z := 665.
Definition PALETTENVERSAND : Z := 604.
Definition DB_SCHENKER : Z := 605.
Definition DB_SCHENKER_EUROPALETTE : Z := 1097.
Definition SPECIAL_SHIPPING_METHODS : list Z :=
  [ALTRUAN_LIEFERDIENST; ABHOLUNG; PALETTENVERSAND; DB_SCHENKER;
   DB_SCHENKER_EUROPALETTE].

Definition TAG_IDENTIFIER_LABEL_SHARE : string := "LA_".
Definition QUEUE_STATE : string := "queue".
Definition SWEEPING_HOURS : list Z := [5; 6; 7; 8; 9; 10; 11; 12; 13; 14; 15; 16; 17].
Definition RUNNING_DRY_NUM_ORDERS : Z := 100.
Definition RUNNING_DRY_DENOMINATOR : Q := 1 # 10.

Definition H1_ZONE_ID : Z := 1419.
Definition H2_ZONE_ID : Z := 1423.
Definition H3_ZONE_ID : Z := 1472.
Definition CROSSDOCKING_ZONE_ID : Z := 1417.
Definition WAREHOUSE_ZONES_ALLOWED_FOR_PICKING : list Z :=
  [H1_ZONE_ID; H2_ZONE_ID; H3_ZONE_ID; CROSSDOCKING_ZONE_ID].
Definition SHELF_NAME_LENGTH : nat := 6.

Definition BASE_NOTE : string := "Bot:".
Definition NOTE_BATCH : string := "Batch".
Definition NOTE_PLZ_FAR_RANGE : string := "PLZ 1-4".
Definition NOTE_YESTERDAY : string := "Vortag".
Definition NOTE_SWEEPER : string := "Rest".
Definition NOTE_SENI : string := "Seni".
Definition NOTE_S : string := "S (bis 0.25)".
Definition NOTE_M1 : string := "M1 (bis 0.5)".
Definition NOTE_M2 : string := "M2 (bis 1)".
Definition NOTE_L : string := "L (bis 3)".
Definition NOTE_XL : string := "XL (ab 3)".
Definition NOTE_PRIO : string := "PRIO".
Definition NOTE_ALTRUAN_LIEFERDIENST : string := "Altruan Lieferdienst".
Definition NOTE_ABHOLUNG : string := "Abholung".
Definition NOTE_DB_SCHENKER : string := "Palette".
Definition NOTE_PALETTE : string := "Palette".
Definition NOTE_PARTNERKUNDE : string := "Partnerkunde (Bitte Lieferschein ausdrucken)".

Definition CORRECTION_HOURS : Z := 2.
Definition NORMAL_PRIORITY_VALUE : Z := 1.
Definition GERMANY_COUNTRY_CODE : string := "276".
Definition PLZ_FAR_RANGE : list string := ["1"; "2"; "3"; "4"].
Definition YESTERDAY_ORDERS_START_TIME : Z := 0.
Definition YESTERDAY_ORDERS_END_TIME : Z := 24.
Definition WORKING_DAYS : list Z := [0; 1; 2; 3; 4].
(** The dictionary [LABEL_SHARE_DIVIDERS], in ascending key order, as
    [sorted(...items())] walks it. *)
Definition LABEL_SHARE_DIVIDERS : list (Q * string) :=
  [(1 # 4, NOTE_S); (1 # 2, NOTE_M1); (1, NOTE_M2); (3, NOTE_L); (9, NOTE_XL)]%Q.
Definition PALETTE_LABEL_SHARE : Q := 9.
Definition TZMO_MANUFACTURER : Z := 6468.
Definition SENI_PRODUCTS_IDENTIFIER : string := "Seni".

Definition MIN_BATCH_SIZE : Z := 5.
Definition MAX_BATCH_SIZE : Z := 100.
Definition MIN_BATCH_SIZE_SENI : Z := 3.

Definition NON_PRIO_THRESHOLD : Z := 10.
Definition SWEEPING_MIN_ORDERS : Z := 1.

Definition PARTNERKUNDE_SALES_CHANNELS : list string := ["Partnerkunde (netto)"].

(** [PackageSizeEntity] and the enumeration [PackageSizes]. *)
Record PackageSizeEntity : Type := {
  min : Z;
  max : Z;
  note : string
}.

Inductive PackageSizes : Type :=
| SIZE_S | SIZE_M1 | SIZE_M2 | SIZE_L | SIZE_XL | SIZE_XXL.

Definition value (s : PackageSizes) : PackageSizeEntity :=
  match s with
  | SIZE_S => {| min := 1; max := 10; note := NOTE_S |}
  | SIZE_M1 => {| min := 1; max := 10; note := NOTE_M1 |}
  | SIZE_M2 => {| min := 1; max := 10; note := NOTE_M2 |}
  | SIZE_L => {| min := 1; max := 10; note := NOTE_L |}
  | SIZE_XL => {| min := 1; max := 1; note := NOTE_XL |}
  | SIZE_XXL => {| min := 1; max := 1; note := NOTE_PALETTE |}
  end.

(** [for size in PackageSizes], in declaration order. *)
Definition all_sizes : list PackageSizes :=
  [SIZE_S; SIZE_M1; SIZE_M2; SIZE_L; SIZE_XL; SIZE_XXL].

Definition size_eqb (a b : PackageSizes) : bool :=
  match a, b with
  | SIZE_S, SIZE_S | SIZE_M1, SIZE_M1 | SIZE_M2, SIZE_M2
  | SIZE_L, SIZE_L | SIZE_XL, SIZE_XL | SIZE_XXL, SIZE_XXL => true
  | _, _ => false
  end.

End config.

(** Membership tests of the [x in xs] kind. *)
Definition in_Z (x : Z) (xs : list Z) : bool := existsb (Z.eqb x) xs.
Definition in_str (x : string) (xs : list string) : bool := existsb (String.eqb x) xs.

(** ** [pulpoFunctions/pulpoClasses.py]: the fields the planners read *)

Module Product.
Record t : Type := {
  id : Z;
  name : string;
  sku : string;
  units_per_pallet : option Z;
  product_categories : list Z;   (* the [id] of each category entry *)
  barcodes : list string
}.
End Product.

Module Item.
Record t : Type := {
  product : Product.t;
  product_id : Z;
  quantity : Z
}.
End Item.

Module FulfillmentOrder.
Record t : Type := {
  id : Z;                        (* the fulfillment order's own id *)
  sales_order_id : Z;
  state : string;
  priority : Z;
  channel : string;
  shipping_method_id : Z;
  delivery_date : option Z;      (* parsed timestamp, in seconds *)
  criterium : string;
  zip : string;                  (* [ship_to.address.zip] *)
  country_code : string;         (* [ship_to.address.country_code] *)
  items : list Item.t
}.
End FulfillmentOrder.

(** The body of [POST picking/orders]. *)
Module PickingOrder.
Record t : Type := {
  sales_orders : list Z;
  orders_count : Z;
  pickers : list Z;
  cart : bool;
  notes : string
}.
End PickingOrder.

(** [current_time]: what the code reads of it. *)
Module Clock.
Record t : Type := {
  hour : Z;
  weekday : Z;
  date : Z                       (* the day, counted like [delivery_date] / 86400 *)
}.
End Clock.

(** ** [pulpoManager/shared_functions.py]: class [PulpoUtils] *)

(** Every planner inherits [PulpoUtils] and talks to the same WMS session.
    A state type that carries the list of picking orders sent so far, and
    adds what is sent at its end, is an instance of this class. *)
Class PulpoUtils (S : Type) : Type := {
  posted : S -> list PickingOrder.t;
  post : PickingOrder.t -> S -> S;
  posted_post : forall p s, posted (post p s) = (posted s ++ [p])%list
}.

Module shared_functions.

(** [create_picking].  The answer of the WMS is not looked at and every
    exception of the call is caught and logged, so the only effect is the
    request itself. *)
Definition create_picking {S : Type} `{PulpoUtils S}
    (list_of_ids : list Z) (note : string) (orders_count : Z)
    (cart : bool) (pickers : list Z) : M S unit :=
  let cart := if (length list_of_ids =? 1)%nat then false else cart in
  modify (post {| PickingOrder.sales_orders := list_of_ids;
                  PickingOrder.orders_count := orders_count;
                  PickingOrder.pickers := pickers;
                  PickingOrder.cart := cart;
                  PickingOrder.notes := note |}).

(** One [LA_] tag: the body of the [try] in [extract_size]; [None] when it
    raises ([IndexError] on a missing part, [ValueError] from [float]). *)
Definition decode_tag (tag : string) : option PyFloat.t :=
  match Py.split "_" tag with
  | _ :: p1 :: p2 :: _ => PyFloat.of_string (p1 +:+ "." +:+ p2)
  | _ => None
  end.

Definition extract_size_step (float_value : PyFloat.t) (tag : string) : PyFloat.t :=
  if Py.startswith config.TAG_IDENTIFIER_LABEL_SHARE tag then
    match decode_tag tag with
    | Some v => v
    | None => float_value
    end
  else float_value.

Definition extract_size (order : FulfillmentOrder.t) : PyFloat.t :=
  fold_left extract_size_step
            (Py.split "," (FulfillmentOrder.criterium order)) (PyFloat.Finite 0).

Fixpoint first_divider (label_share : PyFloat.t) (dividers : list (Q * string))
    : option string :=
  match dividers with
  | [] => None
  | (label, size) :: rest =>
      if PyFloat.leb label_share label then Some size
      else first_divider label_share rest
  end.

Definition define_size_note (label_share : PyFloat.t) : string :=
  if PyFloat.truthy label_share then
    match first_divider label_share config.LABEL_SHARE_DIVIDERS with
    | Some size => size
    | None => config.NOTE_PALETTE
    end
  else config.NOTE_PALETTE.

Definition check_order_suitability (order : FulfillmentOrder.t) : bool :=
  String.eqb (FulfillmentOrder.state order) config.QUEUE_STATE.

Definition item_is_seni (item : Item.t) : bool :=
  in_Z config.TZMO_MANUFACTURER (Product.product_categories (Item.product item))
  || Py.contains config.SENI_PRODUCTS_IDENTIFIER (Product.name (Item.product item)).

Definition check_for_seni (order : FulfillmentOrder.t) : bool :=
  existsb item_is_seni (FulfillmentOrder.items order).

(** [skus_to_batch]: the JSON file of special SKUs, [sku -> (id,
    separate_batch_from)], in file order.  The file is not part of the
    sources; it is a parameter of whatever reads it. *)
Definition SkusToBatch : Type := list (string * (Z * Z)).

Definition sku_in (sku : string) (skus_to_batch : SkusToBatch) : bool :=
  existsb (fun e => String.eqb sku (fst e)) skus_to_batch.

Definition suitable_for_cart_creation (skus_to_batch : SkusToBatch)
    (order : FulfillmentOrder.t) (is_sweeping_time : bool) : bool :=
  if is_sweeping_time then true
  else if existsb (fun item => sku_in (Product.sku (Item.product item)) skus_to_batch)
                  (FulfillmentOrder.items order) then false
  else if PyFloat.geb (extract_size order) config.PALETTE_LABEL_SHARE then false
  else if in_Z (FulfillmentOrder.shipping_method_id order)
               config.SPECIAL_SHIPPING_METHODS then false
  else true.

Definition is_past_delivery_date (current_time : Clock.t)
    (order : FulfillmentOrder.t) : bool :=
  match FulfillmentOrder.delivery_date order with
  | None => false
  | Some t =>
      (t + config.CORRECTION_HOURS * 3600) / 86400 <? Clock.date current_time
  end.

(** [plz[0] in PLZ_FAR_RANGE]; indexing an empty string raises. *)
Definition plz_in_far_range (plz : string) : option bool :=
  match plz with
  | EmptyString => None
  | String c _ => Some (in_str (String c EmptyString) config.PLZ_FAR_RANGE)
  end.

Definition is_working_day (current_time : Clock.t) : bool :=
  in_Z (Clock.weekday current_time) config.WORKING_DAYS.

(** [is_order_prio]; [None] is the exception of [plz[0]].  The operands of
    each [and] are evaluated left to right and only as far as needed. *)
Definition is_order_prio (current_time : Clock.t)
    (order : FulfillmentOrder.t) : option bool :=
  let plz := FulfillmentOrder.zip order in
  let h := Clock.hour current_time in
  let german := String.eqb (FulfillmentOrder.country_code order)
                           config.GERMANY_COUNTRY_CODE in
  let late := is_past_delivery_date current_time order in
  let third :=
    if (config.YESTERDAY_ORDERS_END_TIME <? h) && is_working_day current_time && german
    then plz_in_far_range plz
    else Some false in
  let second :=
    if (((config.YESTERDAY_ORDERS_START_TIME <=? h)
         && (h <=? config.YESTERDAY_ORDERS_END_TIME))
        || negb (is_working_day current_time)) && late
    then Some true
    else third in
  if (h <? config.YESTERDAY_ORDERS_START_TIME) && is_working_day current_time && german
  then match plz_in_far_range plz with
       | None => None
       | Some true => if late then Some true else second
       | Some false => second
       end
  else second.

(** [create_picks_per_user_distribution]: a dictionary from each picker of
    the roster to the number of queued picks the WMS reports for them. *)
Definition create_picks_per_user_distribution (find_num_picks_for_user : Z -> Z)
    (pickers : list Z) : list (Z * Z) :=
  fold_left (fun d user_id => Py.dict_set user_id (find_num_picks_for_user user_id) d)
            pickers [].

Definition choose_picker (picks_distribution : list (Z * Z)) : list Z :=
  if (length picks_distribution <=? 1)%nat then map fst picks_distribution
  else match Py.sorted_asc picks_distribution with
       | (picker, _) :: _ => [picker]
       | [] => []
       end.

(** [distribute_orders]: the first key in ascending order of the counts;
    [None] is the [IndexError] of an empty dictionary. *)
Definition distribute_orders (current_orders : list (Z * Z)) : option Z :=
  match Py.sorted_asc current_orders with
  | (current_picker, _) :: _ => Some current_picker
  | [] => None
  end.

End shared_functions.

(** ** [pulpoManager/note_creator.py]: class [NoteCreator] *)

Module NoteCreator.

Record t : Type := {
  current_time : Clock.t;
  orders : list FulfillmentOrder.t;
  is_prio : bool;
  is_batch : bool;
  sweeping_time : bool
}.

(** Truth value of an optional string argument: [None] and the empty
    string are false. *)
Definition truthy (s : option string) : bool :=
  match s with
  | Some s => negb (String.eqb s EmptyString)
  | None => false
  end.

Definition add_special_shipping_method (order : FulfillmentOrder.t) : option string :=
  let m := FulfillmentOrder.shipping_method_id order in
  if m =? config.ABHOLUNG then Some config.NOTE_ABHOLUNG
  else if m =? config.DB_SCHENKER then Some config.NOTE_DB_SCHENKER
  else if m =? config.ALTRUAN_LIEFERDIENST then Some config.NOTE_ALTRUAN_LIEFERDIENST
  else if m =? config.DB_SCHENKER_EUROPALETTE then Some config.NOTE_PALETTE
  else None.

Definition get_size_note (order : FulfillmentOrder.t) : string :=
  shared_functions.define_size_note (shared_functions.extract_size order).

Definition create_base_of_priority_note (self : t) : string :=
  let h := Clock.hour (current_time self) in
  if ((config.YESTERDAY_ORDERS_START_TIME <=? h)
      && (h <=? config.YESTERDAY_ORDERS_END_TIME))
     || negb (shared_functions.is_working_day (current_time self))
  then config.NOTE_YESTERDAY
  else config.NOTE_PLZ_FAR_RANGE.

Definition contains_seni_products (self : t) (cart : list Z) : bool :=
  existsb (fun order_id =>
    existsb (fun order =>
      (order_id =? FulfillmentOrder.sales_order_id order)
      && shared_functions.check_for_seni order) (orders self)) cart.

(** [create_note].  Each [let note := ...] below is one [if ...: note += ...]
    statement of the source, in source order. *)
Definition create_note (self : t) (list_of_ids : list Z)
    (single_order : option FulfillmentOrder.t) (size_note : option string)
    (batched_quantity : option Py.num) (batched_product : option string)
    (shelf : option string) : string :=
  let note := config.BASE_NOTE in
  let size_note :=
    match single_order with
    | Some o => if negb (truthy size_note) then Some (get_size_note o) else size_note
    | None => size_note
    end in
  (* Contains Seni products *)
  let note :=
    if contains_seni_products self list_of_ids
    then note +:+ " " +:+ config.NOTE_SENI else note in
  (* Prio / Non-prio *)
  let note :=
    match single_order with
    | Some o =>
        if config.NORMAL_PRIORITY_VALUE <? FulfillmentOrder.priority o
        then note +:+ " " +:+ config.NOTE_PRIO +:+ " "
                  +:+ Py.str_int (FulfillmentOrder.priority o)
        else if is_prio self then note +:+ " " +:+ create_base_of_priority_note self
        else note
    | None =>
        if is_prio self then note +:+ " " +:+ create_base_of_priority_note self
        else note
    end in
  (* Batch *)
  let note := if is_batch self then note +:+ " " +:+ config.NOTE_BATCH else note in
  (* Special shipping method *)
  let note :=
    match single_order with
    | Some o =>
        match add_special_shipping_method o with
        | Some label => if truthy (Some label) then note +:+ " " +:+ label else note
        | None => note
        end
    | None => note
    end in
  (* Partnerkunde *)
  let note :=
    match single_order with
    | Some o =>
        if in_str (FulfillmentOrder.channel o) config.PARTNERKUNDE_SALES_CHANNELS
        then note +:+ " " +:+ config.NOTE_PARTNERKUNDE else note
    | None => note
    end in
  (* Rest *)
  let note :=
    if sweeping_time self && is_prio self
    then note +:+ " " +:+ config.NOTE_SWEEPER else note in
  (* Size *)
  let note :=
    match size_note with
    | Some s => if truthy size_note then note +:+ " " +:+ s else note
    | None => note
    end in
  (* Batched quantity *)
  let note :=
    match batched_quantity, batched_product with
    | Some q, Some p =>
        if negb (Py.value q =? 0) && truthy batched_product
        then note +:+ " " +:+ Py.str_num q +:+ " " +:+ p else note
    | _, _ => note
    end in
  (* Shelf *)
  let note :=
    match shelf with
    | Some s => if truthy shelf then note +:+ " " +:+ s else note
    | None => note
    end in
  (* Number of orders in the pick (for sweeping time only) *)
  let note :=
    if sweeping_time self && is_prio self
    then note +:+ " " +:+ Py.str_int (Z.of_nat (length list_of_ids)) else note in
  note.

End NoteCreator.

(** ** [pulpoManager/separation.py]: class [PulpoSeparator] *)

Module PulpoSeparator.

Record t : Type := {
  skus_to_batch : shared_functions.SkusToBatch;
  is_sweeping_time : bool;
  current_time : Clock.t;
  product_stock : gmap Z Z;
  orders_count : Z;
  partnerkunde_pickers : list Z;
  partnerkunde_pickers_distribution : list (Z * Z);
  palette_pickers : list Z;
  palette_pickers_distribution : list (Z * Z);
  prio_orders_for_batches : list FulfillmentOrder.t;
  prio_orders_without_seni : list FulfillmentOrder.t;
  seni_prio_orders : list FulfillmentOrder.t;
  orders_for_batches : list FulfillmentOrder.t;
  orders_without_seni : list FulfillmentOrder.t;
  seni_orders : list FulfillmentOrder.t;
  wms : list PickingOrder.t
}.

(** The six buckets; appending to one of them leaves the rest alone. *)
Inductive bucket : Type :=
| PrioBatches | PrioWithoutSeni | SeniPrio | Batches | WithoutSeni | Seni.

Definition append (b : bucket) (o : FulfillmentOrder.t) (s : t) : t :=
  let add (b' : bucket) (l : list FulfillmentOrder.t) :=
    match b, b' with
    | PrioBatches, PrioBatches | PrioWithoutSeni, PrioWithoutSeni
    | SeniPrio, SeniPrio | Batches, Batches | WithoutSeni, WithoutSeni
    | Seni, Seni => (l ++ [o])%list
    | _, _ => l
    end in
  {| skus_to_batch := skus_to_batch s;
     is_sweeping_time := is_sweeping_time s;
     current_time := current_time s;
     product_stock := product_stock s;
     orders_count := orders_count s;
     partnerkunde_pickers := partnerkunde_pickers s;
     partnerkunde_pickers_distribution := partnerkunde_pickers_distribution s;
     palette_pickers := palette_pickers s;
     palette_pickers_distribution := palette_pickers_distribution s;
     prio_orders_for_batches := add PrioBatches (prio_orders_for_batches s);
     prio_orders_without_seni := add PrioWithoutSeni (prio_orders_without_seni s);
     seni_prio_orders := add SeniPrio (seni_prio_orders s);
     orders_for_batches := add Batches (orders_for_batches s);
     orders_without_seni := add WithoutSeni (orders_without_seni s);
     seni_orders := add Seni (seni_orders s);
     wms := wms s |}.

Definition set_core (count : Z) (pk_dist pal_dist : list (Z * Z))
    (w : list PickingOrder.t) (s : t) : t :=
  {| skus_to_batch := skus_to_batch s;
     is_sweeping_time := is_sweeping_time s;
     current_time := current_time s;
     product_stock := product_stock s;
     orders_count := count;
     partnerkunde_pickers := partnerkunde_pickers s;
     partnerkunde_pickers_distribution := pk_dist;
     palette_pickers := palette_pickers s;
     palette_pickers_distribution := pal_dist;
     prio_orders_for_batches := prio_orders_for_batches s;
     prio_orders_without_seni := prio_orders_without_seni s;
     seni_prio_orders := seni_prio_orders s;
     orders_for_batches := orders_for_batches s;
     orders_without_seni := orders_without_seni s;
     seni_orders := seni_orders s;
     wms := w |}.

Definition set_orders_count (n : Z) (s : t) : t :=
  set_core n (partnerkunde_pickers_distribution s)
           (palette_pickers_distribution s) (wms s) s.

Definition set_partnerkunde_pickers_distribution (d : list (Z * Z)) (s : t) : t :=
  set_core (orders_count s) d (palette_pickers_distribution s) (wms s) s.

Definition set_palette_pickers_distribution (d : list (Z * Z)) (s : t) : t :=
  set_core (orders_count s) (partnerkunde_pickers_distribution s) d (wms s) s.

#[global] Instance utils : PulpoUtils t := {
  posted := wms;
  post := fun p s =>
    set_core (orders_count s) (partnerkunde_pickers_distribution s)
             (palette_pickers_distribution s) (wms s ++ [p])%list s;
  posted_post := fun _ _ => eq_refl
}.

(** [__init__] and [get_picks_distribution]. *)
Definition init (skus : shared_functions.SkusToBatch) (sweeping : bool)
    (partnerkunden palettenversand : list Z) (now : Clock.t)
    (stock : gmap Z Z) (find_num_picks_for_user : Z -> Z) : t :=
  {| skus_to_batch := skus;
     is_sweeping_time := sweeping;
     current_time := now;
     product_stock := stock;
     orders_count := 0;
     partnerkunde_pickers := partnerkunden;
     partnerkunde_pickers_distribution :=
       shared_functions.create_picks_per_user_distribution
         find_num_picks_for_user partnerkunden;
     palette_pickers := palettenversand;
     palette_pickers_distribution :=
       shared_functions.create_picks_per_user_distribution
         find_num_picks_for_user palettenversand;
     prio_orders_for_batches := [];
     prio_orders_without_seni := [];
     seni_prio_orders := [];
     orders_for_batches := [];
     orders_without_seni := [];
     seni_orders := [];
     wms := [] |}.

(** [check_availability_locally]: reads [product_stock], writes nothing. *)
Fixpoint check_availability_locally (stock : gmap Z Z) (items : list Item.t) : bool :=
  match items with
  | [] => false
  | item :: rest =>
      match stock !! Item.product_id item with
      | None => false
      | Some available =>
          if Item.quantity item <=? available then true
          else check_availability_locally stock rest
      end
  end.

(** [create_assigned_picking]; the result is the id the function returns. *)
Definition create_assigned_picking (order : FulfillmentOrder.t)
    (pickers : list Z) (pickers_distribution : list (Z * Z))
    (size_note : option string) (is_prio : bool) : M t Z :=
  self ← get;
  let note_creator :=
    {| NoteCreator.current_time := current_time self;
       NoteCreator.orders := [order];
       NoteCreator.is_prio := is_prio;
       NoteCreator.is_batch := false;
       NoteCreator.sweeping_time := false |} in
  let note :=
    NoteCreator.create_note note_creator [FulfillmentOrder.sales_order_id order]
      (Some order) size_note None None None in
  if (length pickers <=? 1)%nat then
    shared_functions.create_picking [FulfillmentOrder.sales_order_id order]
      note 1 false (partnerkunde_pickers self) ;;
    match partnerkunde_pickers self with
    | first :: _ => mret first
    | [] => raise
    end
  else
    let picker := shared_functions.choose_picker pickers_distribution in
    shared_functions.create_picking [FulfillmentOrder.sales_order_id order]
      note 1 false picker ;;
    match picker with
    | first :: _ => mret first
    | [] => raise
    end.

(** [distribution[picker_id] += 1]; a missing key raises. *)
Definition bump (picker_id : Z) (d : list (Z * Z)) : option (list (Z * Z)) :=
  match Py.dict_get picker_id d with
  | Some n => Some (Py.dict_set picker_id (n + 1) d)
  | None => None
  end.

(** [single_picks_creation] for the order held in [self.order]. *)
Definition single_picks_creation (order : FulfillmentOrder.t) (is_prio : bool) : M t bool :=
  let label_share := shared_functions.extract_size order in
  if in_str (FulfillmentOrder.channel order) config.PARTNERKUNDE_SALES_CHANNELS then
    self ← get;
    picker_id ← create_assigned_picking order (partnerkunde_pickers self)
                  (partnerkunde_pickers_distribution self) None is_prio;
    if negb (picker_id =? 0) then
      self ← get;
      match bump picker_id (partnerkunde_pickers_distribution self) with
      | Some d => modify (set_partnerkunde_pickers_distribution d) ;; mret true
      | None => raise
      end
    else mret false
  else if config.NORMAL_PRIORITY_VALUE <? FulfillmentOrder.priority order then
    self ← get;
    let note_creator :=
      {| NoteCreator.current_time := current_time self;
         NoteCreator.orders := [order];
         NoteCreator.is_prio := false;
         NoteCreator.is_batch := false;
         NoteCreator.sweeping_time := false |} in
    let note :=
      NoteCreator.create_note note_creator [FulfillmentOrder.sales_order_id order]
        (Some order) None None None None in
    shared_functions.create_picking [FulfillmentOrder.sales_order_id order]
      note 1 false [] ;;
    mret true
  else if PyFloat.geb label_share config.PALETTE_LABEL_SHARE
          || in_Z (FulfillmentOrder.shipping_method_id order)
                  config.SPECIAL_SHIPPING_METHODS then
    self ← get;
    picker_id ← create_assigned_picking order (palette_pickers self)
                  (palette_pickers_distribution self)
                  (Some config.NOTE_PALETTE) is_prio;
    if negb (picker_id =? 0) then
      self ← get;
      match bump picker_id (palette_pickers_distribution self) with
      | Some d => modify (set_palette_pickers_distribution d) ;; mret true
      | None => raise
      end
    else mret false
  else mret false.

(** The body of the [try] in [main] for one order of the stream. *)
Definition process_order (order : FulfillmentOrder.t) : M t unit :=
  self ← get;
  if shared_functions.check_order_suitability order
     && check_availability_locally (product_stock self) (FulfillmentOrder.items order)
  then
    modify (set_orders_count (orders_count self + 1)) ;;
    prio ← of_option (shared_functions.is_order_prio (current_time self) order);
    let contains_seni := shared_functions.check_for_seni order in
    let suitable_for_carts :=
      shared_functions.suitable_for_cart_creation (skus_to_batch self) order
        (is_sweeping_time self) in
    single_pick_created ← single_picks_creation order prio;
    if negb single_pick_created then
      if (prio : bool) then
        modify (append PrioBatches order) ;;
        when suitable_for_carts
          (if contains_seni then modify (append SeniPrio order)
           else modify (append PrioWithoutSeni order))
      else
        modify (append Batches order) ;;
        when suitable_for_carts
          (if contains_seni then modify (append Seni order)
           else modify (append WithoutSeni order))
    else mret tt
  else mret tt.

(** [main] over the queued fulfillment orders the WMS hands out. *)
Definition main (stream : list FulfillmentOrder.t) : M t unit :=
  for_each stream (fun order => try_ (process_order order)).

End PulpoSeparator.

(** ** [pulpoManager/batching_flow.py]: class [PulpoBatchingManager] *)

Module PulpoBatchingManager.

(** [max_units_per_palette]: a number, or [float("inf")]. *)
Inductive units : Type :=
| Finite (z : Z)
| Infinite.

(** What the batch planner asks of the outside world: the product record
    of the WMS ([Product.fromPulpo], [None] when the call raises) and the
    pallet capacity derived from the article service ([find_article_info],
    0 when it has none). *)
Record Catalogue : Type := {
  fromPulpo : Z -> option Product.t;
  find_article_info : Product.t -> Z
}.

Record t : Type := {
  skus_to_batch : shared_functions.SkusToBatch;
  current_time : Clock.t;
  is_running_dry : bool;
  orders_to_include : list FulfillmentOrder.t;
  is_prio : bool;
  product_stock : gmap Z Z;
  product_name : string;
  processed_orders : gset Z;
  seni_ids : list Z;
  note_creator : NoteCreator.t;
  wms : list PickingOrder.t
}.

Definition set_run (orders : list FulfillmentOrder.t) (prio : bool)
    (stock : gmap Z Z) (nc : NoteCreator.t) (s : t) : t :=
  {| skus_to_batch := skus_to_batch s;
     current_time := current_time s;
     is_running_dry := is_running_dry s;
     orders_to_include := orders;
     is_prio := prio;
     product_stock := stock;
     product_name := product_name s;
     processed_orders := processed_orders s;
     seni_ids := seni_ids s;
     note_creator := nc;
     wms := wms s |}.

Definition set_work (stock : gmap Z Z) (name : string) (processed : gset Z)
    (seni : list Z) (w : list PickingOrder.t) (s : t) : t :=
  {| skus_to_batch := skus_to_batch s;
     current_time := current_time s;
     is_running_dry := is_running_dry s;
     orders_to_include := orders_to_include s;
     is_prio := is_prio s;
     product_stock := stock;
     product_name := name;
     processed_orders := processed;
     seni_ids := seni;
     note_creator := note_creator s;
     wms := w |}.

Definition set_product_stock (stock : gmap Z Z) (s : t) : t :=
  set_work stock (product_name s) (processed_orders s) (seni_ids s) (wms s) s.

Definition set_product_name (name : string) (s : t) : t :=
  set_work (product_stock s) name (processed_orders s) (seni_ids s) (wms s) s.

Definition set_processed_orders (processed : gset Z) (s : t) : t :=
  set_work (product_stock s) (product_name s) processed (seni_ids s) (wms s) s.

Definition set_seni_ids (seni : list Z) (s : t) : t :=
  set_work (product_stock s) (product_name s) (processed_orders s) seni (wms s) s.

#[global] Instance utils : PulpoUtils t := {
  posted := wms;
  post := fun p s =>
    set_work (product_stock s) (product_name s) (processed_orders s)
             (seni_ids s) (wms s ++ [p])%list s;
  posted_post := fun _ _ => eq_refl
}.

(** [__init__]. *)
Definition init (skus : shared_functions.SkusToBatch) (now : Clock.t)
    (running_dry : bool) : t :=
  {| skus_to_batch := skus;
     current_time := now;
     is_running_dry := running_dry;
     orders_to_include := [];
     is_prio := false;
     product_stock := ∅;
     product_name := EmptyString;
     processed_orders := ∅;
     seni_ids := [];
     note_creator :=
       {| NoteCreator.current_time := now;
          NoteCreator.orders := [];
          NoteCreator.is_prio := false;
          NoteCreator.is_batch := true;
          NoteCreator.sweeping_time := false |};
     wms := [] |}.

Definition special_ids_to_batch (self : t) : list Z :=
  map (fun e => fst (snd e)) (skus_to_batch self).

(** [self.product_stock[product_id] -= quantity] as the last statement of
    a [try] block: a missing key raises, is caught, and nothing changes. *)
Definition decrement_stock (product_id quantity : Z) : M t unit :=
  self ← get;
  match product_stock self !! product_id with
  | Some available =>
      modify (set_product_stock (<[product_id := available - quantity]> (product_stock self)))
  | None => mret tt
  end.

Definition mark_processed (ids : list Z) : M t unit :=
  self ← get;
  modify (set_processed_orders (processed_orders self ∪ list_to_set ids)).

Definition find_palette_separation_value (self : t) (product_id : Z) : option Z :=
  match filter (fun e => fst (snd e) = product_id) (skus_to_batch self) with
  | e :: _ => Some (snd (snd e))
  | [] => None
  end.

Fixpoint orders_that_fit (total_quantity : Z) (orders : list (Z * Z))
    (fitted_quantity : Z) : list Z :=
  match orders with
  | [] => []
  | (order_id, quantity) :: rest =>
      if fitted_quantity + quantity <? total_quantity
      then order_id :: orders_that_fit total_quantity rest (fitted_quantity + quantity)
      else orders_that_fit total_quantity rest fitted_quantity
  end.

Definition is_batch_size_sufficient (total_quantity : Z) (orders : list (Z * Z))
    (min_batch_size : Z) : bool :=
  min_batch_size <? Z.of_nat (length (orders_that_fit total_quantity orders 0)).

(** [extract_quantities]: [None] when [int(float(item.quantity))] raises. *)
Definition extract_quantities (self : t) (product_id : Z) : option (list (Z * Z)) :=
  let orders :=
    fold_left (fun orders order =>
      match FulfillmentOrder.items order with
      | [item] =>
          if Product.id (Item.product item) =? product_id
          then orders ← orders;
               quantity ← PyFloat.of_int (Item.quantity item) ≫= PyFloat.to_int;
               Some (Py.dict_set (FulfillmentOrder.sales_order_id order)
                                 quantity orders)
          else orders
      | _ => orders
      end) (orders_to_include self) (Some []) in
  Py.sorted_desc <$> orders.

(** [check_stock_locally]: the stored float, or the integer 0. *)
Definition check_stock_locally (self : t) (product_id : Z) : Py.num :=
  match product_stock self !! product_id with
  | Some available => Py.Float available
  | None => Py.Int 0
  end.

(** Modelled from the spec: [send_teams_message] is called by
    [extract_max_units_per_palette] but defined in no source file; the
    specification describes it as an operator alert, which changes nothing
    the planners read. *)
Definition send_teams_message (product : Product.t) : M t unit := mret tt.

(** [extract_max_units_per_palette].  Writing the capacity back to the WMS
    ([update_product]) catches its own errors and changes nothing the
    planners read. *)
Definition extract_max_units_per_palette (cat : Catalogue) (product_id : Z) : M t units :=
  product ← of_option (fromPulpo cat product_id);
  modify (set_product_name (Product.name product)) ;;
  let from_pulpo :=
    match Product.units_per_pallet product with
    | Some u => if 0 <? u then Some u else None
    | None => None
    end in
  match from_pulpo with
  | Some u => mret (Finite u)
  | None =>
      let max_units_per_palette := find_article_info cat product in
      if max_units_per_palette =? 0
      then send_teams_message product ;; mret Infinite
      else mret (Finite max_units_per_palette)
  end.

Definition get_batch_size (self : t) (product_id : Z) : Z :=
  let min_batch_size :=
    if in_Z product_id (seni_ids self) then config.MIN_BATCH_SIZE_SENI
    else config.MIN_BATCH_SIZE in
  if is_running_dry self
  then Py.round (inject_Z min_batch_size * config.RUNNING_DRY_DENOMINATOR)%Q
  else min_batch_size.

(** [check_if_seni]: one entry of [seni_ids] per matching category, one
    more when the name matches. *)
Definition check_if_seni (item : Item.t) : M t unit :=
  self ← get;
  let p := Item.product item in
  let by_category :=
    map (fun _ => Product.id p)
        (filter (fun c => c = config.TZMO_MANUFACTURER) (Product.product_categories p)) in
  let by_name :=
    if Py.contains config.SENI_PRODUCTS_IDENTIFIER (Product.name p)
    then [Product.id p] else [] in
  modify (set_seni_ids (seni_ids self ++ by_category ++ by_name)%list).

Definition count_up (product_id : Z) (orders_count : list (Z * Z)) : list (Z * Z) :=
  match Py.dict_get product_id orders_count with
  | Some n => Py.dict_set product_id (n + 1) orders_count
  | None => Py.dict_set product_id 1 orders_count
  end.

Fixpoint find_single_sku_orders_from (orders : list FulfillmentOrder.t)
    (orders_count : list (Z * Z)) : M t (list (Z * Z)) :=
  match orders with
  | [] => mret orders_count
  | order :: rest =>
      match FulfillmentOrder.items order with
      | [item] =>
          check_if_seni item ;;
          find_single_sku_orders_from rest
            (count_up (Product.id (Item.product item)) orders_count)
      | _ => find_single_sku_orders_from rest orders_count
      end
  end.

Definition find_single_sku_orders : M t (list (Z * Z)) :=
  self ← get;
  find_single_sku_orders_from (orders_to_include self) [].

Definition find_products_to_batch : M t (list Z) :=
  orders_count ← find_single_sku_orders;
  self ← get;
  mret (map fst (filter (fun e => get_batch_size self (fst e) ≤ snd e) orders_count)).

Definition le_units (total_quantity : Z) (max_units_per_palette : units) : bool :=
  match max_units_per_palette with
  | Finite m => total_quantity <=? m
  | Infinite => true
  end.

(** The inner loop of [split_batches]: one walk over the sorted orders. *)
Fixpoint fill_batch (processed : gset Z) (max_units_per_palette : Z)
    (orders : list (Z * Z)) (batched_quantity : Z) (ids_to_batch : list Z)
    : Z * list Z :=
  match orders with
  | [] => (batched_quantity, ids_to_batch)
  | (order_id, quantity) :: rest =>
      if bool_decide (order_id ∈ processed)
      then fill_batch processed max_units_per_palette rest batched_quantity ids_to_batch
      else if max_units_per_palette <? batched_quantity + quantity
      then (batched_quantity, ids_to_batch)
      else if config.MAX_BATCH_SIZE <=? Z.of_nat (length ids_to_batch)
      then (batched_quantity, ids_to_batch)
      else fill_batch processed max_units_per_palette rest
             (batched_quantity + quantity) (ids_to_batch ++ [order_id])%list
  end.

(** One turn of the outer loop of [split_batches]. *)
Definition split_one_batch (orders : list (Z * Z)) (max_units_per_palette : Z) : M t unit :=
  self ← get;
  let '(batched_quantity, ids_to_batch) :=
    fill_batch (processed_orders self) max_units_per_palette orders 0 [] in
  match ids_to_batch with
  | [] => mret tt
  | _ :: _ =>
      let note :=
        NoteCreator.create_note (note_creator self) ids_to_batch None None
          (Some (Py.Int batched_quantity)) (Some (product_name self)) None in
      shared_functions.create_picking ids_to_batch note 1 false [] ;;
      mark_processed ids_to_batch
  end.

Fixpoint repeat_m (n : nat) (body : M t unit) : M t unit :=
  match n with
  | O => mret tt
  | S n' => body ;; repeat_m n' body
  end.

Definition split_batches (orders : list (Z * Z)) (total_quantity : Py.num)
    (max_units_per_palette : units) : M t unit :=
  match max_units_per_palette with
  | Infinite => mret tt      (* [total // inf] is at most 0: no turn *)
  | Finite m =>
      let num_batches_by_articles := Py.value total_quantity / m in
      let num_batches_by_orders := Z.of_nat (length orders) / config.MAX_BATCH_SIZE in
      let num_batches := Z.min num_batches_by_articles num_batches_by_orders in
      repeat_m (Z.to_nat num_batches) (split_one_batch orders m)
  end.

Definition regular_batching (max_units_per_palette : units) (total_quantity : Py.num)
    (orders : list (Z * Z)) (product_id : Z) : M t unit :=
  if le_units (Py.value total_quantity) max_units_per_palette
     && (Z.of_nat (length orders) <=? config.MAX_BATCH_SIZE)
  then
    self ← get;
    let list_of_ids := map fst orders in
    let note :=
      NoteCreator.create_note (note_creator self) list_of_ids None None
        (Some total_quantity) (Some (product_name self)) None in
    shared_functions.create_picking list_of_ids note 1 false [] ;;
    mark_processed list_of_ids ;;
    decrement_stock product_id (Py.value total_quantity)
  else split_batches orders total_quantity max_units_per_palette.

(** The loop of [special_palette_batching]; the result is the
    [total_quantity] that is left.  Comparing a quantity with the [None]
    that [find_palette_separation_value] returns for an unlisted product
    raises. *)
Fixpoint special_palette_loop (separate_batch_from_quantity : option Z)
    (orders : list (Z * Z)) (product_id : Z) (total_quantity : Py.num) : M t Py.num :=
  match orders with
  | [] => mret total_quantity
  | (order_id, quantity) :: rest =>
      if Py.value total_quantity <=? 0 then mret total_quantity
      else
        self ← get;
        from ← of_option separate_batch_from_quantity;
        if (from <=? quantity)
           && (quantity <=? Py.value total_quantity)
           && negb (bool_decide (order_id ∈ processed_orders self))
        then
          let note :=
            NoteCreator.create_note (note_creator self) [order_id] None None
              (Some (Py.Int quantity)) (Some (product_name self)) None in
          shared_functions.create_picking [order_id] note 1 false [] ;;
          mark_processed [order_id] ;;
          decrement_stock product_id quantity ;;
          special_palette_loop separate_batch_from_quantity rest product_id
            (Py.sub_int total_quantity quantity)
        else
          special_palette_loop separate_batch_from_quantity rest product_id
            total_quantity
  end.

Definition special_palette_batching (total_quantity : Py.num)
    (orders : list (Z * Z)) (product_id : Z) : M t Py.num :=
  self ← get;
  special_palette_loop (find_palette_separation_value self product_id)
    orders product_id total_quantity.

Definition special_batching (max_units_per_palette : units) (total_quantity : Py.num)
    (orders : list (Z * Z)) (product_id min_batch_size : Z) : M t unit :=
  total_quantity ← special_palette_batching total_quantity orders product_id;
  self ← get;
  let left_orders :=
    filter (fun e => fst e ∉ processed_orders self) orders in
  if (0 <? Z.of_nat (length left_orders))
     && (min_batch_size <? Py.value (total_quantity : Py.num))
  then regular_batching max_units_per_palette total_quantity left_orders product_id
  else mret tt.

Definition batching_products (cat : Catalogue) (product_id : Z) : M t unit :=
  max_units_per_palette ← extract_max_units_per_palette cat product_id;
  self ← get;
  let min_batch_size := get_batch_size self product_id in
  orders ← of_option (extract_quantities self product_id);
  let total_quantity := foldr Z.add 0 (map snd orders) in
  let current_stock := check_stock_locally self product_id in
  let batch (total_quantity : Py.num) : M t unit :=
    if in_Z product_id (special_ids_to_batch self)
    then special_batching max_units_per_palette total_quantity orders
           product_id min_batch_size
    else regular_batching max_units_per_palette total_quantity orders product_id in
  if Py.value current_stock <? total_quantity then
    if is_batch_size_sufficient (Py.value current_stock) orders min_batch_size
    then batch current_stock
    else mret tt
  else batch (Py.Int total_quantity).

Definition main (cat : Catalogue) (orders_to_include : list FulfillmentOrder.t)
    (is_prio : bool) (product_stock : gmap Z Z) : M t unit :=
  self ← get;
  modify (set_run orders_to_include is_prio product_stock
            {| NoteCreator.current_time := current_time self;
               NoteCreator.orders := orders_to_include;
               NoteCreator.is_prio := is_prio;
               NoteCreator.is_batch := true;
               NoteCreator.sweeping_time := false |}) ;;
  try_ (product_ids_to_batch ← find_products_to_batch;
        for_each product_ids_to_batch (batching_products cat)).

End PulpoBatchingManager.

(** ** [pulpoManager/carts/]: [PulpoCartsManager] and the two cart creators

    [CartsCreatorShelves] and [CartsCreatorRandom] are built by
    [PulpoCartsManager.main] around the manager's own [processed_orders]
    list and [product_stock] dictionary (the very same objects), so their
    methods are state transformers of the manager's state; what they hold
    of their own ([orders], the note creator) is passed along in [creator]. *)

Module PulpoCartsManager.

(** [space_left]: [PRIO_THRESHOLD], which is [float("inf")], or a number. *)
Inductive space : Type :=
| Unbounded
| Left (z : Z).

Definition positive_space (s : space) : bool :=
  match s with Unbounded => true | Left z => 0 <? z end.

Definition is_zero (s : space) : bool :=
  match s with Unbounded => false | Left z => z =? 0 end.

Definition minus_one (s : space) : space :=
  match s with Unbounded => Unbounded | Left z => Left (z - 1) end.

Record t : Type := {
  current_time : Clock.t;
  is_running_dry : bool;
  shelves_index : list (string * list Z);
  orders : list FulfillmentOrder.t;
  processed_orders : list Z;
  is_prio : bool;
  is_sweeping_time : bool;
  product_stock : gmap Z Z;
  no_space_left : bool;
  wms : list PickingOrder.t
}.

Definition set_call (os : list FulfillmentOrder.t) (prio sweeping : bool)
    (stock : gmap Z Z) (s : t) : t :=
  {| current_time := current_time s;
     is_running_dry := is_running_dry s;
     shelves_index := shelves_index s;
     orders := os;
     processed_orders := processed_orders s;
     is_prio := prio;
     is_sweeping_time := sweeping;
     product_stock := stock;
     no_space_left := no_space_left s;
     wms := wms s |}.

Definition set_work (processed : list Z) (stock : gmap Z Z) (flag : bool)
    (w : list PickingOrder.t) (s : t) : t :=
  {| current_time := current_time s;
     is_running_dry := is_running_dry s;
     shelves_index := shelves_index s;
     orders := orders s;
     processed_orders := processed;
     is_prio := is_prio s;
     is_sweeping_time := is_sweeping_time s;
     product_stock := stock;
     no_space_left := flag;
     wms := w |}.

Definition set_processed_orders (processed : list Z) (s : t) : t :=
  set_work processed (product_stock s) (no_space_left s) (wms s) s.

Definition set_product_stock (stock : gmap Z Z) (s : t) : t :=
  set_work (processed_orders s) stock (no_space_left s) (wms s) s.

Definition set_no_space_left (flag : bool) (s : t) : t :=
  set_work (processed_orders s) (product_stock s) flag (wms s) s.

#[global] Instance utils : PulpoUtils t := {
  posted := wms;
  post := fun p s =>
    set_work (processed_orders s) (product_stock s) (no_space_left s)
             (wms s ++ [p])%list s;
  posted_post := fun _ _ => eq_refl
}.

(** [__init__]. *)
Definition init (index : list (string * list Z)) (now : Clock.t)
    (running_dry : bool) : t :=
  {| current_time := now;
     is_running_dry := running_dry;
     shelves_index := index;
     orders := [];
     processed_orders := [];
     is_prio := false;
     is_sweeping_time := false;
     product_stock := ∅;
     no_space_left := false;
     wms := [] |}.

(** *** [carts/common.py]: class [PulpoCartCommon] *)

(** What a creator object holds besides the shared list and dictionary. *)
Record creator : Type := {
  c_orders : list FulfillmentOrder.t;
  c_note_creator : NoteCreator.t
}.

Definition new_creator (self : t) (orders_to_process : list FulfillmentOrder.t) : creator :=
  {| c_orders := orders_to_process;
     c_note_creator :=
       {| NoteCreator.current_time := current_time self;
          NoteCreator.orders := orders_to_process;
          NoteCreator.is_prio := is_prio self;
          NoteCreator.is_batch := false;
          NoteCreator.sweeping_time := is_sweeping_time self |} |}.

Definition create_cart (c : creator) (new_cart : list Z)
    (size : config.PackageSizes) (shelf : string) : M t bool :=
  self ← get;
  let cart_minimum := inject_Z (config.min (config.value size)) in
  let cart_minimum :=
    if is_running_dry self
    then (cart_minimum * config.RUNNING_DRY_DENOMINATOR)%Q else cart_minimum in
  let cart_minimum :=
    if is_prio self && is_sweeping_time self
    then inject_Z config.SWEEPING_MIN_ORDERS else cart_minimum in
  let n := Z.of_nat (length new_cart) in
  if Qle_bool cart_minimum (inject_Z n) && (n <=? config.max (config.value size))
  then
    let note :=
      NoteCreator.create_note (c_note_creator c) new_cart None
        (Some (config.note (config.value size))) None None (Some shelf) in
    shared_functions.create_picking new_cart note 1 true [] ;;
    mret true
  else mret false.

(** [is_order_fully_available].  A product the stock dictionary does not
    know is looked up in the WMS ([check_stock]) and remembered. *)
Fixpoint is_order_fully_available (check_stock : Z -> Z)
    (all_products : gmap Z Z) (items : list Item.t) : M t bool :=
  match items with
  | [] => mret true
  | item :: rest =>
      self ← get;
      let pid := Product.id (Item.product item) in
      stock ← match product_stock self !! pid with
              | None =>
                  let fetched := check_stock pid in
                  modify (set_product_stock (<[pid := fetched]> (product_stock self))) ;;
                  mret fetched
              | Some available => mret available
              end;
      let quantity_in_cart := Item.quantity item + default 0 (all_products !! pid) in
      if (stock : Z) <? quantity_in_cart then mret false
      else is_order_fully_available check_stock all_products rest
  end.

Definition update_products_dictionary (all_products : gmap Z Z)
    (order_to_add : FulfillmentOrder.t) : gmap Z Z :=
  fold_left (fun all_products item =>
    let pid := Product.id (Item.product item) in
    match all_products !! pid with
    | Some q => <[pid := q + Item.quantity item]> all_products
    | None => <[pid := Item.quantity item]> all_products
    end) (FulfillmentOrder.items order_to_add) all_products.

Definition take_items (items : list Item.t) (stock : gmap Z Z) : gmap Z Z :=
  fold_left (fun stock item =>
    let pid := Product.id (Item.product item) in
    match stock !! pid with
    | Some available => <[pid := available - Item.quantity item]> stock
    | None => stock
    end) items stock.

Definition update_stock_dictionary (c : creator) (cart : list Z) : M t unit :=
  self ← get;
  modify (set_product_stock
    (fold_left (fun stock order_id =>
       fold_left (fun stock order =>
         if order_id =? FulfillmentOrder.sales_order_id order
         then take_items (FulfillmentOrder.items order) stock
         else stock) (c_orders c) stock)
     cart (product_stock self))).

(** [self.processed_orders.extend(new_cart)]. *)
Definition extend_processed (ids : list Z) : M t unit :=
  self ← get;
  modify (set_processed_orders (processed_orders self ++ ids)%list).

(** *** [carts/process_shelves.py]: class [CartsCreatorShelves] *)

Definition order_has_products_on_shelf (order : FulfillmentOrder.t)
    (products_from_the_shelf : list Z) : bool :=
  existsb (fun item => in_Z (Product.id (Item.product item)) products_from_the_shelf)
          (FulfillmentOrder.items order).

(** The loop of [fill_cart_from_shelf]; the conjuncts of the admission
    test are evaluated left to right, the availability check last. *)
Fixpoint fill_cart_from_shelf_loop (check_stock : Z -> Z)
    (orders : list FulfillmentOrder.t) (max_cart_size : Z)
    (products_from_the_shelf : list Z)
    (new_cart : list Z) (all_products_in_cart : gmap Z Z) : M t (list Z) :=
  match orders with
  | [] => mret new_cart
  | order :: rest =>
      if max_cart_size <=? Z.of_nat (length new_cart) then mret new_cart
      else
        self ← get;
        let oid := FulfillmentOrder.sales_order_id order in
        if negb (in_Z oid (processed_orders self))
           && negb (in_Z oid new_cart)
           && order_has_products_on_shelf order products_from_the_shelf
        then
          available ← is_order_fully_available check_stock all_products_in_cart
                        (FulfillmentOrder.items order);
          if (available : bool)
          then fill_cart_from_shelf_loop check_stock rest max_cart_size
                 products_from_the_shelf (new_cart ++ [oid])%list
                 (update_products_dictionary all_products_in_cart order)
          else fill_cart_from_shelf_loop check_stock rest max_cart_size
                 products_from_the_shelf new_cart all_products_in_cart
        else fill_cart_from_shelf_loop check_stock rest max_cart_size
               products_from_the_shelf new_cart all_products_in_cart
  end.

Definition fill_cart_from_shelf (check_stock : Z -> Z) (c : creator)
    (new_cart : list Z) (max_cart_size : Z)
    (products_from_the_shelf : list Z) : M t (list Z) :=
  fill_cart_from_shelf_loop check_stock (c_orders c) max_cart_size
    products_from_the_shelf new_cart ∅.

Definition add_once (x : string) (l : list string) : list string :=
  if in_str x l then l else (l ++ [x])%list.

Definition find_shelves_frequency_per_order (self : t)
    (order : FulfillmentOrder.t) : list string :=
  fold_left (fun shelves_per_order item =>
    fold_left (fun shelves_per_order entry =>
      if in_Z (Product.id (Item.product item)) (snd entry)
      then add_once (fst entry) shelves_per_order
      else shelves_per_order) (shelves_index self) shelves_per_order)
    (FulfillmentOrder.items order) [].

Fixpoint freq_up (shelf : string) (d : list (string * Z)) : list (string * Z) :=
  match d with
  | [] => [(shelf, 1)]
  | (k, n) :: d' =>
      if String.eqb shelf k then (k, n + 1) :: d' else (k, n) :: freq_up shelf d'
  end.

Definition find_total_shelves_frequency (self : t) (c : creator) : list (string * Z) :=
  Py.sorted_desc
    (fold_left (fun shelves_frequency order =>
       fold_left (fun shelves_frequency shelf => freq_up shelf shelves_frequency)
                 (find_shelves_frequency_per_order self order) shelves_frequency)
     (c_orders c) []).

Definition select_shelves (self : t) (shelves : list (string * Z))
    (minimum_orders : Z) : list string :=
  let minimum_orders :=
    if is_running_dry self
    then (inject_Z minimum_orders * config.RUNNING_DRY_DENOMINATOR)%Q
    else inject_Z minimum_orders in
  map fst (filter (fun e => Qle_bool minimum_orders (inject_Z (snd e)) = true) shelves).

Definition shelf_products (self : t) (shelf : string) : list Z :=
  match filter (fun e => fst e = shelf) (shelves_index self) with
  | e :: _ => snd e
  | [] => []
  end.

Fixpoint generate_carts (check_stock : Z -> Z) (c : creator)
    (shelves : list string) (space_left : space)
    (size : config.PackageSizes) : M t space :=
  match shelves with
  | [] => mret space_left
  | shelf :: rest =>
      if is_zero space_left then mret space_left
      else
        self ← get;
        let products_from_the_shelf := shelf_products self shelf in
        new_cart ← fill_cart_from_shelf check_stock c []
                     (config.max (config.value size)) products_from_the_shelf;
        match new_cart with
        | [] => generate_carts check_stock c rest space_left size
        | _ :: _ =>
            cart_created ← create_cart c new_cart size shelf;
            if (cart_created : bool) then
              extend_processed new_cart ;;
              update_stock_dictionary c new_cart ;;
              generate_carts check_stock c rest (minus_one space_left) size
            else generate_carts check_stock c rest space_left size
        end
  end.

Definition shelves_main (check_stock : Z -> Z) (c : creator)
    (size : config.PackageSizes) (space_left : space) : M t space :=
  self ← get;
  let shelves_frequency := find_total_shelves_frequency self c in
  let selected_shelves :=
    select_shelves self shelves_frequency (config.min (config.value size)) in
  match selected_shelves with
  | [] => mret space_left
  | _ :: _ => generate_carts check_stock c selected_shelves space_left size
  end.

(** *** [carts/process_random.py]: class [CartsCreatorRandom] *)

(** The inner loop of [fill_cart_randomly]. *)
Fixpoint fill_cart_randomly_loop (check_stock : Z -> Z)
    (orders : list FulfillmentOrder.t) (max_cart_size : Z)
    (new_cart : list Z) (all_products_in_cart : gmap Z Z)
    : M t (list Z * gmap Z Z) :=
  match orders with
  | [] => mret (new_cart, all_products_in_cart)
  | order :: rest =>
      if max_cart_size <=? Z.of_nat (length new_cart)
      then mret (new_cart, all_products_in_cart)
      else
        self ← get;
        let oid := FulfillmentOrder.sales_order_id order in
        if negb (in_Z oid (processed_orders self)) && negb (in_Z oid new_cart)
        then
          available ← is_order_fully_available check_stock all_products_in_cart
                        (FulfillmentOrder.items order);
          if (available : bool)
          then fill_cart_randomly_loop check_stock rest max_cart_size
                 (new_cart ++ [oid])%list
                 (update_products_dictionary all_products_in_cart order)
          else fill_cart_randomly_loop check_stock rest max_cart_size
                 new_cart all_products_in_cart
        else fill_cart_randomly_loop check_stock rest max_cart_size
               new_cart all_products_in_cart
  end.

(** [for num in range(n): body]: [body] yields [Some r] when it executes
    [return r], which ends the loop and the function; running out of turns
    yields [None]. *)
Fixpoint for_range {S R : Type} (n : nat) (body : M S (option R)) : M S (option R) :=
  match n with
  | O => mret None
  | S n' =>
      r ← body;
      match r with
      | Some v => mret (Some v)
      | None => for_range n' body
      end
  end.

(** [fill_cart_randomly].  The [return space_left] of the source stands
    inside the [for] loop, as the last statement of its body.  The
    dictionary [all_products_in_cart] is created once, before the loop; as
    every turn ends in that [return], the one turn that runs starts from
    the empty dictionary. *)
Definition fill_cart_randomly (check_stock : Z -> Z) (c : creator)
    (space_left : space) (size : config.PackageSizes) : M t (option space) :=
  let number_of_carts :=
    Py.ceil_div (Z.of_nat (length (c_orders c))) (config.max (config.value size)) in
  for_range (Z.to_nat (number_of_carts + 1))
    (filled ← fill_cart_randomly_loop check_stock (c_orders c)
                (config.max (config.value size)) [] ∅;
     let new_cart := fst (filled : list Z * gmap Z Z) in
     match new_cart with
     | [] => mret (Some space_left)
     | _ :: _ =>
         cart_created ← create_cart c new_cart size EmptyString;
         if (cart_created : bool) then
           extend_processed new_cart ;;
           update_stock_dictionary c new_cart ;;
           mret (Some (minus_one space_left))
         else mret (Some space_left)
     end).

Definition random_main (check_stock : Z -> Z) (c : creator)
    (size : config.PackageSizes) (space_left : space) : M t (option space) :=
  fill_cart_randomly check_stock c space_left size.

(** *** [carts/__init__.py]: class [PulpoCartsManager] *)

(** [check_space]; [count_picking_orders] is what [check_picking] counts in
    the WMS (picking orders in state [queue] or [taken]) at this call. *)
Definition check_space (count_picking_orders : Z) : M t space :=
  self ← get;
  if is_prio self then mret Unbounded
  else
    let left_space := config.NON_PRIO_THRESHOLD - count_picking_orders in
    when (left_space <? 0) (modify (set_no_space_left true)) ;;
    mret (Left left_space).

Definition select_orders_by_size (self : t) (size : string) : list FulfillmentOrder.t :=
  filter (fun order =>
    negb (in_Z (FulfillmentOrder.sales_order_id order) (processed_orders self))
    && PyFloat.truthy (shared_functions.extract_size order)
    && String.eqb (shared_functions.define_size_note
                     (shared_functions.extract_size order)) size = true)
    (orders self).

Definition remove_processed_orders (self : t)
    (orders : list FulfillmentOrder.t) : list FulfillmentOrder.t :=
  filter (fun order =>
    in_Z (FulfillmentOrder.sales_order_id order) (processed_orders self) = false) orders.

Definition main (check_stock : Z -> Z) (count_picking_orders : Z)
    (size : config.PackageSizes) (orders : list FulfillmentOrder.t)
    (is_prio is_sweeping_time : bool) (product_stock : gmap Z Z) : M t unit :=
  modify (set_call orders is_prio is_sweeping_time product_stock) ;;
  space_left ← check_space count_picking_orders;
  self ← get;
  let orders_to_process := select_orders_by_size self (config.note (config.value size)) in
  if negb (bool_decide (orders_to_process = []))
     && (positive_space space_left || PulpoCartsManager.is_sweeping_time self)
  then
    let carts_creator_shelves := new_creator self orders_to_process in
    space_left ← shelves_main check_stock carts_creator_shelves size space_left;
    self ← get;
    modify (set_processed_orders (processed_orders self ++ processed_orders self)%list) ;;
    if positive_space space_left then
      self ← get;
      let orders_to_process := remove_processed_orders self orders_to_process in
      let carts_creator_random := new_creator self orders_to_process in
      random_main check_stock carts_creator_random size space_left ;;
      mret tt
    else mret tt
  else mret tt.

End PulpoCartsManager.

(** ** [pulpoManager/shelves_index.py]: class [PulpoShelvesIndexCreator] *)

Module Stock.
Record t : Type := {
  product_id : Z;                (* [stock.product.id] *)
  quantity : Z;
  zone_id : Z;                   (* [stock.location.zone_id] *)
  code : string                  (* [stock.location.code] *)
}.
End Stock.

Module PulpoShelvesIndexCreator.

Record t : Type := {
  shelves_index : list (string * list Z);
  product_availability : gmap Z Z
}.

(** [code[:n]]. *)
Definition take_chars (n : nat) (s : string) : string := String.substring 0 n s.

Fixpoint add_to_shelf (shelf_code : string) (product_id : Z)
    (index : list (string * list Z)) : list (string * list Z) :=
  match index with
  | [] => [(shelf_code, [product_id])]
  | (k, products) :: rest =>
      if String.eqb shelf_code k
      then (k, if in_Z product_id products then products
               else (products ++ [product_id])%list) :: rest
      else (k, products) :: add_to_shelf shelf_code product_id rest
  end.

Definition add_product_on_shelf (stock : Stock.t) (self : t) : t :=
  {| shelves_index :=
       add_to_shelf (take_chars config.SHELF_NAME_LENGTH (Stock.code stock))
                    (Stock.product_id stock) (shelves_index self);
     product_availability := product_availability self |}.

Definition add_product_availability (stock : Stock.t) (self : t) : t :=
  {| shelves_index := shelves_index self;
     product_availability :=
       match product_availability self !! Stock.product_id stock with
       | Some q => <[Stock.product_id stock := q + Stock.quantity stock]>
                     (product_availability self)
       | None => <[Stock.product_id stock := Stock.quantity stock]>
                   (product_availability self)
       end |}.

Definition main (stocks : list Stock.t) : t :=
  fold_left (fun self stock =>
    if in_Z (Stock.zone_id stock) config.WAREHOUSE_ZONES_ALLOWED_FOR_PICKING
    then add_product_availability stock (add_product_on_shelf stock self)
    else self) stocks {| shelves_index := []; product_availability := ∅ |}.

End PulpoShelvesIndexCreator.

(** [shared_functions.py], [check_stock]: the stock of one product as the
    WMS lists it.  [stocks] is the answer to [inventory/stocks] for the
    product, [None] when the call raises; a row is [None] when it does not
    validate or has no quantity.  The sum is built row by row, and an error
    ends the walk with the sum reached so far. *)
Module check_stock.

Fixpoint rows (stocks : list (option Stock.t)) (available_stock : Z) : Z :=
  match stocks with
  | [] => available_stock
  | None :: _ => available_stock
  | Some stock :: rest =>
      rows rest
        (if in_Z (Stock.zone_id stock) config.WAREHOUSE_ZONES_ALLOWED_FOR_PICKING
         then available_stock + Stock.quantity stock
         else available_stock)
  end.

Definition check_stock (stocks : option (list (option Stock.t))) : Z :=
  match stocks with
  | Some listed => rows listed 0
  | None => 0
  end.

End check_stock.

(** ** [pulpoManager/__init__.py]: class [PulpoManager]

    One WMS session and one product-availability dictionary are shared by
    the separator and the two managers.  Here they are the fields [pulpo]
    and [product_availability]; a manager is run on its own state with the
    two copied in before the call and copied back after it. *)

Module PulpoManager.

(** The answers of the outside world during one run. *)
Record World : Type := {
  catalogue : PulpoBatchingManager.Catalogue;
  (* [inventory/stocks?product_id=], summed over the picking zones *)
  check_stock : Z -> Z;
  (* what [check_picking] counts (picking orders in state [queue] or
     [taken]) at the n-th call of the carts manager, the run having sent
     the given picking orders so far *)
  check_picking : nat -> list PickingOrder.t -> Z;
  (* [datetime.now()]: [PulpoCartsManager.__init__] hands no time to
     [PulpoUtils.__init__], which then overwrites [current_time] with it *)
  now_berlin : Clock.t
}.

Record t : Type := {
  is_sweeping_time : bool;
  is_running_dry : bool;
  product_availability : gmap Z Z;
  batching_manager : PulpoBatchingManager.t;
  carts_manager : PulpoCartsManager.t;
  carts_calls : nat;
  pulpo : list PickingOrder.t
}.

Definition check_sweeping_time (now : Clock.t) : bool :=
  in_Z (Clock.hour now) config.SWEEPING_HOURS.

Definition check_orders_count (orders_count : Z) : bool :=
  orders_count <? config.RUNNING_DRY_NUM_ORDERS.

(** Runs the batching manager on the shared session and dictionary. *)
Definition with_batching {A : Type} (m : M PulpoBatchingManager.t A) : M t A :=
  fun s =>
    let b := batching_manager s in
    let b :=
      PulpoBatchingManager.set_work (product_availability s)
        (PulpoBatchingManager.product_name b)
        (PulpoBatchingManager.processed_orders b)
        (PulpoBatchingManager.seni_ids b) (pulpo s) b in
    let '(r, b') := m b in
    (r, {| is_sweeping_time := is_sweeping_time s;
           is_running_dry := is_running_dry s;
           product_availability := PulpoBatchingManager.product_stock b';
           batching_manager := b';
           carts_manager := carts_manager s;
           carts_calls := carts_calls s;
           pulpo := PulpoBatchingManager.wms b' |}).

(** Runs the carts manager on the shared session and dictionary. *)
Definition with_carts {A : Type} (m : M PulpoCartsManager.t A) : M t A :=
  fun s =>
    let c := carts_manager s in
    let c :=
      PulpoCartsManager.set_work (PulpoCartsManager.processed_orders c)
        (product_availability s)
        (PulpoCartsManager.no_space_left c) (pulpo s) c in
    let '(r, c') := m c in
    (r, {| is_sweeping_time := is_sweeping_time s;
           is_running_dry := is_running_dry s;
           product_availability := PulpoCartsManager.product_stock c';
           batching_manager := batching_manager s;
           carts_manager := c';
           carts_calls := carts_calls s;
           pulpo := PulpoCartsManager.wms c' |}).

Definition next_carts_call (s : t) : t :=
  {| is_sweeping_time := is_sweeping_time s;
     is_running_dry := is_running_dry s;
     product_availability := product_availability s;
     batching_manager := batching_manager s;
     carts_manager := carts_manager s;
     carts_calls := S (carts_calls s);
     pulpo := pulpo s |}.

Definition picking_creation_batches (w : World)
    (orders : list FulfillmentOrder.t) (is_prio : bool) : M t unit :=
  self ← get;
  with_batching
    (PulpoBatchingManager.main (catalogue w) orders is_prio (product_availability self)) ;;
  (* Add the processed orders to the carts manager *)
  self ← get;
  with_carts
    (PulpoCartsManager.extend_processed
       (elements (PulpoBatchingManager.processed_orders (batching_manager self)))).

(** The loop of [picking_creation_carts] over the sizes still to come. *)
Fixpoint picking_creation_carts_from (w : World) (sizes : list config.PackageSizes)
    (orders : list FulfillmentOrder.t) (is_prio : bool) : M t unit :=
  match sizes with
  | [] => mret tt
  | size :: rest =>
      if config.size_eqb size config.SIZE_XXL
      then picking_creation_carts_from w rest orders is_prio
      else
        self ← get;
        if PulpoCartsManager.no_space_left (carts_manager self)
           && negb (is_sweeping_time self)
        then mret tt
        else
          modify next_carts_call ;;
          with_carts
            (PulpoCartsManager.main (check_stock w)
               (check_picking w (carts_calls self) (pulpo self))
               size orders is_prio (is_sweeping_time self)
               (product_availability self)) ;;
          picking_creation_carts_from w rest orders is_prio
  end.

Definition picking_creation_carts (w : World)
    (orders : list FulfillmentOrder.t) (is_prio : bool) : M t unit :=
  picking_creation_carts_from w config.all_sizes orders is_prio.

Definition picking_creation_manager (w : World) (is_prio : bool)
    (batch_list cart_seni_list cart_list : list FulfillmentOrder.t) : M t unit :=
  picking_creation_batches w batch_list is_prio ;;
  picking_creation_carts w cart_seni_list is_prio ;;
  picking_creation_carts w cart_list is_prio.

(** What [main] is given: the static configuration, the instant of the
    run, the picker roster, and what the WMS holds.  [__init__] assigns
    [current_time] a fixed instant (the line that reads the clock is
    commented out); it is a field here, and [Example.pinned] is the value
    the source assigns. *)
Record Input : Type := {
  skus_to_batch : shared_functions.SkusToBatch;
  current_time : Clock.t;
  partnerkunden : list Z;                  (* [pickers["Partnerkunden"]] *)
  palettenversand : list Z;                (* [pickers["Palettenversand"]] *)
  find_num_picks_for_user : Z -> Z;
  stocks : list Stock.t;                   (* [inventory/stocks] *)
  fulfillments : list FulfillmentOrder.t   (* the queued fulfillment orders *)
}.

Definition separate_orders_by_priority (i : Input) : PulpoSeparator.t :=
  exec (PulpoSeparator.main (fulfillments i))
       (PulpoSeparator.init (skus_to_batch i)
          (check_sweeping_time (current_time i))
          (partnerkunden i) (palettenversand i) (current_time i)
          (PulpoShelvesIndexCreator.product_availability
             (PulpoShelvesIndexCreator.main (stocks i)))
          (find_num_picks_for_user i)).

(** [main] after the maintenance and pausing steps: index creation, the
    separator, then the priority and the non-priority buckets. *)
Definition main (w : World) (i : Input) : t :=
  let index := PulpoShelvesIndexCreator.main (stocks i) in
  let separator := separate_orders_by_priority i in
  let running_dry := check_orders_count (PulpoSeparator.orders_count separator) in
  let start :=
    {| is_sweeping_time := check_sweeping_time (current_time i);
       is_running_dry := running_dry;
       product_availability := PulpoShelvesIndexCreator.product_availability index;
       batching_manager :=
         PulpoBatchingManager.init (skus_to_batch i) (current_time i) running_dry;
       carts_manager :=
         PulpoCartsManager.init (PulpoShelvesIndexCreator.shelves_index index)
                                (now_berlin w) running_dry;
       carts_calls := O;
       pulpo := PulpoSeparator.wms separator |} in
  exec (try_ (
    picking_creation_manager w true
      (PulpoSeparator.prio_orders_for_batches separator)
      (PulpoSeparator.seni_prio_orders separator)
      (PulpoSeparator.prio_orders_without_seni separator) ;;
    picking_creation_manager w false
      (PulpoSeparator.orders_for_batches separator)
      (PulpoSeparator.seni_orders separator)
      (PulpoSeparator.orders_without_seni separator))) start.

(** Every picking order one run sends to the WMS, in the order sent. *)
Definition emitted (w : World) (i : Input) : list PickingOrder.t :=
  pulpo (main w i).

End PulpoManager.

(** ** What the properties are stated with *)

(** The statements of [create_note] one by one: what each appends to the
    note, [None] when its test fails. *)
Module NoteSteps.

Definition given (applies : bool) (token : string) : option string :=
  if applies then Some token else None.

(** The size label: the one passed in, else the one of the single order. *)
Definition size_label (single_order : option FulfillmentOrder.t)
    (size_note : option string) : option string :=
  if NoteCreator.truthy size_note then size_note
  else match single_order with
       | Some o => Some (NoteCreator.get_size_note o)
       | None => None
       end.

Definition fields (self : NoteCreator.t) (list_of_ids : list Z)
    (single_order : option FulfillmentOrder.t) (size_note : option string)
    (batched_quantity : option Py.num) (batched_product : option string)
    (shelf : option string) : list (option string) :=
  [ (* 1. Seni *)
    given (NoteCreator.contains_seni_products self list_of_ids) config.NOTE_SENI;
    (* 2. priority suffix: PRIO <n> of a single order, else Vortag / PLZ 1-4 *)
    match single_order with
    | Some o =>
        if config.NORMAL_PRIORITY_VALUE <? FulfillmentOrder.priority o
        then Some (config.NOTE_PRIO +:+ " " +:+ Py.str_int (FulfillmentOrder.priority o))
        else given (NoteCreator.is_prio self)
                   (NoteCreator.create_base_of_priority_note self)
    | None => given (NoteCreator.is_prio self)
                    (NoteCreator.create_base_of_priority_note self)
    end;
    (* 3. Batch *)
    given (NoteCreator.is_batch self) config.NOTE_BATCH;
    (* 4. special shipping method of a single order *)
    o ← single_order; NoteCreator.add_special_shipping_method o;
    (* 5. Partnerkunde *)
    o ← single_order;
    given (in_str (FulfillmentOrder.channel o) config.PARTNERKUNDE_SALES_CHANNELS)
          config.NOTE_PARTNERKUNDE;
    (* 6. Rest *)
    given (NoteCreator.sweeping_time self && NoteCreator.is_prio self)
          config.NOTE_SWEEPER;
    (* 7. size bucket *)
    s ← size_label single_order size_note; given (negb (String.eqb s EmptyString)) s;
    (* 8. batched quantity and product *)
    q ← batched_quantity; p ← batched_product;
    given (negb (Py.value q =? 0) && negb (String.eqb p EmptyString))
          (Py.str_num q +:+ " " +:+ p);
    (* 9. shelf *)
    s ← shelf; given (negb (String.eqb s EmptyString)) s;
    (* 10. number of orders *)
    given (NoteCreator.sweeping_time self && NoteCreator.is_prio self)
          (Py.str_int (Z.of_nat (length list_of_ids))) ].


End NoteSteps.

(** The note grammar of the specification (section 4.8): the literal
    [Bot:], then those of ten fields that apply, in a fixed order, a single
    space before each.  The words of the grammar are written out as the
    specification gives them. *)
Module NoteGrammar.

Inductive priority_suffix : Type :=
| PRIO (n : Z)
| Vortag
| PLZ_1_4.

Inductive shipping_label : Type :=
| Abholung
| Palette
| Altruan_Lieferdienst.

(** A note, field by field. *)
Record t : Type := {
  seni : bool;
  priority : option priority_suffix;
  batch : bool;
  shipping : option shipping_label;
  partnerkunde : bool;
  rest : bool;
  size : option string;
  batched : option (Py.num * string);
  shelf : option string;
  count : option Z
}.

Definition size_labels : list string :=
  ["S (bis 0.25)"; "M1 (bis 0.5)"; "M2 (bis 1)"; "L (bis 3)"; "XL (ab 3)"; "Palette"].

Definition word (applies : bool) (token : string) : option string :=
  if applies then Some token else None.






(** When a field applies to a call of [create_note]. *)

(** Seni: an item of category 6468, or with [Seni] in the product name. *)
Definition seni_item (item : Item.t) : bool :=
  in_Z 6468 (Product.product_categories (Item.product item))
  || Py.contains "Seni" (Product.name (Item.product item)).

(** Any order of the cart list contains Seni products. *)
Definition seni_applies (orders : list FulfillmentOrder.t) (ids : list Z) : bool :=
  existsb (fun order =>
             in_Z (FulfillmentOrder.sales_order_id order) ids
             && existsb seni_item (FulfillmentOrder.items order)) orders.

(** [Vortag] when the hour is within the hours of yesterday's orders or
    the day is no working day, otherwise [PLZ 1-4]. *)
Definition by_clock (now : Clock.t) : priority_suffix :=
  if ((config.YESTERDAY_ORDERS_START_TIME <=? Clock.hour now)
      && (Clock.hour now <=? config.YESTERDAY_ORDERS_END_TIME))
     || negb (in_Z (Clock.weekday now) config.WORKING_DAYS)
  then Vortag else PLZ_1_4.

Definition priority_applies (self : NoteCreator.t)
    (single_order : option FulfillmentOrder.t) : option priority_suffix :=
  let planner :=
    if NoteCreator.is_prio self then Some (by_clock (NoteCreator.current_time self))
    else None in
  match single_order with
  | Some o =>
      if 1 <? FulfillmentOrder.priority o then Some (PRIO (FulfillmentOrder.priority o))
      else planner
  | None => planner
  end.

Definition shipping_applies (o : FulfillmentOrder.t) : option shipping_label :=
  let m := FulfillmentOrder.shipping_method_id o in
  if m =? config.ABHOLUNG then Some Abholung
  else if m =? config.DB_SCHENKER then Some Palette
  else if m =? config.ALTRUAN_LIEFERDIENST then Some Altruan_Lieferdienst
  else if m =? config.DB_SCHENKER_EUROPALETTE then Some Palette
  else None.

(** A text that was given and is not empty. *)
Definition text (s : option string) : option string :=
  match s with
  | Some s => if String.eqb s EmptyString then None else Some s
  | None => None
  end.

(** The size field: the label the caller gives, else one of the six
    labels for the single order, else nothing. *)
Definition size_applies (single_order : option FulfillmentOrder.t)
    (size_note : option string) (slot : option string) : Prop :=
  match text size_note, single_order with
  | Some s, _ => slot = Some s
  | None, Some _ => exists label, In label size_labels /\ slot = Some label
  | None, None => slot = None
  end.

Definition batched_applies (batched_quantity : option Py.num)
    (batched_product : option string) : option (Py.num * string) :=
  match batched_quantity, text batched_product with
  | Some q, Some p => if Py.value q =? 0 then None else Some (q, p)
  | _, _ => None
  end.

(** [n] holds exactly the fields that apply to the call. *)
Definition applies (self : NoteCreator.t) (list_of_ids : list Z)
    (single_order : option FulfillmentOrder.t) (size_note : option string)
    (batched_quantity : option Py.num) (batched_product : option string)
    (shelf_code : option string) (n : t) : Prop :=
  seni n = seni_applies (NoteCreator.orders self) list_of_ids
  /\ priority n = priority_applies self single_order
  /\ batch n = NoteCreator.is_batch self
  /\ shipping n = (o ← single_order; shipping_applies o)
  /\ partnerkunde n
     = match single_order with
       | Some o => in_str (FulfillmentOrder.channel o) config.PARTNERKUNDE_SALES_CHANNELS
       | None => false
       end
  /\ rest n = NoteCreator.sweeping_time self && NoteCreator.is_prio self
  /\ size_applies single_order size_note (size n)
  /\ batched n = batched_applies batched_quantity batched_product
  /\ shelf n = text shelf_code
  /\ count n = (if rest n then Some (Z.of_nat (length list_of_ids)) else None).

(** The notes of the picks the planners send. *)

Definition sized (n : t) : Prop :=
  exists label, In label size_labels /\ size n = Some label.

Definition no_raised_priority (n : t) : Prop :=
  forall k, priority n <> Some (PRIO k).

(** The note of a pick for a single order: neither batch nor sweep words,
    a size, and [PRIO <k>] only for a priority above the normal one. *)
Definition single_pick (ids : list Z) (n : t) : Prop :=
  (exists id, ids = [id])
  /\ batch n = false /\ rest n = false /\ sized n
  /\ batched n = None /\ shelf n = None /\ count n = None
  /\ (forall k, priority n = Some (PRIO k) -> 1 < k).

(** The note of a batch: [Batch], no word of a single order, no size and
    no shelf; a quantity that is not zero before a product that has a
    name. *)
Definition batch_pick (n : t) : Prop :=
  batch n = true /\ no_raised_priority n
  /\ shipping n = None /\ partnerkunde n = false /\ rest n = false
  /\ size n = None /\ shelf n = None /\ count n = None
  /\ (forall q p, batched n = Some (q, p) -> Py.value q <> 0 /\ p <> EmptyString).

(** The note of a cart: a size, no word of a single order or of a batch;
    with [Rest] comes a priority word and the number of orders of the cart,
    and the number never comes without it. *)
Definition cart_pick (ids : list Z) (n : t) : Prop :=
  batch n = false /\ no_raised_priority n
  /\ shipping n = None /\ partnerkunde n = false /\ sized n
  /\ batched n = None
  /\ (forall s, shelf n = Some s -> s <> EmptyString)
  /\ count n = (if rest n then Some (Z.of_nat (length ids)) else None)
  /\ (rest n = true -> priority n <> None).

Definition emitted (ids : list Z) (n : t) : Prop :=
  single_pick ids n \/ batch_pick n \/ cart_pick ids n.

End NoteGrammar.

(** The calls of [create_note] and the grammar. *)
Module NoteCalls.


(** How the planners call [create_note]: for a single order, for a batch,
    for a cart. *)
Definition for_single (self : NoteCreator.t) (list_of_ids : list Z)
    (single_order : option FulfillmentOrder.t) (size_note : option string)
    (batched_quantity : option Py.num) (batched_product : option string)
    (shelf : option string) : Prop :=
  (exists o, single_order = Some o
             /\ list_of_ids = [FulfillmentOrder.sales_order_id o]
             /\ NoteCreator.orders self = [o])
  /\ (size_note = None \/ size_note = Some config.NOTE_PALETTE)
  /\ batched_quantity = None /\ batched_product = None /\ shelf = None
  /\ NoteCreator.is_batch self = false /\ NoteCreator.sweeping_time self = false.

Definition for_batch (self : NoteCreator.t)
    (single_order : option FulfillmentOrder.t) (size_note : option string)
    (shelf : option string) : Prop :=
  single_order = None /\ size_note = None /\ shelf = None
  /\ NoteCreator.is_batch self = true /\ NoteCreator.sweeping_time self = false.

Definition for_cart (self : NoteCreator.t)
    (single_order : option FulfillmentOrder.t) (size_note : option string)
    (batched_quantity : option Py.num) (batched_product : option string) : Prop :=
  single_order = None
  /\ (exists size, size_note = Some (config.note (config.value size)))
  /\ batched_quantity = None /\ batched_product = None
  /\ NoteCreator.is_batch self = false.


(** The fields of [n] are those that apply to a call of [create_note]
    for the orders [ids], made as one of the planners makes it. *)
Definition planned (ids : list Z) (n : NoteGrammar.t) : Prop :=
  exists self single_order size_note batched_quantity batched_product shelf,
    NoteGrammar.applies self ids single_order size_note batched_quantity
      batched_product shelf n
    /\ (for_single self ids single_order size_note batched_quantity
          batched_product shelf
        \/ for_batch self single_order size_note shelf
        \/ for_cart self single_order size_note batched_quantity batched_product).


End NoteCalls.

(** Label-share tags and the numbers they stand for. *)
Module LabelShare.

(** The tag [LA_<a>_<b>]. *)
Definition tag (a b : Z) : string :=
  "LA_" +:+ Py.str_int a +:+ "_" +:+ Py.str_int b.

(** The number written [a.b]: the digits of [b] are the decimals of [a]. *)
Definition decimal (a b : Z) : Q :=
  let places := Z.of_nat (String.length (Py.str_int b)) in
  let fraction := (inject_Z b / inject_Z (10 ^ places))%Q in
  if a <? 0 then (- (inject_Z (- a) + fraction))%Q
  else (inject_Z a + fraction)%Q.

(** Strings all of whose characters pass a test. *)
Fixpoint all_chars (p : ascii -> bool) (s : string) : bool :=
  match s with
  | EmptyString => true
  | String c s' => p c && all_chars p s'
  end.

Definition is_digit (c : ascii) : bool :=
  match PyFloat.digit_of c with Some _ => true | None => false end.

Definition is_not (sep c : ascii) : bool := negb (Ascii.eqb c sep).

Definition is_no_space (c : ascii) : bool := negb (PyFloat.is_space c).

(** The value of a numeral read from the left on top of [acc]. *)
Fixpoint uint_value (u : Decimal.uint) (acc : Z) : Z :=
  match u with
  | Decimal.Nil => acc
  | Decimal.D0 u' => uint_value u' (10 * acc + 0)
  | Decimal.D1 u' => uint_value u' (10 * acc + 1)
  | Decimal.D2 u' => uint_value u' (10 * acc + 2)
  | Decimal.D3 u' => uint_value u' (10 * acc + 3)
  | Decimal.D4 u' => uint_value u' (10 * acc + 4)
  | Decimal.D5 u' => uint_value u' (10 * acc + 5)
  | Decimal.D6 u' => uint_value u' (10 * acc + 6)
  | Decimal.D7 u' => uint_value u' (10 * acc + 7)
  | Decimal.D8 u' => uint_value u' (10 * acc + 8)
  | Decimal.D9 u' => uint_value u' (10 * acc + 9)
  end.

Definition head_is_no_digit (s : string) : Prop :=
  match s with
  | EmptyString => True
  | String c _ => PyFloat.digit_of c = None
  end.

(** The digits of the absolute value of [z], as [str] prints them. *)
Definition abs_uint (z : Z) : Decimal.uint :=
  match z with
  | Z0 => Decimal.D0 Decimal.Nil
  | Z.pos p | Z.neg p => Pos.to_uint p
  end.

End LabelShare.

(** The picking orders a computation sends: the log after it is the log
    before it followed by what was sent. *)
Module Log.

Definition extends (Q : PickingOrder.t -> Prop) (l l' : list PickingOrder.t) : Prop :=
  exists ext, l' = (l ++ ext)%list /\ Forall Q ext.

(** [m] sends nothing but picking orders that satisfy [Q], whether it
    returns or raises. *)
Definition sends {St A : Type} (log : St -> list PickingOrder.t)
    (Q : PickingOrder.t -> Prop) (m : M St A) : Prop :=
  forall s, extends Q (log s) (log (snd (m s))).


End Log.

(** How a picking order of the planners is made. *)
Module Made.

(** Its note is what [create_note] returned for its list of ids. *)
Definition from_create_note (p : PickingOrder.t) : Prop :=
  exists self single_order size_note batched_quantity batched_product shelf,
    PickingOrder.notes p
    = NoteCreator.create_note self (PickingOrder.sales_orders p) single_order
        size_note batched_quantity batched_product shelf.

(** With exactly one id it is no cart. *)
Definition cart_coerced (p : PickingOrder.t) : Prop :=
  match PickingOrder.sales_orders p with
  | [_] => PickingOrder.cart p = false
  | _ => True
  end.

Definition well_made (p : PickingOrder.t) : Prop :=
  from_create_note p /\ cart_coerced p.

End Made.

(** An endpoint of the WMS that holds a list of records and answers a
    query with the page of at most [limit] records from position [offset]
    on. *)
Module Paged.

Definition serve (records : list Pulpo.Json) (limit offset : Z) : Pulpo.Outcome :=
  Pulpo.Return
    (Pulpo.Arr (firstn (Z.to_nat limit) (skipn (Z.to_nat offset) records))).

(** The answer of the WMS when the rate limit is hit, naming the seconds
    to wait. *)
Definition rate_limited (retry_after_seconds : Z) : Pulpo.Json :=
  Pulpo.Dict [("message", Pulpo.Str "api_rate_limit_reached");
              ("retry_after_seconds", Pulpo.Num retry_after_seconds)].

End Paged.

(** Stock numbers in the range where a Python [float] holds every integer
    exactly: there the sums, differences and comparisons of the code are
    those of the integers. *)
Module Exact.

Definition limit : Z := 2 ^ 53.

(** A stock dictionary all of whose numbers are within the range. *)
Definition stock (d : gmap Z Z) : Prop :=
  forall product_id q, d !! product_id = Some q -> Z.abs q < limit.

(** Stock rows whose quantities stay within the range however they are
    added up. *)
Definition rows (stocks : list Stock.t) : Prop :=
  foldr Z.add 0 (map (fun stock => Z.abs (Stock.quantity stock)) stocks) < limit.

(** What the WMS reports for a product is within the range. *)
Definition reports (check_stock : Z -> Z) : Prop :=
  forall product_id, Z.abs (check_stock product_id) < limit.

(** Orders that ask for no negative quantity. *)
Definition asked (orders : list FulfillmentOrder.t) : Prop :=
  Forall (fun order =>
            Forall (fun item => 0 <= Item.quantity item)
                   (FulfillmentOrder.items order)) orders.

(** Orders whose quantities are within the range. *)
Definition quantities (orders : list FulfillmentOrder.t) : Prop :=
  Forall (fun order =>
            Forall (fun item => Z.abs (Item.quantity item) < limit)
                   (FulfillmentOrder.items order)) orders.

End Exact.

(** The stock rows the planners count. *)
Module Rows.

(** A row in a zone allowed for picking. *)
Definition pickable (stock : Stock.t) : bool :=
  in_Z (Stock.zone_id stock) config.WAREHOUSE_ZONES_ALLOWED_FOR_PICKING.

(** The pickable rows of a product. *)
Definition of_product (product_id : Z) (stocks : list Stock.t) : list Stock.t :=
  List.filter (fun stock => pickable stock && (Stock.product_id stock =? product_id))
              stocks.

Definition total (rows : list Stock.t) : Z :=
  foldr Z.add 0 (map Stock.quantity rows).

(** The shelf of a row: the first characters of its location code. *)
Definition shelf (stock : Stock.t) : string :=
  PulpoShelvesIndexCreator.take_chars config.SHELF_NAME_LENGTH (Stock.code stock).

(** A product is listed on a shelf of the index. *)
Definition listed (index : list (string * list Z)) (shelf_code : string)
    (product_id : Z) : Prop :=
  exists products, In (shelf_code, products) index /\ In product_id products.

End Rows.

(** How the separator sorts the stream. *)
Module Separated.

(** The order passes the two checks at the head of the loop. *)
Definition admitted (stock : gmap Z Z) (order : FulfillmentOrder.t) : bool :=
  shared_functions.check_order_suitability order
  && PulpoSeparator.check_availability_locally stock (FulfillmentOrder.items order).

(** Neither a Partnerkunde order, nor of raised priority, nor a pallet. *)
Definition ordinary (order : FulfillmentOrder.t) : bool :=
  negb (in_str (FulfillmentOrder.channel order) config.PARTNERKUNDE_SALES_CHANNELS)
  && negb (config.NORMAL_PRIORITY_VALUE <? FulfillmentOrder.priority order)
  && negb (PyFloat.geb (shared_functions.extract_size order) config.PALETTE_LABEL_SHARE
           || in_Z (FulfillmentOrder.shipping_method_id order)
                   config.SPECIAL_SHIPPING_METHODS).

(** [is_order_prio] returns, with this answer. *)
Definition priority_is (now : Clock.t) (prio : bool) (order : FulfillmentOrder.t) : bool :=
  match shared_functions.is_order_prio now order with
  | Some answer => Bool.eqb prio answer
  | None => false
  end.

(** A pick for this order alone. *)
Definition single_pick_of (order : FulfillmentOrder.t) (p : PickingOrder.t) : Prop :=
  PickingOrder.sales_orders p = [FulfillmentOrder.sales_order_id order]
  /\ PickingOrder.orders_count p = 1
  /\ PickingOrder.cart p = false.

(** What the separator is set up with, and its six buckets. *)
Definition settings (s : PulpoSeparator.t) :=
  (PulpoSeparator.skus_to_batch s, PulpoSeparator.is_sweeping_time s,
   PulpoSeparator.current_time s, PulpoSeparator.product_stock s,
   PulpoSeparator.partnerkunde_pickers s, PulpoSeparator.palette_pickers s).

Definition buckets (s : PulpoSeparator.t) :=
  (PulpoSeparator.prio_orders_for_batches s, PulpoSeparator.prio_orders_without_seni s,
   PulpoSeparator.seni_prio_orders s, PulpoSeparator.orders_for_batches s,
   PulpoSeparator.orders_without_seni s, PulpoSeparator.seni_orders s).

(** An admitted order for which [is_order_prio] answers [prio]. *)
Definition chosen (s : PulpoSeparator.t) (prio : bool)
    (order : FulfillmentOrder.t) : bool :=
  admitted (PulpoSeparator.product_stock s) order
  && priority_is (PulpoSeparator.current_time s) prio order.

(** An admitted order that gets a pick of its own. *)
Definition special (s : PulpoSeparator.t) (order : FulfillmentOrder.t) : bool :=
  (chosen s true order || chosen s false order) && negb (ordinary order).

(** An order that goes on to the cart planners, with or without Seni
    products. *)
Definition for_carts (s : PulpoSeparator.t) (seni : bool)
    (order : FulfillmentOrder.t) : bool :=
  shared_functions.suitable_for_cart_creation (PulpoSeparator.skus_to_batch s) order
    (PulpoSeparator.is_sweeping_time s)
  && Bool.eqb seni (shared_functions.check_for_seni order).

(** From [s] to [s'] the orders of [stream] were sorted. *)
Definition sorts (stream : list FulfillmentOrder.t) (s s' : PulpoSeparator.t) : Prop :=
  settings s' = settings s
  /\ PulpoSeparator.orders_count s'
     = PulpoSeparator.orders_count s
       + Z.of_nat (length (List.filter (admitted (PulpoSeparator.product_stock s)) stream))
  /\ (exists picks,
        PulpoSeparator.wms s' = (PulpoSeparator.wms s ++ picks)%list
        /\ Forall2 single_pick_of (List.filter (special s) stream) picks)
  /\ exists prio_orders orders,
       buckets s'
       = ((PulpoSeparator.prio_orders_for_batches s ++ prio_orders)%list,
          (PulpoSeparator.prio_orders_without_seni s
           ++ List.filter (for_carts s false) prio_orders)%list,
          (PulpoSeparator.seni_prio_orders s
           ++ List.filter (for_carts s true) prio_orders)%list,
          (PulpoSeparator.orders_for_batches s ++ orders)%list,
          (PulpoSeparator.orders_without_seni s
           ++ List.filter (for_carts s false) orders)%list,
          (PulpoSeparator.seni_orders s
           ++ List.filter (for_carts s true) orders)%list)
       /\ prio_orders `sublist_of` List.filter (chosen s true) stream
       /\ List.filter (fun order => chosen s true order && ordinary order) stream
          `sublist_of` prio_orders
       /\ orders `sublist_of` List.filter (chosen s false) stream
       /\ List.filter (fun order => chosen s false order && ordinary order) stream
          `sublist_of` orders.

End Separated.

(** What the batch planner counts. *)
Module Batched.

(** An order with a single item, of this product. *)
Definition single_item_of (product_id : Z) (order : FulfillmentOrder.t) : bool :=
  match FulfillmentOrder.items order with
  | [item] => Product.id (Item.product item) =? product_id
  | _ => false
  end.

(** How many of the orders are single-item orders of the product. *)
Definition count (product_id : Z) (orders : list FulfillmentOrder.t) : Z :=
  Z.of_nat (length (List.filter (single_item_of product_id) orders)).

(** The product is the single item of one of the orders and is told to be
    a Seni product, by its category or by its name. *)
Definition seen_as_seni (product_id : Z) (orders : list FulfillmentOrder.t) : Prop :=
  exists order item,
    In order orders /\ FulfillmentOrder.items order = [item]
    /\ Product.id (Item.product item) = product_id
    /\ shared_functions.item_is_seni item = true.

(** The dictionary holds the counts of these orders, and no entry for a
    product that none of them has as its single item. *)
Definition counts (d : list (Z * Z)) (orders : list FulfillmentOrder.t) : Prop :=
  forall product_id,
    Py.dict_get product_id d
    = if count product_id orders =? 0 then None
      else Some (count product_id orders).

(** A pick as [split_batches] sends it: at least one order and at most
    [MAX_BATCH_SIZE], counted once, assigned to nobody, no cart. *)
Definition batch_pick (p : PickingOrder.t) : Prop :=
  1 <= Z.of_nat (length (PickingOrder.sales_orders p)) <= config.MAX_BATCH_SIZE
  /\ PickingOrder.orders_count p = 1
  /\ PickingOrder.pickers p = []
  /\ PickingOrder.cart p = false.

(** The sales orders named by a list of picks. *)
Definition ids (picks : list PickingOrder.t) : list Z :=
  concat (map PickingOrder.sales_orders picks).

(** From [s] to [s'] picks were sent, no processed order was forgotten,
    and every order the picks name is processed in [s']. *)
Definition marks (s s' : PulpoBatchingManager.t) : Prop :=
  exists picks,
    PulpoBatchingManager.wms s' = (PulpoBatchingManager.wms s ++ picks)%list
    /\ PulpoBatchingManager.processed_orders s
       ⊆ PulpoBatchingManager.processed_orders s'
    /\ forall id, In id (ids picks) -> id ∈ PulpoBatchingManager.processed_orders s'.

End Batched.

(** What the cart planners add to the log. *)
Module Carted.

(** The sales orders named by a list of picks. *)
Definition ids (picks : list PickingOrder.t) : list Z :=
  concat (map PickingOrder.sales_orders picks).

(** A pick as [create_cart] sends it for a size: within the bounds of the
    size, counted once, assigned to nobody, and a cart unless it holds a
    single order. *)
Definition cart_of (size : config.PackageSizes) (p : PickingOrder.t) : Prop :=
  1 <= Z.of_nat (length (PickingOrder.sales_orders p)) <= config.max (config.value size)
  /\ PickingOrder.orders_count p = 1
  /\ PickingOrder.pickers p = []
  /\ PickingOrder.cart p = negb (length (PickingOrder.sales_orders p) =? 1)%nat.

(** From [s] to [s'] nothing but the stock dictionary changed. *)
Definition only_stock (s s' : PulpoCartsManager.t) : Prop :=
  s' = PulpoCartsManager.set_product_stock (PulpoCartsManager.product_stock s') s.

(** From [s] to [s'] picks were sent that satisfy [Q]; they name no order
    twice, only orders that are [allowed] and were not processed in [s],
    and the orders processed in [s'] are those of [s] and the ones the
    picks name. *)
Definition adds (Q : PickingOrder.t -> Prop) (allowed : Z -> Prop)
    (s s' : PulpoCartsManager.t) : Prop :=
  exists picks,
    PulpoCartsManager.wms s' = (PulpoCartsManager.wms s ++ picks)%list
    /\ Forall Q picks
    /\ List.NoDup (ids picks)
    /\ (forall id, In id (ids picks) ->
          ~ In id (PulpoCartsManager.processed_orders s) /\ allowed id)
    /\ (forall id, In id (PulpoCartsManager.processed_orders s')
                   <-> In id (PulpoCartsManager.processed_orders s)
                       \/ In id (ids picks)).

(** The units of a product that the items of an order ask for, and that a
    list of orders asks for. *)
Definition quantity_of (product_id : Z) (items : list Item.t) : Z :=
  foldr Z.add 0
    (map Item.quantity
       (List.filter (fun item => Product.id (Item.product item) =? product_id) items)).

Definition asked (product_id : Z) (orders : list FulfillmentOrder.t) : Z :=
  foldr Z.add 0
    (map (fun order => quantity_of product_id (FulfillmentOrder.items order)) orders).

(** What a cart holds of each product is in the stock dictionary. *)
Definition covered (all_products stock : gmap Z Z) : Prop :=
  forall product_id q,
    all_products !! product_id = Some q ->
    exists available, stock !! product_id = Some available /\ q <= available.

(** No entry of the stock dictionary is negative. *)
Definition nonnegative (stock : gmap Z Z) : Prop :=
  forall product_id available, stock !! product_id = Some available -> 0 <= available.

(** No two of the orders share a sales order, and no order has two items
    of one product. *)
Definition well_formed (orders : list FulfillmentOrder.t) : Prop :=
  List.NoDup (map FulfillmentOrder.sales_order_id orders)
  /\ Forall (fun order =>
        List.NoDup (map (fun item => Product.id (Item.product item))
                        (FulfillmentOrder.items order))) orders.

End Carted.

(** A relation between the state before and the state after that a
    computation keeps, whether it returns or raises. *)
Module Step.

Definition keeps {St A : Type} (R : St -> St -> Prop) (m : M St A) : Prop :=
  forall s, R s (snd (m s)).

End Step.

(** What the cart passes of the run add to it. *)
Module Planned.

(** From [s] to [s'] the cart planners sent picks that name no order
    twice and no order the carts manager held as processed in [s]; what it
    holds as processed in [s'] are those orders and the ones the picks
    name.  The batch planner is left as it was. *)
Definition carts (s s' : PulpoManager.t) : Prop :=
  exists picks,
    PulpoManager.pulpo s' = (PulpoManager.pulpo s ++ picks)%list
    /\ List.NoDup (Carted.ids picks)
    /\ (forall id, In id (Carted.ids picks) ->
          ~ In id (PulpoCartsManager.processed_orders (PulpoManager.carts_manager s)))
    /\ (forall id,
          In id (PulpoCartsManager.processed_orders (PulpoManager.carts_manager s'))
          <-> In id (PulpoCartsManager.processed_orders (PulpoManager.carts_manager s))
              \/ In id (Carted.ids picks))
    /\ PulpoManager.batching_manager s' = PulpoManager.batching_manager s.

End Planned.

(** What is read off a run. *)
Module Observe.

(** The snapshot the Shelves Indexer builds. *)
Definition initial_availability (i : PulpoManager.Input) (product_id : Z) : option Z :=
  PulpoShelvesIndexCreator.product_availability
    (PulpoShelvesIndexCreator.main (PulpoManager.stocks i)) !! product_id.

(** How many units of a product one order asks for. *)
Definition quantity_of (product_id : Z) (order : FulfillmentOrder.t) : Z :=
  foldr Z.add 0
    (map Item.quantity
       (filter (fun item => Product.id (Item.product item) = product_id)
               (FulfillmentOrder.items order))).

(** The units of a product over all items of all picks: every pick counts
    the orders of the stream it names. *)
Definition picked_quantity (stream : list FulfillmentOrder.t)
    (picks : list PickingOrder.t) (product_id : Z) : Z :=
  foldr Z.add 0
    (map (fun pick =>
       foldr Z.add 0
         (map (fun sales_order_id =>
            foldr Z.add 0
              (map (quantity_of product_id)
                 (filter (fun o => FulfillmentOrder.sales_order_id o = sales_order_id)
                         stream)))
          (PickingOrder.sales_orders pick)))
     picks).

(** The picks that name a sales order. *)
Definition picks_of (sales_order_id : Z) (picks : list PickingOrder.t)
    : list PickingOrder.t :=
  filter (fun pick => in_Z sales_order_id (PickingOrder.sales_orders pick) = true) picks.

(** Every item of the order is covered by the stock on its own. *)
Definition every_item_available (stock : gmap Z Z) (order : FulfillmentOrder.t) : bool :=
  forallb (fun item =>
    match stock !! Item.product_id item with
    | Some available => Item.quantity item <=? available
    | None => false
    end) (FulfillmentOrder.items order).

End Observe.

(** Concrete warehouses and queues. *)
Module Example.

Definition product (id : Z) : Product.t :=
  {| Product.id := id; Product.name := "Gloves"; Product.sku := "G-1";
     Product.units_per_pallet := Some 50; Product.product_categories := [];
     Product.barcodes := [] |}.

Definition item (product_id quantity : Z) : Item.t :=
  {| Item.product := product product_id; Item.product_id := product_id;
     Item.quantity := quantity |}.

(** A queued web-shop order without priority, shipped by parcel. *)
Definition fulfillment (id sales_order_id : Z) (criterium : string)
    (items : list Item.t) : FulfillmentOrder.t :=
  {| FulfillmentOrder.id := id;
     FulfillmentOrder.sales_order_id := sales_order_id;
     FulfillmentOrder.state := "queue";
     FulfillmentOrder.priority := 1;
     FulfillmentOrder.channel := "Shop";
     FulfillmentOrder.shipping_method_id := 600;
     FulfillmentOrder.delivery_date := None;
     FulfillmentOrder.criterium := criterium;
     FulfillmentOrder.zip := "50667";
     FulfillmentOrder.country_code := "276";
     FulfillmentOrder.items := items |}.

(** The only fulfillment order of its sales order. *)
Definition order (sales_order_id : Z) (criterium : string)
    (items : list Item.t) : FulfillmentOrder.t :=
  fulfillment (1000 + sales_order_id) sales_order_id criterium items.

(** The same order for a Partnerkunde, and with a delivery date two days
    before the pinned day. *)
Definition for_partner (o : FulfillmentOrder.t) : FulfillmentOrder.t :=
  {| FulfillmentOrder.id := FulfillmentOrder.id o;
     FulfillmentOrder.sales_order_id := FulfillmentOrder.sales_order_id o;
     FulfillmentOrder.state := FulfillmentOrder.state o;
     FulfillmentOrder.priority := FulfillmentOrder.priority o;
     FulfillmentOrder.channel := "Partnerkunde (netto)";
     FulfillmentOrder.shipping_method_id := FulfillmentOrder.shipping_method_id o;
     FulfillmentOrder.delivery_date := FulfillmentOrder.delivery_date o;
     FulfillmentOrder.criterium := FulfillmentOrder.criterium o;
     FulfillmentOrder.zip := FulfillmentOrder.zip o;
     FulfillmentOrder.country_code := FulfillmentOrder.country_code o;
     FulfillmentOrder.items := FulfillmentOrder.items o |}.

Definition late (o : FulfillmentOrder.t) : FulfillmentOrder.t :=
  {| FulfillmentOrder.id := FulfillmentOrder.id o;
     FulfillmentOrder.sales_order_id := FulfillmentOrder.sales_order_id o;
     FulfillmentOrder.state := FulfillmentOrder.state o;
     FulfillmentOrder.priority := FulfillmentOrder.priority o;
     FulfillmentOrder.channel := FulfillmentOrder.channel o;
     FulfillmentOrder.shipping_method_id := FulfillmentOrder.shipping_method_id o;
     FulfillmentOrder.delivery_date := Some (19996 * 86400);
     FulfillmentOrder.criterium := FulfillmentOrder.criterium o;
     FulfillmentOrder.zip := FulfillmentOrder.zip o;
     FulfillmentOrder.country_code := FulfillmentOrder.country_code o;
     FulfillmentOrder.items := FulfillmentOrder.items o |}.

Definition stock (product_id quantity : Z) : Stock.t :=
  {| Stock.product_id := product_id; Stock.quantity := quantity;
     Stock.zone_id := config.H1_ZONE_ID; Stock.code := "H1-111-1-2-1-1" |}.

(** The instant [PulpoManager.__init__] assigns to [current_time]:
    Wednesday 2 October 2024, 06:00, within the sweeping hours. *)
Definition pinned : Clock.t :=
  {| Clock.hour := 6; Clock.weekday := 2; Clock.date := 19998 |}.

(** The same Wednesday, 20:00: a working day outside the sweeping hours. *)
Definition evening : Clock.t :=
  {| Clock.hour := 20; Clock.weekday := 2; Clock.date := 19998 |}.

(** A WMS that knows every product with 50 units per pallet and holds no
    picking order but those of the run, all of them still queued. *)
Definition world : PulpoManager.World :=
  {| PulpoManager.catalogue :=
       {| PulpoBatchingManager.fromPulpo := fun id => Some (product id);
          PulpoBatchingManager.find_article_info := fun _ => 0 |};
     PulpoManager.check_stock := fun _ => 0;
     PulpoManager.check_picking := fun _ sent => Z.of_nat (length sent);
     PulpoManager.now_berlin := evening |}.

(** The same WMS with ten more picking orders queued: the non-priority
    threshold is reached. *)
Definition busy_world : PulpoManager.World :=
  {| PulpoManager.catalogue := PulpoManager.catalogue world;
     PulpoManager.check_stock := fun _ => 0;
     PulpoManager.check_picking := fun _ sent => 10 + Z.of_nat (length sent);
     PulpoManager.now_berlin := evening |}.

Definition input (stocks : list Stock.t) (fulfillments : list FulfillmentOrder.t)
    : PulpoManager.Input :=
  {| PulpoManager.skus_to_batch := [];
     PulpoManager.current_time := pinned;
     PulpoManager.partnerkunden := [3; 4];
     PulpoManager.palettenversand := [7];
     PulpoManager.find_num_picks_for_user := fun _ => 0;
     PulpoManager.stocks := stocks;
     PulpoManager.fulfillments := fulfillments |}.

(** [n] orders numbered from 1, each for one unit of product 1. *)
Definition single_unit_orders (n : nat) : list FulfillmentOrder.t :=
  map (fun id => order (Z.of_nat id) "LA_0_5" [item 1 1]) (seq 1 n).

(** Twelve one-unit orders of product 1 against a stock of 8. *)
Definition short_stock : PulpoManager.Input :=
  input [stock 1 8] (single_unit_orders 12).

(** A hundred one-unit orders of product 1 against a stock of 60. *)
Definition split_stock : PulpoManager.Input :=
  input [stock 1 60] (single_unit_orders 100).

(** Two fulfillment orders of sales order 1, one product each. *)
Definition shared_sales_order : PulpoManager.Input :=
  input [stock 1 5; stock 2 5]
        [fulfillment 1001 1 "LA_0_5" [item 1 1];
         fulfillment 1002 1 "LA_0_5" [item 2 1]].

(** One order: a unit of product 1 and a hundred of product 2, of which
    five are in stock. *)
Definition half_available : PulpoManager.Input :=
  input [stock 1 5; stock 2 5] [order 1 "LA_0_5" [item 1 1; item 2 100]].

(** Two late orders of size M2 with two products each, on one shelf. *)
Definition late_pair : PulpoManager.Input :=
  input [stock 1 10; stock 2 10]
        [late (order 1 "LA_1_0" [item 1 1; item 2 1]);
         late (order 2 "LA_1_0" [item 1 1; item 2 1])].

(** One order of a Partnerkunde. *)
Definition partner : PulpoManager.Input :=
  input [stock 1 10] [for_partner (order 1 "LA_0_5" [item 1 1])].

(** Eleven orders of size S, none processed, product 1 well stocked, as
    the carts manager hands them to the random cart creator. *)
Definition eleven_small : list FulfillmentOrder.t :=
  map (fun id => order (Z.of_nat id) "LA_0_2" [item 1 1]) (seq 1 11).

Definition carts_manager : PulpoCartsManager.t :=
  PulpoCartsManager.set_call eleven_small false false {[ 1 := 100 ]}
    (PulpoCartsManager.init [] evening false).

(** Twenty-one orders of size S with two lines of product 1 each (so the
    batch planner leaves them alone), all on one shelf, well stocked. *)
Definition twenty_one_small : PulpoManager.Input :=
  input [stock 1 100]
        (map (fun id => order (Z.of_nat id) "LA_0_2" [item 1 1; item 1 1]) (seq 1 21)).

(** A pallet order, and separators with different rosters. *)
Definition pallet_order : FulfillmentOrder.t := order 1 "LA_9_0" [item 1 1].

Definition separator (partnerkunden palettenversand : list Z) : PulpoSeparator.t :=
  PulpoSeparator.init [] false partnerkunden palettenversand evening
    {[ 1 := 100 ]} (fun _ => 0).

(** What the WMS answers when the rate limit is hit. *)
Definition rate_limited : Pulpo.Answer :=
  Pulpo.Body (Pulpo.Dict [("message", Pulpo.Str "api_rate_limit_reached")]).

(** An order with two label-share tags. *)
Definition two_tags : FulfillmentOrder.t := order 1 "LA_0_5,LA_1_0" [item 1 1].

(** An order whose label-share tag has a negative second number. *)
Definition negative_decimals : FulfillmentOrder.t := order 1 "LA_1_-5" [item 1 1].

(** An order with one label-share tag among other tags. *)
Definition tagged : FulfillmentOrder.t :=
  order 1 "LA_x,express,LA_0_5,fragile" [item 1 1].

(** Three orders of two products each (nothing for the batch planner),
    and the orchestrator's state when the cart planners start on them
    outside the sweeping hours. *)
Definition mixed_orders : list FulfillmentOrder.t :=
  map (fun id => order (Z.of_nat id) "LA_0_5" [item 1 1; item 2 1]) (seq 1 3).

Definition before_carts : PulpoManager.t :=
  {| PulpoManager.is_sweeping_time := false;
     PulpoManager.is_running_dry := true;
     PulpoManager.product_availability := {[ 1 := 10; 2 := 10 ]};
     PulpoManager.batching_manager := PulpoBatchingManager.init [] evening true;
     PulpoManager.carts_manager :=
       PulpoCartsManager.init [("H1-111", [1; 2])] evening true;
     PulpoManager.carts_calls := O;
     PulpoManager.pulpo := [] |}.

End Example.

(** * Properties *)

(** ** Strings *)

Lemma append_cons (c : ascii) (s t : string) : String c s +:+ t = String c (s +:+ t).
Proof. reflexivity. Qed.

Lemma append_nil_r (s : string) : s +:+ EmptyString = s.
Proof.
  induction s as [|c s IH]; [reflexivity|]. rewrite append_cons, IH. reflexivity.
Qed.


Lemma prefix_append (p s : string) : String.prefix p (p +:+ s) = true.
Proof.
  induction p as [|c p IH].
  - destruct s; reflexivity.
  - rewrite append_cons. cbn. destruct (ascii_dec c c); [assumption|congruence].
Qed.




(** ** The log of picking orders *)

Ltac run_monad :=
  repeat (progress (unfold mbind, M_bind, mret, M_ret, get, modify; cbn)).

Section Sends.
Context {St : Type} (log : St -> list PickingOrder.t) (Q : PickingOrder.t -> Prop).

Lemma extends_refl (l : list PickingOrder.t) : Log.extends Q l l.
Proof. exists []. split; [symmetry; apply app_nil_r|constructor]. Qed.

Lemma extends_trans (l1 l2 l3 : list PickingOrder.t) :
  Log.extends Q l1 l2 -> Log.extends Q l2 l3 -> Log.extends Q l1 l3.
Proof.
  intros (e1 & -> & H1) (e2 & -> & H2). exists (e1 ++ e2)%list.
  split; [symmetry; apply app_assoc|]. apply Forall_app; split; assumption.
Qed.

Lemma sends_ret {A : Type} (a : A) : Log.sends log Q (mret a : M St A).
Proof. intros s. apply extends_refl. Qed.

Lemma sends_raise {A : Type} : Log.sends log Q (raise : M St A).
Proof. intros s. apply extends_refl. Qed.

Lemma sends_get : Log.sends log Q (get : M St St).
Proof. intros s. apply extends_refl. Qed.

Lemma sends_of_option {A : Type} (o : option A) : Log.sends log Q (of_option o : M St A).
Proof. destruct o; [apply sends_ret|apply sends_raise]. Qed.

Lemma sends_modify (f : St -> St) :
  (forall s, log (f s) = log s) -> Log.sends log Q (modify f).
Proof. intros H s. cbn. rewrite H. apply extends_refl. Qed.

Lemma sends_bind {A B : Type} (m : M St A) (k : A -> M St B) :
  Log.sends log Q m -> (forall a, Log.sends log Q (k a)) -> Log.sends log Q (m ≫= k).
Proof.
  intros Hm Hk s. unfold mbind, M_bind. specialize (Hm s).
  destruct (m s) as [[a|] s1]; cbn in *; [|exact Hm].
  eapply extends_trans; [exact Hm|apply Hk].
Qed.

(** What a [try] block sent before it raised stays sent. *)
Lemma sends_try (body : M St unit) : Log.sends log Q body -> Log.sends log Q (try_ body).
Proof. intros H s. apply H. Qed.

Lemma sends_when (b : bool) (m : M St unit) :
  Log.sends log Q m -> Log.sends log Q (when b m).
Proof. intros H. destruct b; [exact H|apply sends_ret]. Qed.

Lemma sends_for_each {A : Type} (xs : list A) (body : A -> M St unit) :
  (forall x, Log.sends log Q (body x)) -> Log.sends log Q (for_each xs body).
Proof.
  intros H. induction xs as [|x xs IH]; cbn [for_each]; [apply sends_ret|].
  apply sends_bind; [apply H|intros _; exact IH].
Qed.

End Sends.

(** A computation that sends only picks of an empty description sends
    nothing. *)
Lemma sends_nothing {St A : Type} (log : St -> list PickingOrder.t) (m : M St A) :
  Log.sends log (fun _ => False) m -> forall s, log (snd (m s)) = log s.
Proof.
  intros H s. destruct (H s) as (ext & -> & Hext).
  destruct Hext as [|p ext []]. apply app_nil_r.
Qed.

Section SendsPicking.
Context {St : Type} {U : PulpoUtils St}.

Lemma sends_create_picking (Q : PickingOrder.t -> Prop) (list_of_ids : list Z)
    (note : string) (orders_count : Z) (cart : bool) (pickers : list Z) :
  Q {| PickingOrder.sales_orders := list_of_ids;
       PickingOrder.orders_count := orders_count;
       PickingOrder.pickers := pickers;
       PickingOrder.cart := if (length list_of_ids =? 1)%nat then false else cart;
       PickingOrder.notes := note |} ->
  Log.sends posted Q
    (shared_functions.create_picking list_of_ids note orders_count cart pickers).
Proof.
  intros H s. unfold shared_functions.create_picking, modify. cbn [snd].
  rewrite posted_post. eexists. split; [reflexivity|]. repeat constructor. exact H.
Qed.

(** A pick sent with a note of [create_note] for the same ids. *)
Lemma sends_noted_picking (self : NoteCreator.t) (list_of_ids : list Z)
    (single_order : option FulfillmentOrder.t) (size_note : option string)
    (batched_quantity : option Py.num) (batched_product : option string)
    (shelf : option string) (orders_count : Z) (cart : bool) (pickers : list Z) :
  Log.sends posted Made.well_made
    (shared_functions.create_picking list_of_ids
       (NoteCreator.create_note self list_of_ids single_order size_note
          batched_quantity batched_product shelf)
       orders_count cart pickers).
Proof.
  apply sends_create_picking. split.
  - do 6 eexists. reflexivity.
  - unfold Made.cart_coerced. cbn. destruct list_of_ids as [|x [|y l]]; cbn; auto.
Qed.

End SendsPicking.

Create HintDb sends.

(* One step through the structure of a computation; what is left is
   looked up among the lemmas already shown. *)
Ltac sends_step :=
  lazymatch goal with
  | |- Log.sends _ _ (mret _) => apply sends_ret
  | |- Log.sends _ _ raise => apply sends_raise
  | |- Log.sends _ _ get => apply sends_get
  | |- Log.sends _ _ (of_option _) => apply sends_of_option
  | |- Log.sends _ _ (modify _) => apply sends_modify; intros; reflexivity
  | |- Log.sends _ _ (try_ _) => apply sends_try
  | |- Log.sends _ _ (when _ _) => apply sends_when
  | |- Log.sends _ _ (for_each _ _) => apply sends_for_each; intros
  | |- Log.sends _ _ (mbind _ _) => apply sends_bind; [|intros]
  | |- Log.sends _ _ (shared_functions.create_picking _
                        (NoteCreator.create_note _ _ _ _ _ _ _) _ _ _) =>
      apply sends_noted_picking
  | |- Log.sends _ _ (match ?x with _ => _ end) => destruct x
  | |- Log.sends _ _ (let _ := _ in _) => cbv zeta
  | |- _ => solve [auto with sends]
  end.

Ltac sends := repeat sends_step.

(** ** The WMS client *)

(** A call never sends more requests than [retries]. *)
Lemma attempt_loop_bound (remaining attempt : nat) (retries delay : Z)
    (wms : nat -> Pulpo.Answer) (slept : list Z) :
  (Pulpo.attempts (Pulpo.attempt_loop remaining attempt retries delay wms slept)
   <= attempt + remaining)%nat.
Proof.
  revert attempt delay slept.
  induction remaining as [|remaining IH]; intros attempt delay slept;
    cbn [Pulpo.attempt_loop].
  - cbn. lia.
  - destruct (Pulpo.try_once (wms attempt)) as [v| |[e|status_code|]];
      cbn [Pulpo.attempts]; try lia.
    + destruct (Pulpo.is_api_rate_limit_error e) as [[[|] e_delay]|];
        cbn [Pulpo.attempts]; try lia.
      destruct (Z.of_nat attempt <? retries - 1); cbn [Pulpo.attempts]; try lia.
      destruct (Pulpo.next_delay e_delay delay); cbn [Pulpo.attempts]; try lia.
      specialize (IH (S attempt) z (slept ++ [z])%list). lia.
    + destruct (status_code =? 429); cbn [Pulpo.attempts]; try lia.
      destruct (delay <? 0); cbn [Pulpo.attempts]; try lia.
      specialize (IH (S attempt) delay (slept ++ [delay])%list). lia.
Qed.

Lemma askPulpo_attempts (retries delay : Z) (wms : nat -> Pulpo.Answer) :
  (Pulpo.attempts (Pulpo.askPulpo retries delay wms) <= Z.to_nat retries)%nat.
Proof. unfold Pulpo.askPulpo. apply attempt_loop_bound. Qed.

(** Against a WMS that answers HTTP 429 to every request the loop runs out
    of turns: one request and one sleep per turn, then no value and no
    error, whatever the budget. *)
Lemma attempt_loop_all_429 (remaining attempt : nat) (retries delay : Z)
    (slept : list Z) :
  0 <= delay ->
  Pulpo.attempt_loop remaining attempt retries delay (fun _ => Pulpo.Status 429) slept
  = {| Pulpo.outcome := Pulpo.ReturnNone;
       Pulpo.attempts := (attempt + remaining)%nat;
       Pulpo.slept := (slept ++ repeat delay remaining)%list |}.
Proof.
  intros Hdelay. assert (H : (delay <? 0) = false) by lia.
  revert attempt slept.
  induction remaining as [|remaining IH]; intros attempt slept;
    cbn [Pulpo.attempt_loop Pulpo.try_once repeat].
  - rewrite Nat.add_0_r, app_nil_r. reflexivity.
  - change (429 =? 429) with true. cbv iota. rewrite H, IH.
    rewrite <- app_assoc, Nat.add_succ_r. reflexivity.
Qed.

Lemma askPulpo_all_429 (retries delay : Z) :
  0 <= delay ->
  Pulpo.outcome (Pulpo.askPulpo retries delay (fun _ => Pulpo.Status 429))
  = Pulpo.ReturnNone.
Proof.
  intros H. unfold Pulpo.askPulpo. rewrite attempt_loop_all_429 by assumption.
  reflexivity.
Qed.

(** C8. Retry policy of [askPulpo].  With the default budget of three
    attempts and a WMS that answers HTTP 429 every time, the call sends its
    three requests, sleeps the default 30 seconds after each of them, also
    after the last one, and then ends without a value and without an error:
    the status 429 of the last attempt is not raised.  A rate-limit
    business error in the same place is raised on the last attempt, after
    two sleeps. *)
Theorem askPulpo_swallows_last_429 :
  Pulpo.askPulpo 3 30 (fun _ => Pulpo.Status 429)
  = {| Pulpo.outcome := Pulpo.ReturnNone;
       Pulpo.attempts := 3;
       Pulpo.slept := [30; 30; 30] |}
  /\ Pulpo.askPulpo 3 30 (fun _ => Example.rate_limited)
     = {| Pulpo.outcome :=
            Pulpo.Raise
              (Pulpo.PulpoError
                 (Pulpo.Dict [("message", Pulpo.Str "api_rate_limit_reached")]));
          Pulpo.attempts := 3;
          Pulpo.slept := [30; 30] |}.
Proof. split; reflexivity. Qed.

(** ** The note grammar *)













(** ** Label-share decoding *)

Module LabelShareFacts.
Import LabelShare.

Lemma split_without (sep : ascii) (s : string) :
  all_chars (is_not sep) s = true -> Py.split sep s = [s].
Proof.
  induction s as [|c s IH]; [reflexivity|]. cbn [Py.split all_chars].
  unfold is_not at 1.
  destruct (Ascii.eqb c sep); [discriminate|]. cbn [negb andb]. intros H.
  rewrite (IH H). reflexivity.
Qed.

Lemma split_at_first (sep : ascii) (s rest : string) :
  all_chars (is_not sep) s = true ->
  Py.split sep (s +:+ String sep rest) = s :: Py.split sep rest.
Proof.
  induction s as [|c s IH]; intros H.
  - change (Py.split sep (String sep rest) = [EmptyString] ++ Py.split sep rest)%list.
    cbn [Py.split]. rewrite Ascii.eqb_refl. reflexivity.
  - rewrite append_cons. cbn [Py.split all_chars] in *. unfold is_not in H at 1.
    destruct (Ascii.eqb c sep); [discriminate|]. cbn [negb andb] in H.
    rewrite (IH H). reflexivity.
Qed.

Lemma all_chars_weaken (p q : ascii -> bool) (s : string) :
  (forall c, p c = true -> q c = true) ->
  all_chars p s = true -> all_chars q s = true.
Proof.
  intros Hpq. induction s as [|c s IH]; [reflexivity|]. cbn.
  intros [Hc Hs]%andb_prop. rewrite (Hpq c Hc), (IH Hs). reflexivity.
Qed.

Lemma uint_string_digits (u : Decimal.uint) :
  all_chars is_digit (NilEmpty.string_of_uint u) = true.
Proof. induction u; cbn; auto. Qed.

Lemma uint_string_length (u : Decimal.uint) :
  String.length (NilEmpty.string_of_uint u) = Decimal.nb_digits u.
Proof. induction u; cbn; auto. Qed.

Lemma uint_value_acc (u : Decimal.uint) (acc : positive) :
  uint_value u (Z.pos acc) = Z.pos (Pos.of_uint_acc u acc).
Proof.
  revert acc. induction u; intros acc; cbn [uint_value Pos.of_uint_acc];
    try reflexivity; rewrite <- IHu; f_equal; lia.
Qed.

Lemma uint_value_of_uint (u : Decimal.uint) : uint_value u 0 = Z.of_uint u.
Proof.
  unfold Z.of_uint.
  induction u; cbn [uint_value Pos.of_uint]; try reflexivity;
    try (change (10 * 0 + 0) with 0; exact IHu);
    match goal with
    | |- uint_value _ ?k = _ =>
        let p := eval cbv in k in change k with p
    end; rewrite uint_value_acc; reflexivity.
Qed.

Lemma digits_stop (s : string) (acc : Z) (n : nat) :
  head_is_no_digit s -> PyFloat.digits s acc n = (acc, n, s).
Proof. destruct s as [|c s]; cbn; [reflexivity|]. intros ->. reflexivity. Qed.

(** Reading the digits of a numeral gives its value and its length. *)
Lemma digits_uint (u : Decimal.uint) (rest : string) (acc : Z) (n : nat) :
  head_is_no_digit rest ->
  PyFloat.digits (NilEmpty.string_of_uint u +:+ rest) acc n
  = (uint_value u acc, (n + Decimal.nb_digits u)%nat, rest).
Proof.
  intros Hrest. revert acc n.
  induction u; intros acc n;
    cbn [NilEmpty.string_of_uint uint_value Decimal.nb_digits];
    [rewrite Nat.add_0_r; apply digits_stop; assumption|..];
    rewrite append_cons; cbn [PyFloat.digits];
    match goal with
    | |- context [PyFloat.digit_of ?c] =>
        let d := eval vm_compute in (PyFloat.digit_of c) in
        change (PyFloat.digit_of c) with d
    end; cbv iota; rewrite IHu, Nat.add_succ_r; reflexivity.
Qed.

Lemma abs_uint_value (z : Z) : Z.of_uint (abs_uint z) = Z.abs z.
Proof.
  destruct z as [|p|p]; cbn [abs_uint Z.abs]; [reflexivity|..];
    unfold Z.of_uint; rewrite DecimalPos.Unsigned.of_to; reflexivity.
Qed.

Lemma abs_uint_nonnil (z : Z) : abs_uint z <> Decimal.Nil.
Proof.
  destruct z; cbn; [discriminate|..]; apply DecimalPos.Unsigned.to_uint_nonnil.
Qed.

Lemma nilzero_nonnil (u : Decimal.uint) :
  u <> Decimal.Nil -> NilZero.string_of_uint u = NilEmpty.string_of_uint u.
Proof. destruct u; [congruence|reflexivity..]. Qed.

(** [str] of an integer: a minus sign when negative, then the digits. *)
Lemma str_int_abs (z : Z) :
  Py.str_int z
  = (if z <? 0 then "-" else EmptyString) +:+ NilEmpty.string_of_uint (abs_uint z).
Proof.
  unfold Py.str_int.
  destruct z as [|p|p];
    cbn [Z.to_int NilZero.string_of_int abs_uint Z.ltb Z.compare].
  - reflexivity.
  - apply nilzero_nonnil, DecimalPos.Unsigned.to_uint_nonnil.
  - rewrite (nilzero_nonnil _ (DecimalPos.Unsigned.to_uint_nonnil p)). reflexivity.
Qed.

Lemma nb_digits_pos (u : Decimal.uint) :
  u <> Decimal.Nil -> (0 < Decimal.nb_digits u)%nat.
Proof. destruct u; [congruence|cbn; lia..]. Qed.

Lemma digit_is_no_underscore (c : ascii) : is_digit c = true -> is_not "_" c = true.
Proof.
  unfold is_digit, PyFloat.digit_of, is_not.
  destruct (Ascii.eqb_spec c "_") as [->|]; [discriminate|reflexivity].
Qed.

Lemma str_int_no_underscore (z : Z) : all_chars (is_not "_") (Py.str_int z) = true.
Proof.
  rewrite str_int_abs.
  assert (H : all_chars (is_not "_") (NilEmpty.string_of_uint (abs_uint z)) = true)
    by (eapply all_chars_weaken; [apply digit_is_no_underscore|apply uint_string_digits]).
  destruct (z <? 0); [rewrite append_cons; cbn; exact H|exact H].
Qed.

(** [tag.split("_")] takes a tag apart into [LA] and its two numbers. *)
Lemma split_tag (a b : Z) :
  Py.split "_" (tag a b) = ["LA"; Py.str_int a; Py.str_int b].
Proof.
  unfold tag.
  change ("LA_" +:+ Py.str_int a +:+ "_" +:+ Py.str_int b)
    with ("LA" +:+ String "_" (Py.str_int a +:+ String "_" (Py.str_int b))).
  rewrite split_at_first by reflexivity.
  rewrite split_at_first by apply str_int_no_underscore.
  rewrite split_without by apply str_int_no_underscore.
  reflexivity.
Qed.

Lemma sign_of_digits (u : Decimal.uint) (rest : string) :
  u <> Decimal.Nil ->
  PyFloat.sign_of (NilEmpty.string_of_uint u +:+ rest)
  = (false, NilEmpty.string_of_uint u +:+ rest).
Proof. destruct u; [congruence|reflexivity..]. Qed.

Lemma all_chars_app (p : ascii -> bool) (s t : string) :
  all_chars p (s +:+ t) = all_chars p s && all_chars p t.
Proof.
  induction s as [|c s IH]; [reflexivity|]. rewrite append_cons. cbn [all_chars].
  rewrite IH, andb_assoc. reflexivity.
Qed.

Lemma digit_is_no_space (c : ascii) : is_digit c = true -> is_no_space c = true.
Proof.
  unfold is_digit, PyFloat.digit_of, is_no_space, PyFloat.is_space.
  destruct ((48 <=? Z.of_nat (nat_of_ascii c)) && (Z.of_nat (nat_of_ascii c) <=? 57))
    eqn:H; [|discriminate].
  intros _. apply andb_prop in H as [H1 H2].
  destruct (Z.leb_spec 9 (Z.of_nat (nat_of_ascii c))),
           (Z.leb_spec (Z.of_nat (nat_of_ascii c)) 13),
           (Z.leb_spec 28 (Z.of_nat (nat_of_ascii c))),
           (Z.leb_spec (Z.of_nat (nat_of_ascii c)) 32); cbn; lia.
Qed.

Lemma lstrip_no_space (s : string) :
  all_chars is_no_space s = true -> PyFloat.lstrip s = s.
Proof.
  destruct s as [|c s]; [reflexivity|]. cbn [all_chars PyFloat.lstrip].
  unfold is_no_space at 1. destruct (PyFloat.is_space c); [discriminate|reflexivity].
Qed.

Lemma rstrip_no_space (s : string) :
  all_chars is_no_space s = true -> PyFloat.rstrip s = s.
Proof.
  induction s as [|c s IH]; [reflexivity|]. cbn [all_chars PyFloat.rstrip].
  intros [Hc Hs]%andb_prop. rewrite (IH Hs).
  unfold is_no_space in Hc. destruct (PyFloat.is_space c); [discriminate|].
  destruct s; reflexivity.
Qed.

(** The literal [<a>.<b>] has no blank in it. *)
Lemma literal_no_space (a b : Z) :
  all_chars is_no_space (Py.str_int a +:+ "." +:+ Py.str_int b) = true.
Proof.
  assert (H : forall z, all_chars is_no_space (Py.str_int z) = true).
  { intros z. rewrite str_int_abs.
    assert (Hd : all_chars is_no_space (NilEmpty.string_of_uint (abs_uint z)) = true)
      by (eapply all_chars_weaken; [apply digit_is_no_space|apply uint_string_digits]).
    destruct (z <? 0); [rewrite append_cons; cbn; exact Hd|exact Hd]. }
  rewrite !all_chars_app, !H. reflexivity.
Qed.

(** A string that begins with a digit is none of the words [float] knows. *)
Lemma digit_head_is_no_word (c : ascii) (s : string) :
  is_digit c = true ->
  let word := PyFloat.lowercase (String c s) in
  String.eqb word "inf" || String.eqb word "infinity" || String.eqb word "nan" = false.
Proof.
  unfold is_digit, PyFloat.digit_of.
  destruct ((48 <=? Z.of_nat (nat_of_ascii c)) && (Z.of_nat (nat_of_ascii c) <=? 57))
    eqn:H; [|discriminate].
  intros _. cbv zeta. cbn [PyFloat.lowercase String.eqb].
  assert (Hlower : PyFloat.lower c = c).
  { unfold PyFloat.lower. apply andb_prop in H as [H1 H2].
    destruct (Nat.leb_spec 65 (nat_of_ascii c)); [lia|reflexivity]. }
  rewrite Hlower.
  assert (Hi : Ascii.eqb c "i" = false)
    by (destruct (Ascii.eqb_spec c "i") as [->|]; [discriminate|reflexivity]).
  assert (Hn : Ascii.eqb c "n" = false)
    by (destruct (Ascii.eqb_spec c "n") as [->|]; [discriminate|reflexivity]).
  rewrite Hi, Hn. reflexivity.
Qed.

Lemma uint_string_head (u : Decimal.uint) (rest : string) :
  u <> Decimal.Nil ->
  exists c s, NilEmpty.string_of_uint u +:+ rest = String c s /\ is_digit c = true.
Proof.
  destruct u; [congruence|..]; intros _; cbn [NilEmpty.string_of_uint];
    rewrite append_cons; eexists _, _; split; reflexivity.
Qed.

(** What [float] reads in [<a>.<b>], before rounding: the number written
    [a.b] without its sign. *)
Lemma number_of_literal (a b : Z) :
  0 <= b ->
  PyFloat.number_of (NilEmpty.string_of_uint (abs_uint a)
                     +:+ "." +:+ NilEmpty.string_of_uint (abs_uint b))
  = Some (inject_Z (Z.abs a)
          + inject_Z b
            / inject_Z (10 ^ Z.of_nat (Decimal.nb_digits (abs_uint b))))%Q.
Proof.
  intros Hb. unfold PyFloat.number_of.
  rewrite digits_uint by reflexivity.
  change ("." +:+ NilEmpty.string_of_uint (abs_uint b))
    with (String "." (NilEmpty.string_of_uint (abs_uint b))).
  cbv iota beta.
  rewrite <- (append_nil_r (NilEmpty.string_of_uint (abs_uint b))) at 1.
  rewrite digits_uint by exact I.
  cbv iota beta.
  pose proof (nb_digits_pos _ (abs_uint_nonnil b)) as Hnb.
  destruct (Nat.eqb_spec (0 + Decimal.nb_digits (abs_uint a)
                          + (0 + Decimal.nb_digits (abs_uint b))) 0) as [E|_]; [lia|].
  cbn [PyFloat.exponent_of].
  rewrite !uint_value_of_uint, !abs_uint_value.
  rewrite (Z.abs_eq b) by assumption.
  rewrite Nat.add_0_l. reflexivity.
Qed.

(** [float] reads [<a>.<b>] as the double nearest to the number written
    [a.b]. *)
Lemma float_of_decimal (a b : Z) :
  0 <= b ->
  PyFloat.of_string (Py.str_int a +:+ "." +:+ Py.str_int b)
  = Some (PyFloat.round (decimal a b)).
Proof.
  intros Hb. unfold PyFloat.of_string.
  rewrite (lstrip_no_space _ (literal_no_space a b)).
  rewrite (rstrip_no_space _ (literal_no_space a b)).
  unfold decimal. cbv zeta.
  rewrite !(str_int_abs b), (str_int_abs a).
  assert (Hb0 : (b <? 0) = false) by lia. rewrite Hb0.
  change (EmptyString +:+ NilEmpty.string_of_uint (abs_uint b))
    with (NilEmpty.string_of_uint (abs_uint b)).
  rewrite uint_string_length.
  assert (Hsign : PyFloat.sign_of
            (((if a <? 0 then "-" else EmptyString) +:+ NilEmpty.string_of_uint (abs_uint a))
             +:+ "." +:+ NilEmpty.string_of_uint (abs_uint b))
          = (a <? 0, NilEmpty.string_of_uint (abs_uint a)
                       +:+ "." +:+ NilEmpty.string_of_uint (abs_uint b))).
  { destruct (a <? 0).
    - reflexivity.
    - apply (sign_of_digits _ _ (abs_uint_nonnil a)). }
  rewrite Hsign.
  destruct (uint_string_head (abs_uint a)
              ("." +:+ NilEmpty.string_of_uint (abs_uint b)) (abs_uint_nonnil a))
    as (c & s & Hhead & Hc).
  pose proof (digit_head_is_no_word c s Hc) as Hword. cbv zeta in Hword.
  rewrite <- Hhead in Hword.
  apply orb_false_elim in Hword as [Hword Hnan].
  rewrite Hword, Hnan.
  rewrite number_of_literal by assumption.
  destruct (Z.ltb_spec a 0).
  - rewrite Z.abs_neq by lia. reflexivity.
  - rewrite Z.abs_eq by lia. reflexivity.
Qed.

Lemma extract_size_step_tag (v : PyFloat.t) (a b : Z) :
  0 <= b ->
  shared_functions.extract_size_step v (tag a b) = PyFloat.round (decimal a b).
Proof.
  intros Hb. unfold shared_functions.extract_size_step.
  assert (Hs : Py.startswith config.TAG_IDENTIFIER_LABEL_SHARE (tag a b) = true)
    by apply prefix_append.
  rewrite Hs. unfold shared_functions.decode_tag. rewrite split_tag.
  rewrite float_of_decimal by assumption. reflexivity.
Qed.

Lemma extract_size_skip (tags : list string) (v : PyFloat.t) :
  Forall (fun t => Py.startswith config.TAG_IDENTIFIER_LABEL_SHARE t = false) tags ->
  fold_left shared_functions.extract_size_step tags v = v.
Proof.
  intros H. revert v. induction H as [|t ts Ht _ IH]; intros v; [reflexivity|].
  cbn [fold_left]. unfold shared_functions.extract_size_step at 2.
  rewrite Ht. apply IH.
Qed.

End LabelShareFacts.

(** C9, as amended.  For every integer [a] and every integer [b] that is
    not negative: when the tag [LA_<a>_<b>] is one of the comma-separated
    tags of [criterium] and no tag after it begins with [LA_], then
    [extract_size] yields the float [a.b]: the double nearest to the number
    written [a.b]. *)
Theorem label_share_decoding (order : FulfillmentOrder.t) (a b : Z)
    (before after : list string) :
  0 <= b ->
  Py.split "," (FulfillmentOrder.criterium order)
    = (before ++ LabelShare.tag a b :: after)%list ->
  Forall (fun t => Py.startswith "LA_" t = false) after ->
  shared_functions.extract_size order = PyFloat.round (LabelShare.decimal a b).
Proof.
  intros Hb Hsplit Hafter. unfold shared_functions.extract_size.
  rewrite Hsplit, fold_left_app. cbn [fold_left].
  rewrite LabelShareFacts.extract_size_step_tag by assumption.
  apply LabelShareFacts.extract_size_skip. exact Hafter.
Qed.

(** The tag [LA_0_5] between other tags decodes to 0.5. *)
Lemma label_share_decoding_witness :
  0 <= 5
  /\ Py.split "," (FulfillmentOrder.criterium Example.tagged)
     = (["LA_x"; "express"] ++ LabelShare.tag 0 5 :: ["fragile"])%list
  /\ Forall (fun t => Py.startswith "LA_" t = false) ["fragile"]
  /\ shared_functions.extract_size Example.tagged
     = PyFloat.round (LabelShare.decimal 0 5).
Proof.
  assert (H1 : 0 <= 5) by lia.
  assert (H2 : Py.split "," (FulfillmentOrder.criterium Example.tagged)
               = (["LA_x"; "express"] ++ LabelShare.tag 0 5 :: ["fragile"])%list)
    by reflexivity.
  assert (H3 : Forall (fun t => Py.startswith "LA_" t = false) ["fragile"])
    by (repeat constructor).
  exact (conj H1 (conj H2 (conj H3
           (label_share_decoding Example.tagged 0 5 _ _ H1 H2 H3)))).
Defined.

(** C9 as stated does not hold.  An order that carries the tag [LA_0_5]
    followed by the tag [LA_1_0] decodes to 1.0, not to the float 0.5: the
    last label-share tag wins.  And the tag [LA_1_-5], whose second number
    is a negative integer, decodes to 0.0: [float] rejects [1.-5], the
    error is caught, and the initial value stays. *)
Lemma label_share_first_tag_ignored :
  (In (LabelShare.tag 0 5)
      (Py.split "," (FulfillmentOrder.criterium Example.two_tags))
   /\ PyFloat.round (LabelShare.decimal 0 5) = PyFloat.Finite (1 # 2)
   /\ shared_functions.extract_size Example.two_tags = PyFloat.Finite 1)
  /\ (In (LabelShare.tag 1 (-5))
         (Py.split "," (FulfillmentOrder.criterium Example.negative_decimals))
      /\ shared_functions.extract_size Example.negative_decimals = PyFloat.Finite 0
      /\ PyFloat.round (LabelShare.decimal 1 (-5)) <> PyFloat.Finite 0).
Proof.
  repeat split; try (vm_compute; tauto); try reflexivity;
    intros H; vm_compute in H; discriminate.
Qed.

(** ** The separator *)

(** An order whose first item is covered passes the separator's check,
    whatever its other items ask for. *)
Lemma check_availability_first_item (stock : gmap Z Z) (item : Item.t)
    (rest : list Item.t) (available : Z) :
  stock !! Item.product_id item = Some available ->
  Item.quantity item <= available ->
  PulpoSeparator.check_availability_locally stock (item :: rest) = true.
Proof.
  intros Hstock Hle. cbn [PulpoSeparator.check_availability_locally].
  rewrite Hstock. destruct (Z.leb_spec (Item.quantity item) available); [reflexivity|lia].
Qed.

(** C3. Separator admission.  The order of [Example.half_available] asks
    for one unit of product 1 (five in stock) and a hundred units of
    product 2 (five in stock).  Not every item is covered, yet
    [check_availability_locally] answers [True] at the first item, and the
    separator counts the order and routes it to the non-priority batch and
    cart buckets.  The stock snapshot is left as it was. *)
Theorem separator_admits_partly_available_order :
  let i := Example.half_available in
  let order := Example.order 1 "LA_0_5" [Example.item 1 1; Example.item 2 100] in
  let before :=
    PulpoShelvesIndexCreator.product_availability
      (PulpoShelvesIndexCreator.main (PulpoManager.stocks i)) in
  let after := PulpoManager.separate_orders_by_priority i in
  PulpoManager.fulfillments i = [order]
  /\ Observe.every_item_available before order = false
  /\ PulpoSeparator.check_availability_locally before
       (FulfillmentOrder.items order) = true
  /\ PulpoSeparator.orders_count after = 1
  /\ PulpoSeparator.orders_for_batches after = [order]
  /\ PulpoSeparator.orders_without_seni after = [order]
  /\ PulpoSeparator.product_stock after = before.
Proof. cbv zeta. repeat split; vm_compute; reflexivity. Qed.

(** With a roster of at most one picker the pick carries the
    Partnerkunden roster and the function returns its first id, whatever
    roster was passed. *)
Lemma create_assigned_picking_short_roster (order : FulfillmentOrder.t)
    (pickers : list Z) (pickers_distribution : list (Z * Z))
    (size_note : option string) (is_prio : bool) (s : PulpoSeparator.t) :
  (length pickers <= 1)%nat ->
  map PickingOrder.pickers
      (PulpoSeparator.wms
         (exec (PulpoSeparator.create_assigned_picking order pickers
                  pickers_distribution size_note is_prio) s))
  = (map PickingOrder.pickers (PulpoSeparator.wms s)
     ++ [PulpoSeparator.partnerkunde_pickers s])%list
  /\ result (PulpoSeparator.create_assigned_picking order pickers
               pickers_distribution size_note is_prio) s
     = head (PulpoSeparator.partnerkunde_pickers s).
Proof.
  intros Hlen. apply Nat.leb_le in Hlen.
  unfold exec, result, PulpoSeparator.create_assigned_picking.
  unfold mbind, M_bind, get. cbv zeta. cbn [fst snd]. rewrite Hlen.
  unfold shared_functions.create_picking, modify. cbn.
  destruct (PulpoSeparator.partnerkunde_pickers s); cbn;
    rewrite map_app; split; reflexivity.
Qed.

(** C7. Picker assignment.  On a separator whose Partnerkunden roster is
    [3; 4], the pallet branch calls [create_assigned_picking] with the
    Palettenversand roster [7]: the pick is sent with the pickers [3; 4]
    and the function returns 3, not 7 (and [single_picks_creation] then
    fails on the missing counter of picker 3).  With empty rosters the pick
    is sent without pickers and the function raises instead of returning
    no id. *)
Theorem assigned_picking_uses_partnerkunde_roster :
  let s := Example.separator [3; 4] [7] in
  let r :=
    PulpoSeparator.create_assigned_picking Example.pallet_order
      (PulpoSeparator.palette_pickers s)
      (PulpoSeparator.palette_pickers_distribution s)
      (Some config.NOTE_PALETTE) false s in
  let s0 := Example.separator [] [] in
  let r0 :=
    PulpoSeparator.create_assigned_picking Example.pallet_order
      (PulpoSeparator.partnerkunde_pickers s0)
      (PulpoSeparator.partnerkunde_pickers_distribution s0) None false s0 in
  (PulpoSeparator.palette_pickers s = [7]
   /\ fst r = Some 3
   /\ map PickingOrder.pickers (PulpoSeparator.wms (snd r)) = [[3; 4]]
   /\ fst (PulpoSeparator.single_picks_creation Example.pallet_order false s) = None)
  /\ (PulpoSeparator.partnerkunde_pickers s0 = []
      /\ fst r0 = None
      /\ map PickingOrder.pickers (PulpoSeparator.wms (snd r0)) = [[]]).
Proof. cbv zeta. repeat split; vm_compute; reflexivity. Qed.

(** With three Palettenversand pickers of which picker 8 has the fewest
    queued picks, the pallet pick goes to [8] alone and the counter of
    picker 8 goes up by one. *)
Example assigned_picking_least_loaded :
  let s :=
    PulpoSeparator.init [] false [3; 4] [7; 8; 9] Example.evening {[ 1 := 100 ]}
      (fun user_id => if user_id =? 8 then 0 else 2) in
  let r := PulpoSeparator.single_picks_creation Example.pallet_order false s in
  fst r = Some true
  /\ map PickingOrder.pickers (PulpoSeparator.wms (snd r)) = [[8]]
  /\ PulpoSeparator.palette_pickers_distribution (snd r) = [(7, 2); (8, 1); (9, 2)].
Proof. cbv zeta. repeat split; vm_compute; reflexivity. Qed.

(** Every pick of the separator is made by [create_picking] around a note
    of [create_note]. *)
Lemma create_assigned_picking_sends (order : FulfillmentOrder.t)
    (pickers : list Z) (pickers_distribution : list (Z * Z))
    (size_note : option string) (is_prio : bool) :
  Log.sends posted Made.well_made
    (PulpoSeparator.create_assigned_picking order pickers pickers_distribution
       size_note is_prio).
Proof. unfold PulpoSeparator.create_assigned_picking. sends. Qed.

#[local] Hint Resolve create_assigned_picking_sends : sends.

Lemma single_picks_creation_sends (order : FulfillmentOrder.t) (is_prio : bool) :
  Log.sends posted Made.well_made (PulpoSeparator.single_picks_creation order is_prio).
Proof. unfold PulpoSeparator.single_picks_creation. sends. Qed.

#[local] Hint Resolve single_picks_creation_sends : sends.

Lemma process_order_sends (order : FulfillmentOrder.t) :
  Log.sends posted Made.well_made (PulpoSeparator.process_order order).
Proof. unfold PulpoSeparator.process_order. sends. Qed.

#[local] Hint Resolve process_order_sends : sends.

Lemma separator_main_sends (stream : list FulfillmentOrder.t) :
  Log.sends posted Made.well_made (PulpoSeparator.main stream).
Proof. unfold PulpoSeparator.main. sends. Qed.

(** ** The batch planner *)

Section BatchingSilent.
Context (Q : PickingOrder.t -> Prop).
Import PulpoBatchingManager.

Lemma decrement_stock_sends (product_id quantity : Z) :
  Log.sends posted Q (decrement_stock product_id quantity).
Proof. unfold decrement_stock. sends. Qed.

Lemma mark_processed_sends (ids : list Z) : Log.sends posted Q (mark_processed ids).
Proof. unfold mark_processed. sends. Qed.

Lemma extract_max_units_per_palette_sends (cat : Catalogue) (product_id : Z) :
  Log.sends posted Q (extract_max_units_per_palette cat product_id).
Proof. unfold extract_max_units_per_palette, send_teams_message. sends. Qed.

Lemma check_if_seni_sends (item : Item.t) : Log.sends posted Q (check_if_seni item).
Proof. unfold check_if_seni. sends. Qed.

Lemma find_single_sku_orders_from_sends (orders : list FulfillmentOrder.t)
    (orders_count : list (Z * Z)) :
  Log.sends posted Q (find_single_sku_orders_from orders orders_count).
Proof.
  revert orders_count.
  induction orders as [|order rest IH]; intros orders_count;
    cbn [find_single_sku_orders_from]; [sends|].
  pose proof check_if_seni_sends.
  destruct (FulfillmentOrder.items order) as [|item [|]]; sends.
Qed.

Lemma find_products_to_batch_sends : Log.sends posted Q find_products_to_batch.
Proof.
  pose proof find_single_sku_orders_from_sends.
  unfold find_products_to_batch, find_single_sku_orders. sends.
Qed.

End BatchingSilent.

#[local] Hint Resolve decrement_stock_sends mark_processed_sends
  extract_max_units_per_palette_sends find_products_to_batch_sends : sends.

Section Batching.
Import PulpoBatchingManager.

Lemma split_one_batch_sends (orders : list (Z * Z)) (max_units_per_palette : Z) :
  Log.sends posted Made.well_made (split_one_batch orders max_units_per_palette).
Proof. unfold split_one_batch. sends. Qed.

Lemma repeat_m_sends (Q : PickingOrder.t -> Prop) (n : nat) (body : M t unit) :
  Log.sends posted Q body -> Log.sends posted Q (repeat_m n body).
Proof. intros H. induction n as [|n IH]; cbn [repeat_m]; sends. Qed.

Lemma split_batches_sends (orders : list (Z * Z)) (total_quantity : Py.num)
    (max_units_per_palette : units) :
  Log.sends posted Made.well_made
    (split_batches orders total_quantity max_units_per_palette).
Proof.
  unfold split_batches. destruct max_units_per_palette; [|sends].
  apply repeat_m_sends, split_one_batch_sends.
Qed.

Lemma regular_batching_sends (max_units_per_palette : units)
    (total_quantity : Py.num) (orders : list (Z * Z)) (product_id : Z) :
  Log.sends posted Made.well_made
    (regular_batching max_units_per_palette total_quantity orders product_id).
Proof.
  pose proof split_batches_sends. unfold regular_batching. sends.
Qed.

Lemma special_palette_loop_sends (separate_batch_from_quantity : option Z)
    (orders : list (Z * Z)) (product_id : Z) (total_quantity : Py.num) :
  Log.sends posted Made.well_made
    (special_palette_loop separate_batch_from_quantity orders product_id
       total_quantity).
Proof.
  revert total_quantity.
  induction orders as [|[order_id quantity] rest IH]; intros total_quantity;
    cbn [special_palette_loop]; sends.
Qed.

Lemma special_batching_sends (max_units_per_palette : units)
    (total_quantity : Py.num) (orders : list (Z * Z))
    (product_id min_batch_size : Z) :
  Log.sends posted Made.well_made
    (special_batching max_units_per_palette total_quantity orders product_id
       min_batch_size).
Proof.
  pose proof special_palette_loop_sends. pose proof regular_batching_sends.
  unfold special_batching, special_palette_batching. sends.
Qed.

Lemma batching_products_sends (cat : Catalogue) (product_id : Z) :
  Log.sends posted Made.well_made (batching_products cat product_id).
Proof.
  pose proof special_batching_sends. pose proof regular_batching_sends.
  unfold batching_products. sends.
Qed.

Lemma batching_main_sends (cat : Catalogue)
    (orders_to_include : list FulfillmentOrder.t) (is_prio : bool)
    (product_stock : gmap Z Z) :
  Log.sends posted Made.well_made (main cat orders_to_include is_prio product_stock).
Proof. pose proof batching_products_sends. unfold main. sends. Qed.

End Batching.

(** The split path leaves the stock dictionary as it is. *)
Lemma split_batches_keeps_stock (orders : list (Z * Z)) (total_quantity : Py.num)
    (max_units_per_palette : PulpoBatchingManager.units)
    (s : PulpoBatchingManager.t) :
  PulpoBatchingManager.product_stock
    (exec (PulpoBatchingManager.split_batches orders total_quantity
             max_units_per_palette) s)
  = PulpoBatchingManager.product_stock s.
Proof.
  unfold PulpoBatchingManager.split_batches.
  destruct max_units_per_palette as [m|]; [|reflexivity].
  generalize (Z.to_nat
                (Z.min (Py.value total_quantity / m)
                   (Z.of_nat (length orders) / config.MAX_BATCH_SIZE))).
  intros n. revert s.
  induction n as [|n IH]; intros s; [reflexivity|].
  cbn [PulpoBatchingManager.repeat_m]. unfold exec, mbind, M_bind in *.
  assert (Hone : exists s1,
            PulpoBatchingManager.split_one_batch orders m s = (Some tt, s1)
            /\ PulpoBatchingManager.product_stock s1
               = PulpoBatchingManager.product_stock s).
  { unfold PulpoBatchingManager.split_one_batch, mbind, M_bind, get.
    destruct (PulpoBatchingManager.fill_batch _ _ _ _ _) as [q [|id ids]];
      eexists; split; reflexivity. }
  destruct Hone as (s1 & -> & <-). apply IH.
Qed.

(** The single-batch branch names every order of the dictionary it is
    given, processed or not. *)
Lemma regular_batching_single_batch
    (max_units_per_palette : PulpoBatchingManager.units)
    (total_quantity : Py.num) (orders : list (Z * Z)) (product_id : Z)
    (s : PulpoBatchingManager.t) :
  PulpoBatchingManager.le_units (Py.value total_quantity) max_units_per_palette = true ->
  (length orders <= Z.to_nat config.MAX_BATCH_SIZE)%nat ->
  map PickingOrder.sales_orders
      (PulpoBatchingManager.wms
         (exec (PulpoBatchingManager.regular_batching max_units_per_palette
                  total_quantity orders product_id) s))
  = (map PickingOrder.sales_orders (PulpoBatchingManager.wms s)
     ++ [map fst orders])%list.
Proof.
  intros Hunits Hlen.
  assert (H : (Z.of_nat (length orders) <=? config.MAX_BATCH_SIZE) = true)
    by (apply Z.leb_le; unfold config.MAX_BATCH_SIZE in *; lia).
  unfold exec, PulpoBatchingManager.regular_batching. rewrite Hunits, H.
  unfold shared_functions.create_picking, PulpoBatchingManager.mark_processed,
    PulpoBatchingManager.decrement_stock.
  run_monad.
  destruct (PulpoBatchingManager.product_stock s !! product_id); run_monad;
    rewrite map_app; reflexivity.
Qed.

(** C1. Stock safety.  In the run of [Example.short_stock] twelve orders
    ask for one unit each of a product with eight units in stock; the
    stock-truncated single batch names all twelve, so twelve units are
    picked against eight, and the stock is booked down by eight only.  In
    the run of [Example.split_stock] a hundred such orders meet a stock of
    sixty; the split path sends a batch of fifty without touching the stock,
    the cart planners then see sixty units and send two carts of ten: seventy
    units are picked against sixty, and forty are left on the books. *)
Theorem stock_safety_broken_by_batches :
  (Observe.initial_availability Example.short_stock 1 = Some 8
   /\ map PickingOrder.sales_orders
         (PulpoManager.emitted Example.world Example.short_stock)
      = [[1; 2; 3; 4; 5; 6; 7; 8; 9; 10; 11; 12]]
   /\ Observe.picked_quantity (PulpoManager.fulfillments Example.short_stock)
        (PulpoManager.emitted Example.world Example.short_stock) 1 = 12
   /\ PulpoManager.product_availability
        (PulpoManager.main Example.world Example.short_stock) !! 1 = Some 0)
  /\ (Observe.initial_availability Example.split_stock 1 = Some 60
      /\ map PickingOrder.notes
            (PulpoManager.emitted Example.world Example.split_stock)
         = ["Bot: Batch 50 Gloves"; "Bot: M1 (bis 0.5) H1-111"; "Bot: M1 (bis 0.5)"]
      /\ map (fun p => length (PickingOrder.sales_orders p))
            (PulpoManager.emitted Example.world Example.split_stock)
         = [50; 10; 10]%nat
      /\ Observe.picked_quantity (PulpoManager.fulfillments Example.split_stock)
           (PulpoManager.emitted Example.world Example.split_stock) 1 = 70
      /\ PulpoManager.product_availability
           (PulpoManager.main Example.world Example.split_stock) !! 1 = Some 40).
Proof. repeat split; vm_compute; reflexivity. Qed.

(** C2. No double emission.  The queue of [Example.shared_sales_order]
    holds two fulfillment orders of sales order 1, one for product 1 and one
    for product 2.  The batch planner sends a single batch for product 1
    that names sales order 1 and marks it processed, and then a single
    batch for product 2 that names it again: the single-batch branch of
    [regular_batching] does not look at the processed orders. *)
Theorem sales_order_batched_twice :
  map FulfillmentOrder.id
      (PulpoManager.fulfillments Example.shared_sales_order) = [1001; 1002]
  /\ map FulfillmentOrder.sales_order_id
         (PulpoManager.fulfillments Example.shared_sales_order) = [1; 1]
  /\ PulpoManager.emitted Example.world Example.shared_sales_order
     = [ {| PickingOrder.sales_orders := [1];
            PickingOrder.orders_count := 1;
            PickingOrder.pickers := [];
            PickingOrder.cart := false;
            PickingOrder.notes := "Bot: Batch 1 Gloves" |};
         {| PickingOrder.sales_orders := [1];
            PickingOrder.orders_count := 1;
            PickingOrder.pickers := [];
            PickingOrder.cart := false;
            PickingOrder.notes := "Bot: Batch 1 Gloves" |} ]
  /\ length (Observe.picks_of 1
               (PulpoManager.emitted Example.world Example.shared_sales_order))
     = 2%nat.
Proof. repeat split; vm_compute; reflexivity. Qed.

(** An order that is already processed is sent again by the single-batch
    branch, and left out by the split path. *)
Example regular_batching_ignores_processed :
  let s :=
    PulpoBatchingManager.set_processed_orders {[ 1 ]}
      (PulpoBatchingManager.set_product_stock {[ 7 := 10 ]}
         (PulpoBatchingManager.init [] Example.evening false)) in
  map PickingOrder.sales_orders
      (PulpoBatchingManager.wms
         (exec (PulpoBatchingManager.regular_batching
                  (PulpoBatchingManager.Finite 50) (Py.Int 3) [(1, 2); (2, 1)] 7) s))
  = [[1; 2]]
  /\ PulpoBatchingManager.fill_batch {[ 1 ]} 50 [(1, 2); (2, 1)] 0 [] = (1, [2]).
Proof. cbv zeta. split; vm_compute; reflexivity. Qed.

(** ** The cart planners *)

Section CartsSilent.
Context (Q : PickingOrder.t -> Prop).
Import PulpoCartsManager.

Lemma is_order_fully_available_sends (check_stock : Z -> Z)
    (all_products : gmap Z Z) (items : list Item.t) :
  Log.sends posted Q (is_order_fully_available check_stock all_products items).
Proof.
  induction items as [|item rest IH]; cbn [is_order_fully_available]; sends.
Qed.

Lemma update_stock_dictionary_sends (c : creator) (cart : list Z) :
  Log.sends posted Q (update_stock_dictionary c cart).
Proof. unfold update_stock_dictionary. sends. Qed.

Lemma extend_processed_sends (ids : list Z) : Log.sends posted Q (extend_processed ids).
Proof. unfold extend_processed. sends. Qed.

Lemma fill_cart_from_shelf_loop_sends (check_stock : Z -> Z)
    (orders : list FulfillmentOrder.t) (max_cart_size : Z)
    (products_from_the_shelf new_cart : list Z) (all_products_in_cart : gmap Z Z) :
  Log.sends posted Q
    (fill_cart_from_shelf_loop check_stock orders max_cart_size
       products_from_the_shelf new_cart all_products_in_cart).
Proof.
  pose proof is_order_fully_available_sends.
  revert new_cart all_products_in_cart.
  induction orders as [|order rest IH]; intros new_cart all_products_in_cart;
    cbn [fill_cart_from_shelf_loop]; sends.
Qed.

Lemma fill_cart_randomly_loop_sends (check_stock : Z -> Z)
    (orders : list FulfillmentOrder.t) (max_cart_size : Z)
    (new_cart : list Z) (all_products_in_cart : gmap Z Z) :
  Log.sends posted Q
    (fill_cart_randomly_loop check_stock orders max_cart_size new_cart
       all_products_in_cart).
Proof.
  pose proof is_order_fully_available_sends.
  revert new_cart all_products_in_cart.
  induction orders as [|order rest IH]; intros new_cart all_products_in_cart;
    cbn [fill_cart_randomly_loop]; sends.
Qed.

Lemma check_space_sends (count_picking_orders : Z) :
  Log.sends posted Q (check_space count_picking_orders).
Proof. unfold check_space. sends. Qed.

Lemma for_range_sends {R : Type} (n : nat) (body : M t (option R)) :
  Log.sends posted Q body -> Log.sends posted Q (for_range n body).
Proof. intros H. induction n as [|n IH]; cbn [for_range]; sends. Qed.

End CartsSilent.

#[local] Hint Resolve is_order_fully_available_sends update_stock_dictionary_sends
  extend_processed_sends fill_cart_from_shelf_loop_sends
  fill_cart_randomly_loop_sends check_space_sends : sends.

Section Carts.
Import PulpoCartsManager.

Lemma create_cart_sends (c : creator) (new_cart : list Z)
    (size : config.PackageSizes) (shelf : string) :
  Log.sends posted Made.well_made (create_cart c new_cart size shelf).
Proof. unfold create_cart. sends. Qed.

Lemma generate_carts_sends (check_stock : Z -> Z) (c : creator)
    (shelves : list string) (space_left : space) (size : config.PackageSizes) :
  Log.sends posted Made.well_made (generate_carts check_stock c shelves space_left size).
Proof.
  pose proof create_cart_sends.
  revert space_left.
  induction shelves as [|shelf rest IH]; intros space_left;
    cbn [generate_carts]; unfold fill_cart_from_shelf; sends.
Qed.

Lemma shelves_main_sends (check_stock : Z -> Z) (c : creator)
    (size : config.PackageSizes) (space_left : space) :
  Log.sends posted Made.well_made (shelves_main check_stock c size space_left).
Proof. pose proof generate_carts_sends. unfold shelves_main. sends. Qed.

Lemma fill_cart_randomly_sends (check_stock : Z -> Z) (c : creator)
    (space_left : space) (size : config.PackageSizes) :
  Log.sends posted Made.well_made (fill_cart_randomly check_stock c space_left size).
Proof.
  pose proof create_cart_sends.
  unfold fill_cart_randomly. cbv zeta. apply for_range_sends. sends.
Qed.

Lemma carts_main_sends (check_stock : Z -> Z) (count_picking_orders : Z)
    (size : config.PackageSizes) (orders : list FulfillmentOrder.t)
    (is_prio is_sweeping_time : bool) (product_stock : gmap Z Z) :
  Log.sends posted Made.well_made
    (main check_stock count_picking_orders size orders is_prio is_sweeping_time
       product_stock).
Proof.
  pose proof shelves_main_sends. pose proof fill_cart_randomly_sends.
  unfold main, random_main. sends.
Qed.

End Carts.

(** [create_cart] always answers, and sends one pick at most. *)
Lemma create_cart_one_pick (c : PulpoCartsManager.creator) (new_cart : list Z)
    (size : config.PackageSizes) (shelf : string) (s : PulpoCartsManager.t) :
  exists (cart_created : bool) (s' : PulpoCartsManager.t),
    PulpoCartsManager.create_cart c new_cart size shelf s = (Some cart_created, s')
    /\ (length (PulpoCartsManager.wms s') <= S (length (PulpoCartsManager.wms s)))%nat.
Proof.
  unfold PulpoCartsManager.create_cart.
  unfold mbind at 1, M_bind at 1, get at 1. cbv zeta.
  destruct (Qle_bool _ _ && (_ <=? _)).
  - unfold shared_functions.create_picking. run_monad.
    do 2 eexists. split; [reflexivity|]. cbn. rewrite length_app. cbn. lia.
  - do 2 eexists. split; [reflexivity|]. lia.
Qed.

(** [fill_cart_randomly] sends one cart at most, whatever the orders, the
    stock and the space it is given. *)
Lemma fill_cart_randomly_one_cart (check_stock : Z -> Z)
    (c : PulpoCartsManager.creator) (space_left : PulpoCartsManager.space)
    (size : config.PackageSizes) (s : PulpoCartsManager.t) :
  (length (PulpoCartsManager.wms
             (exec (PulpoCartsManager.fill_cart_randomly check_stock c space_left
                      size) s))
   <= S (length (PulpoCartsManager.wms s)))%nat.
Proof.
  unfold exec, PulpoCartsManager.fill_cart_randomly. cbv zeta.
  destruct (Z.to_nat _) as [|n]; [cbn; lia|].
  cbn [PulpoCartsManager.for_range].
  unfold mbind at 1, M_bind at 1. unfold mbind at 1, M_bind at 1.
  pose proof (sends_nothing PulpoCartsManager.wms _
                (fill_cart_randomly_loop_sends (fun _ => False) check_stock
                   (PulpoCartsManager.c_orders c) (config.max (config.value size))
                   [] ∅) s) as Hloop.
  destruct (PulpoCartsManager.fill_cart_randomly_loop _ _ _ _ _ s)
    as [[[new_cart all_products]|] s1]; cbn [fst snd] in *; [|rewrite Hloop; lia].
  destruct new_cart as [|id ids]; [cbn; rewrite Hloop; lia|].
  unfold mbind at 1, M_bind at 1.
  destruct (create_cart_one_pick c (id :: ids) size EmptyString s1)
    as (cart_created & s2 & -> & Hone).
  rewrite Hloop in Hone.
  destruct cart_created; [|cbn; exact Hone].
  unfold PulpoCartsManager.extend_processed,
    PulpoCartsManager.update_stock_dictionary.
  run_monad. exact Hone.
Qed.

(** With the gate closed, one call of the carts manager sends nothing. *)
Lemma carts_main_gate_closed (check_stock : Z -> Z) (count : Z)
    (size : config.PackageSizes) (orders : list FulfillmentOrder.t)
    (stock : gmap Z Z) (s : PulpoCartsManager.t) :
  config.NON_PRIO_THRESHOLD <= count ->
  exists s',
    PulpoCartsManager.main check_stock count size orders false false stock s
      = (Some tt, s')
    /\ PulpoCartsManager.wms s' = PulpoCartsManager.wms s
    /\ PulpoCartsManager.processed_orders s' = PulpoCartsManager.processed_orders s
    /\ PulpoCartsManager.product_stock s' = stock.
Proof.
  intros Hfull.
  assert (H0 : (0 <? config.NON_PRIO_THRESHOLD - count) = false)
    by (apply Z.ltb_ge; lia).
  unfold PulpoCartsManager.main, PulpoCartsManager.check_space.
  unfold mbind, M_bind, mret, M_ret, modify, get, when. cbn.
  destruct (config.NON_PRIO_THRESHOLD - count <? 0) eqn:Hneg; cbn;
    rewrite H0, andb_false_r; (eexists; split; [reflexivity|]); cbn; auto.
Qed.

Lemma picking_creation_carts_from_gate_closed (w : PulpoManager.World)
    (sizes : list config.PackageSizes) (orders : list FulfillmentOrder.t) :
  (forall n sent, config.NON_PRIO_THRESHOLD <= PulpoManager.check_picking w n sent) ->
  forall s : PulpoManager.t,
    PulpoManager.is_sweeping_time s = false ->
    PulpoManager.pulpo
      (exec (PulpoManager.picking_creation_carts_from w sizes orders false) s)
    = PulpoManager.pulpo s.
Proof.
  intros Hfull. induction sizes as [|size rest IH]; intros s Hsweep.
  - reflexivity.
  - cbn [PulpoManager.picking_creation_carts_from].
    destruct (config.size_eqb size config.SIZE_XXL); [apply IH; assumption|].
    unfold exec, mbind, M_bind, get. cbn.
    destruct (PulpoCartsManager.no_space_left (PulpoManager.carts_manager s)
              && negb (PulpoManager.is_sweeping_time s)); [reflexivity|].
    unfold modify. cbn.
    unfold PulpoManager.with_carts. cbn.
    rewrite Hsweep.
    match goal with
    | |- context [PulpoCartsManager.main ?cs ?c ?sz ?os false false ?st ?s0] =>
        destruct (carts_main_gate_closed cs c sz os st s0 (Hfull _ _))
          as (s' & Hrun & Hwms & _ & _)
    end.
    rewrite Hrun. cbn.
    match goal with
    | |- PulpoManager.pulpo (snd (_ ?s1)) = _ =>
        specialize (IH s1 eq_refl); unfold exec in IH; rewrite IH
    end.
    cbn. rewrite Hwms. reflexivity.
Qed.

(** C4. Capacity gate.  Outside the sweeping hours, when every count of
    queued and taken picking orders that the WMS reports is at least
    [NON_PRIO_THRESHOLD], a non-priority pass of [picking_creation_carts]
    over any orders sends no picking order at all: the list of picks sent
    after the pass is the list before it. *)
Theorem capacity_gate (w : PulpoManager.World)
    (orders : list FulfillmentOrder.t) (s : PulpoManager.t) :
  PulpoManager.is_sweeping_time s = false ->
  (forall n sent, config.NON_PRIO_THRESHOLD <= PulpoManager.check_picking w n sent) ->
  PulpoManager.pulpo (exec (PulpoManager.picking_creation_carts w orders false) s)
  = PulpoManager.pulpo s.
Proof.
  intros Hsweep Hfull. unfold PulpoManager.picking_creation_carts.
  apply picking_creation_carts_from_gate_closed; assumption.
Qed.

(** Three cart-eligible orders outside the sweeping hours, ten picks
    already queued: nothing is sent. *)
Lemma capacity_gate_witness :
  PulpoManager.is_sweeping_time Example.before_carts = false
  /\ (forall n sent, config.NON_PRIO_THRESHOLD
                    <= PulpoManager.check_picking Example.busy_world n sent)
  /\ PulpoManager.pulpo
       (exec (PulpoManager.picking_creation_carts Example.busy_world
                Example.mixed_orders false) Example.before_carts)
     = PulpoManager.pulpo Example.before_carts.
Proof.
  assert (H1 : PulpoManager.is_sweeping_time Example.before_carts = false)
    by reflexivity.
  assert (H2 : forall (n : nat) (sent : list PickingOrder.t),
               config.NON_PRIO_THRESHOLD
               <= PulpoManager.check_picking Example.busy_world n sent)
    by (intros n sent; unfold config.NON_PRIO_THRESHOLD; cbn; lia).
  exact (conj H1 (conj H2
           (capacity_gate Example.busy_world Example.mixed_orders
              Example.before_carts H1 H2))).
Defined.

(** The same three orders with no pick queued go out as one shelf cart. *)
Example carts_sent_when_space_is_left :
  map PickingOrder.sales_orders
      (PulpoManager.pulpo
         (exec (PulpoManager.picking_creation_carts Example.world
                  Example.mixed_orders false) Example.before_carts))
  = [[1; 2; 3]].
Proof. vm_compute. reflexivity. Qed.

(** C5. Random cart planner.  Called on eleven unprocessed orders of size
    S (at most ten per cart, so two carts by the planner's own count) with
    five picks of space left, [fill_cart_randomly] sends one cart with the
    first ten orders and returns with four picks of space left, while order
    11 is unprocessed and in stock.  In the run of
    [Example.twenty_one_small] the shelf pass sends orders 1 to 10, the
    random planner sends orders 11 to 20 and stops; order 21 is in no pick
    although the two carts are the only picks queued, eight short of the
    threshold. *)
Theorem random_planner_stops_after_one_cart :
  let c := PulpoCartsManager.new_creator Example.carts_manager Example.eleven_small in
  let r :=
    PulpoCartsManager.fill_cart_randomly (fun _ => 0) c
      (PulpoCartsManager.Left 5) config.SIZE_S Example.carts_manager in
  (Py.ceil_div (Z.of_nat (length Example.eleven_small))
               (config.max (config.value config.SIZE_S)) = 2
   /\ fst r = Some (Some (PulpoCartsManager.Left 4))
   /\ map PickingOrder.sales_orders (PulpoCartsManager.wms (snd r))
      = [[1; 2; 3; 4; 5; 6; 7; 8; 9; 10]]
   /\ in_Z 11 (PulpoCartsManager.processed_orders (snd r)) = false
   /\ PulpoCartsManager.product_stock (snd r) !! 1 = Some 90)
  /\ (map PickingOrder.sales_orders
          (PulpoManager.emitted Example.world Example.twenty_one_small)
      = [[1; 2; 3; 4; 5; 6; 7; 8; 9; 10];
         [11; 12; 13; 14; 15; 16; 17; 18; 19; 20]]
     /\ Observe.picks_of 21
          (PulpoManager.emitted Example.world Example.twenty_one_small) = []
     /\ PulpoManager.product_availability
          (PulpoManager.main Example.world Example.twenty_one_small) !! 1
        = Some 60).
Proof. cbv zeta. repeat split; vm_compute; reflexivity. Qed.

(** ** Every picking order of a run *)

Section Orchestrator.
Import PulpoManager.

Lemma with_batching_sends (Q : PickingOrder.t -> Prop) {A : Type}
    (m : M PulpoBatchingManager.t A) :
  Log.sends posted Q m -> Log.sends pulpo Q (with_batching m).
Proof.
  intros H s. unfold with_batching.
  match goal with
  | |- context [m ?b] => specialize (H b); destruct (m b) as [r b']
  end.
  exact H.
Qed.

Lemma with_carts_sends (Q : PickingOrder.t -> Prop) {A : Type}
    (m : M PulpoCartsManager.t A) :
  Log.sends posted Q m -> Log.sends pulpo Q (with_carts m).
Proof.
  intros H s. unfold with_carts.
  match goal with
  | |- context [m ?c] => specialize (H c); destruct (m c) as [r c']
  end.
  exact H.
Qed.

Lemma picking_creation_batches_sends (w : World)
    (orders : list FulfillmentOrder.t) (is_prio : bool) :
  Log.sends pulpo Made.well_made (picking_creation_batches w orders is_prio).
Proof.
  unfold picking_creation_batches.
  apply sends_bind; [sends|intros self].
  apply sends_bind; [apply with_batching_sends, batching_main_sends|intros _].
  apply sends_bind; [sends|intros self'].
  apply with_carts_sends, extend_processed_sends.
Qed.

Lemma picking_creation_carts_from_sends (w : World)
    (sizes : list config.PackageSizes) (orders : list FulfillmentOrder.t)
    (is_prio : bool) :
  Log.sends pulpo Made.well_made (picking_creation_carts_from w sizes orders is_prio).
Proof.
  induction sizes as [|size rest IH]; cbn [picking_creation_carts_from]; [sends|].
  destruct (config.size_eqb size config.SIZE_XXL); [exact IH|].
  apply sends_bind; [sends|intros self].
  destruct (PulpoCartsManager.no_space_left (carts_manager self)
            && negb (is_sweeping_time self)); [sends|].
  apply sends_bind; [sends|intros _].
  apply sends_bind; [apply with_carts_sends, carts_main_sends|intros _; exact IH].
Qed.

Lemma picking_creation_manager_sends (w : World) (is_prio : bool)
    (batch_list cart_seni_list cart_list : list FulfillmentOrder.t) :
  Log.sends pulpo Made.well_made
    (picking_creation_manager w is_prio batch_list cart_seni_list cart_list).
Proof.
  pose proof picking_creation_batches_sends.
  pose proof picking_creation_carts_from_sends.
  unfold picking_creation_manager, picking_creation_carts. sends.
Qed.

(** Every picking order of a run was made by [create_picking] around a
    note of [create_note], whether the run ends or is cut short by an
    exception. *)
Lemma emitted_well_made (w : World) (i : Input) :
  Forall Made.well_made (emitted w i).
Proof.
  pose proof picking_creation_manager_sends as Hm.
  unfold emitted, main. cbv zeta.
  match goal with
  | |- Forall _ (pulpo (exec ?m ?start)) =>
      assert (Hrun : Log.sends pulpo Made.well_made m) by sends;
      destruct (Hrun start) as (ext & Hext & Hmade)
  end.
  unfold exec. rewrite Hext. apply Forall_app. split; [|exact Hmade].
  cbn [pulpo]. unfold separate_orders_by_priority.
  destruct (separator_main_sends (fulfillments i)
              (PulpoSeparator.init (skus_to_batch i)
                 (check_sweeping_time (current_time i))
                 (partnerkunden i) (palettenversand i) (current_time i)
                 (PulpoShelvesIndexCreator.product_availability
                    (PulpoShelvesIndexCreator.main (stocks i)))
                 (find_num_picks_for_user i))) as (ext0 & Hext0 & Hmade0).
  unfold exec. cbn [posted PulpoSeparator.utils] in Hext0. rewrite Hext0. exact Hmade0.
Qed.

End Orchestrator.

(** The pinned instant lies in the sweeping hours.  Two late orders of
    size M2 go out as one priority cart whose note ends in [Rest], the
    size, the shelf and the number of orders; an order of a Partnerkunde
    goes out as a single pick for the first picker of the roster (both
    pickers have no pick queued). *)
Example runs_at_the_pinned_instant :
  PulpoManager.check_sweeping_time Example.pinned = true
  /\ PulpoManager.emitted Example.world Example.late_pair
     = [ {| PickingOrder.sales_orders := [1; 2];
            PickingOrder.orders_count := 1;
            PickingOrder.pickers := [];
            PickingOrder.cart := true;
            PickingOrder.notes := "Bot: Vortag Rest M2 (bis 1) H1-111 2" |} ]
  /\ PulpoManager.emitted Example.world Example.partner
     = [ {| PickingOrder.sales_orders := [1];
            PickingOrder.orders_count := 1;
            PickingOrder.pickers := [3];
            PickingOrder.cart := false;
            PickingOrder.notes :=
              "Bot: Partnerkunde (Bitte Lieferschein ausdrucken) M1 (bis 0.5)" |} ].
Proof. repeat split; vm_compute; reflexivity. Qed.










Section NotedPicking.
Context {St : Type} {U : PulpoUtils St}.


End NotedPicking.

(** ** The notes of the picks of a run *)


Section NotedSeparator.
Import PulpoSeparator.




End NotedSeparator.

Section SendsIn.
Context {St : Type} (P : St -> Prop) (log : St -> list PickingOrder.t)
  (Q : PickingOrder.t -> Prop).









End SendsIn.

Section NotedBatching.
Import PulpoBatchingManager.











End NotedBatching.

Section NotedCarts.
Import PulpoCartsManager.





End NotedCarts.

Section NotedRun.
Import PulpoManager.



End NotedRun.


(** C10. Single-pick coercion of [create_picking].  For every planner
    state: the call returns, and what it adds to the picking orders sent is
    one request that carries the ids, the count, the pickers and the note it
    was given, with the [cart] flag [false] when the list has exactly one id
    and the caller's flag for every other list, so for two ids or more.  And
    in every run, a picking order sent with exactly one sales order is no
    cart. *)
Theorem create_picking_cart_flag :
  (forall (St : Type) (U : PulpoUtils St) (list_of_ids : list Z) (note : string)
          (orders_count : Z) (cart : bool) (pickers : list Z) (s : St),
     let call :=
       shared_functions.create_picking list_of_ids note orders_count cart pickers in
     result call s = Some tt
     /\ posted (exec call s)
        = (posted s
           ++ [ {| PickingOrder.sales_orders := list_of_ids;
                   PickingOrder.orders_count := orders_count;
                   PickingOrder.pickers := pickers;
                   PickingOrder.cart :=
                     match list_of_ids with
                     | [_] => false
                     | _ => cart
                     end;
                   PickingOrder.notes := note |} ])%list)
  /\ (forall (w : PulpoManager.World) (i : PulpoManager.Input),
        Forall (fun p =>
          match PickingOrder.sales_orders p with
          | [_] => PickingOrder.cart p = false
          | _ => True
          end) (PulpoManager.emitted w i)).
Proof.
  split.
  - intros St U list_of_ids note orders_count cart pickers s. cbv zeta.
    unfold result, exec, shared_functions.create_picking, modify. cbn [fst snd].
    rewrite posted_post.
    split; [reflexivity|]. destruct list_of_ids as [|x [|y l]]; reflexivity.
  - intros w i. eapply Forall_impl; [apply emitted_well_made|].
    intros p [_ Hcart]. exact Hcart.
Qed.

(** * Further properties of the code *)

(** ** Sorting by count *)

Section SortedAsc.
Context {K : Type}.

Lemma insert_asc_perm (x : K * Z) (l : list (K * Z)) :
  Py.insert_asc x l ≡ₚ x :: l.
Proof.
  induction l as [|y l IH]; cbn [Py.insert_asc]; [reflexivity|].
  destruct (snd x <=? snd y); [reflexivity|].
  rewrite IH. apply Permutation_swap.
Qed.

Lemma sorted_asc_perm (l : list (K * Z)) : Py.sorted_asc l ≡ₚ l.
Proof.
  induction l as [|x l IH]; [reflexivity|].
  change (Py.sorted_asc (x :: l)) with (Py.insert_asc x (Py.sorted_asc l)).
  rewrite insert_asc_perm, IH. reflexivity.
Qed.

(** The head of the sorted list is the first entry of least count. *)
Lemma sorted_asc_head (l : list (K * Z)) (x : K * Z) (t : list (K * Z)) :
  Py.sorted_asc l = x :: t ->
  exists l1 l2, l = (l1 ++ x :: l2)%list
    /\ Forall (fun y => snd x < snd y) l1
    /\ Forall (fun y => snd x <= snd y) l2.
Proof.
  revert x t. induction l as [|y l IH]; intros x t; [discriminate|].
  change (Py.sorted_asc (y :: l)) with (Py.insert_asc y (Py.sorted_asc l)).
  destruct (Py.sorted_asc l) as [|h s] eqn:Hs.
  - cbn. intros [= <- <-].
    assert (l = []) as ->.
    { apply Permutation_nil. rewrite <- Hs. apply sorted_asc_perm. }
    exists [], []. repeat split; constructor.
  - specialize (IH h s eq_refl) as (l1 & l2 & -> & H1 & H2).
    cbn [Py.insert_asc]. destruct (Z.leb_spec (snd y) (snd h)); intros [= <- <-].
    + exists [], (l1 ++ h :: l2)%list. repeat split; [constructor|].
      apply Forall_app. split.
      * eapply Forall_impl; [exact H1|]. cbn. intros; lia.
      * constructor; [assumption|]. eapply Forall_impl; [exact H2|]. cbn. intros; lia.
    + exists (y :: l1), l2. repeat split; [|assumption].
      constructor; assumption.
Qed.

Lemma insert_desc_perm (x : K * Z) (l : list (K * Z)) :
  Py.insert_desc x l ≡ₚ x :: l.
Proof.
  induction l as [|y l IH]; cbn [Py.insert_desc]; [reflexivity|].
  destruct (snd x <? snd y); [|reflexivity].
  rewrite IH. apply Permutation_swap.
Qed.

Lemma sorted_desc_perm (l : list (K * Z)) : Py.sorted_desc l ≡ₚ l.
Proof.
  induction l as [|x l IH]; [reflexivity|].
  change (Py.sorted_desc (x :: l)) with (Py.insert_desc x (Py.sorted_desc l)).
  rewrite insert_desc_perm, IH. reflexivity.
Qed.

Lemma insert_desc_sorted (x : K * Z) (l : list (K * Z)) :
  StronglySorted (fun a b => snd b <= snd a) l ->
  StronglySorted (fun a b => snd b <= snd a) (Py.insert_desc x l).
Proof.
  induction 1 as [|y l Hl IH Hy]; cbn [Py.insert_desc].
  - repeat constructor.
  - destruct (Z.ltb_spec (snd x) (snd y)).
    + constructor; [exact IH|].
      rewrite insert_desc_perm. constructor; [lia|exact Hy].
    + constructor; [constructor; assumption|].
      constructor; [lia|]. eapply Forall_impl; [exact Hy|]. cbn. intros; lia.
Qed.

Lemma sorted_desc_sorted (l : list (K * Z)) :
  StronglySorted (fun a b => snd b <= snd a) (Py.sorted_desc l).
Proof.
  induction l as [|x l IH]; [constructor|].
  change (Py.sorted_desc (x :: l)) with (Py.insert_desc x (Py.sorted_desc l)).
  apply insert_desc_sorted, IH.
Qed.

End SortedAsc.

(** ** Insertion-ordered dictionaries *)

Section DictFacts.
Context {V : Type}.

Lemma dict_get_set_eq (k : Z) (v : V) (d : list (Z * V)) :
  Py.dict_get k (Py.dict_set k v d) = Some v.
Proof.
  induction d as [|[k' v'] d IH]; cbn.
  - rewrite Z.eqb_refl. reflexivity.
  - destruct (Z.eqb_spec k k') as [->|Hne]; cbn.
    + rewrite Z.eqb_refl. reflexivity.
    + destruct (Z.eqb_spec k k'); [contradiction|exact IH].
Qed.

Lemma dict_get_set_ne (k k' : Z) (v : V) (d : list (Z * V)) :
  k <> k' -> Py.dict_get k' (Py.dict_set k v d) = Py.dict_get k' d.
Proof.
  intros Hne. induction d as [|[k0 v0] d IH]; cbn.
  - destruct (Z.eqb_spec k' k); [congruence|reflexivity].
  - destruct (Z.eqb_spec k k0) as [->|]; cbn.
    + destruct (Z.eqb_spec k' k0); [congruence|reflexivity].
    + destruct (Z.eqb_spec k' k0); [reflexivity|exact IH].
Qed.

Lemma dict_get_In (k : Z) (v : V) (d : list (Z * V)) :
  Py.dict_get k d = Some v -> In (k, v) d.
Proof.
  induction d as [|[k' v'] d IH]; cbn; [discriminate|].
  destruct (Z.eqb_spec k k') as [->|]; [intros [= ->]; auto|auto].
Qed.

Lemma dict_get_None (k : Z) (d : list (Z * V)) :
  Py.dict_get k d = None <-> ~ In k (map fst d).
Proof.
  induction d as [|[k' v'] d IH]; cbn; [tauto|].
  destruct (Z.eqb_spec k k') as [->|]; [split; [discriminate|tauto]|].
  rewrite IH. split; [intros H [E|Hin]; [congruence|tauto]|tauto].
Qed.

Lemma In_dict_get (k : Z) (v : V) (d : list (Z * V)) :
  List.NoDup (map fst d) -> In (k, v) d -> Py.dict_get k d = Some v.
Proof.
  induction d as [|[k' v'] d IH]; cbn; [tauto|].
  intros Hnd [[= -> ->]|Hin].
  - rewrite Z.eqb_refl. reflexivity.
  - apply NoDup_cons_iff in Hnd as [Hk Hnd].
    destruct (Z.eqb_spec k k') as [->|]; [|auto].
    exfalso. apply Hk. change k' with (fst (k', v)). apply in_map, Hin.
Qed.

Lemma dict_set_keys (k : Z) (v : V) (d : list (Z * V)) :
  map fst (Py.dict_set k v d)
  = match Py.dict_get k d with
    | Some _ => map fst d
    | None => (map fst d ++ [k])%list
    end.
Proof.
  induction d as [|[k' v'] d IH]; cbn; [reflexivity|].
  destruct (Z.eqb_spec k k') as [->|]; cbn; [reflexivity|].
  rewrite IH. destruct (Py.dict_get k d); reflexivity.
Qed.

Lemma dict_set_NoDup (k : Z) (v : V) (d : list (Z * V)) :
  List.NoDup (map fst d) -> List.NoDup (map fst (Py.dict_set k v d)).
Proof.
  intros Hnd. rewrite dict_set_keys.
  destruct (Py.dict_get k d) eqn:Hget; [exact Hnd|].
  apply dict_get_None in Hget.
  apply List.NoDup_app; [exact Hnd|repeat constructor; cbn; tauto|].
  intros x Hx [->|[]]. exact (Hget Hx).
Qed.

End DictFacts.

(** ** Membership *)

Lemma in_Z_In (x : Z) (xs : list Z) : in_Z x xs = true <-> In x xs.
Proof.
  unfold in_Z. rewrite existsb_exists. split.
  - intros (y & Hy & E). apply Z.eqb_eq in E. subst. exact Hy.
  - intros H. exists x. split; [exact H|apply Z.eqb_refl].
Qed.

Lemma in_Z_not_In (x : Z) (xs : list Z) : in_Z x xs = false <-> ~ In x xs.
Proof.
  rewrite <- in_Z_In. destruct (in_Z x xs); split; intros; congruence.
Qed.

(** X1. [choose_picker] answers with no picker exactly for the empty
    distribution, and otherwise with one picker: the first entry of the
    distribution, in roster order, whose count of queued picks is least. *)
Theorem choose_picker_first_least_loaded (picks_distribution : list (Z * Z)) :
  match shared_functions.choose_picker picks_distribution with
  | [] => picks_distribution = []
  | [picker] =>
      exists picks before after,
        picks_distribution = (before ++ (picker, picks) :: after)%list
        /\ Forall (fun e => picks < snd e) before
        /\ Forall (fun e => picks <= snd e) after
  | _ => False
  end.
Proof.
  unfold shared_functions.choose_picker.
  destruct picks_distribution as [|[p n] [|e d]]; cbn [length Nat.leb map fst].
  - reflexivity.
  - exists n, [], []. repeat split; constructor.
  - destruct (Py.sorted_asc ((p, n) :: e :: d)) as [|[picker picks] t] eqn:Hs.
    + pose proof (sorted_asc_perm ((p, n) :: e :: d)) as Hp. rewrite Hs in Hp.
      apply Permutation_nil in Hp. discriminate.
    + destruct (sorted_asc_head _ _ _ Hs) as (l1 & l2 & E & H1 & H2).
      exists picks, l1, l2. auto.
Qed.

(** X2. [choose_picker] and [distribute_orders] name the same picker:
    for a distribution that is not empty both answer with the first key in
    ascending order of the counts, and for the empty one [choose_picker]
    answers with no picker where [distribute_orders] raises. *)
Theorem choose_picker_distribute_orders (picks_distribution : list (Z * Z)) :
  shared_functions.choose_picker picks_distribution
  = option_list (shared_functions.distribute_orders picks_distribution).
Proof.
  unfold shared_functions.choose_picker, shared_functions.distribute_orders.
  destruct picks_distribution as [|[p n] [|e d]]; cbn [length Nat.leb];
    [reflexivity..|].
  destruct (Py.sorted_asc _) as [|[picker picks] t]; reflexivity.
Qed.

(** What the dictionary of [extract_quantities] holds after the walk over
    the orders: one entry per sales order that has a single-item order of
    the product, with the quantity of such an order. *)
Lemma collected_quantities (product_id : Z) (included : list FulfillmentOrder.t)
    (orders : list (Z * Z)) :
  List.NoDup (map fst orders) ->
  let result :=
    fold_left (fun orders order =>
      match FulfillmentOrder.items order with
      | [item] =>
          if Product.id (Item.product item) =? product_id
          then Py.dict_set (FulfillmentOrder.sales_order_id order)
                           (Item.quantity item) orders
          else orders
      | _ => orders
      end) included orders in
  List.NoDup (map fst result)
  /\ (forall id, In id (map fst result)
                 <-> In id (map fst orders)
                     \/ exists order item, In order included
                          /\ FulfillmentOrder.sales_order_id order = id
                          /\ FulfillmentOrder.items order = [item]
                          /\ Product.id (Item.product item) = product_id)
  /\ (forall id q, In (id, q) result ->
        In (id, q) orders
        \/ exists order item, In order included
             /\ FulfillmentOrder.sales_order_id order = id
             /\ FulfillmentOrder.items order = [item]
             /\ Product.id (Item.product item) = product_id
             /\ Item.quantity item = q).
Proof.
  cbv zeta. revert orders.
  induction included as [|order rest IH]; intros orders Hnd; cbn [fold_left].
  - repeat split; [exact Hnd|tauto| |tauto].
    intros [H|(o & i & [] & _)]. exact H.
  - match goal with
    | |- context [fold_left _ rest ?acc] => set (next := acc)
    end.
    assert (Hcases :
      next = orders
      /\ (forall item, FulfillmentOrder.items order = [item] ->
                       Product.id (Item.product item) <> product_id)
      \/ exists item, FulfillmentOrder.items order = [item]
           /\ Product.id (Item.product item) = product_id
           /\ next = Py.dict_set (FulfillmentOrder.sales_order_id order)
                       (Item.quantity item) orders).
    { subst next. destruct (FulfillmentOrder.items order) as [|item [|]] eqn:Hitems.
      - left. split; [reflexivity|]. intros i [=].
      - destruct (Z.eqb_spec (Product.id (Item.product item)) product_id).
        + right. exists item. auto.
        + left. split; [reflexivity|]. intros i [= <-]. assumption.
      - left. split; [reflexivity|]. intros i [=]. }
    clearbody next.
    assert (Hnext : List.NoDup (map fst next)).
    { destruct Hcases as [[-> _]|(item & _ & _ & ->)]; auto using dict_set_NoDup. }
    destruct (IH _ Hnext) as (Hnd' & Hkeys & Hvals). split; [exact Hnd'|].
    split.
    + intros id. rewrite Hkeys. destruct Hcases as [[-> Hno]|(item & Hi & Hp & ->)].
      * split; [intros [H|(o & i & Ho & Hid & Hs)]; [auto|right; exists o, i; cbn; auto]|].
        intros [H|(o & i & [<-|Ho] & Hid & Hs & Hpid)];
          [auto|exfalso; exact (Hno i Hs Hpid)|].
        right. exists o, i. auto.
      * rewrite dict_set_keys.
        split.
        -- intros [H|(o & i & Ho & Hid & Hs)]; [|right; exists o, i; cbn; auto].
           destruct (Py.dict_get _ orders); [auto|].
           apply in_app_or in H as [H|[<-|[]]]; [auto|].
           right. exists order, item. cbn. auto.
        -- intros [H|(o & i & [<-|Ho] & Hid & Hs)].
           ++ left. destruct (Py.dict_get _ orders); [auto|]. apply in_or_app. auto.
           ++ left. subst id. destruct (Py.dict_get _ orders) eqn:Hget.
              ** apply dict_get_In in Hget.
                 change (FulfillmentOrder.sales_order_id order)
                   with (fst (FulfillmentOrder.sales_order_id order, z)).
                 apply in_map, Hget.
              ** apply in_or_app. right. left. reflexivity.
           ++ right. exists o, i. auto.
    + intros id q Hin. destruct (Hvals id q Hin) as [H|(o & i & Ho & Hid & Hs)];
        [|right; exists o, i; cbn; auto].
      destruct Hcases as [[E Hno]|(item & Hi & Hp & E)]; rewrite E in H; [auto|].
      destruct (Z.eq_dec id (FulfillmentOrder.sales_order_id order)) as [->|Hne].
      * right. exists order, item. cbn. repeat split; auto.
        apply In_dict_get in H; [|apply dict_set_NoDup, Hnd].
        rewrite dict_get_set_eq in H. congruence.
      * left. apply In_dict_get in H; [|apply dict_set_NoDup, Hnd].
        rewrite dict_get_set_ne in H by congruence. apply dict_get_In, H.
Qed.

(** An integer a float holds exactly comes back from [int(float(n))]. *)
Lemma round_of_integer (q : Q) (z : Z) : (q == inject_Z z)%Q -> Py.round q = z.
Proof.
  intros Hq. unfold Py.round.
  assert (Hf : Qfloor q = z) by (rewrite Hq; apply Qfloor_Z).
  rewrite Hf.
  assert (Hr : (q - inject_Z z ?= 1 # 2)%Q = Lt).
  { apply Qlt_alt. rewrite Hq. unfold Qminus. rewrite Qplus_opp_r. reflexivity. }
  rewrite Hr. reflexivity.
Qed.

Lemma Qred_inject_Z (z : Z) : Qred (inject_Z z) = inject_Z z.
Proof.
  unfold Qred, inject_Z.
  pose proof (Z.ggcd_gcd z 1) as Hg. pose proof (Z.ggcd_correct_divisors z 1) as Hd.
  destruct (Z.ggcd z 1) as [g [aa bb]]. cbn [fst snd] in *.
  rewrite Z.gcd_1_r in Hg. subst g. destruct Hd as [Ha Hb].
  rewrite Z.mul_1_l in Ha, Hb. subst aa bb. reflexivity.
Qed.

Lemma Qred_integer (n : Z) (d : positive) (z : Z) :
  n = z * Z.pos d -> Qred (n # d) = inject_Z z.
Proof.
  intros ->. rewrite <- (Qred_inject_Z z).
  apply Qred_complete. unfold Qeq, inject_Z. cbn. lia.
Qed.

Lemma round_pos_exact (p : Z) :
  0 < p < Exact.limit -> PyFloat.round_pos (inject_Z p) = PyFloat.Finite (inject_Z p).
Proof.
  unfold Exact.limit. intros [Hpos Hlt]. unfold PyFloat.round_pos.
  assert (Hlog : PyFloat.floor_log2 (Qnum (inject_Z p)) (Z.pos (Qden (inject_Z p)))
                 = Z.log2 p).
  { unfold PyFloat.floor_log2, inject_Z. cbn [Qnum Qden].
    change (Z.log2 1) with 0. rewrite Z.sub_0_r.
    pose proof (Z.log2_nonneg p) as Hnn.
    destruct (Z.leb_spec 0 (Z.log2 p)) as [_|]; [|lia].
    pose proof (Z.log2_spec p Hpos) as [Hlow _].
    destruct (Z.leb_spec (1 * 2 ^ Z.log2 p) p) as [_|]; [reflexivity|lia]. }
  rewrite Hlog. cbv zeta.
  assert (Hbound : Z.log2 p < 53) by (apply Z.log2_lt_pow2; lia).
  pose proof (Z.log2_nonneg p) as Hnn.
  set (e := Z.max (Z.log2 p - 52) (-1074)).
  assert (He : -52 <= e <= 0) by (unfold e; lia).
  clearbody e.
  assert (Hpow : 0 < 2 ^ (- e)) by (apply Z.pow_pos_nonneg; lia).
  assert (Hm : Py.round (inject_Z p / PyFloat.scale 1 e) = p * 2 ^ (- e)).
  { apply round_of_integer. unfold PyFloat.scale.
    destruct (Z.leb_spec 0 e) as [H0|Hneg].
    - assert (e = 0) as -> by lia.
      change (inject_Z (1 * 2 ^ 0)) with 1%Q. change (2 ^ (- 0)) with 1.
      rewrite Z.mul_1_r. unfold Qdiv. change (/ 1)%Q with 1%Q. apply Qmult_1_r.
    - rewrite (Qred_correct (1 # Z.to_pos (2 ^ (- e)))).
      unfold Qeq, Qdiv, Qmult, Qinv, inject_Z. cbn [Qnum Qden].
      rewrite Z2Pos.id by lia. cbn [Pos.mul]. lia. }
  rewrite Hm.
  assert (Hsmall : (0 <=? e) && (2 ^ 1024 <=? p * 2 ^ (- e) * 2 ^ e) = false).
  { destruct (Z.leb_spec 0 e) as [H0|Hneg]; [|reflexivity].
    assert (e = 0) as -> by lia. cbn [andb]. apply Z.leb_gt.
    change (2 ^ (- 0)) with 1. change (2 ^ 0) with 1.
    assert (2 ^ 53 < 2 ^ 1024) by (apply Z.pow_lt_mono_r; lia). lia. }
  rewrite Hsmall. f_equal. unfold PyFloat.scale.
  destruct (Z.leb_spec 0 e) as [H0|Hneg].
  - assert (e = 0) as -> by lia. change (2 ^ (- 0)) with 1. change (2 ^ 0) with 1.
    rewrite !Z.mul_1_r. reflexivity.
  - apply Qred_integer. rewrite Z2Pos.id by lia. reflexivity.
Qed.

Lemma int_float_exact (n : Z) :
  Z.abs n < Exact.limit -> PyFloat.of_int n ≫= PyFloat.to_int = Some n.
Proof.
  intros Hn. unfold PyFloat.of_int, PyFloat.round.
  rewrite Qred_inject_Z. cbv zeta.
  destruct (Z.compare_spec n 0) as [->|Hneg|Hpos].
  - reflexivity.
  - assert (Hc : (inject_Z n ?= 0)%Q = Lt)
      by (unfold Qcompare, inject_Z; cbn [Qnum Qden]; apply Z.compare_lt_iff; lia).
    rewrite Hc.
    assert (Hq : Qred (- inject_Z n) = inject_Z (- n))
      by (apply Qred_integer; cbn; lia).
    rewrite Hq, round_pos_exact by lia. cbn [PyFloat.opp mbind option_bind].
    assert (Hback : Qred (- inject_Z (- n)) = inject_Z n)
      by (apply Qred_integer; cbn; lia).
    rewrite Hback. cbn. f_equal. apply Z.quot_1_r.
  - assert (Hc : (inject_Z n ?= 0)%Q = Gt)
      by (unfold Qcompare, inject_Z; cbn [Qnum Qden]; apply Z.compare_gt_iff; lia).
    rewrite Hc, round_pos_exact by lia. cbn. f_equal. apply Z.quot_1_r.
Qed.

(** Within the range of [Exact.quantities] no conversion raises, and the
    dictionary holds the quantities themselves. *)
Lemma collected_exact (product_id : Z) (included : list FulfillmentOrder.t)
    (orders : list (Z * Z)) :
  Exact.quantities included ->
  fold_left (fun orders order =>
    match FulfillmentOrder.items order with
    | [item] =>
        if Product.id (Item.product item) =? product_id
        then orders ← orders;
             quantity ← PyFloat.of_int (Item.quantity item) ≫= PyFloat.to_int;
             Some (Py.dict_set (FulfillmentOrder.sales_order_id order)
                               quantity orders)
        else orders
    | _ => orders
    end) included (Some orders)
  = Some (fold_left (fun orders order =>
            match FulfillmentOrder.items order with
            | [item] =>
                if Product.id (Item.product item) =? product_id
                then Py.dict_set (FulfillmentOrder.sales_order_id order)
                                 (Item.quantity item) orders
                else orders
            | _ => orders
            end) included orders).
Proof.
  intros Hq. revert orders.
  induction Hq as [|order rest Hitems _ IH]; intros orders; [reflexivity|].
  cbn [fold_left].
  destruct (FulfillmentOrder.items order) as [|item [|]]; try apply IH.
  destruct (Product.id (Item.product item) =? product_id); [|apply IH].
  apply Forall_cons_1 in Hitems as [Hitem _].
  cbn [mbind option_bind]. rewrite (int_float_exact _ Hitem). cbn [mbind option_bind].
  apply IH.
Qed.

(** X3. For orders whose quantities a float holds exactly (so that
    [int(float(quantity))] is the quantity), [extract_quantities] returns a
    dictionary whose entries are in descending order of quantity, with one
    entry per sales order: its keys are exactly the sales orders that have,
    among the orders to include, an order with a single item of the
    product, and each quantity is that of such an order. *)
Theorem extract_quantities_sorted (self : PulpoBatchingManager.t) (product_id : Z) :
  Exact.quantities (PulpoBatchingManager.orders_to_include self) ->
  exists orders,
    PulpoBatchingManager.extract_quantities self product_id = Some orders
    /\ StronglySorted (fun x y => snd y <= snd x) orders
    /\ List.NoDup (map fst orders)
    /\ (forall id, In id (map fst orders)
                   <-> exists order item,
                         In order (PulpoBatchingManager.orders_to_include self)
                         /\ FulfillmentOrder.sales_order_id order = id
                         /\ FulfillmentOrder.items order = [item]
                         /\ Product.id (Item.product item) = product_id)
    /\ (forall id q, In (id, q) orders ->
          exists order item,
            In order (PulpoBatchingManager.orders_to_include self)
            /\ FulfillmentOrder.sales_order_id order = id
            /\ FulfillmentOrder.items order = [item]
            /\ Product.id (Item.product item) = product_id
            /\ Item.quantity item = q).
Proof.
  intros Hexact. unfold PulpoBatchingManager.extract_quantities. cbv zeta.
  rewrite (collected_exact product_id _ [] Hexact).
  destruct (collected_quantities product_id
              (PulpoBatchingManager.orders_to_include self) [] (List.NoDup_nil _))
    as (Hnd & Hkeys & Hvals).
  cbv zeta in Hnd, Hkeys, Hvals.
  match goal with
  | |- context [Py.sorted_desc <$> Some ?d] =>
      pose proof (sorted_desc_perm d) as Hperm; set (collected := d) in *
  end.
  exists (Py.sorted_desc collected). split; [reflexivity|].
  split; [apply sorted_desc_sorted|].
  split; [eapply Permutation_NoDup; [|exact Hnd];
          apply Permutation_map; symmetry; exact Hperm|].
  split.
  - intros id.
    assert (Hin : In id (map fst (Py.sorted_desc collected))
                  <-> In id (map fst collected)).
    { split; apply Permutation_in, Permutation_map;
        [exact Hperm|symmetry; exact Hperm]. }
    rewrite Hin, Hkeys. cbn [map In]. tauto.
  - intros id q Hin.
    apply (Permutation_in _ Hperm) in Hin.
    destruct (Hvals id q Hin) as [[]|H]. exact H.
Qed.

(** Orders 1 and 2 ask for two and five units of product 7, order 3 for
    another product: the dictionary lists order 2 before order 1. *)
Lemma extract_quantities_sorted_witness :
  let self :=
    PulpoBatchingManager.set_run
      [Example.order 1 "LA_0_5" [Example.item 7 2];
       Example.order 2 "LA_0_5" [Example.item 7 5];
       Example.order 3 "LA_0_5" [Example.item 8 9]]
      false ∅
      (PulpoBatchingManager.note_creator
         (PulpoBatchingManager.init [] Example.evening false))
      (PulpoBatchingManager.init [] Example.evening false) in
  Exact.quantities (PulpoBatchingManager.orders_to_include self)
  /\ PulpoBatchingManager.extract_quantities self 7 = Some [(2, 5); (1, 2)]
  /\ exists orders,
       PulpoBatchingManager.extract_quantities self 7 = Some orders
       /\ StronglySorted (fun x y => snd y <= snd x) orders
       /\ List.NoDup (map fst orders)
       /\ (forall id, In id (map fst orders)
                      <-> exists order item,
                            In order (PulpoBatchingManager.orders_to_include self)
                            /\ FulfillmentOrder.sales_order_id order = id
                            /\ FulfillmentOrder.items order = [item]
                            /\ Product.id (Item.product item) = 7)
       /\ (forall id q, In (id, q) orders ->
             exists order item,
               In order (PulpoBatchingManager.orders_to_include self)
               /\ FulfillmentOrder.sales_order_id order = id
               /\ FulfillmentOrder.items order = [item]
               /\ Product.id (Item.product item) = 7
               /\ Item.quantity item = q).
Proof.
  intros self.
  assert (H : Exact.quantities (PulpoBatchingManager.orders_to_include self))
    by (repeat constructor).
  assert (Hrun : PulpoBatchingManager.extract_quantities self 7 = Some [(2, 5); (1, 2)])
    by (vm_compute; reflexivity).
  exact (conj H (conj Hrun (extract_quantities_sorted self 7 H))).
Defined.

(** ** The WMS client: paging and retries *)

Lemma serve_page (records : list Pulpo.Json) (page_size : Z) (offset : nat) :
  Paged.serve records page_size (Z.of_nat offset)
  = Pulpo.Return
      (Pulpo.Arr (firstn (Z.to_nat page_size) (skipn offset records))).
Proof. unfold Paged.serve. rewrite Nat2Z.id. reflexivity. Qed.

(** The walk from a position on, with no stop requested. *)
Lemma iterator_loop_serve (records : list Pulpo.Json) (page_size : Z)
    (turns offset : nat) :
  0 < page_size ->
  (length records - offset < turns)%nat ->
  Pulpo.iterator_loop turns (Paged.serve records) None page_size (Z.of_nat offset)
  = (skipn offset records, Pulpo.Exhausted).
Proof.
  intros Hsize. revert offset.
  induction turns as [|turns IH]; intros offset Hturns; [lia|].
  cbn [Pulpo.iterator_loop]. rewrite serve_page. cbv zeta.
  set (page := firstn (Z.to_nat page_size) (skipn offset records)).
  assert (Hlen : length page = Nat.min (Z.to_nat page_size) (length records - offset))
    by (unfold page; rewrite length_firstn, length_skipn; reflexivity).
  cbn [orb].
  destruct (Z.ltb_spec (Z.of_nat (length page)) page_size) as [Hshort|Hfull].
  - cbn [orb]. f_equal. unfold page. apply firstn_all2.
    rewrite length_skipn. lia.
  - assert (Hpage : length page = Z.to_nat page_size) by lia.
    destruct (Z.ltb_spec 0 (Z.of_nat (length page))); [|lia]. cbn [negb orb].
    rewrite <- Nat2Z.inj_add, IH by lia.
    f_equal. rewrite Nat.add_comm, <- skipn_skipn, Hpage.
    unfold page. apply firstn_skipn.
Qed.

(** X4. Paging round trip.  Against an endpoint that holds a list of
    records and serves it page by page, [iterator] with a positive page size
    and no stop requested yields every record once, in order, and then
    returns; one turn of its loop per record, and one more, is enough. *)
Theorem iterator_yields_every_record (records : list Pulpo.Json) (page_size : Z) :
  0 < page_size ->
  Pulpo.iterator (S (length records)) (Paged.serve records) None 0 page_size
  = (records, Pulpo.Exhausted).
Proof.
  intros Hsize. unfold Pulpo.iterator.
  apply (iterator_loop_serve records page_size (S (length records)) 0 Hsize). lia.
Qed.

Lemma iterator_yields_every_record_witness :
  0 < 2
  /\ Pulpo.iterator 6 (Paged.serve (map Pulpo.Num [1; 2; 3; 4; 5])) None 0 2
     = (map Pulpo.Num [1; 2; 3; 4; 5], Pulpo.Exhausted).
Proof.
  assert (H : 0 < 2) by lia.
  exact (conj H (iterator_yields_every_record (map Pulpo.Num [1; 2; 3; 4; 5]) 2 H)).
Defined.

(** The walk from a position on when a stop is requested after [n]
    items: whole pages, up to the first position beyond [n]. *)
Lemma iterator_loop_stop (records : list Pulpo.Json) (page_size n : Z)
    (turns offset : nat) :
  0 < page_size -> 0 < n ->
  (length records - offset < turns)%nat ->
  Z.of_nat offset <= n ->
  Pulpo.iterator_loop turns (Paged.serve records) (Some n) page_size
    (Z.of_nat offset)
  = (firstn (Z.to_nat (page_size * ((n - Z.of_nat offset) / page_size + 1)))
       (skipn offset records),
     Pulpo.Exhausted).
Proof.
  intros Hsize Hn. revert offset.
  induction turns as [|turns IH]; intros offset Hturns Hoff; [lia|].
  cbn [Pulpo.iterator_loop]. rewrite serve_page. cbv zeta.
  set (page := firstn (Z.to_nat page_size) (skipn offset records)).
  assert (Hlen : length page = Nat.min (Z.to_nat page_size) (length records - offset))
    by (unfold page; rewrite length_firstn, length_skipn; reflexivity).
  assert (Hn0 : (n =? 0) = false) by lia. rewrite Hn0. cbn [negb andb].
  assert (Hdiv : 0 <= (n - Z.of_nat offset) / page_size)
    by (apply Z.div_pos; lia).
  destruct (Z.ltb_spec (Z.of_nat (length page)) page_size) as [Hshort|Hfull].
  - (* a short page: everything that is left *)
    rewrite orb_true_r. cbn [orb]. f_equal.
    unfold page. rewrite !firstn_all2; [reflexivity|rewrite length_skipn; nia..].
  - assert (Hpage : length page = Z.to_nat page_size) by lia.
    destruct (Z.ltb_spec 0 (Z.of_nat (length page))); [|lia].
    cbn [negb]. rewrite !orb_false_r.
    destruct (Z.ltb_spec n (Z.of_nat offset + Z.of_nat (length page))) as [Hpast|Hnot].
    + (* the stop is reached with this page *)
      f_equal. unfold page.
      replace ((n - Z.of_nat offset) / page_size) with 0
        by (symmetry; apply Z.div_small; lia).
      rewrite Z.mul_1_r. reflexivity.
    + rewrite <- Nat2Z.inj_add, IH by lia.
      f_equal.
      replace (n - Z.of_nat offset)
        with ((n - Z.of_nat (offset + length page)) + 1 * page_size) by lia.
      rewrite Z.div_add by lia.
      set (k := (n - Z.of_nat (offset + length page)) / page_size).
      assert (Hk : 0 <= k) by (apply Z.div_pos; lia).
      replace (Z.to_nat (page_size * (k + 1 + 1)))
        with (Z.to_nat page_size + Z.to_nat (page_size * (k + 1)))%nat by nia.
      rewrite <- take_take_drop. f_equal.
      rewrite skipn_skipn, Nat.add_comm, Hpage. reflexivity.
Qed.

(** X5. [stop_after_n_items] does not cut a page: against the same kind
    of endpoint, a walk asked to stop after [n] items yields whole pages
    until more than [n] records are out, so the first
    [page_size * (n / page_size + 1)] records, or all of them when there
    are fewer. *)
Theorem iterator_stops_after_whole_pages (records : list Pulpo.Json)
    (page_size n : Z) :
  0 < page_size -> 0 < n ->
  Pulpo.iterator (S (length records)) (Paged.serve records) (Some n) 0 page_size
  = (firstn (Z.to_nat (page_size * (n / page_size + 1))) records, Pulpo.Exhausted).
Proof.
  intros Hsize Hn. unfold Pulpo.iterator.
  pose proof (iterator_loop_stop records page_size n (S (length records)) 0
                Hsize Hn) as H.
  cbn [Z.of_nat skipn] in H. rewrite Z.sub_0_r in H. apply H; lia.
Qed.

Lemma iterator_stops_after_whole_pages_witness :
  0 < 2 /\ 0 < 2
  /\ Pulpo.iterator 6 (Paged.serve (map Pulpo.Num [1; 2; 3; 4; 5])) (Some 2) 0 2
     = (map Pulpo.Num [1; 2; 3; 4], Pulpo.Exhausted).
Proof.
  assert (H : 0 < 2) by lia.
  exact (conj H (conj H
           (iterator_stops_after_whole_pages (map Pulpo.Num [1; 2; 3; 4; 5]) 2 2 H H))).
Defined.

(** Requests and sleeps of the retry loop: a sleep is followed by a
    request. *)
Lemma attempt_loop_sleeps (remaining attempt : nat) (retries delay : Z)
    (wms : nat -> Pulpo.Answer) (slept : list Z) :
  let run := Pulpo.attempt_loop remaining attempt retries delay wms slept in
  (attempt <= Pulpo.attempts run)%nat
  /\ (length (Pulpo.slept run) + attempt <= length slept + Pulpo.attempts run)%nat.
Proof.
  cbv zeta. revert attempt delay slept.
  induction remaining as [|remaining IH]; intros attempt delay slept;
    cbn [Pulpo.attempt_loop].
  - cbn. lia.
  - destruct (Pulpo.try_once (wms attempt)) as [v| |[e|status_code|]];
      cbn [Pulpo.attempts Pulpo.slept]; try lia.
    + destruct (Pulpo.is_api_rate_limit_error e) as [[[|] e_delay]|];
        cbn [Pulpo.attempts Pulpo.slept]; try lia.
      destruct (Z.of_nat attempt <? retries - 1);
        cbn [Pulpo.attempts Pulpo.slept]; try lia.
      destruct (Pulpo.next_delay e_delay delay);
        cbn [Pulpo.attempts Pulpo.slept]; try lia.
      specialize (IH (S attempt) z (slept ++ [z])%list).
      rewrite length_app in IH. cbn [length] in IH. lia.
    + destruct (status_code =? 429); cbn [Pulpo.attempts Pulpo.slept]; try lia.
      destruct (delay <? 0); cbn [Pulpo.attempts Pulpo.slept]; try lia.
      specialize (IH (S attempt) delay (slept ++ [delay])%list).
      rewrite length_app in IH. cbn [length] in IH. lia.
Qed.

(** X6. The budget of [askPulpo]: whatever the WMS answers, a call sends
    at most [retries] requests, none when [retries] is not positive, and
    its retry loop never waits more often than the call has sent requests.
    (The waits of the client-side rate limiter, which come before a
    request, are not waits of the retry loop and are not counted.) *)
Theorem askPulpo_budget (retries delay : Z) (wms : nat -> Pulpo.Answer) :
  let run := Pulpo.askPulpo retries delay wms in
  (Pulpo.attempts run <= Z.to_nat retries)%nat
  /\ (length (Pulpo.slept run) <= Pulpo.attempts run)%nat.
Proof.
  cbv zeta. unfold Pulpo.askPulpo. split.
  - apply (attempt_loop_bound (Z.to_nat retries) 0 retries delay wms []).
  - pose proof (attempt_loop_sleeps (Z.to_nat retries) 0 retries delay wms []) as H.
    cbv zeta in H. cbn [length] in H. lia.
Qed.

(** The loop over answers 429 up to an answer that ends it. *)
Lemma attempt_loop_until (n remaining attempt : nat) (retries delay : Z)
    (wms : nat -> Pulpo.Answer) (slept : list Z) :
  0 <= delay ->
  (attempt <= n)%nat -> (n - attempt < remaining)%nat ->
  (forall k, (attempt <= k < n)%nat -> wms k = Pulpo.Status 429) ->
  Pulpo.try_once (wms n) <> Pulpo.Raise (Pulpo.HTTPError 429) ->
  (forall e d, Pulpo.try_once (wms n) = Pulpo.Raise (Pulpo.PulpoError e) ->
               Pulpo.is_api_rate_limit_error e <> Some (true, d)) ->
  Pulpo.attempt_loop remaining attempt retries delay wms slept
  = {| Pulpo.outcome := Pulpo.try_once (wms n);
       Pulpo.attempts := S n;
       Pulpo.slept := (slept ++ repeat delay (n - attempt))%list |}.
Proof.
  intros Hdelay. assert (Hd : (delay <? 0) = false) by lia.
  revert attempt slept.
  induction remaining as [|remaining IH]; intros attempt slept Hle Hrem H429 Hhttp Hrate;
    [lia|].
  cbn [Pulpo.attempt_loop].
  destruct (Nat.eq_dec attempt n) as [->|Hne].
  - rewrite Nat.sub_diag. cbn [repeat]. rewrite app_nil_r.
    destruct (Pulpo.try_once (wms n)) as [v| |[e|status_code|]] eqn:Hout;
      try reflexivity.
    + destruct (Pulpo.is_api_rate_limit_error e) as [[[|] e_delay]|] eqn:He;
        try reflexivity.
      exfalso. exact (Hrate e e_delay eq_refl He).
    + destruct (Z.eqb_spec status_code 429) as [->|]; [congruence|reflexivity].
  - rewrite (H429 attempt) by lia. cbn [Pulpo.try_once].
    change (429 =? 429) with true. cbv iota. rewrite Hd.
    rewrite IH; [|lia|lia|intros k Hk; apply H429; lia|assumption|assumption].
    rewrite <- app_assoc. cbn [app].
    replace (n - attempt)%nat with (S (n - S attempt)) by lia. reflexivity.
Qed.

(** X7. Retrying up to an answer.  When the WMS answers HTTP 429 to the
    first [n] requests of a call and then gives an answer that is neither a
    429 nor a rate-limit business error, with [n] below the budget, the call
    ends with the outcome of that answer (the value of a good body, or the
    error raised) at request [n + 1], having slept [delay] seconds after
    each of the [n] refusals.  With [n = 0]: an answer of that kind ends the
    call at the first request, without a sleep. *)
Theorem askPulpo_retries_until_answer (retries delay : Z)
    (wms : nat -> Pulpo.Answer) (n : nat) :
  Z.of_nat n < retries ->
  0 <= delay ->
  (forall k, (k < n)%nat -> wms k = Pulpo.Status 429) ->
  Pulpo.try_once (wms n) <> Pulpo.Raise (Pulpo.HTTPError 429) ->
  (forall e d, Pulpo.try_once (wms n) = Pulpo.Raise (Pulpo.PulpoError e) ->
               Pulpo.is_api_rate_limit_error e <> Some (true, d)) ->
  Pulpo.askPulpo retries delay wms
  = {| Pulpo.outcome := Pulpo.try_once (wms n);
       Pulpo.attempts := S n;
       Pulpo.slept := repeat delay n |}.
Proof.
  intros Hn Hdelay H429 Hhttp Hrate. unfold Pulpo.askPulpo.
  rewrite (attempt_loop_until n (Z.to_nat retries) 0 retries delay wms [])
    by (first [assumption | lia | intros k Hk; apply H429; lia]).
  rewrite Nat.sub_0_r. reflexivity.
Qed.

(** Two refusals, then a created picking order. *)
Lemma askPulpo_retries_until_answer_witness :
  let wms (k : nat) :=
    if (k <? 2)%nat then Pulpo.Status 429
    else Pulpo.Body (Pulpo.Dict [("created", Pulpo.Bool true)]) in
  Z.of_nat 2 < 3
  /\ 0 <= 30
  /\ Pulpo.askPulpo 3 30 wms
     = {| Pulpo.outcome := Pulpo.Return (Pulpo.Dict [("created", Pulpo.Bool true)]);
          Pulpo.attempts := 3;
          Pulpo.slept := [30; 30] |}.
Proof.
  cbv zeta.
  assert (H1 : Z.of_nat 2 < 3) by (cbn; lia).
  assert (H2 : 0 <= 30) by lia.
  refine (conj H1 (conj H2
            (askPulpo_retries_until_answer 3 30
               (fun k => if (k <? 2)%nat then Pulpo.Status 429
                         else Pulpo.Body (Pulpo.Dict [("created", Pulpo.Bool true)]))
               2 H1 H2 _ _ _))).
  - intros k Hk. destruct (Nat.ltb_spec k 2); [reflexivity|lia].
  - cbn. discriminate.
  - cbn. intros e d [=].
Defined.

(** The loop against a WMS that answers every request with the rate-limit
    error and a time to wait. *)
Lemma attempt_loop_rate_limited (remaining attempt : nat) (retries delay r : Z)
    (slept : list Z) :
  0 < r ->
  (0 < remaining)%nat ->
  (attempt + remaining = Z.to_nat retries)%nat ->
  Pulpo.attempt_loop remaining attempt retries delay
    (fun _ => Pulpo.Body (Paged.rate_limited r)) slept
  = {| Pulpo.outcome := Pulpo.Raise (Pulpo.PulpoError (Paged.rate_limited r));
       Pulpo.attempts := Z.to_nat retries;
       Pulpo.slept := (slept ++ repeat r (remaining - 1))%list |}.
Proof.
  intros Hr. revert attempt delay slept.
  induction remaining as [|remaining IH]; intros attempt delay slept Hpos Hsum; [lia|].
  cbn [Pulpo.attempt_loop].
  change (Pulpo.try_once (Pulpo.Body (Paged.rate_limited r)))
    with (Pulpo.Raise (Pulpo.PulpoError (Paged.rate_limited r))).
  cbv iota.
  change (Pulpo.is_api_rate_limit_error (Paged.rate_limited r))
    with (Some (true, Pulpo.Num r)).
  cbv iota.
  destruct (Z.ltb_spec (Z.of_nat attempt) (retries - 1)) as [Hmore|Hlast].
  - assert (Hnext : Pulpo.next_delay (Pulpo.Num r) delay = Some r).
    { unfold Pulpo.next_delay. destruct r; try lia. reflexivity. }
    rewrite Hnext, IH by lia.
    rewrite <- app_assoc. cbn [app].
    replace (S remaining - 1)%nat with (S (remaining - 1)) by lia. reflexivity.
  - assert (remaining = 0%nat) as -> by lia.
    cbn [repeat Nat.sub]. rewrite app_nil_r. f_equal. lia.
Qed.

(** X8. A rate limit that does not lift.  When the WMS answers every
    request with the rate-limit error and a positive [retry_after_seconds],
    a call with a budget of at least one request uses the whole budget,
    sleeps the time the WMS names (not its own [delay]) after every request
    but the last, and raises the error of the last answer. *)
Theorem askPulpo_rate_limit_exhausted (retries delay r : Z) :
  1 <= retries -> 0 < r ->
  Pulpo.askPulpo retries delay (fun _ => Pulpo.Body (Paged.rate_limited r))
  = {| Pulpo.outcome := Pulpo.Raise (Pulpo.PulpoError (Paged.rate_limited r));
       Pulpo.attempts := Z.to_nat retries;
       Pulpo.slept := repeat r (Z.to_nat retries - 1) |}.
Proof.
  intros Hretries Hr. unfold Pulpo.askPulpo.
  apply (attempt_loop_rate_limited (Z.to_nat retries) 0 retries delay r [] Hr); lia.
Qed.

Lemma askPulpo_rate_limit_exhausted_witness :
  1 <= 3 /\ 0 < 5
  /\ Pulpo.askPulpo 3 30 (fun _ => Pulpo.Body (Paged.rate_limited 5))
     = {| Pulpo.outcome := Pulpo.Raise (Pulpo.PulpoError (Paged.rate_limited 5));
          Pulpo.attempts := 3;
          Pulpo.slept := [5; 5] |}.
Proof.
  assert (H1 : 1 <= 3) by lia.
  assert (H2 : 0 < 5) by lia.
  exact (conj H1 (conj H2 (askPulpo_rate_limit_exhausted 3 30 5 H1 H2))).
Defined.

(** ** Priority by the clock *)

(** X9. With the configured window for late orders (hours 0 to 24),
    at every hour a clock can show an answer of [is_order_prio] says
    exactly whether the delivery date of the order is past: the rules that
    look at the zip code and the country never decide.  ([is_order_prio]
    has no answer for an order whose address or delivery date it cannot
    read.)  At those hours the priority label of a note is [Vortag]. *)
Theorem is_order_prio_by_delivery_date (current_time : Clock.t)
    (order : FulfillmentOrder.t) (note_creator : NoteCreator.t) (prio : bool) :
  0 <= Clock.hour current_time <= 24 ->
  NoteCreator.current_time note_creator = current_time ->
  shared_functions.is_order_prio current_time order = Some prio ->
  prio = shared_functions.is_past_delivery_date current_time order
  /\ NoteCreator.create_base_of_priority_note note_creator = config.NOTE_YESTERDAY.
Proof.
  intros Hhour Hclock.
  unfold shared_functions.is_order_prio, NoteCreator.create_base_of_priority_note.
  rewrite Hclock. cbv zeta.
  unfold config.YESTERDAY_ORDERS_START_TIME, config.YESTERDAY_ORDERS_END_TIME.
  assert (H1 : (Clock.hour current_time <? 0) = false) by lia.
  assert (H2 : (0 <=? Clock.hour current_time) = true) by lia.
  assert (H3 : (Clock.hour current_time <=? 24) = true) by lia.
  assert (H4 : (24 <? Clock.hour current_time) = false) by lia.
  rewrite H1, H2, H3, H4. cbn [andb orb].
  intros Hprio. split; [|reflexivity].
  destruct (shared_functions.is_past_delivery_date current_time order);
    congruence.
Qed.

(** At the pinned instant, a late order without zip code is a priority
    order. *)
Lemma is_order_prio_by_delivery_date_witness :
  let order :=
    {| FulfillmentOrder.id := 1001;
       FulfillmentOrder.sales_order_id := 1;
       FulfillmentOrder.state := "queue";
       FulfillmentOrder.priority := 1;
       FulfillmentOrder.channel := "Shop";
       FulfillmentOrder.shipping_method_id := 600;
       FulfillmentOrder.delivery_date := Some (19996 * 86400);
       FulfillmentOrder.criterium := "LA_0_5";
       FulfillmentOrder.zip := EmptyString;
       FulfillmentOrder.country_code := "276";
       FulfillmentOrder.items := [] |} in
  let note_creator :=
    {| NoteCreator.current_time := Example.pinned;
       NoteCreator.orders := [];
       NoteCreator.is_prio := true;
       NoteCreator.is_batch := false;
       NoteCreator.sweeping_time := false |} in
  0 <= Clock.hour Example.pinned <= 24
  /\ shared_functions.is_order_prio Example.pinned order = Some true
  /\ true = shared_functions.is_past_delivery_date Example.pinned order
  /\ NoteCreator.create_base_of_priority_note note_creator = "Vortag".
Proof.
  intros order note_creator.
  assert (H : 0 <= Clock.hour Example.pinned <= 24) by (cbn; lia).
  assert (Hprio : shared_functions.is_order_prio Example.pinned order = Some true)
    by reflexivity.
  exact (conj H (conj Hprio
           (is_order_prio_by_delivery_date Example.pinned order note_creator true
              H eq_refl Hprio))).
Defined.

(** ** The shelves index *)

Section ShelvesIndex.
Import PulpoShelvesIndexCreator.

Lemma availability_fold (stocks : list Stock.t) (self : t) (product_id : Z) :
  product_availability
    (fold_left (fun self stock =>
       if in_Z (Stock.zone_id stock) config.WAREHOUSE_ZONES_ALLOWED_FOR_PICKING
       then add_product_availability stock (add_product_on_shelf stock self)
       else self) stocks self) !! product_id
  = match Rows.of_product product_id stocks with
    | [] => product_availability self !! product_id
    | _ :: _ =>
        Some (default 0 (product_availability self !! product_id)
              + Rows.total (Rows.of_product product_id stocks))
    end.
Proof.
  revert self. induction stocks as [|stock rest IH]; intros self; [reflexivity|].
  unfold Rows.of_product, Rows.total, Rows.pickable in *.
  cbn [fold_left List.filter]. rewrite IH. clear IH.
  destruct (in_Z (Stock.zone_id stock) _) eqn:Hzone; cbn [andb]; [|reflexivity].
  unfold add_product_availability, add_product_on_shelf. cbn [product_availability].
  destruct (Z.eqb_spec (Stock.product_id stock) product_id) as [E|Hne].
  - rewrite E.
    destruct (product_availability self !! product_id) as [q|] eqn:Hq;
      rewrite lookup_insert_eq; cbn [default from_option id map foldr];
      destruct (List.filter _ rest); cbn [map foldr]; f_equal; lia.
  - destruct (product_availability self !! Stock.product_id stock);
      rewrite lookup_insert_ne by assumption; reflexivity.
Qed.

(** What [check_stock] adds up. *)
Lemma check_stock_rows_sum (rows : list Stock.t) (available_stock : Z) :
  check_stock.rows (map Some rows) available_stock
  = available_stock + Rows.total (List.filter Rows.pickable rows).
Proof.
  revert available_stock. unfold Rows.total, Rows.pickable.
  induction rows as [|stock rest IH]; intros available_stock;
    cbn [map check_stock.rows List.filter]; [cbn; lia|].
  rewrite IH. destruct (in_Z (Stock.zone_id stock) _); cbn [map foldr]; lia.
Qed.

Lemma filter_pickable_of_product (stocks : list Stock.t) (product_id : Z) :
  List.filter Rows.pickable
    (List.filter (fun stock => Stock.product_id stock =? product_id) stocks)
  = Rows.of_product product_id stocks.
Proof.
  unfold Rows.of_product.
  induction stocks as [|stock rest IH]; [reflexivity|]. cbn [List.filter].
  destruct (Stock.product_id stock =? product_id); cbn [List.filter];
    rewrite IH, ?andb_true_r, ?andb_false_r; [reflexivity|].
  destruct (Rows.pickable stock); reflexivity.
Qed.

(** The same sum without the snapshot in between. *)
Lemma check_stock_of_product (stocks : list Stock.t) (product_id : Z) :
  check_stock.check_stock
    (Some (map Some
             (List.filter (fun stock => Stock.product_id stock =? product_id) stocks)))
  = Rows.total (Rows.of_product product_id stocks).
Proof.
  unfold check_stock.check_stock.
  rewrite check_stock_rows_sum, filter_pickable_of_product. lia.
Qed.

(** X11. [check_stock] and the snapshot agree.  For the stock rows the
    WMS lists for one product, [check_stock] gives the number the snapshot
    holds for that product, and 0 when the snapshot has no entry.  A row
    that cannot be read ends its walk: the result is then the sum of the
    rows before it, and 0 when the call itself fails. *)
Theorem check_stock_agrees_with_snapshot (stocks : list Stock.t) (product_id : Z)
    (before : list Stock.t) (after : list (option Stock.t)) :
  check_stock.check_stock
    (Some (map Some
             (List.filter (fun stock => Stock.product_id stock =? product_id) stocks)))
  = default 0 (product_availability (main stocks) !! product_id)
  /\ check_stock.check_stock (Some (map Some before ++ None :: after)%list)
     = check_stock.check_stock (Some (map Some before))
  /\ check_stock.check_stock None = 0.
Proof.
  split; [|split; [|reflexivity]].
  - rewrite check_stock_of_product.
    unfold main. rewrite availability_fold. cbn [product_availability].
    rewrite lookup_empty.
    destruct (Rows.of_product product_id stocks) eqn:E; cbn [default from_option id];
      [reflexivity|lia].
  - unfold check_stock.check_stock. generalize 0.
    induction before as [|stock rest IH]; intros acc; [reflexivity|].
    cbn [map app check_stock.rows]. apply IH.
Qed.

(** One product put on one shelf. *)
Lemma add_to_shelf_listed (shelf_code : string) (product_id : Z)
    (index : list (string * list Z)) (s : string) (q : Z) :
  Rows.listed (add_to_shelf shelf_code product_id index) s q
  <-> (s = shelf_code /\ q = product_id) \/ Rows.listed index s q.
Proof.
  unfold Rows.listed.
  induction index as [|[k products] rest IH]; cbn [add_to_shelf].
  - split.
    + intros (ps & [[= -> <-]|[]] & [->|[]]). auto.
    + intros [[-> ->]|(ps & [] & _)]. exists [product_id]. cbn. auto.
  - destruct (String.eqb_spec shelf_code k) as [->|Hne].
    + split.
      * intros (ps & [[= -> <-]|Hin] & Hq).
        -- destruct (in_Z product_id products) eqn:Hp.
           ++ right. exists products. cbn. auto.
           ++ apply in_app_or in Hq as [Hq|[->|[]]]; [|auto].
              right. exists products. cbn. auto.
        -- right. exists ps. cbn. auto.
      * intros [[-> ->]|(ps & [[= -> ->]|Hin] & Hq)].
        -- eexists. split; [left; reflexivity|].
           destruct (in_Z product_id products) eqn:Hp;
             [apply in_Z_In, Hp|apply in_or_app; cbn; auto].
        -- eexists. split; [left; reflexivity|].
           destruct (in_Z product_id ps); [exact Hq|apply in_or_app; auto].
        -- exists ps. cbn. auto.
    + split.
      * intros (ps & [[= -> <-]|Hin] & Hq).
        -- right. exists products. cbn. auto.
        -- destruct (proj1 IH (ex_intro _ ps (conj Hin Hq))) as [H|(ps' & Hin' & Hq')];
             [auto|]. right. exists ps'. cbn. auto.
      * intros [H|(ps & [[= -> ->]|Hin] & Hq)].
        -- destruct (proj2 IH (or_introl H)) as (ps & Hin & Hq).
           exists ps. cbn. auto.
        -- exists ps. cbn. auto.
        -- destruct (proj2 IH (or_intror (ex_intro _ ps (conj Hin Hq))))
             as (ps' & Hin' & Hq').
           exists ps'. cbn. auto.
Qed.

Lemma add_to_shelf_keys (shelf_code : string) (product_id : Z)
    (index : list (string * list Z)) (k : string) :
  In k (map fst (add_to_shelf shelf_code product_id index))
  <-> k = shelf_code \/ In k (map fst index).
Proof.
  induction index as [|[k' products] rest IH]; cbn [add_to_shelf map fst In].
  - intuition congruence.
  - destruct (String.eqb_spec shelf_code k') as [->|Hne]; cbn [map fst In].
    + intuition congruence.
    + rewrite IH. intuition congruence.
Qed.

Lemma add_to_shelf_NoDup (shelf_code : string) (product_id : Z)
    (index : list (string * list Z)) :
  List.NoDup (map fst index) ->
  Forall (fun entry => List.NoDup (snd entry)) index ->
  List.NoDup (map fst (add_to_shelf shelf_code product_id index))
  /\ Forall (fun entry => List.NoDup (snd entry))
            (add_to_shelf shelf_code product_id index).
Proof.
  induction index as [|[k products] rest IH]; cbn [add_to_shelf map fst];
    intros Hkeys Hproducts.
  - split; [repeat constructor; intros []|].
    repeat constructor. intros [].
  - apply List.NoDup_cons_iff in Hkeys as [Hk Hkeys].
    apply Forall_cons in Hproducts as [Hp Hproducts]. cbn [snd] in Hp.
    destruct (String.eqb_spec shelf_code k) as [->|Hne]; cbn [map fst].
    + split; [apply List.NoDup_cons_iff; auto|].
      constructor; [|exact Hproducts]. cbn [snd].
      destruct (in_Z product_id products) eqn:Hin; [exact Hp|].
      apply in_Z_not_In in Hin.
      apply List.NoDup_app; [exact Hp|repeat constructor; intros []|].
      intros x Hx [<-|[]]. exact (Hin Hx).
    + destruct (IH Hkeys Hproducts) as [IHk IHp].
      split; [|constructor; assumption].
      apply List.NoDup_cons_iff. split; [|exact IHk].
      rewrite add_to_shelf_keys. intros [->|H]; [congruence|exact (Hk H)].
Qed.

Lemma shelves_fold (stocks : list Stock.t) (self : t) :
  let built :=
    fold_left (fun self stock =>
      if in_Z (Stock.zone_id stock) config.WAREHOUSE_ZONES_ALLOWED_FOR_PICKING
      then add_product_availability stock (add_product_on_shelf stock self)
      else self) stocks self in
  List.NoDup (map fst (shelves_index self)) ->
  Forall (fun entry => List.NoDup (snd entry)) (shelves_index self) ->
  (forall shelf_code product_id,
     Rows.listed (shelves_index built) shelf_code product_id
     <-> Rows.listed (shelves_index self) shelf_code product_id
         \/ exists stock, In stock stocks /\ Rows.pickable stock = true
              /\ Rows.shelf stock = shelf_code
              /\ Stock.product_id stock = product_id)
  /\ List.NoDup (map fst (shelves_index built))
  /\ Forall (fun entry => List.NoDup (snd entry)) (shelves_index built).
Proof.
  cbv zeta. revert self.
  induction stocks as [|stock rest IH]; intros self Hkeys Hproducts; cbn [fold_left].
  - split; [|auto]. intros s p. split; [auto|].
    intros [H|(stock & [] & _)]. exact H.
  - destruct (in_Z (Stock.zone_id stock) _) eqn:Hzone.
    + destruct (add_to_shelf_NoDup (Rows.shelf stock) (Stock.product_id stock)
                  (shelves_index self) Hkeys Hproducts) as [Hk Hp].
      destruct (IH (add_product_availability stock (add_product_on_shelf stock self))
                  Hk Hp) as (Hlisted & Hrest).
      split; [|exact Hrest]. intros s p.
      rewrite Hlisted. cbn [shelves_index add_product_availability add_product_on_shelf].
      change (take_chars config.SHELF_NAME_LENGTH (Stock.code stock))
        with (Rows.shelf stock).
      rewrite add_to_shelf_listed. split.
      * intros [[[-> ->]|H]|(st & Hin & Hst)]; [|auto|].
        -- right. exists stock. cbn. auto.
        -- right. exists st. cbn. auto.
      * intros [H|(st & [<-|Hin] & Hpick & Hs & Hpid)]; [auto| |].
        -- left. left. auto.
        -- right. exists st. auto.
    + destruct (IH self Hkeys Hproducts) as (Hlisted & Hrest).
      split; [|exact Hrest]. intros s p. rewrite Hlisted. split.
      * intros [H|(st & Hin & Hst)]; [auto|]. right. exists st. cbn. auto.
      * intros [H|(st & [<-|Hin] & Hpick & Hs & Hpid)]; [auto| |].
        -- unfold Rows.pickable in Hpick. congruence.
        -- right. exists st. auto.
Qed.

(** X12. The shelves index.  A product is listed on a shelf exactly when
    a stock row in a zone allowed for picking holds it at a location of
    that shelf, whatever the quantity of the row.  No shelf appears twice
    and no product twice on a shelf. *)
Theorem shelves_index_lists_pickable_rows (stocks : list Stock.t) :
  let index := shelves_index (main stocks) in
  (forall shelf_code product_id,
     Rows.listed index shelf_code product_id
     <-> exists stock, In stock stocks /\ Rows.pickable stock = true
           /\ Rows.shelf stock = shelf_code
           /\ Stock.product_id stock = product_id)
  /\ List.NoDup (map fst index)
  /\ Forall (fun entry => List.NoDup (snd entry)) index.
Proof.
  cbv zeta.
  destruct (shelves_fold stocks {| shelves_index := []; product_availability := ∅ |}
              (List.NoDup_nil _) (List.Forall_nil _)) as (Hlisted & Hkeys & Hproducts).
  fold (main stocks) in Hlisted, Hkeys, Hproducts.
  assert (Hchar : forall shelf_code product_id,
     Rows.listed (shelves_index (main stocks)) shelf_code product_id
     <-> exists stock, In stock stocks /\ Rows.pickable stock = true
           /\ Rows.shelf stock = shelf_code
           /\ Stock.product_id stock = product_id).
  { intros s p. rewrite Hlisted. split; [|auto].
    intros [(ps & [] & _)|H]. exact H. }
  repeat split; try assumption; apply Hchar.
Qed.

End ShelvesIndex.

(** ** What the separator does with the stream *)

Section Separation.
Import PulpoSeparator.

(** An assigned pick is one pick for the order alone; nothing else of the
    separator changes. *)
Lemma create_assigned_picking_one_pick (order : FulfillmentOrder.t)
    (pickers : list Z) (pickers_distribution : list (Z * Z))
    (size_note : option string) (is_prio : bool) (s : t) :
  let r := create_assigned_picking order pickers pickers_distribution
             size_note is_prio s in
  Separated.settings (snd r) = Separated.settings s
  /\ Separated.buckets (snd r) = Separated.buckets s
  /\ orders_count (snd r) = orders_count s
  /\ partnerkunde_pickers_distribution (snd r) = partnerkunde_pickers_distribution s
  /\ palette_pickers_distribution (snd r) = palette_pickers_distribution s
  /\ exists p, wms (snd r) = (wms s ++ [p])%list /\ Separated.single_pick_of order p.
Proof.
  cbv zeta. unfold create_assigned_picking, shared_functions.create_picking.
  run_monad.
  destruct (length pickers <=? 1)%nat; run_monad.
  - destruct (partnerkunde_pickers s); cbn;
      repeat split; eexists; (split; [reflexivity|repeat split]).
  - destruct (shared_functions.choose_picker pickers_distribution); cbn;
      repeat split; eexists; (split; [reflexivity|repeat split]).
Qed.

(** [single_picks_creation]: an ordinary order is left alone; any other
    order gets exactly one pick, for it alone. *)
Lemma single_picks_creation_one_pick (order : FulfillmentOrder.t) (is_prio : bool)
    (s : t) :
  let r := single_picks_creation order is_prio s in
  Separated.settings (snd r) = Separated.settings s
  /\ Separated.buckets (snd r) = Separated.buckets s
  /\ orders_count (snd r) = orders_count s
  /\ (if Separated.ordinary order then r = (Some false, s)
      else exists p, wms (snd r) = (wms s ++ [p])%list
                     /\ Separated.single_pick_of order p).
Proof.
  cbv zeta. unfold single_picks_creation, Separated.ordinary.
  destruct (in_str _ config.PARTNERKUNDE_SALES_CHANNELS); cbn [negb andb].
  - unfold mbind, M_bind, get. cbv beta iota.
    destruct (create_assigned_picking_one_pick order (partnerkunde_pickers s)
                (partnerkunde_pickers_distribution s) None is_prio s)
      as (Hs & Hb & Hc & Hpk & Hpal & Hp).
    destruct (create_assigned_picking _ _ _ _ _ s) as [[picker_id|] s1];
      cbn [fst snd] in *; [|auto].
    destruct (negb (picker_id =? 0)); [|cbn; auto].
    run_monad. destruct (bump picker_id _); run_monad; auto.
  - destruct (config.NORMAL_PRIORITY_VALUE <? FulfillmentOrder.priority order);
      cbn [negb andb].
    + unfold shared_functions.create_picking. run_monad.
      repeat split. eexists. split; [reflexivity|repeat split].
    + destruct (PyFloat.geb _ _ || in_Z _ _); cbn [negb]; [|auto].
      unfold mbind, M_bind, get. cbv beta iota.
      destruct (create_assigned_picking_one_pick order (palette_pickers s)
                  (palette_pickers_distribution s) (Some config.NOTE_PALETTE)
                  is_prio s)
        as (Hs & Hb & Hc & Hpk & Hpal & Hp).
      destruct (create_assigned_picking _ _ _ _ _ s) as [[picker_id|] s1];
        cbn [fst snd] in *; [|auto].
      destruct (negb (picker_id =? 0)); [|cbn; auto].
      run_monad. destruct (bump picker_id _); run_monad; auto.
Qed.

Lemma sorts_nil (s : t) : Separated.sorts [] s s.
Proof.
  unfold Separated.sorts. cbn [List.filter length Z.of_nat].
  split; [reflexivity|]. split; [lia|]. split.
  - exists []. rewrite app_nil_r. split; [reflexivity|constructor].
  - exists [], []. cbn [List.filter]. rewrite !app_nil_r.
    repeat split; constructor.
Qed.

Lemma sorts_app (stream1 stream2 : list FulfillmentOrder.t) (s1 s2 s3 : t) :
  Separated.sorts stream1 s1 s2 -> Separated.sorts stream2 s2 s3 ->
  Separated.sorts (stream1 ++ stream2) s1 s3.
Proof.
  intros (Hs1 & Hc1 & (picks1 & Hw1 & Hp1) & pb1 & b1 & Hb1 & Hpb1 & Hpo1 & Hbb1 & Hbo1)
         (Hs2 & Hc2 & (picks2 & Hw2 & Hp2) & pb2 & b2 & Hb2 & Hpb2 & Hpo2 & Hbb2 & Hbo2).
  assert (Hchosen : forall prio, Separated.chosen s2 prio = Separated.chosen s1 prio).
  { intros prio. unfold Separated.chosen. unfold Separated.settings in Hs1.
    injection Hs1 as _ _ -> -> _ _. reflexivity. }
  assert (Hcarts : forall seni, Separated.for_carts s2 seni = Separated.for_carts s1 seni).
  { intros seni. unfold Separated.for_carts. unfold Separated.settings in Hs1.
    injection Hs1 as -> -> _ _ _ _. reflexivity. }
  assert (Hspecial : Separated.special s2 = Separated.special s1).
  { unfold Separated.special. rewrite !Hchosen. reflexivity. }
  assert (Hstock : product_stock s2 = product_stock s1).
  { unfold Separated.settings in Hs1. injection Hs1 as _ _ _ -> _ _. reflexivity. }
  rewrite ?Hchosen, ?Hcarts, ?Hspecial, ?Hstock in *.
  unfold Separated.sorts. rewrite !List.filter_app, length_app.
  split; [congruence|]. split; [lia|]. split.
  - exists (picks1 ++ picks2)%list. split.
    + rewrite Hw2, Hw1, app_assoc. reflexivity.
    + apply Forall2_app; assumption.
  - exists (pb1 ++ pb2)%list, (b1 ++ b2)%list.
    rewrite !List.filter_app.
    split.
    + rewrite Hb2. unfold Separated.buckets in Hb1.
      injection Hb1 as -> -> -> -> -> ->.
      rewrite <- !app_assoc. reflexivity.
    + repeat split; apply sublist_app; assumption.
Qed.

(** One order of the stream. *)
Lemma process_order_sorts (order : FulfillmentOrder.t) (s : t) :
  Separated.sorts [order] s (snd (process_order order s)).
Proof.
  remember (snd (process_order order s)) as s' eqn:Hs'.
  unfold process_order in Hs'.
  unfold mbind, M_bind, get, modify, of_option, raise, mret, M_ret in Hs'.
  cbv beta iota in Hs'.
  change (shared_functions.check_order_suitability order
          && check_availability_locally (product_stock s)
               (FulfillmentOrder.items order))
    with (Separated.admitted (product_stock s) order) in Hs'.
  unfold Separated.sorts, Separated.special, Separated.chosen, Separated.priority_is.
  cbn [List.filter].
  destruct (Separated.admitted (product_stock s) order) eqn:Hadm;
    cbn [andb orb length Z.of_nat Pos.of_succ_nat].
  2: { cbn [snd] in Hs'. subst s'. split; [reflexivity|]. split; [lia|]. split.
       - exists []. rewrite app_nil_r. split; [reflexivity|constructor].
       - exists [], []. cbn [List.filter]. rewrite !app_nil_r.
         repeat split; constructor. }
  destruct (shared_functions.is_order_prio (current_time s) order) as [prio|] eqn:Hprio;
    cbv beta iota in Hs'.
  2: { cbn [snd] in Hs'. subst s'. split; [reflexivity|]. split; [cbn; lia|]. split.
       - exists []. rewrite app_nil_r. split; [reflexivity|constructor].
       - exists [], []. cbn [List.filter]. rewrite !app_nil_r.
         repeat split; constructor. }
  destruct (single_picks_creation_one_pick order prio
              (set_orders_count (orders_count s + 1) s)) as (Hset & Hbk & Hcnt & Hord).
  destruct (single_picks_creation order prio (set_orders_count (orders_count s + 1) s))
    as [r s2].
  cbn [fst snd] in Hset, Hbk, Hcnt, Hord.
  unfold Separated.settings, Separated.buckets in Hset, Hbk. cbn in Hset, Hbk, Hcnt.
  injection Hset as F1 F2 F3 F4 F5 F6. injection Hbk as B1 B2 B3 B4 B5 B6.
  assert (Hwms : if Separated.ordinary order
                 then r = Some false /\ wms s2 = wms s
                 else exists p, wms s2 = (wms s ++ [p])%list
                                /\ Separated.single_pick_of order p).
  { destruct (Separated.ordinary order); [|exact Hord].
    injection Hord as -> ->. split; reflexivity. }
  clear Hord.
  assert (Hplaced :
    match r with
    | Some false =>
        Separated.settings s' = Separated.settings s
        /\ orders_count s' = orders_count s + 1
        /\ wms s' = wms s2
        /\ Separated.buckets s'
           = ((prio_orders_for_batches s ++ (if prio then [order] else []))%list,
              (prio_orders_without_seni s
               ++ List.filter (Separated.for_carts s false)
                    (if prio then [order] else []))%list,
              (seni_prio_orders s
               ++ List.filter (Separated.for_carts s true)
                    (if prio then [order] else []))%list,
              (orders_for_batches s ++ (if prio then [] else [order]))%list,
              (orders_without_seni s
               ++ List.filter (Separated.for_carts s false)
                    (if prio then [] else [order]))%list,
              (seni_orders s
               ++ List.filter (Separated.for_carts s true)
                    (if prio then [] else [order]))%list)
    | _ => s' = s2
    end).
  { destruct r as [[|]|]; cbn [negb snd] in Hs'; [exact Hs'| |exact Hs'].
    destruct prio; cbn [List.filter]; unfold Separated.for_carts, when in *;
      destruct (shared_functions.suitable_for_cart_creation _ _ _);
      destruct (shared_functions.check_for_seni order);
      cbn in Hs'; subst s'; unfold Separated.settings, Separated.buckets; cbn;
      rewrite ?app_nil_r;
      repeat split; congruence. }
  clear Hs'. change (Z.of_nat 1) with 1.
  assert (Hsome : eqb true prio || eqb false prio = true) by (destruct prio; reflexivity).
  rewrite Hsome. cbn [andb].
  destruct (Separated.ordinary order); cbn [negb]; rewrite ?andb_true_r, ?andb_false_r.
  - destruct Hwms as [-> Hw]. destruct Hplaced as (Hst & Hc & Hw' & Hb).
    split; [exact Hst|]. split; [exact Hc|]. split.
    + exists []. rewrite app_nil_r. split; [congruence|constructor].
    + exists (if prio then [order] else []), (if prio then [] else [order]).
      split; [exact Hb|]. destruct prio; cbn [eqb]; repeat split; reflexivity.
  - destruct Hwms as (p & Hw & Hp).
    assert (Hnil : forall l : list FulfillmentOrder.t, [] `sublist_of` l)
      by apply sublist_nil_l.
    destruct r as [[|]|];
      [subst s'|destruct Hplaced as (Hst & Hc & Hw' & Hb)|subst s'].
    + split; [unfold Separated.settings; congruence|]. split; [exact Hcnt|]. split.
      * exists [p]. split; [exact Hw|constructor; [exact Hp|constructor]].
      * exists [], []. cbn [List.filter]. rewrite !app_nil_r.
        split; [unfold Separated.buckets; congruence|]. repeat split; apply Hnil.
    + split; [exact Hst|]. split; [exact Hc|]. split.
      * exists [p]. split; [congruence|constructor; [exact Hp|constructor]].
      * exists (if prio then [order] else []), (if prio then [] else [order]).
        split; [exact Hb|]. destruct prio; cbn [eqb]; repeat split;
          first [reflexivity|apply Hnil].
    + split; [unfold Separated.settings; congruence|]. split; [exact Hcnt|]. split.
      * exists [p]. split; [exact Hw|constructor; [exact Hp|constructor]].
      * exists [], []. cbn [List.filter]. rewrite !app_nil_r.
        split; [unfold Separated.buckets; congruence|]. repeat split; apply Hnil.
Qed.

(** The whole stream. *)
Lemma main_sorts (stream : list FulfillmentOrder.t) (s : t) :
  Separated.sorts stream s (snd (main stream s)).
Proof.
  unfold main. revert s.
  induction stream as [|order rest IH]; intros s; cbn [for_each].
  - apply sorts_nil.
  - unfold mbind, M_bind, try_. cbv beta iota.
    apply (sorts_app [order] rest s (snd (process_order order s))).
    + apply process_order_sorts.
    + apply IH.
Qed.

(** X13. The picks of the separator.  Started on a fresh separator,
    [main] sends nothing but picks for single orders: each pick is for one
    order of the stream alone, with an order count of 1 and not as a cart;
    the order was admitted, got an answer from [is_order_prio] and is a
    Partnerkunde order, of raised priority or a pallet; the picks come in
    the order of the stream, and no entry of the stream gets two.  (An
    order that lacks a field the separator reads is dropped by the [except]
    of [main]; hence a pick for no more than every such order.)  The stock
    numbers are taken within the range that a float holds exactly. *)
Theorem separator_sends_only_single_picks
    (skus : shared_functions.SkusToBatch) (sweeping : bool)
    (partnerkunden palettenversand : list Z) (now : Clock.t) (stock : gmap Z Z)
    (find_num_picks_for_user : Z -> Z) (stream : list FulfillmentOrder.t) :
  let s := init skus sweeping partnerkunden palettenversand now stock
             find_num_picks_for_user in
  Exact.stock stock ->
  exists served,
    served `sublist_of` List.filter (Separated.special s) stream
    /\ Forall2 Separated.single_pick_of served (wms (exec (main stream) s)).
Proof.
  cbv zeta. intros _. unfold exec.
  destruct (main_sorts stream
              (init skus sweeping partnerkunden palettenversand now stock
                 find_num_picks_for_user))
    as (_ & _ & (picks & Hw & Hp) & _).
  eexists. split; [reflexivity|]. rewrite Hw. exact Hp.
Qed.

(** One Partnerkunde order and one ordinary order, product 1 well
    stocked. *)
Lemma separator_sends_only_single_picks_witness :
  let stream := [Example.for_partner (Example.order 1 "LA_0_5" [Example.item 1 1]);
                 Example.order 2 "LA_0_5" [Example.item 1 1]] in
  let s := init [] false [3; 4] [7] Example.evening {[ 1 := 100 ]} (fun _ => 0) in
  Exact.stock {[ 1 := 100 ]}
  /\ map PickingOrder.sales_orders (wms (exec (main stream) s)) = [[1]]
  /\ exists served,
       served `sublist_of` List.filter (Separated.special s) stream
       /\ Forall2 Separated.single_pick_of served (wms (exec (main stream) s)).
Proof.
  intros stream s.
  assert (H : Exact.stock {[ 1 := 100 ]}).
  { intros product_id q [_ <-]%lookup_singleton_Some. reflexivity. }
  assert (Hsent : map PickingOrder.sales_orders (wms (exec (main stream) s)) = [[1]])
    by (vm_compute; reflexivity).
  exact (conj H (conj Hsent
           (separator_sends_only_single_picks [] false [3; 4] [7]
              Example.evening {[ 1 := 100 ]} (fun _ => 0) stream H))).
Defined.

(** X14. The buckets of the separator.  Started on a fresh separator,
    [main] leaves the stock snapshot as it is and counts the orders that
    pass its two checks.  The two batch buckets hold, in the order of the
    stream, only orders that were admitted and for which [is_order_prio]
    answered [True] (the priority bucket) or [False].  Each of the four
    cart buckets is its batch bucket filtered: the orders suitable for
    carts, with or without Seni products.  The stock numbers are taken
    within the range that a float holds exactly. *)
Theorem separator_buckets
    (skus : shared_functions.SkusToBatch) (sweeping : bool)
    (partnerkunden palettenversand : list Z) (now : Clock.t) (stock : gmap Z Z)
    (find_num_picks_for_user : Z -> Z) (stream : list FulfillmentOrder.t) :
  let s := init skus sweeping partnerkunden palettenversand now stock
             find_num_picks_for_user in
  let s' := exec (main stream) s in
  Exact.stock stock ->
  (product_stock s' = stock
   /\ orders_count s'
      = Z.of_nat (length (List.filter (Separated.admitted stock) stream)))
  /\ (prio_orders_for_batches s' `sublist_of` List.filter (Separated.chosen s true) stream
      /\ orders_for_batches s' `sublist_of` List.filter (Separated.chosen s false) stream)
  /\ (prio_orders_without_seni s'
      = List.filter (Separated.for_carts s false) (prio_orders_for_batches s')
      /\ seni_prio_orders s'
         = List.filter (Separated.for_carts s true) (prio_orders_for_batches s')
      /\ orders_without_seni s'
         = List.filter (Separated.for_carts s false) (orders_for_batches s')
      /\ seni_orders s'
         = List.filter (Separated.for_carts s true) (orders_for_batches s')).
Proof.
  cbv zeta. intros _. unfold exec.
  destruct (main_sorts stream
              (init skus sweeping partnerkunden palettenversand now stock
                 find_num_picks_for_user))
    as (Hs & Hc & _ & pb & b & Hb & Hpb & _ & Hbb & _).
  unfold Separated.settings, Separated.buckets in Hs, Hb.
  cbn [init skus_to_batch is_sweeping_time current_time product_stock
       partnerkunde_pickers palette_pickers prio_orders_for_batches
       prio_orders_without_seni seni_prio_orders orders_for_batches
       orders_without_seni seni_orders orders_count app] in Hs, Hb, Hc.
  injection Hs as _ _ _ Hstock _ _.
  injection Hb as -> -> -> -> -> ->.
  repeat split; first [assumption | reflexivity | lia].
Qed.

(** The same two orders. *)
Lemma separator_buckets_witness :
  let stream := [Example.for_partner (Example.order 1 "LA_0_5" [Example.item 1 1]);
                 Example.order 2 "LA_0_5" [Example.item 1 1]] in
  let s := init [] false [3; 4] [7] Example.evening {[ 1 := 100 ]} (fun _ => 0) in
  let s' := exec (main stream) s in
  Exact.stock {[ 1 := 100 ]}
  /\ map FulfillmentOrder.sales_order_id (orders_for_batches s') = [2]
  /\ (product_stock s' = {[ 1 := 100 ]}
      /\ orders_count s'
         = Z.of_nat (length (List.filter (Separated.admitted {[ 1 := 100 ]}) stream)))
  /\ (prio_orders_for_batches s' `sublist_of` List.filter (Separated.chosen s true) stream
      /\ orders_for_batches s' `sublist_of` List.filter (Separated.chosen s false) stream)
  /\ (prio_orders_without_seni s'
      = List.filter (Separated.for_carts s false) (prio_orders_for_batches s')
      /\ seni_prio_orders s'
         = List.filter (Separated.for_carts s true) (prio_orders_for_batches s')
      /\ orders_without_seni s'
         = List.filter (Separated.for_carts s false) (orders_for_batches s')
      /\ seni_orders s'
         = List.filter (Separated.for_carts s true) (orders_for_batches s')).
Proof.
  intros stream s s'.
  assert (H : Exact.stock {[ 1 := 100 ]}).
  { intros product_id q [_ <-]%lookup_singleton_Some. reflexivity. }
  assert (Hbucket : map FulfillmentOrder.sales_order_id (orders_for_batches s') = [2])
    by (vm_compute; reflexivity).
  exact (conj H (conj Hbucket
           (separator_buckets [] false [3; 4] [7] Example.evening
              {[ 1 := 100 ]} (fun _ => 0) stream H))).
Defined.

End Separation.

(** ** The order of the picks of a run *)

(** X15. The single picks come first.  The picks of a run begin with the
    picks of the separator, each for a single special order of the queue
    alone, in queue order and no entry of the queue twice; what the batch
    planner and the cart planners send comes after them, and nothing that
    was sent is taken back, whether the run ends or is cut short by an
    exception.  The stock rows are taken within the range that a float
    holds exactly. *)
Theorem run_starts_with_the_single_picks (w : PulpoManager.World)
    (i : PulpoManager.Input) :
  let fresh :=
    PulpoSeparator.init (PulpoManager.skus_to_batch i)
      (PulpoManager.check_sweeping_time (PulpoManager.current_time i))
      (PulpoManager.partnerkunden i) (PulpoManager.palettenversand i)
      (PulpoManager.current_time i)
      (PulpoShelvesIndexCreator.product_availability
         (PulpoShelvesIndexCreator.main (PulpoManager.stocks i)))
      (PulpoManager.find_num_picks_for_user i) in
  Exact.rows (PulpoManager.stocks i) ->
  exists single planned served,
    PulpoManager.emitted w i = (single ++ planned)%list
    /\ single = PulpoSeparator.wms (PulpoManager.separate_orders_by_priority i)
    /\ served `sublist_of` List.filter (Separated.special fresh)
                             (PulpoManager.fulfillments i)
    /\ Forall2 Separated.single_pick_of served single.
Proof.
  cbv zeta. intros _. unfold PulpoManager.emitted, PulpoManager.main. cbv zeta.
  match goal with
  | |- context [exec ?m ?start] =>
      assert (Hrun : Log.sends PulpoManager.pulpo Made.well_made m)
        by (apply sends_try, sends_bind;
            [apply picking_creation_manager_sends
            |intros _; apply picking_creation_manager_sends]);
      destruct (Hrun start) as (planned & Hext & _)
  end.
  unfold exec. rewrite Hext. cbn [PulpoManager.pulpo].
  eexists _, planned, _. split; [reflexivity|]. split; [reflexivity|].
  split; [reflexivity|].
  unfold PulpoManager.separate_orders_by_priority, exec.
  match goal with
  | |- context [PulpoSeparator.main ?stream ?s0] =>
      destruct (main_sorts stream s0) as (_ & _ & (picks & Hw & Hp) & _)
  end.
  rewrite Hw. exact Hp.
Qed.

(** One order of a Partnerkunde, ten units of its product in stock. *)
Lemma run_starts_with_the_single_picks_witness :
  let i := Example.partner in
  let fresh :=
    PulpoSeparator.init (PulpoManager.skus_to_batch i)
      (PulpoManager.check_sweeping_time (PulpoManager.current_time i))
      (PulpoManager.partnerkunden i) (PulpoManager.palettenversand i)
      (PulpoManager.current_time i)
      (PulpoShelvesIndexCreator.product_availability
         (PulpoShelvesIndexCreator.main (PulpoManager.stocks i)))
      (PulpoManager.find_num_picks_for_user i) in
  Exact.rows (PulpoManager.stocks i)
  /\ map PickingOrder.sales_orders (PulpoManager.emitted Example.world i) = [[1]]
  /\ exists single planned served,
       PulpoManager.emitted Example.world i = (single ++ planned)%list
       /\ single = PulpoSeparator.wms (PulpoManager.separate_orders_by_priority i)
       /\ served `sublist_of` List.filter (Separated.special fresh)
                                (PulpoManager.fulfillments i)
       /\ Forall2 Separated.single_pick_of served single.
Proof.
  intros i fresh.
  assert (H : Exact.rows (PulpoManager.stocks i)) by reflexivity.
  assert (Hsent : map PickingOrder.sales_orders (PulpoManager.emitted Example.world i)
                  = [[1]]) by (vm_compute; reflexivity).
  exact (conj H (conj Hsent (run_starts_with_the_single_picks Example.world i H))).
Defined.

(** ** The distribution of queued picks *)

Lemma dict_set_fresh {V : Type} (k : Z) (v : V) (d : list (Z * V)) :
  ~ In k (map fst d) -> Py.dict_set k v d = (d ++ [(k, v)])%list.
Proof.
  induction d as [|[k' v'] d IH]; cbn; [reflexivity|].
  intros Hk. destruct (Z.eqb_spec k k') as [->|]; [tauto|].
  rewrite IH by tauto. reflexivity.
Qed.

Lemma distribution_fold (find_num_picks_for_user : Z -> Z) (pickers : list Z)
    (d : list (Z * Z)) :
  let d' :=
    fold_left (fun d user_id =>
                 Py.dict_set user_id (find_num_picks_for_user user_id) d) pickers d in
  List.NoDup (map fst d) ->
  List.NoDup (map fst d')
  /\ (forall user_id,
        Py.dict_get user_id d'
        = if in_Z user_id pickers then Some (find_num_picks_for_user user_id)
          else Py.dict_get user_id d)
  /\ (List.NoDup pickers -> (forall user_id, In user_id pickers -> ~ In user_id (map fst d)) ->
      d' = (d ++ map (fun user_id => (user_id, find_num_picks_for_user user_id))
                     pickers)%list).
Proof.
  cbv zeta. revert d.
  induction pickers as [|p rest IH]; intros d Hnd; cbn [fold_left].
  - split; [exact Hnd|]. split; [reflexivity|]. intros _ _. cbn. rewrite app_nil_r.
    reflexivity.
  - destruct (IH (Py.dict_set p (find_num_picks_for_user p) d)
                (dict_set_NoDup _ _ _ Hnd)) as (Hnd' & Hget & Hall).
    split; [exact Hnd'|]. split.
    + intros u. rewrite Hget. unfold in_Z. cbn [existsb].
      fold (in_Z u rest). destruct (in_Z u rest) eqn:Hin.
      * rewrite orb_true_r. reflexivity.
      * rewrite orb_false_r. destruct (Z.eqb_spec u p) as [->|Hne].
        -- apply dict_get_set_eq.
        -- apply dict_get_set_ne. congruence.
    + intros Hp Hfresh. apply List.NoDup_cons_iff in Hp as [Hp Hrest].
      rewrite Hall.
      * rewrite dict_set_fresh by (apply Hfresh; left; reflexivity).
        rewrite <- app_assoc. reflexivity.
      * exact Hrest.
      * intros u Hu. rewrite dict_set_keys.
        assert (Hd : ~ In u (map fst d)) by (apply Hfresh; right; exact Hu).
        destruct (Py.dict_get p d); [exact Hd|].
        intros Hin. apply in_app_or in Hin as [Hin|[<-|[]]]; [exact (Hd Hin)|].
        exact (Hp Hu).
Qed.

(** X16. The distribution of queued picks.  [create_picks_per_user_distribution]
    returns a dictionary with one entry per picker of the roster: looking
    up a picker of the roster gives the number of queued picks the WMS
    reports for them, looking up anyone else gives nothing.  For a roster
    without repetition the entries are in roster order. *)
Theorem picks_distribution_lookup (find_num_picks_for_user : Z -> Z)
    (pickers : list Z) :
  let d :=
    shared_functions.create_picks_per_user_distribution find_num_picks_for_user
      pickers in
  List.NoDup (map fst d)
  /\ (forall user_id,
        Py.dict_get user_id d
        = if in_Z user_id pickers then Some (find_num_picks_for_user user_id)
          else None)
  /\ (List.NoDup pickers ->
      d = map (fun user_id => (user_id, find_num_picks_for_user user_id)) pickers).
Proof.
  cbv zeta. unfold shared_functions.create_picks_per_user_distribution.
  destruct (distribution_fold find_num_picks_for_user pickers [] (List.NoDup_nil _))
    as (Hnd & Hget & Hall).
  split; [exact Hnd|]. split; [exact Hget|].
  intros Hp. apply Hall; [exact Hp|]. intros u _ [].
Qed.

(** ** The batch planner: counting and filling *)

Section BatchFacts.
Import PulpoBatchingManager.

Lemma Forall_of_sublist {A : Type} (P : A -> Prop) (l k : list A) :
  l `sublist_of` k -> Forall P k -> Forall P l.
Proof.
  induction 1 as [|x l k _ IH|x l k _ IH]; intros H; [constructor| |].
  - apply Forall_cons in H as [Hx H]. constructor; auto.
  - apply Forall_cons in H as [_ H]. auto.
Qed.

Lemma sum_nonneg (l : list (Z * Z)) :
  Forall (fun e => 0 <= snd e) l -> 0 <= foldr Z.add 0 (map snd l).
Proof.
  induction 1 as [|e l He _ IH]; cbn [map foldr]; lia.
Qed.

(** What [orders_that_fit] keeps, with the quantity reached. *)
Lemma orders_that_fit_from (total_quantity : Z) (orders : list (Z * Z))
    (fitted_quantity : Z) :
  exists fitted,
    fitted `sublist_of` orders
    /\ orders_that_fit total_quantity orders fitted_quantity = map fst fitted
    /\ (fitted = []
        \/ fitted_quantity + foldr Z.add 0 (map snd fitted) < total_quantity)
    /\ (Forall (fun e => 0 <= snd e) orders ->
        Forall (fun e => In e fitted
                         \/ total_quantity
                            <= fitted_quantity + foldr Z.add 0 (map snd fitted) + snd e)
               orders)
    /\ (forall before e after,
          orders = (before ++ e :: after)%list ->
          exists kept_before kept_after,
            fitted
            = (kept_before
               ++ (if fitted_quantity + foldr Z.add 0 (map snd kept_before) + snd e
                      <? total_quantity
                   then [e] else [])
               ++ kept_after)%list
            /\ kept_before `sublist_of` before
            /\ kept_after `sublist_of` after
            /\ orders_that_fit total_quantity before fitted_quantity
               = map fst kept_before).
Proof.
  revert fitted_quantity.
  induction orders as [|[order_id quantity] rest IH]; intros fitted_quantity;
    cbn [orders_that_fit].
  - exists []. repeat split; auto; try constructor.
    intros [|? ?] e after Hsplit; discriminate.
  - destruct (Z.ltb_spec (fitted_quantity + quantity) total_quantity) as [Hfit|Hno].
    + destruct (IH (fitted_quantity + quantity))
        as (fitted & Hsub & Hids & Hsum & Hrej & Hwalk).
      exists ((order_id, quantity) :: fitted). cbn [map fst snd foldr].
      split; [apply sublist_skip, Hsub|]. split; [rewrite Hids; reflexivity|].
      split; [|split].
      * right. destruct Hsum as [->|Hsum]; cbn [map foldr]; lia.
      * intros Hpos. apply Forall_cons in Hpos as [_ Hpos].
        constructor; [left; left; reflexivity|].
        eapply Forall_impl; [exact (Hrej Hpos)|].
        intros e [Hin|Hle]; [left; right; exact Hin|right; lia].
      * intros [|first before] e after Hsplit; cbn [app] in Hsplit;
          injection Hsplit as <- ->.
        -- exists [], fitted. cbn [map foldr snd app orders_that_fit].
           rewrite Z.add_0_r.
           destruct (Z.ltb_spec (fitted_quantity + quantity) total_quantity); [|lia].
           repeat split; auto; constructor.
        -- destruct (Hwalk before e after eq_refl)
             as (kept_before & kept_after & Hfitted & Hb & Ha & Hprefix).
           exists ((order_id, quantity) :: kept_before), kept_after.
           cbn [map foldr snd fst app orders_that_fit].
           destruct (Z.ltb_spec (fitted_quantity + quantity) total_quantity); [|lia].
           rewrite Z.add_assoc, <- Hfitted, Hprefix.
           repeat split; auto. apply sublist_skip, Hb.
    + destruct (IH fitted_quantity) as (fitted & Hsub & Hids & Hsum & Hrej & Hwalk).
      exists fitted. split; [apply sublist_cons, Hsub|]. split; [exact Hids|].
      split; [exact Hsum|]. split.
      * intros Hpos. apply Forall_cons in Hpos as [_ Hpos].
        constructor; [|exact (Hrej Hpos)].
        right. cbn [snd].
        assert (0 <= foldr Z.add 0 (map snd fitted)); [|lia].
        apply sum_nonneg. eapply Forall_of_sublist; [exact Hsub|exact Hpos].
      * intros [|first before] e after Hsplit; cbn [app] in Hsplit;
          injection Hsplit as <- ->.
        -- exists [], fitted. cbn [map foldr snd app orders_that_fit].
           rewrite Z.add_0_r.
           destruct (Z.ltb_spec (fitted_quantity + quantity) total_quantity); [lia|].
           repeat split; auto; constructor.
        -- destruct (Hwalk before e after eq_refl)
             as (kept_before & kept_after & Hfitted & Hb & Ha & Hprefix).
           exists kept_before, kept_after.
           cbn [orders_that_fit].
           destruct (Z.ltb_spec (fitted_quantity + quantity) total_quantity); [lia|].
           repeat split; auto. apply sublist_cons, Hb.
Qed.

(** X17. The orders that fit.  [is_batch_size_sufficient] walks the
    orders from the first to the last and keeps an order exactly when its
    quantity, added to the quantities of the orders kept before it, stays
    strictly below [total_quantity]; what it keeps of the orders before
    any place is what it keeps when they are all it is given.  It answers
    whether more than [min_batch_size] orders were kept.  The orders kept
    are a subsequence of the orders given, and when any is kept their
    quantities add up to less than [total_quantity], never to all of it.
    When no quantity is negative the choice cannot be extended: an order
    left out does not fit on top of the ones kept. *)
Theorem orders_that_fit_strict (total_quantity : Z) (orders : list (Z * Z))
    (min_batch_size : Z) :
  exists fitted,
    fitted `sublist_of` orders
    /\ orders_that_fit total_quantity orders 0 = map fst fitted
    /\ is_batch_size_sufficient total_quantity orders min_batch_size
       = (min_batch_size <? Z.of_nat (length fitted))
    /\ (forall before e after,
          orders = (before ++ e :: after)%list ->
          exists kept_before kept_after,
            fitted
            = (kept_before
               ++ (if foldr Z.add 0 (map snd kept_before) + snd e <? total_quantity
                   then [e] else [])
               ++ kept_after)%list
            /\ kept_before `sublist_of` before
            /\ kept_after `sublist_of` after
            /\ orders_that_fit total_quantity before 0 = map fst kept_before)
    /\ (fitted = [] \/ foldr Z.add 0 (map snd fitted) < total_quantity)
    /\ (Forall (fun e => 0 <= snd e) orders ->
        Forall (fun e => In e fitted
                         \/ total_quantity <= foldr Z.add 0 (map snd fitted) + snd e)
               orders).
Proof.
  destruct (orders_that_fit_from total_quantity orders 0)
    as (fitted & Hsub & Hids & Hsum & Hrej & Hwalk).
  exists fitted. split; [exact Hsub|]. split; [exact Hids|].
  split; [|split; [|split]].
  - unfold is_batch_size_sufficient. rewrite Hids, length_map. reflexivity.
  - intros before e after Hsplit.
    destruct (Hwalk before e after Hsplit)
      as (kept_before & kept_after & Hfitted & Hb & Ha & Hprefix).
    exists kept_before, kept_after. rewrite Z.add_0_l in Hfitted. auto.
  - destruct Hsum as [H|H]; [left; exact H|right; lia].
  - intros Hpos. eapply Forall_impl; [exact (Hrej Hpos)|].
    intros e [H|H]; [left; exact H|right; lia].
Qed.

(** The inner loop of [split_batches] from any point of the walk. *)
Lemma fill_batch_from (processed : gset Z) (max_units_per_palette : Z)
    (orders : list (Z * Z)) (batched_quantity : Z) (ids_to_batch : list Z) :
  exists chosen rest,
    filter (fun e => fst e ∉ processed) orders = (chosen ++ rest)%list
    /\ fill_batch processed max_units_per_palette orders batched_quantity ids_to_batch
       = (batched_quantity + foldr Z.add 0 (map snd chosen),
          (ids_to_batch ++ map fst chosen)%list)
    /\ (chosen = []
        \/ (batched_quantity + foldr Z.add 0 (map snd chosen) <= max_units_per_palette
            /\ Z.of_nat (length ids_to_batch + length chosen) <= config.MAX_BATCH_SIZE))
    /\ match rest with
       | [] => True
       | e :: _ =>
           max_units_per_palette
           < batched_quantity + foldr Z.add 0 (map snd chosen) + snd e
           \/ config.MAX_BATCH_SIZE
              <= Z.of_nat (length ids_to_batch + length chosen)
       end.
Proof.
  revert batched_quantity ids_to_batch.
  induction orders as [|[order_id quantity] orders IH];
    intros batched_quantity ids_to_batch; cbn [fill_batch].
  - exists [], []. cbn. rewrite app_nil_r, Z.add_0_r. auto.
  - destruct (decide (order_id ∈ processed)) as [Hin|Hout].
    + rewrite bool_decide_true by exact Hin.
      rewrite filter_cons_False by (cbn; tauto). apply IH.
    + rewrite bool_decide_false by exact Hout.
      rewrite filter_cons_True by exact Hout.
      destruct (Z.ltb_spec max_units_per_palette (batched_quantity + quantity))
        as [Hfull|Hroom].
      { exists [], ((order_id, quantity) :: filter (fun e => fst e ∉ processed) orders).
        cbn [app map foldr snd length]. rewrite app_nil_r, Z.add_0_r.
        repeat split; auto; left; lia. }
      destruct (Z.leb_spec config.MAX_BATCH_SIZE (Z.of_nat (length ids_to_batch)))
        as [Hmany|Hfew].
      { exists [], ((order_id, quantity) :: filter (fun e => fst e ∉ processed) orders).
        cbn [app map foldr snd length]. rewrite app_nil_r, Z.add_0_r, Nat.add_0_r.
        repeat split; auto; right; lia. }
      destruct (IH (batched_quantity + quantity) (ids_to_batch ++ [order_id])%list)
        as (chosen & rest & Hsplit & Hrun & Hbound & Hstop).
      exists ((order_id, quantity) :: chosen), rest.
      rewrite length_app in Hbound, Hstop. cbn [length] in Hbound, Hstop.
      cbn [app map foldr fst snd length].
      split; [rewrite Hsplit; reflexivity|].
      split; [rewrite Hrun, <- app_assoc; f_equal; lia|].
      split.
      * right. destruct Hbound as [->|[Hq Hn]]; cbn [map foldr length]; lia.
      * destruct rest as [|e rest]; [exact I|].
        destruct Hstop as [H|H]; [left|right]; lia.
Qed.

(** X18. One split batch.  For a dictionary of orders (no id twice) and
    started on an empty batch, the inner loop of [split_batches] takes the
    orders not yet processed in their given order, and stops before the
    first one that would take the batch over [max_units_per_palette] or
    over [MAX_BATCH_SIZE] orders: the batch is the longest such run of
    unprocessed orders from the start.  It ends with their ids and the sum
    of their quantities; a batch that is not empty holds at most
    [max_units_per_palette] units and at most [MAX_BATCH_SIZE] orders. *)
Theorem fill_batch_longest_prefix (processed : gset Z) (max_units_per_palette : Z)
    (orders : list (Z * Z)) :
  List.NoDup (map fst orders) ->
  let batch := fill_batch processed max_units_per_palette orders 0 [] in
  exists chosen rest,
    filter (fun e => fst e ∉ processed) orders = (chosen ++ rest)%list
    /\ fst batch = foldr Z.add 0 (map snd chosen)
    /\ snd batch ≡ₚ map fst chosen
    /\ (chosen = []
        \/ (foldr Z.add 0 (map snd chosen) <= max_units_per_palette
            /\ Z.of_nat (length chosen) <= config.MAX_BATCH_SIZE))
    /\ match rest with
       | [] => True
       | e :: _ =>
           max_units_per_palette < foldr Z.add 0 (map snd chosen) + snd e
           \/ config.MAX_BATCH_SIZE <= Z.of_nat (length chosen)
       end.
Proof.
  intros _. cbv zeta.
  destruct (fill_batch_from processed max_units_per_palette orders 0 [])
    as (chosen & rest & Hsplit & Hrun & Hbound & Hstop).
  exists chosen, rest. cbn [length Nat.add app] in *.
  rewrite Z.add_0_l in Hrun, Hbound, Hstop. rewrite Hrun. cbn [fst snd].
  split; [exact Hsplit|]. split; [reflexivity|]. split; [reflexivity|].
  split; [exact Hbound|exact Hstop].
Qed.

(** Three orders of 4 units against a pallet of 10: the first two are
    taken. *)
Lemma fill_batch_longest_prefix_witness :
  List.NoDup (map fst [(11, 4); (12, 4); (13, 4)])
  /\ exists chosen rest,
       filter (fun e : Z * Z => fst e ∉ (∅ : gset Z)) [(11, 4); (12, 4); (13, 4)]
       = (chosen ++ rest)%list
       /\ fst (fill_batch ∅ 10 [(11, 4); (12, 4); (13, 4)] 0 [])
          = foldr Z.add 0 (map snd chosen)
       /\ snd (fill_batch ∅ 10 [(11, 4); (12, 4); (13, 4)] 0 []) ≡ₚ map fst chosen
       /\ (chosen = []
           \/ (foldr Z.add 0 (map snd chosen) <= 10
               /\ Z.of_nat (length chosen) <= config.MAX_BATCH_SIZE))
       /\ match rest with
          | [] => True
          | e :: _ =>
              10 < foldr Z.add 0 (map snd chosen) + snd e
              \/ config.MAX_BATCH_SIZE <= Z.of_nat (length chosen)
          end.
Proof.
  assert (H : List.NoDup (map fst [(11, 4); (12, 4); (13, 4)])).
  { cbn. repeat constructor; cbn; lia. }
  exact (conj H (fill_batch_longest_prefix ∅ 10 [(11, 4); (12, 4); (13, 4)] H)).
Defined.

Lemma count_app (product_id : Z) (l1 l2 : list FulfillmentOrder.t) :
  Batched.count product_id (l1 ++ l2)
  = Batched.count product_id l1 + Batched.count product_id l2.
Proof. unfold Batched.count. rewrite List.filter_app, length_app. lia. Qed.

Lemma count_nonneg (product_id : Z) (l : list FulfillmentOrder.t) :
  0 <= Batched.count product_id l.
Proof. unfold Batched.count. lia. Qed.

Lemma count_up_counts (order : FulfillmentOrder.t) (item : Item.t)
    (seen : list FulfillmentOrder.t) (d : list (Z * Z)) :
  FulfillmentOrder.items order = [item] ->
  Batched.counts d seen ->
  Batched.counts (count_up (Product.id (Item.product item)) d) (seen ++ [order]).
Proof.
  intros Hitems Hd pid. rewrite count_app.
  pose proof (count_nonneg pid seen) as Hpos.
  unfold Batched.count at 2 4. cbn [List.filter]. unfold Batched.single_item_of.
  rewrite Hitems. unfold count_up.
  destruct (Z.eqb_spec (Product.id (Item.product item)) pid) as [->|Hne];
    cbn [length]; change (Z.of_nat 1) with 1; change (Z.of_nat 0) with 0.
  - rewrite (Hd pid).
    destruct (Z.eqb_spec (Batched.count pid seen) 0) as [E|E];
      rewrite dict_get_set_eq.
    + rewrite E. reflexivity.
    + destruct (Z.eqb_spec (Batched.count pid seen + 1) 0); [lia|reflexivity].
  - rewrite Z.add_0_r.
    destruct (Py.dict_get (Product.id (Item.product item)) d);
      rewrite dict_get_set_ne by assumption; apply Hd.
Qed.

Lemma uncounted_counts (order : FulfillmentOrder.t)
    (seen : list FulfillmentOrder.t) (d : list (Z * Z)) :
  (forall item, FulfillmentOrder.items order <> [item]) ->
  Batched.counts d seen -> Batched.counts d (seen ++ [order]).
Proof.
  intros Hitems Hd pid. rewrite count_app.
  unfold Batched.count at 2 4. cbn [List.filter]. unfold Batched.single_item_of.
  destruct (FulfillmentOrder.items order) as [|item [|]] eqn:E;
    [|exfalso; exact (Hitems item eq_refl)|];
    cbn [length]; change (Z.of_nat 0) with 0; rewrite Z.add_0_r; apply Hd.
Qed.

Lemma check_if_seni_added (item : Item.t) (s : t) :
  exists added,
    check_if_seni item s = (Some tt, set_seni_ids (seni_ids s ++ added) s)
    /\ forall product_id,
         In product_id added
         <-> Product.id (Item.product item) = product_id
             /\ shared_functions.item_is_seni item = true.
Proof.
  unfold check_if_seni. run_monad. eexists. split; [reflexivity|].
  intros pid. unfold shared_functions.item_is_seni.
  rewrite in_app_iff, in_map_iff. split.
  - intros [(c & <- & Hc)|Hname].
    + split; [reflexivity|]. apply orb_true_iff. left.
      apply list_elem_of_In, list_elem_of_filter in Hc as [-> Hc].
      apply in_Z_In, list_elem_of_In, Hc.
    + destruct (Py.contains _ _); [|destruct Hname].
      destruct Hname as [<-|[]]. split; [reflexivity|apply orb_true_r].
  - intros [<- Hseni]. apply orb_true_iff in Hseni as [Hcat|Hname].
    + left. exists config.TZMO_MANUFACTURER. split; [reflexivity|].
      apply list_elem_of_In, list_elem_of_filter. split; [reflexivity|].
      apply list_elem_of_In, in_Z_In, Hcat.
    + right. rewrite Hname. left. reflexivity.
Qed.

Lemma find_single_sku_orders_counts (orders seen : list FulfillmentOrder.t)
    (d : list (Z * Z)) (s : t) :
  List.NoDup (map fst d) ->
  Batched.counts d seen ->
  exists added d',
    find_single_sku_orders_from orders d s
    = (Some d', set_seni_ids (seni_ids s ++ added) s)
    /\ List.NoDup (map fst d')
    /\ Batched.counts d' (seen ++ orders)
    /\ forall product_id,
         In product_id added <-> Batched.seen_as_seni product_id orders.
Proof.
  revert seen d s.
  induction orders as [|order rest IH]; intros seen d s Hnd Hd;
    cbn [find_single_sku_orders_from].
  - exists [], d. rewrite !app_nil_r. split; [destruct s; reflexivity|].
    split; [exact Hnd|]. split; [exact Hd|].
    intros pid. split; [intros []|intros (o & i & [] & _)].
  - assert (Hsplit : (seen ++ order :: rest = (seen ++ [order]) ++ rest)%list)
      by (rewrite <- app_assoc; reflexivity).
    rewrite Hsplit.
    destruct (FulfillmentOrder.items order) as [|item [|item' items]] eqn:Hitems.
    + destruct (IH (seen ++ [order])%list d s Hnd) as (added & d' & Hrun & Hnd' & Hd' & Hadd).
      { apply uncounted_counts; [|exact Hd]. intros i. rewrite Hitems. discriminate. }
      exists added, d'. split; [exact Hrun|]. split; [exact Hnd'|]. split; [exact Hd'|].
      intros pid. rewrite Hadd. split.
      * intros (o & i & Ho & H). exists o, i. split; [right; exact Ho|exact H].
      * intros (o & i & [<-|Ho] & Hi & H); [congruence|]. exists o, i. auto.
    + destruct (check_if_seni_added item s) as (added1 & Hseni & Hadd1).
      unfold mbind, M_bind. rewrite Hseni.
      destruct (IH (seen ++ [order])%list
                  (count_up (Product.id (Item.product item)) d)
                  (set_seni_ids (seni_ids s ++ added1) s))
        as (added & d' & Hrun & Hnd' & Hd' & Hadd).
      { unfold count_up. destruct (Py.dict_get _ d); apply dict_set_NoDup, Hnd. }
      { apply count_up_counts; assumption. }
      exists (added1 ++ added)%list, d'. rewrite Hrun.
      split; [cbn; rewrite app_assoc; reflexivity|].
      split; [exact Hnd'|]. split; [exact Hd'|].
      intros pid. rewrite in_app_iff, Hadd, Hadd1. split.
      * intros [[Hp Hs]|(o & i & Ho & H)].
        -- exists order, item. split; [left; reflexivity|auto].
        -- exists o, i. split; [right; exact Ho|exact H].
      * intros (o & i & [<-|Ho] & Hi & Hp & Hs).
        -- left. rewrite Hitems in Hi. injection Hi as <-. auto.
        -- right. exists o, i. auto.
    + destruct (IH (seen ++ [order])%list d s Hnd) as (added & d' & Hrun & Hnd' & Hd' & Hadd).
      { apply uncounted_counts; [|exact Hd]. intros i. rewrite Hitems. discriminate. }
      exists added, d'. split; [exact Hrun|]. split; [exact Hnd'|]. split; [exact Hd'|].
      intros pid. rewrite Hadd. split.
      * intros (o & i & Ho & H). exists o, i. split; [right; exact Ho|exact H].
      * intros (o & i & [<-|Ho] & Hi & H); [congruence|]. exists o, i. auto.
Qed.

Lemma filter_keys_NoDup (P : Z * Z -> Prop) `{forall e, Decision (P e)}
    (d : list (Z * Z)) :
  List.NoDup (map fst d) -> List.NoDup (map fst (filter P d)).
Proof.
  induction d as [|e d IH]; cbn [map]; intros Hnd; [constructor|].
  apply List.NoDup_cons_iff in Hnd as [He Hnd]. rewrite filter_cons.
  destruct (decide (P e)); [|auto]. cbn [map]. apply List.NoDup_cons_iff.
  split; [|auto]. intros Hin. apply He.
  apply in_map_iff in Hin as (e' & E & Hin). apply in_map_iff. exists e'.
  split; [exact E|]. apply list_elem_of_In.
  apply list_elem_of_In, list_elem_of_filter in Hin as [_ Hin]. exact Hin.
Qed.

(** What [find_products_to_batch] does when every product of a
    single-item order has a name. *)
Lemma find_products_to_batch_run (s : t) :
  let r := find_products_to_batch s in
  exists added product_ids,
    r = (Some product_ids, set_seni_ids (seni_ids s ++ added) s)
    /\ (forall product_id,
          In product_id added
          <-> Batched.seen_as_seni product_id (orders_to_include s))
    /\ List.NoDup product_ids
    /\ (forall product_id,
          In product_id product_ids
          <-> 0 < Batched.count product_id (orders_to_include s)
              /\ get_batch_size (snd r) product_id
                 <= Batched.count product_id (orders_to_include s))
    /\ (is_running_dry s = true ->
        forall product_id,
          In product_id product_ids
          <-> 0 < Batched.count product_id (orders_to_include s)).
Proof.
  cbv zeta. unfold find_products_to_batch, find_single_sku_orders.
  unfold mbind, M_bind, get. cbv beta iota.
  destruct (find_single_sku_orders_counts (orders_to_include s) [] [] s
              (List.NoDup_nil _)) as (added & d & Hrun & Hnd & Hd & Hadd);
    [intros pid; reflexivity|].
  rewrite Hrun. cbv beta iota. unfold mret, M_ret. cbn [snd app] in *.
  set (s' := set_seni_ids (seni_ids s ++ added) s) in *.
  assert (Hin : forall product_id,
            In product_id
               (map fst (filter (fun e => get_batch_size s' e.1 ≤ e.2) d))
            <-> 0 < Batched.count product_id (orders_to_include s)
                /\ get_batch_size s' product_id
                   <= Batched.count product_id (orders_to_include s)).
  { intros pid. pose proof (Hd pid) as Hpid.
    pose proof (count_nonneg pid (orders_to_include s)) as Hpos.
    rewrite in_map_iff. split.
    - intros ([pid' n] & E & Hf). cbn [fst] in E. subst pid'.
      apply list_elem_of_In, list_elem_of_filter in Hf as [Hle Hf]. cbn [fst snd] in Hle.
      apply list_elem_of_In, (In_dict_get _ _ _ Hnd) in Hf. rewrite Hf in Hpid.
      destruct (Z.eqb_spec (Batched.count pid (orders_to_include s)) 0);
        [discriminate|]. injection Hpid as ->. lia.
    - intros [Hcount Hle].
      destruct (Z.eqb_spec (Batched.count pid (orders_to_include s)) 0); [lia|].
      exists (pid, Batched.count pid (orders_to_include s)). split; [reflexivity|].
      apply list_elem_of_In, list_elem_of_filter. split; [exact Hle|].
      apply list_elem_of_In, dict_get_In, Hpid. }
  eexists added, _. split; [reflexivity|]. split; [exact Hadd|].
  split; [apply filter_keys_NoDup, Hnd|]. split; [exact Hin|].
  intros Hdry pid. rewrite Hin.
  assert (Hzero : get_batch_size s' pid = 0).
  { unfold get_batch_size. subst s'. cbn [is_running_dry set_seni_ids set_work].
    rewrite Hdry. destruct (in_Z pid _); vm_compute; reflexivity. }
  rewrite Hzero. lia.
Qed.

(** X19. The products to batch.  [find_products_to_batch] changes
    nothing but the list of Seni products, to which it only adds products
    of single-item orders told to be Seni by category or name.  When it
    returns (it raises on a product without a name), it returns, each once,
    the products that are the single item of at least one of the orders to
    include and of at least as many of them as the batch size asks for,
    the batch size being read after the Seni products are known.  When the
    warehouse is running dry the batch size is zero, and every product
    with a single-item order is returned. *)
Theorem find_products_to_batch_threshold (s : t) :
  let r := find_products_to_batch s in
  (exists added,
     snd r = set_seni_ids (seni_ids s ++ added) s
     /\ forall product_id,
          In product_id added ->
          Batched.seen_as_seni product_id (orders_to_include s))
  /\ forall product_ids,
       fst r = Some product_ids ->
       List.NoDup product_ids
       /\ (forall product_id,
             In product_id product_ids
             <-> 0 < Batched.count product_id (orders_to_include s)
                 /\ get_batch_size (snd r) product_id
                    <= Batched.count product_id (orders_to_include s))
       /\ (is_running_dry s = true ->
           forall product_id,
             In product_id product_ids
             <-> 0 < Batched.count product_id (orders_to_include s)).
Proof.
  cbv zeta.
  destruct (find_products_to_batch_run s)
    as (added & product_ids & Hrun & Hadded & Hnd & Hin & Hdry).
  rewrite Hrun in Hin |- *. cbn [fst snd] in *. split.
  - exists added. split; [reflexivity|]. intros product_id H. apply Hadded, H.
  - intros ids [= <-]. auto.
Qed.

(** Six orders of product 7 alone and one of product 8 alone, outside a
    dry spell: product 7 reaches the batch size of five, product 8 does
    not. *)
Lemma find_products_to_batch_threshold_witness :
  let s :=
    set_run
      (map (fun id => Example.order (Z.of_nat id) "LA_0_5" [Example.item 7 2])
           (seq 1 6)
       ++ [Example.order 9 "LA_0_5" [Example.item 8 2]])%list
      false ∅ (note_creator (init [] Example.evening false))
      (init [] Example.evening false) in
  let r := find_products_to_batch s in
  fst r = Some [7]
  /\ List.NoDup [7]
  /\ (forall product_id,
        In product_id [7]
        <-> 0 < Batched.count product_id (orders_to_include s)
            /\ get_batch_size (snd r) product_id
               <= Batched.count product_id (orders_to_include s))
  /\ (is_running_dry s = true ->
      forall product_id,
        In product_id [7]
        <-> 0 < Batched.count product_id (orders_to_include s)).
Proof.
  intros s r.
  assert (H : fst r = Some [7]) by (vm_compute; reflexivity).
  exact (conj H (proj2 (find_products_to_batch_threshold s) [7] H)).
Defined.

End BatchFacts.

(** ** The batch planner: split batches *)

Section SplitBatches.
Import PulpoBatchingManager.

Lemma filter_keys_sublist (P : Z * Z -> Prop) `{forall e, Decision (P e)}
    (chosen rest orders : list (Z * Z)) :
  filter P orders = (chosen ++ rest)%list ->
  List.NoDup (map fst orders) ->
  List.NoDup (map fst chosen)
  /\ forall e, In e chosen -> P e /\ In e orders.
Proof.
  intros Hsplit Hnd. split.
  - pose proof (filter_keys_NoDup P orders Hnd) as Hf. rewrite Hsplit, map_app in Hf.
    apply List.NoDup_app_remove_r in Hf. exact Hf.
  - intros e He.
    assert (Hin : e ∈ filter P orders)
      by (rewrite Hsplit; apply list_elem_of_In, in_or_app; left; exact He).
    apply list_elem_of_filter in Hin as [HP Hin]. split; [exact HP|].
    apply list_elem_of_In, Hin.
Qed.

(** One turn of the outer loop: at most one pick, of orders not processed
    before, which are processed after. *)
Lemma split_one_batch_spec (orders : list (Z * Z)) (max_units_per_palette : Z) (s : t) :
  List.NoDup (map fst orders) ->
  exists picks s',
    split_one_batch orders max_units_per_palette s = (Some tt, s')
    /\ wms s' = (wms s ++ picks)%list
    /\ (length picks <= 1)%nat
    /\ Forall Batched.batch_pick picks
    /\ List.NoDup (Batched.ids picks)
    /\ (forall id, In id (Batched.ids picks) ->
          (id ∉ processed_orders s) /\ In id (map fst orders))
    /\ processed_orders s' = processed_orders s ∪ list_to_set (Batched.ids picks)
    /\ product_stock s' = product_stock s.
Proof.
  intros Hnd. unfold split_one_batch.
  unfold mbind at 1, M_bind at 1, get at 1. cbv beta iota.
  destruct (fill_batch_from (processed_orders s) max_units_per_palette orders 0 [])
    as (chosen & rest & Hsplit & Hrun & Hbound & _).
  rewrite Hrun. cbn [app length Nat.add] in *. cbv beta iota zeta.
  destruct (filter_keys_sublist _ chosen rest orders Hsplit Hnd) as [Hkeys Hchosen].
  destruct chosen as [|e chosen].
  - cbn [map]. exists [], s. rewrite app_nil_r. unfold Batched.ids. cbn [map concat].
    split; [reflexivity|]. split; [reflexivity|]. split; [cbn; lia|].
    split; [constructor|]. split; [constructor|]. split; [intros id []|].
    split; [|reflexivity]. cbn [list_to_set]. rewrite union_empty_r_L. reflexivity.
  - destruct Hbound as [Hnil|[_ Hmax]]; [discriminate|].
    cbn [map]. unfold shared_functions.create_picking, mark_processed. run_monad.
    eexists [_], _. split; [reflexivity|]. unfold Batched.ids.
    cbn [map concat PickingOrder.sales_orders]. rewrite app_nil_r.
    split; [reflexivity|]. split; [cbn; lia|]. split.
    { constructor; [|constructor]. unfold Batched.batch_pick. cbn.
      rewrite length_map. cbn [length] in Hmax.
      repeat split; try lia. destruct (_ =? _)%nat; reflexivity. }
    split; [exact Hkeys|]. split; [|split; reflexivity].
    intros id Hid. change (In id (map fst (e :: chosen))) in Hid.
    apply in_map_iff in Hid as (e' & <- & He').
    destruct (Hchosen e' He') as [Hp Hin]. split; [exact Hp|].
    apply in_map, Hin.
Qed.

(** Some turns of the outer loop. *)
Lemma repeat_split_spec (n : nat) (orders : list (Z * Z)) (max_units_per_palette : Z)
    (s : t) :
  List.NoDup (map fst orders) ->
  exists picks s',
    repeat_m n (split_one_batch orders max_units_per_palette) s = (Some tt, s')
    /\ wms s' = (wms s ++ picks)%list
    /\ (length picks <= n)%nat
    /\ Forall Batched.batch_pick picks
    /\ List.NoDup (Batched.ids picks)
    /\ (forall id, In id (Batched.ids picks) ->
          (id ∉ processed_orders s) /\ In id (map fst orders))
    /\ processed_orders s' = processed_orders s ∪ list_to_set (Batched.ids picks)
    /\ product_stock s' = product_stock s.
Proof.
  intros Hnd. revert s. induction n as [|n IH]; intros s; cbn [repeat_m].
  - exists [], s. rewrite app_nil_r. unfold Batched.ids. cbn [map concat].
    split; [reflexivity|]. split; [reflexivity|]. split; [cbn; lia|].
    split; [constructor|]. split; [constructor|]. split; [intros id []|].
    split; [|reflexivity]. cbn [list_to_set]. rewrite union_empty_r_L. reflexivity.
  - destruct (split_one_batch_spec orders max_units_per_palette s Hnd)
      as (picks1 & s1 & Hrun1 & Hw1 & Hlen1 & HQ1 & Hnd1 & Hnew1 & Hp1 & Hs1).
    destruct (IH s1)
      as (picks2 & s2 & Hrun2 & Hw2 & Hlen2 & HQ2 & Hnd2 & Hnew2 & Hp2 & Hs2).
    unfold mbind, M_bind. rewrite Hrun1, Hrun2.
    exists (picks1 ++ picks2)%list, s2. unfold Batched.ids in *.
    rewrite map_app, concat_app.
    split; [reflexivity|]. split; [rewrite Hw2, Hw1, app_assoc; reflexivity|].
    split; [rewrite length_app; lia|].
    split; [apply Forall_app; split; assumption|].
    split.
    { apply List.NoDup_app; [exact Hnd1|exact Hnd2|].
      intros id H1 H2. destruct (Hnew2 id H2) as [Hfresh _].
      apply Hfresh. rewrite Hp1. apply elem_of_union_r, elem_of_list_to_set,
        list_elem_of_In, H1. }
    split.
    { intros id Hin. apply in_app_or in Hin as [Hin|Hin]; [exact (Hnew1 id Hin)|].
      destruct (Hnew2 id Hin) as [Hfresh Hkey]. split; [|exact Hkey].
      intros Hc. apply Hfresh. rewrite Hp1. apply elem_of_union_l, Hc. }
    split; [|congruence].
    rewrite Hp2, Hp1, list_to_set_app_L, (assoc_L (∪)). reflexivity.
Qed.

(** X20. Split batches.  For a dictionary of orders (no id twice),
    [split_batches] sends at most as many picks as the smaller of
    [total_quantity // max_units_per_palette] and
    [len(orders) // MAX_BATCH_SIZE], and none when the capacity is
    infinite.  Every pick has between one and [MAX_BATCH_SIZE] orders, an
    order count of 1, no pickers and is no cart.  The picks name no order
    twice, only orders of the dictionary that were not processed before;
    afterwards exactly these are processed in addition, and the stock
    dictionary is what it was. *)
Theorem split_batches_disjoint (orders : list (Z * Z)) (total_quantity : Py.num)
    (max_units_per_palette : units) (s : t) :
  List.NoDup (map fst orders) ->
  let s' := exec (split_batches orders total_quantity max_units_per_palette) s in
  exists picks,
    wms s' = (wms s ++ picks)%list
    /\ match max_units_per_palette with
       | Finite m =>
           Z.of_nat (length picks)
           <= Z.max 0 (Z.min (Py.value total_quantity / m)
                             (Z.of_nat (length orders) / config.MAX_BATCH_SIZE))
       | Infinite => picks = []
       end
    /\ Forall Batched.batch_pick picks
    /\ List.NoDup (Batched.ids picks)
    /\ (forall id, In id (Batched.ids picks) ->
          (id ∉ processed_orders s) /\ In id (map fst orders))
    /\ processed_orders s' = processed_orders s ∪ list_to_set (Batched.ids picks)
    /\ product_stock s' = product_stock s.
Proof.
  intros Hnd. cbv zeta. unfold exec, split_batches.
  destruct max_units_per_palette as [m|].
  - cbv zeta.
    destruct (repeat_split_spec
                (Z.to_nat (Z.min (Py.value total_quantity / m)
                                 (Z.of_nat (length orders) / config.MAX_BATCH_SIZE)))
                orders m s Hnd)
      as (picks & s' & Hrun & Hw & Hlen & HQ & Hnd' & Hnew & Hp & Hs).
    rewrite Hrun. cbn [snd]. exists picks.
    split; [exact Hw|]. split; [lia|]. auto.
  - exists []. cbn [snd mret M_ret]. rewrite app_nil_r. unfold Batched.ids.
    cbn [map concat list_to_set].
    split; [reflexivity|]. split; [reflexivity|]. split; [constructor|].
    split; [constructor|]. split; [intros id []|].
    split; [rewrite union_empty_r_L; reflexivity|reflexivity].
Qed.

(** A hundred orders of one unit each against a pallet of a hundred units:
    one turn of the loop, which sends one pick of all hundred orders. *)
Lemma split_batches_disjoint_witness :
  let orders := map (fun id => (Z.of_nat id, 1)) (seq 1 100) in
  let s := init [] Example.evening false in
  let s' := exec (split_batches orders (Py.Int 100) (Finite 100)) s in
  List.NoDup (map fst orders)
  /\ (wms s = []
      /\ map PickingOrder.sales_orders (wms s') = [map fst orders])
  /\ exists picks,
       wms s' = (wms s ++ picks)%list
       /\ Z.of_nat (length picks)
          <= Z.max 0 (Z.min (Py.value (Py.Int 100) / 100)
                            (Z.of_nat (length orders) / config.MAX_BATCH_SIZE))
       /\ Forall Batched.batch_pick picks
       /\ List.NoDup (Batched.ids picks)
       /\ (forall id, In id (Batched.ids picks) ->
             (id ∉ processed_orders s) /\ In id (map fst orders))
       /\ processed_orders s' = processed_orders s ∪ list_to_set (Batched.ids picks)
       /\ product_stock s' = product_stock s.
Proof.
  intros orders s s'.
  assert (H : List.NoDup (map fst orders)).
  { unfold orders. rewrite map_map. cbn [fst].
    apply NoDup_ListNoDup, (NoDup_fmap_2 Z.of_nat), NoDup_seq. }
  assert (Hsent : wms s = []
                  /\ map PickingOrder.sales_orders (wms s') = [map fst orders])
    by (split; vm_compute; reflexivity).
  exact (conj H (conj Hsent
           (split_batches_disjoint orders (Py.Int 100) (Finite 100) s H))).
Defined.

End SplitBatches.

(** ** The cart planners: what a cart is made of *)

Section CartFacts.
Import PulpoCartsManager.

Lemma only_stock_refl (s : t) : Carted.only_stock s s.
Proof. unfold Carted.only_stock. destruct s; reflexivity. Qed.

Lemma only_stock_trans (s1 s2 s3 : t) :
  Carted.only_stock s1 s2 -> Carted.only_stock s2 s3 -> Carted.only_stock s1 s3.
Proof.
  unfold Carted.only_stock. intros H12 H23. rewrite H23 at 1. rewrite H12.
  reflexivity.
Qed.

Lemma only_stock_set (stock : gmap Z Z) (s : t) :
  Carted.only_stock s (set_product_stock stock s).
Proof. reflexivity. Qed.

(** What stays when only the stock dictionary changes. *)
Lemma only_stock_keeps (s s' : t) :
  Carted.only_stock s s' ->
  wms s' = wms s /\ processed_orders s' = processed_orders s
  /\ is_prio s' = is_prio s /\ is_sweeping_time s' = is_sweeping_time s
  /\ is_running_dry s' = is_running_dry s /\ shelves_index s' = shelves_index s.
Proof. intros ->. repeat split. Qed.

(** [is_order_fully_available] item by item. *)
Lemma is_order_fully_available_spec (check_stock : Z -> Z) (all_products : gmap Z Z)
    (items : list Item.t) (s : t) :
  exists (available : bool) (s' : t),
    is_order_fully_available check_stock all_products items s = (Some available, s')
    /\ Carted.only_stock s s'
    /\ product_stock s ⊆ product_stock s'
    /\ (forall product_id q,
          product_stock s !! product_id = None ->
          product_stock s' !! product_id = Some q ->
          q = check_stock product_id
          /\ exists item, In item items /\ Product.id (Item.product item) = product_id)
    /\ (if available
        then Forall (fun item =>
               exists q,
                 product_stock s' !! Product.id (Item.product item) = Some q
                 /\ Item.quantity item
                    + default 0 (all_products !! Product.id (Item.product item)) <= q)
               items
        else Exists (fun item =>
               exists q,
                 product_stock s' !! Product.id (Item.product item) = Some q
                 /\ q < Item.quantity item
                        + default 0 (all_products !! Product.id (Item.product item)))
               items).
Proof.
  revert s.
  induction items as [|item rest IH]; intros s; cbn [is_order_fully_available].
  - exists true, s. split; [reflexivity|]. split; [apply only_stock_refl|].
    split; [reflexivity|]. split; [|constructor].
    intros pid q Hnone Hsome. congruence.
  - unfold mbind at 1, M_bind at 1, get at 1. cbv beta iota zeta.
    set (pid := Product.id (Item.product item)).
    set (asked := Item.quantity item + default 0 (all_products !! pid)).
    (* the state and the stock after the lookup *)
    assert (Hlook : exists stock s1,
      (match product_stock s !! pid with
       | Some available => mret available
       | None =>
           modify (set_product_stock (<[pid := check_stock pid]> (product_stock s))) ;;
           mret (check_stock pid)
       end) s = (Some stock, s1)
      /\ Carted.only_stock s s1
      /\ product_stock s ⊆ product_stock s1
      /\ product_stock s1 !! pid = Some stock
      /\ (forall p q, product_stock s !! p = None -> product_stock s1 !! p = Some q ->
                      q = check_stock p /\ p = pid)).
    { destruct (product_stock s !! pid) as [a|] eqn:Hpid.
      - exists a, s. split; [reflexivity|]. split; [apply only_stock_refl|].
        split; [reflexivity|]. split; [exact Hpid|]. intros p q H1 H2. congruence.
      - eexists (check_stock pid), _. split; [reflexivity|].
        split; [apply only_stock_set|]. cbn [product_stock set_product_stock set_work].
        split; [apply insert_subseteq, Hpid|]. split; [apply lookup_insert_eq|].
        intros p q Hnone Hsome. destruct (decide (p = pid)) as [->|Hne].
        + rewrite lookup_insert_eq in Hsome. injection Hsome as <-. auto.
        + rewrite lookup_insert_ne in Hsome by congruence. congruence. }
    destruct Hlook as (stock & s1 & Hrun & Honly & Hsub & Hstock & Hnew).
    unfold mbind at 1, M_bind at 1. rewrite Hrun.
    destruct (Z.ltb_spec stock asked) as [Hshort|Hcovered].
    + exists false, s1. split; [reflexivity|]. split; [exact Honly|].
      split; [exact Hsub|]. split.
      * intros p q Hnone Hsome. destruct (Hnew p q Hnone Hsome) as [-> ->].
        split; [reflexivity|]. exists item. split; [left|]; reflexivity.
      * apply Exists_cons_hd. exists stock. split; [exact Hstock|exact Hshort].
    + destruct (IH s1) as (available & s' & Hrest & Honly' & Hsub' & Hnew' & Hitems).
      exists available, s'. split; [exact Hrest|].
      split; [eapply only_stock_trans; eassumption|].
      split; [etransitivity; eassumption|]. split.
      * intros p q Hnone Hsome.
        destruct (product_stock s1 !! p) as [q1|] eqn:Hp1.
        -- pose proof (lookup_weaken _ _ _ _ Hp1 Hsub') as Hq. rewrite Hq in Hsome.
           injection Hsome as <-. destruct (Hnew p q1 Hnone Hp1) as [-> ->].
           split; [reflexivity|]. exists item. split; [left|]; reflexivity.
        -- destruct (Hnew' p q Hp1 Hsome) as (-> & i & Hi & Hpi).
           split; [reflexivity|]. exists i. split; [right; exact Hi|exact Hpi].
      * destruct available.
        -- constructor; [|exact Hitems]. exists stock.
           split; [exact (lookup_weaken _ _ _ _ Hstock Hsub')|exact Hcovered].
        -- apply Exists_cons_tl, Hitems.
Qed.

(** X21. Looking up and remembering stock.  [is_order_fully_available]
    changes nothing but the stock dictionary, and that only by adding
    entries: a product it did not know gets the number [check_stock]
    reports for it, a known entry is never overwritten or looked up again.
    An answer [True] says that, for every item of the order, the
    dictionary holds at least the quantity of the item plus what the cart
    already holds of the product; an answer [False] says that some item is
    short.  (There is no answer for an item without quantity or product.)
    The numbers are taken within the range that a float holds exactly. *)
Theorem is_order_fully_available_remembers (check_stock : Z -> Z)
    (all_products : gmap Z Z) (items : list Item.t) (s : t) :
  Exact.stock (product_stock s) ->
  Exact.reports check_stock ->
  Exact.stock all_products ->
  Forall (fun item => Z.abs (Item.quantity item) < Exact.limit) items ->
  let r := is_order_fully_available check_stock all_products items s in
  Carted.only_stock s (snd r)
  /\ product_stock s ⊆ product_stock (snd r)
  /\ (forall product_id q,
        product_stock s !! product_id = None ->
        product_stock (snd r) !! product_id = Some q ->
        q = check_stock product_id
        /\ exists item, In item items /\ Product.id (Item.product item) = product_id)
  /\ (fst r = Some true ->
      Forall (fun item =>
        exists q,
          product_stock (snd r) !! Product.id (Item.product item) = Some q
          /\ Item.quantity item
             + default 0 (all_products !! Product.id (Item.product item)) <= q)
        items)
  /\ (fst r = Some false ->
      Exists (fun item =>
        exists q,
          product_stock (snd r) !! Product.id (Item.product item) = Some q
          /\ q < Item.quantity item
                 + default 0 (all_products !! Product.id (Item.product item)))
        items).
Proof.
  intros _ _ _ _ r. subst r.
  destruct (is_order_fully_available_spec check_stock all_products items s)
    as (available & s' & Hrun & Honly & Hsub & Hnew & Hitems).
  rewrite Hrun. cbn [fst snd].
  split; [exact Honly|]. split; [exact Hsub|]. split; [exact Hnew|].
  split; intros [= ->]; exact Hitems.
Qed.

(** One unit of product 1, of which the dictionary holds a hundred. *)
Lemma is_order_fully_available_remembers_witness :
  let s := Example.carts_manager in
  let items := [Example.item 1 1] in
  let r := is_order_fully_available (fun _ => 0) ∅ items s in
  (Exact.stock (product_stock s)
   /\ Exact.reports (fun _ => 0)
   /\ Exact.stock ∅
   /\ Forall (fun item => Z.abs (Item.quantity item) < Exact.limit) items)
  /\ fst r = Some true
  /\ Carted.only_stock s (snd r)
  /\ product_stock s ⊆ product_stock (snd r)
  /\ (forall product_id q,
        product_stock s !! product_id = None ->
        product_stock (snd r) !! product_id = Some q ->
        q = 0
        /\ exists item, In item items /\ Product.id (Item.product item) = product_id)
  /\ (fst r = Some true ->
      Forall (fun item =>
        exists q,
          product_stock (snd r) !! Product.id (Item.product item) = Some q
          /\ Item.quantity item
             + default 0 ((∅ : gmap Z Z) !! Product.id (Item.product item)) <= q)
        items)
  /\ (fst r = Some false ->
      Exists (fun item =>
        exists q,
          product_stock (snd r) !! Product.id (Item.product item) = Some q
          /\ q < Item.quantity item
                 + default 0 ((∅ : gmap Z Z) !! Product.id (Item.product item)))
        items).
Proof.
  intros s items r.
  assert (H1 : Exact.stock (product_stock s)).
  { change (product_stock s) with ({[ 1 := 100 ]} : gmap Z Z).
    intros product_id q [_ <-]%lookup_singleton_Some. reflexivity. }
  assert (H2 : Exact.reports (fun _ => 0)) by (intros product_id; reflexivity).
  assert (H3 : Exact.stock ∅) by (intros product_id q H; rewrite lookup_empty in H; discriminate).
  assert (H4 : Forall (fun item => Z.abs (Item.quantity item) < Exact.limit) items)
    by (repeat constructor).
  exact (conj (conj H1 (conj H2 (conj H3 H4)))
           (conj eq_refl
              (is_order_fully_available_remembers (fun _ => 0) ∅ items s H1 H2 H3 H4))).
Defined.

End CartFacts.

(** ** The cart planners: quantities and stock *)

Section CartStock.
Import PulpoCartsManager.

(** Whether one of the items is of the product. *)
Lemma quantity_of_absent (product_id : Z) (items : list Item.t) :
  ~ In product_id (map (fun item => Product.id (Item.product item)) items) ->
  Carted.quantity_of product_id items = 0.
Proof.
  unfold Carted.quantity_of.
  induction items as [|item rest IH]; cbn [map List.filter In]; intros H; [reflexivity|].
  destruct (Z.eqb_spec (Product.id (Item.product item)) product_id); [tauto|].
  apply IH. tauto.
Qed.

Lemma quantity_of_single (item : Item.t) (items : list Item.t) :
  List.NoDup (map (fun item => Product.id (Item.product item)) items) ->
  In item items ->
  Carted.quantity_of (Product.id (Item.product item)) items = Item.quantity item.
Proof.
  induction items as [|item' rest IH]; cbn [map In]; intros Hnd Hin; [destruct Hin|].
  apply List.NoDup_cons_iff in Hnd as [Hfresh Hnd].
  unfold Carted.quantity_of. cbn [List.filter].
  destruct Hin as [->|Hin].
  - rewrite Z.eqb_refl. cbn [map foldr].
    fold (Carted.quantity_of (Product.id (Item.product item)) rest).
    rewrite quantity_of_absent by exact Hfresh. lia.
  - destruct (Z.eqb_spec (Product.id (Item.product item'))
                         (Product.id (Item.product item))) as [E|_].
    + exfalso. apply Hfresh. rewrite E.
      apply (in_map (fun item => Product.id (Item.product item))), Hin.
    + apply IH; assumption.
Qed.

(** [update_products_dictionary]: the dictionary of the cart after one
    more order. *)
Lemma update_products_dictionary_lookup (all_products : gmap Z Z)
    (order : FulfillmentOrder.t) (product_id : Z) :
  update_products_dictionary all_products order !! product_id
  = if in_Z product_id
         (map (fun item => Product.id (Item.product item)) (FulfillmentOrder.items order))
    then Some (default 0 (all_products !! product_id)
               + Carted.quantity_of product_id (FulfillmentOrder.items order))
    else all_products !! product_id.
Proof.
  unfold update_products_dictionary. generalize (FulfillmentOrder.items order).
  intros items. revert all_products.
  induction items as [|item rest IH]; intros all_products; [reflexivity|].
  cbn [fold_left map]. rewrite IH. clear IH.
  unfold in_Z, Carted.quantity_of. cbn [existsb List.filter].
  fold (in_Z product_id (map (fun item => Product.id (Item.product item)) rest)).
  rewrite (Z.eqb_sym product_id).
  destruct (Z.eqb_spec (Product.id (Item.product item)) product_id) as [E|Hne];
    cbn [orb].
  - rewrite E.
    assert (Hnew : default 0
              (match all_products !! product_id with
               | Some q => <[product_id := q + Item.quantity item]> all_products
               | None => <[product_id := Item.quantity item]> all_products
               end !! product_id)
            = default 0 (all_products !! product_id) + Item.quantity item).
    { destruct (all_products !! product_id); rewrite lookup_insert_eq; cbn; lia. }
    destruct (in_Z product_id _) eqn:Hin.
    + rewrite Hnew. cbn [map foldr]. f_equal. lia.
    + apply in_Z_not_In in Hin. pose proof (quantity_of_absent _ _ Hin) as Hzero.
      unfold Carted.quantity_of in Hzero. cbn [map foldr]. rewrite Hzero.
      destruct (all_products !! product_id); rewrite lookup_insert_eq; cbn; f_equal; lia.
  - assert (Hold : match all_products !! Product.id (Item.product item) with
                   | Some q =>
                       <[Product.id (Item.product item) := q + Item.quantity item]>
                         all_products
                   | None =>
                       <[Product.id (Item.product item) := Item.quantity item]>
                         all_products
                   end !! product_id = all_products !! product_id).
    { destruct (all_products !! Product.id (Item.product item));
        apply lookup_insert_ne; assumption. }
    rewrite Hold. reflexivity.
Qed.

(** [take_items]: a known product loses what the items ask for, an unknown
    one stays unknown. *)
Lemma take_items_lookup (items : list Item.t) (stock : gmap Z Z) (product_id : Z) :
  take_items items stock !! product_id
  = (fun available => available - Carted.quantity_of product_id items)
      <$> stock !! product_id.
Proof.
  unfold take_items. revert stock.
  induction items as [|item rest IH]; intros stock; cbn [fold_left].
  - unfold Carted.quantity_of. cbn. destruct (stock !! product_id); cbn; f_equal; lia.
  - rewrite IH. clear IH. unfold Carted.quantity_of. cbn [List.filter].
    destruct (Z.eqb_spec (Product.id (Item.product item)) product_id) as [E|Hne].
    + rewrite E. destruct (stock !! product_id) as [a|] eqn:Ha.
      * rewrite lookup_insert_eq. cbn. f_equal. lia.
      * rewrite Ha. reflexivity.
    + destruct (stock !! Product.id (Item.product item));
        [rewrite lookup_insert_ne by assumption|]; reflexivity.
Qed.

(** The inner loop of [update_stock_dictionary] for the id of one of the
    orders, when no two orders share an id. *)
Lemma take_order_of_id (orders : list FulfillmentOrder.t) (order : FulfillmentOrder.t)
    (stock : gmap Z Z) :
  List.NoDup (map FulfillmentOrder.sales_order_id orders) ->
  In order orders ->
  fold_left (fun stock o =>
               if FulfillmentOrder.sales_order_id order
                  =? FulfillmentOrder.sales_order_id o
               then take_items (FulfillmentOrder.items o) stock
               else stock) orders stock
  = take_items (FulfillmentOrder.items order) stock.
Proof.
  revert stock.
  induction orders as [|o rest IH]; intros stock Hnd Hin; [destruct Hin|].
  cbn [map] in Hnd. apply List.NoDup_cons_iff in Hnd as [Hfresh Hnd].
  cbn [fold_left].
  assert (Hrest : forall stock',
    ~ In (FulfillmentOrder.sales_order_id order)
         (map FulfillmentOrder.sales_order_id rest) ->
    fold_left (fun stock o =>
                 if FulfillmentOrder.sales_order_id order
                    =? FulfillmentOrder.sales_order_id o
                 then take_items (FulfillmentOrder.items o) stock
                 else stock) rest stock' = stock').
  { clear. induction rest as [|o rest IH]; intros stock' H; [reflexivity|].
    cbn [fold_left map In] in *.
    destruct (Z.eqb_spec (FulfillmentOrder.sales_order_id order)
                         (FulfillmentOrder.sales_order_id o));
      [exfalso; apply H; left; congruence|].
    apply IH. intros Hc. apply H. right. exact Hc. }
  destruct Hin as [->|Hin].
  - rewrite Z.eqb_refl. apply Hrest, Hfresh.
  - destruct (Z.eqb_spec (FulfillmentOrder.sales_order_id order)
                         (FulfillmentOrder.sales_order_id o)) as [E|_].
    + exfalso. apply Hfresh. rewrite <- E. apply in_map, Hin.
    + apply IH; assumption.
Qed.

(** [update_stock_dictionary] for the ids of some of the orders. *)
Lemma update_stock_lookup (orders taken : list FulfillmentOrder.t)
    (stock : gmap Z Z) (product_id : Z) :
  List.NoDup (map FulfillmentOrder.sales_order_id orders) ->
  (forall order, In order taken -> In order orders) ->
  fold_left (fun stock order_id =>
     fold_left (fun stock order =>
       if order_id =? FulfillmentOrder.sales_order_id order
       then take_items (FulfillmentOrder.items order) stock
       else stock) orders stock)
    (map FulfillmentOrder.sales_order_id taken) stock !! product_id
  = (fun available => available - Carted.asked product_id taken)
      <$> stock !! product_id.
Proof.
  intros Hnd. revert stock.
  induction taken as [|order rest IH]; intros stock Hin; cbn [map fold_left].
  - unfold Carted.asked. cbn. destruct (stock !! product_id); cbn; f_equal; lia.
  - rewrite IH by (intros o Ho; apply Hin; right; exact Ho).
    rewrite (take_order_of_id orders order stock Hnd) by (apply Hin; left; reflexivity).
    rewrite take_items_lookup. unfold Carted.asked. cbn [map foldr].
    destruct (stock !! product_id); cbn; f_equal; lia.
Qed.

(** The dictionary of a cart after some orders. *)
Lemma products_of_taken (taken : list FulfillmentOrder.t) (all_products : gmap Z Z)
    (product_id : Z) :
  default 0 (fold_left update_products_dictionary taken all_products !! product_id)
  = default 0 (all_products !! product_id) + Carted.asked product_id taken.
Proof.
  revert all_products.
  induction taken as [|order rest IH]; intros all_products; cbn [fold_left].
  - unfold Carted.asked. cbn. lia.
  - rewrite IH, update_products_dictionary_lookup. unfold Carted.asked.
    cbn [map foldr].
    destruct (in_Z product_id _) eqn:Hin; cbn [default from_option id]; [lia|].
    apply in_Z_not_In in Hin. rewrite (quantity_of_absent _ _ Hin). lia.
Qed.

End CartStock.

(** ** The cart planners: one cart *)

Section OneCart.
Import PulpoCartsManager.

Lemma covered_mono (all_products stock stock' : gmap Z Z) :
  stock ⊆ stock' -> Carted.covered all_products stock ->
  Carted.covered all_products stock'.
Proof.
  intros Hsub Hc pid q Hq. destruct (Hc pid q Hq) as (a & Ha & Hle).
  exists a. split; [exact (lookup_weaken _ _ _ _ Ha Hsub)|exact Hle].
Qed.

(** An order that passed [is_order_fully_available] keeps the cart within
    the stock. *)
Lemma covered_update (all_products stock : gmap Z Z) (order : FulfillmentOrder.t) :
  Forall (fun item =>
    exists q,
      stock !! Product.id (Item.product item) = Some q
      /\ Item.quantity item
         + default 0 (all_products !! Product.id (Item.product item)) <= q)
    (FulfillmentOrder.items order) ->
  List.NoDup (map (fun item => Product.id (Item.product item))
                  (FulfillmentOrder.items order)) ->
  Carted.covered all_products stock ->
  Carted.covered (update_products_dictionary all_products order) stock.
Proof.
  intros Hitems Hnd Hc pid q Hq.
  rewrite update_products_dictionary_lookup in Hq.
  destruct (in_Z pid _) eqn:Hin; [|exact (Hc pid q Hq)].
  injection Hq as <-.
  apply in_Z_In, in_map_iff in Hin as (item & <- & Hitem).
  rewrite Forall_forall in Hitems.
  destruct (Hitems item (proj2 (list_elem_of_In _ _) Hitem)) as (a & Ha & Hle).
  exists a. split; [exact Ha|].
  rewrite (quantity_of_single item _ Hnd Hitem). lia.
Qed.

Lemma nonnegative_grow (check_stock : Z -> Z) (stock stock' : gmap Z Z) :
  (forall product_id, 0 <= check_stock product_id) ->
  (forall product_id q,
     stock !! product_id = None -> stock' !! product_id = Some q ->
     q = check_stock product_id) ->
  stock ⊆ stock' ->
  Carted.nonnegative stock -> Carted.nonnegative stock'.
Proof.
  intros Hcs Hnew Hsub Hpos pid a Ha.
  destruct (stock !! pid) as [a0|] eqn:H0.
  - pose proof (lookup_weaken _ _ _ _ H0 Hsub) as H1.
    rewrite H1 in Ha. injection Ha as <-. exact (Hpos pid a0 H0).
  - rewrite (Hnew pid a H0 Ha). apply Hcs.
Qed.

(** The inner loop of [fill_cart_randomly]: the orders it takes. *)
Lemma fill_cart_randomly_loop_spec (check_stock : Z -> Z)
    (orders : list FulfillmentOrder.t) (max_cart_size : Z)
    (new_cart : list Z) (all_products_in_cart : gmap Z Z) (s : t) :
  exists (taken : list FulfillmentOrder.t) (s' : t),
    fill_cart_randomly_loop check_stock orders max_cart_size new_cart
      all_products_in_cart s
    = (Some ((new_cart ++ map FulfillmentOrder.sales_order_id taken)%list,
             fold_left update_products_dictionary taken all_products_in_cart), s')
    /\ Carted.only_stock s s'
    /\ product_stock s ⊆ product_stock s'
    /\ (forall product_id q,
          product_stock s !! product_id = None ->
          product_stock s' !! product_id = Some q -> q = check_stock product_id)
    /\ taken `sublist_of` orders
    /\ Forall (fun order =>
         ~ In (FulfillmentOrder.sales_order_id order) (processed_orders s)
         /\ ~ In (FulfillmentOrder.sales_order_id order) new_cart) taken
    /\ (List.NoDup new_cart ->
        List.NoDup (new_cart ++ map FulfillmentOrder.sales_order_id taken))
    /\ (Forall (fun order =>
          List.NoDup (map (fun item => Product.id (Item.product item))
                          (FulfillmentOrder.items order))) orders ->
        Carted.covered all_products_in_cart (product_stock s) ->
        Carted.covered (fold_left update_products_dictionary taken all_products_in_cart)
                       (product_stock s')).
Proof.
  revert new_cart all_products_in_cart s.
  induction orders as [|order rest IH]; intros new_cart all_products_in_cart s;
    cbn [fill_cart_randomly_loop].
  - exists [], s. cbn [map fold_left]. rewrite app_nil_r.
    split; [reflexivity|]. split; [apply only_stock_refl|]. split; [reflexivity|].
    split; [congruence|]. split; [constructor|]. split; [constructor|]. auto.
  - (* the order is passed over *)
    assert (Hskip : forall s1,
      Carted.only_stock s s1 -> product_stock s ⊆ product_stock s1 ->
      (forall p q, product_stock s !! p = None -> product_stock s1 !! p = Some q ->
                   q = check_stock p) ->
      exists (taken : list FulfillmentOrder.t) (s' : t),
        fill_cart_randomly_loop check_stock rest max_cart_size new_cart
          all_products_in_cart s1
        = (Some ((new_cart ++ map FulfillmentOrder.sales_order_id taken)%list,
                 fold_left update_products_dictionary taken all_products_in_cart), s')
        /\ Carted.only_stock s s'
        /\ product_stock s ⊆ product_stock s'
        /\ (forall product_id q,
              product_stock s !! product_id = None ->
              product_stock s' !! product_id = Some q -> q = check_stock product_id)
        /\ taken `sublist_of` (order :: rest)
        /\ Forall (fun order =>
             ~ In (FulfillmentOrder.sales_order_id order) (processed_orders s)
             /\ ~ In (FulfillmentOrder.sales_order_id order) new_cart) taken
        /\ (List.NoDup new_cart ->
            List.NoDup (new_cart ++ map FulfillmentOrder.sales_order_id taken))
        /\ (Forall (fun order =>
              List.NoDup (map (fun item => Product.id (Item.product item))
                              (FulfillmentOrder.items order))) (order :: rest) ->
            Carted.covered all_products_in_cart (product_stock s) ->
            Carted.covered
              (fold_left update_products_dictionary taken all_products_in_cart)
              (product_stock s'))).
    { intros s1 Honly1 Hsub1 Hnew1.
      destruct (IH new_cart all_products_in_cart s1)
        as (taken & s' & Hrun & Honly & Hsub & Hnew & Htaken & Hfresh & Hnd & Hcov).
      destruct (only_stock_keeps _ _ Honly1) as (_ & Hproc & _).
      exists taken, s'. split; [exact Hrun|].
      split; [eapply only_stock_trans; eassumption|].
      split; [etransitivity; eassumption|]. split.
      { intros p q Hnone Hsome. destruct (product_stock s1 !! p) as [q1|] eqn:Hp1.
        - pose proof (lookup_weaken _ _ _ _ Hp1 Hsub) as Hq. rewrite Hq in Hsome.
          injection Hsome as <-. exact (Hnew1 p q1 Hnone Hp1).
        - exact (Hnew p q Hp1 Hsome). }
      split; [apply sublist_cons, Htaken|].
      split; [rewrite <- Hproc; exact Hfresh|]. split; [exact Hnd|].
      intros Hwf Hc. apply Forall_cons in Hwf as [_ Hwf].
      apply Hcov; [exact Hwf|]. exact (covered_mono _ _ _ Hsub1 Hc). }
    destruct (max_cart_size <=? Z.of_nat (length new_cart)).
    { exists [], s. cbn [map fold_left]. rewrite app_nil_r.
      split; [reflexivity|]. split; [apply only_stock_refl|]. split; [reflexivity|].
      split; [congruence|]. split; [apply sublist_nil_l|]. split; [constructor|]. auto. }
    unfold mbind at 1, M_bind at 1, get at 1. cbv beta iota zeta.
    destruct (in_Z (FulfillmentOrder.sales_order_id order) (processed_orders s))
      eqn:Hproc; cbn [negb andb];
      [apply Hskip; [apply only_stock_refl|reflexivity|congruence]|].
    destruct (in_Z (FulfillmentOrder.sales_order_id order) new_cart)
      eqn:Hcart; cbn [negb andb];
      [apply Hskip; [apply only_stock_refl|reflexivity|congruence]|].
    destruct (is_order_fully_available_spec check_stock all_products_in_cart
                (FulfillmentOrder.items order) s)
      as (available & s1 & Havail & Honly1 & Hsub1 & Hnew1 & Hitems).
    unfold mbind at 1, M_bind at 1. rewrite Havail.
    assert (Hnew1' : forall p q, product_stock s !! p = None ->
                                 product_stock s1 !! p = Some q -> q = check_stock p)
      by (intros p q H1 H2; exact (proj1 (Hnew1 p q H1 H2))).
    destruct available; [|apply Hskip; assumption].
    destruct (IH (new_cart ++ [FulfillmentOrder.sales_order_id order])%list
                (update_products_dictionary all_products_in_cart order) s1)
      as (taken & s' & Hrun & Honly & Hsub & Hnew & Htaken & Hfresh & Hnd & Hcov).
    destruct (only_stock_keeps _ _ Honly1) as (_ & Hsame & _).
    apply in_Z_not_In in Hproc. apply in_Z_not_In in Hcart.
    exists (order :: taken), s'. cbn [map fold_left].
    split; [rewrite Hrun, <- app_assoc; reflexivity|].
    split; [eapply only_stock_trans; eassumption|].
    split; [etransitivity; eassumption|]. split.
    { intros p q Hnone Hsome. destruct (product_stock s1 !! p) as [q1|] eqn:Hp1.
      - pose proof (lookup_weaken _ _ _ _ Hp1 Hsub) as Hq. rewrite Hq in Hsome.
        injection Hsome as <-. exact (Hnew1' p q1 Hnone Hp1).
      - exact (Hnew p q Hp1 Hsome). }
    split; [apply sublist_skip, Htaken|]. split.
    { constructor; [split; assumption|].
      eapply Forall_impl; [exact Hfresh|]. cbn beta. intros o [Hp Hc].
      rewrite Hsame in Hp. split; [exact Hp|].
      intros Hin. apply Hc, in_or_app. left. exact Hin. }
    split.
    { intros Hnew_cart.
      replace (new_cart ++ FulfillmentOrder.sales_order_id order
                           :: map FulfillmentOrder.sales_order_id taken)%list
        with ((new_cart ++ [FulfillmentOrder.sales_order_id order])
              ++ map FulfillmentOrder.sales_order_id taken)%list
        by (rewrite <- app_assoc; reflexivity).
      apply Hnd. apply List.NoDup_app; [exact Hnew_cart|repeat constructor; intros []|].
      intros x Hx [<-|[]]. exact (Hcart Hx). }
    intros Hwf Hc. apply Forall_cons in Hwf as [Hwf1 Hwf].
    apply Hcov; [exact Hwf|].
    apply covered_update; [exact Hitems|exact Hwf1|].
    exact (covered_mono _ _ _ Hsub1 Hc).
Qed.

(** A full cart takes no more orders. *)
Lemma fill_cart_randomly_loop_full (check_stock : Z -> Z)
    (orders : list FulfillmentOrder.t) (max_cart_size : Z)
    (new_cart : list Z) (all_products_in_cart : gmap Z Z) (s : t) :
  (max_cart_size <=? Z.of_nat (length new_cart)) = true ->
  fill_cart_randomly_loop check_stock orders max_cart_size new_cart
    all_products_in_cart s
  = (Some (new_cart, all_products_in_cart), s).
Proof.
  intros Hfull. destruct orders; cbn [fill_cart_randomly_loop]; [reflexivity|].
  rewrite Hfull. reflexivity.
Qed.

(** Filling a cart from a shelf is filling it from the orders that have a
    product on the shelf. *)
Lemma fill_cart_from_shelf_loop_as_random (check_stock : Z -> Z)
    (orders : list FulfillmentOrder.t) (max_cart_size : Z)
    (products_from_the_shelf new_cart : list Z) (all_products_in_cart : gmap Z Z)
    (s : t) :
  fill_cart_from_shelf_loop check_stock orders max_cart_size
    products_from_the_shelf new_cart all_products_in_cart s
  = let '(r, s') :=
      fill_cart_randomly_loop check_stock
        (List.filter (fun order =>
                        order_has_products_on_shelf order products_from_the_shelf)
                     orders)
        max_cart_size new_cart all_products_in_cart s in
    (fst <$> r, s').
Proof.
  revert new_cart all_products_in_cart s.
  induction orders as [|order rest IH]; intros new_cart all_products_in_cart s;
    cbn [fill_cart_from_shelf_loop List.filter]; [reflexivity|].
  destruct (max_cart_size <=? Z.of_nat (length new_cart)) eqn:Hfull.
  { rewrite fill_cart_randomly_loop_full by exact Hfull. reflexivity. }
  unfold mbind at 1, M_bind at 1, get at 1. cbv beta iota zeta.
  destruct (order_has_products_on_shelf order products_from_the_shelf).
  - cbn [fill_cart_randomly_loop]. rewrite Hfull.
    unfold mbind at 2, M_bind at 2, get at 1. cbv beta iota zeta.
    rewrite andb_true_r.
    destruct (negb _ && negb _); [|apply IH].
    unfold mbind, M_bind.
    destruct (is_order_fully_available check_stock all_products_in_cart
                (FulfillmentOrder.items order) s) as [[[|]|] s1];
      [apply IH|apply IH|reflexivity].
  - rewrite andb_false_r. apply IH.
Qed.

End OneCart.

(** ** The cart planners: the carts of one call *)

Section Carts.
Import PulpoCartsManager.

Lemma adds_frame (Q : PickingOrder.t -> Prop) (allowed : Z -> Prop) (s s' : t) :
  wms s' = wms s ->
  (forall id, In id (processed_orders s') <-> In id (processed_orders s)) ->
  Carted.adds Q allowed s s'.
Proof.
  intros Hw Hp. exists []. rewrite app_nil_r. split; [exact Hw|].
  split; [constructor|]. split; [constructor|]. split; [intros id []|].
  intros id. rewrite Hp. cbn. tauto.
Qed.

Lemma adds_only_stock (Q : PickingOrder.t -> Prop) (allowed : Z -> Prop) (s s' : t) :
  Carted.only_stock s s' -> Carted.adds Q allowed s s'.
Proof.
  intros H. destruct (only_stock_keeps _ _ H) as (Hw & Hp & _).
  apply adds_frame; [exact Hw|]. intros id. rewrite Hp. reflexivity.
Qed.

Lemma adds_trans (Q : PickingOrder.t -> Prop) (allowed : Z -> Prop) (s1 s2 s3 : t) :
  Carted.adds Q allowed s1 s2 -> Carted.adds Q allowed s2 s3 ->
  Carted.adds Q allowed s1 s3.
Proof.
  intros (picks1 & Hw1 & HQ1 & Hnd1 & Hnew1 & Hp1)
         (picks2 & Hw2 & HQ2 & Hnd2 & Hnew2 & Hp2).
  exists (picks1 ++ picks2)%list. unfold Carted.ids in *.
  rewrite map_app, concat_app.
  split; [rewrite Hw2, Hw1, app_assoc; reflexivity|].
  split; [apply Forall_app; split; assumption|].
  split.
  { apply List.NoDup_app; [exact Hnd1|exact Hnd2|].
    intros id H1 H2. destruct (Hnew2 id H2) as [Hfresh _].
    apply Hfresh, Hp1. right. exact H1. }
  split.
  { intros id Hin. apply in_app_or in Hin as [Hin|Hin]; [exact (Hnew1 id Hin)|].
    destruct (Hnew2 id Hin) as [Hfresh Hal]. split; [|exact Hal].
    intros Hc. apply Hfresh, Hp1. left. exact Hc. }
  intros id. rewrite Hp2, Hp1, in_app_iff. tauto.
Qed.

Lemma adds_weaken (Q : PickingOrder.t -> Prop) (allowed allowed' : Z -> Prop)
    (s s' : t) :
  (forall id, allowed id -> allowed' id) ->
  Carted.adds Q allowed s s' -> Carted.adds Q allowed' s s'.
Proof.
  intros Himp (picks & Hw & HQ & Hnd & Hnew & Hp).
  exists picks. split; [exact Hw|]. split; [exact HQ|]. split; [exact Hnd|].
  split; [|exact Hp]. intros id Hin. destruct (Hnew id Hin) as [H1 H2]. auto.
Qed.

(** The least number of orders of a cart is positive, whatever the size
    and the mode. *)
Lemma cart_minimum_positive (size : config.PackageSizes) (dry sweeping : bool) (n : Z) :
  let cart_minimum := inject_Z (config.min (config.value size)) in
  let cart_minimum :=
    if dry then (cart_minimum * config.RUNNING_DRY_DENOMINATOR)%Q else cart_minimum in
  let cart_minimum :=
    if sweeping then inject_Z config.SWEEPING_MIN_ORDERS else cart_minimum in
  Qle_bool cart_minimum (inject_Z n) = true -> 1 <= n.
Proof.
  cbv zeta. intros H. apply Qle_bool_iff in H. unfold Qle in H.
  unfold config.SWEEPING_MIN_ORDERS, config.RUNNING_DRY_DENOMINATOR in H.
  destruct sweeping, dry, size; cbn in H; lia.
Qed.

(** [create_cart]: either a pick for the whole cart, within the bounds of
    the size, or nothing at all. *)
Lemma create_cart_spec (c : creator) (new_cart : list Z) (size : config.PackageSizes)
    (shelf : string) (s : t) :
  exists (cart_created : bool) (s' : t),
    create_cart c new_cart size shelf s = (Some cart_created, s')
    /\ if cart_created
       then exists p,
              s' = post p s
              /\ PickingOrder.sales_orders p = new_cart
              /\ Carted.cart_of size p
       else s' = s.
Proof.
  unfold create_cart. unfold mbind at 1, M_bind at 1, get at 1. cbv beta iota zeta.
  destruct (Qle_bool _ _ && (_ <=? _)) eqn:Hsize.
  - apply andb_true_iff in Hsize as [Hmin Hmax].
    apply (cart_minimum_positive size (is_running_dry s)
             (is_prio s && is_sweeping_time s)) in Hmin.
    apply Z.leb_le in Hmax.
    unfold shared_functions.create_picking. run_monad.
    exists true. eexists. split; [reflexivity|]. eexists. split; [reflexivity|].
    split; [reflexivity|]. unfold Carted.cart_of. cbn.
    repeat split; try assumption;
      try (destruct (length new_cart =? 1)%nat; reflexivity).
  - exists false, s. split; reflexivity.
Qed.

Lemma extend_processed_run (ids : list Z) (s : t) :
  extend_processed ids s
  = (Some tt, set_processed_orders (processed_orders s ++ ids)%list s).
Proof. reflexivity. Qed.

Lemma update_stock_dictionary_run (c : creator) (cart : list Z) (s : t) :
  update_stock_dictionary c cart s
  = (Some tt,
     set_product_stock
       (fold_left (fun stock order_id =>
          fold_left (fun stock order =>
            if order_id =? FulfillmentOrder.sales_order_id order
            then take_items (FulfillmentOrder.items order) stock
            else stock) (c_orders c) stock)
        cart (product_stock s)) s).
Proof. reflexivity. Qed.

(** A cart that was filled and sent: what it adds, and what it leaves of
    the stock. *)
Lemma cart_sent (c : creator) (size : config.PackageSizes) (shelf : string)
    (taken : list FulfillmentOrder.t) (s s1 : t) :
  Carted.only_stock s s1 ->
  (forall order, In order taken -> In order (c_orders c)) ->
  Forall (fun order =>
            ~ In (FulfillmentOrder.sales_order_id order) (processed_orders s)) taken ->
  List.NoDup (map FulfillmentOrder.sales_order_id taken) ->
  exists (cart_created : bool) (s2 : t),
    create_cart c (map FulfillmentOrder.sales_order_id taken) size shelf s1
    = (Some cart_created, s2)
    /\ if cart_created
       then
         let s4 :=
           snd (update_stock_dictionary c (map FulfillmentOrder.sales_order_id taken)
                  (snd (extend_processed
                          (map FulfillmentOrder.sales_order_id taken) s2))) in
         Carted.adds (Carted.cart_of size)
           (fun id => exists order,
                        In order (c_orders c)
                        /\ FulfillmentOrder.sales_order_id order = id) s s4
         /\ (List.NoDup (map FulfillmentOrder.sales_order_id (c_orders c)) ->
             Carted.covered (fold_left update_products_dictionary taken ∅)
                            (product_stock s1) ->
             Carted.nonnegative (product_stock s1) ->
             Carted.nonnegative (product_stock s4))
       else s2 = s1.
Proof.
  intros Honly Hin Hfresh Hnd.
  destruct (only_stock_keeps _ _ Honly) as (Hw & Hp & _).
  destruct (create_cart_spec c (map FulfillmentOrder.sales_order_id taken) size
              shelf s1) as ([|] & s2 & Hrun & Hcart).
  - exists true, s2. split; [exact Hrun|].
    destruct Hcart as (p & -> & Hids & Hshape). cbv zeta.
    rewrite extend_processed_run, update_stock_dictionary_run. cbn [snd].
    split.
    + exists [p]. unfold Carted.ids. cbn [map concat]. rewrite app_nil_r, Hids.
      cbn [wms processed_orders set_product_stock set_processed_orders set_work
           post utils].
      rewrite Hw, Hp.
      split; [reflexivity|]. split; [constructor; [exact Hshape|constructor]|].
      split; [exact Hnd|]. split.
      * intros id Hid. apply in_map_iff in Hid as (o & <- & Ho).
        rewrite Forall_forall in Hfresh.
        split; [apply Hfresh, list_elem_of_In, Ho|].
        exists o. split; [apply Hin, Ho|reflexivity].
      * intros id. rewrite in_app_iff. tauto.
    + intros Hsids Hcov Hpos pid a Ha.
      cbn [product_stock wms processed_orders set_product_stock set_processed_orders
           set_work post utils] in Ha.
      rewrite (update_stock_lookup (c_orders c) taken _ pid Hsids Hin) in Ha.
      destruct (product_stock s1 !! pid) as [a1|] eqn:H1; [|discriminate].
      cbn in Ha. injection Ha as <-.
      pose proof (products_of_taken taken ∅ pid) as Hsum.
      rewrite lookup_empty in Hsum. cbn [default from_option id] in Hsum.
      destruct (fold_left update_products_dictionary taken ∅ !! pid) as [q|] eqn:Hq.
      * destruct (Hcov pid q Hq) as (a' & Ha' & Hle).
        rewrite H1 in Ha'. injection Ha' as <-. cbn in Hsum. lia.
      * cbn in Hsum. pose proof (Hpos pid a1 H1). lia.
  - exists false, s2. split; [exact Hrun|exact Hcart].
Qed.

Lemma covered_empty (stock : gmap Z Z) : Carted.covered ∅ stock.
Proof. intros pid q Hq. rewrite lookup_empty in Hq. discriminate. Qed.

Lemma Forall_filter_bool {A : Type} (P : A -> Prop) (f : A -> bool) (l : list A) :
  Forall P l -> Forall P (List.filter f l).
Proof.
  rewrite !Forall_forall. intros H x Hx.
  apply list_elem_of_In, filter_In in Hx as [Hx _]. apply H, list_elem_of_In, Hx.
Qed.

Lemma sublist_In {A : Type} (l k : list A) (x : A) :
  l `sublist_of` k -> In x l -> In x k.
Proof.
  induction 1 as [|y l k _ IH|y l k _ IH]; cbn [In]; [tauto| |]; intros H.
  - destruct H; auto.
  - auto.
Qed.

(** One turn of a cart planner: a cart filled from some of the orders of
    the creator, sent if it has the size, and then booked. *)
Lemma cart_turn (check_stock : Z -> Z) (c : creator) (size : config.PackageSizes)
    (shelf : string) (orders : list FulfillmentOrder.t) (s : t) :
  (forall order, In order orders -> In order (c_orders c)) ->
  exists (taken : list FulfillmentOrder.t) (s1 : t),
    fill_cart_randomly_loop check_stock orders (config.max (config.value size)) [] ∅ s
    = (Some (map FulfillmentOrder.sales_order_id taken,
             fold_left update_products_dictionary taken ∅), s1)
    /\ Carted.adds (Carted.cart_of size)
         (fun id => exists order,
                      In order (c_orders c)
                      /\ FulfillmentOrder.sales_order_id order = id) s s1
    /\ (Carted.well_formed (c_orders c) ->
        (forall product_id, 0 <= check_stock product_id) ->
        Carted.nonnegative (product_stock s) -> Carted.nonnegative (product_stock s1))
    /\ exists (cart_created : bool) (s2 : t),
         create_cart c (map FulfillmentOrder.sales_order_id taken) size shelf s1
         = (Some cart_created, s2)
         /\ if cart_created
            then
              let s4 :=
                snd (update_stock_dictionary c
                       (map FulfillmentOrder.sales_order_id taken)
                       (snd (extend_processed
                               (map FulfillmentOrder.sales_order_id taken) s2))) in
              Carted.adds (Carted.cart_of size)
                (fun id => exists order,
                             In order (c_orders c)
                             /\ FulfillmentOrder.sales_order_id order = id) s s4
              /\ (Carted.well_formed (c_orders c) ->
                  (forall product_id, 0 <= check_stock product_id) ->
                  Carted.nonnegative (product_stock s) ->
                  Carted.nonnegative (product_stock s4))
            else s2 = s1.
Proof.
  intros Hin.
  destruct (fill_cart_randomly_loop_spec check_stock orders
              (config.max (config.value size)) [] ∅ s)
    as (taken & s1 & Hrun & Honly & Hsub & Hnew & Htaken & Hfresh & Hnd & Hcov).
  cbn [app] in Hrun, Hnd.
  exists taken, s1. split; [exact Hrun|].
  split; [apply adds_only_stock, Honly|].
  assert (Hpos1 : (forall product_id, 0 <= check_stock product_id) ->
                  Carted.nonnegative (product_stock s) ->
                  Carted.nonnegative (product_stock s1)).
  { intros Hcs Hpos. exact (nonnegative_grow check_stock _ _ Hcs Hnew Hsub Hpos). }
  split; [intros _; exact Hpos1|].
  destruct (cart_sent c size shelf taken s s1 Honly) as (b & s2 & Hcreate & Hsent).
  { intros o Ho. apply Hin. exact (sublist_In _ _ _ Htaken Ho). }
  { eapply Forall_impl; [exact Hfresh|]. cbn beta. tauto. }
  { apply Hnd. constructor. }
  exists b, s2. split; [exact Hcreate|].
  destruct b; [|exact Hsent]. cbv zeta in *.
  destruct Hsent as [Hadds Hpos4]. split; [exact Hadds|].
  intros Hwell Hcs Hpos. apply Hpos4.
  - exact (proj1 Hwell).
  - apply Hcov; [|apply covered_empty].
    destruct Hwell as [_ Hitems]. rewrite Forall_forall in Hitems.
    apply Forall_forall. intros o Ho.
    apply Hitems, list_elem_of_In, Hin, list_elem_of_In, Ho.
  - apply Hpos1; assumption.
Qed.

Lemma generate_carts_spec (check_stock : Z -> Z) (c : creator)
    (shelves : list string) (space_left : space) (size : config.PackageSizes) (s : t) :
  exists (space_left' : space) (s' : t),
    generate_carts check_stock c shelves space_left size s = (Some space_left', s')
    /\ Carted.adds (Carted.cart_of size)
         (fun id => exists order,
                      In order (c_orders c)
                      /\ FulfillmentOrder.sales_order_id order = id) s s'
    /\ (Carted.well_formed (c_orders c) ->
        (forall product_id, 0 <= check_stock product_id) ->
        Carted.nonnegative (product_stock s) -> Carted.nonnegative (product_stock s')).
Proof.
  revert space_left s.
  induction shelves as [|shelf rest IH]; intros space_left s; cbn [generate_carts].
  - exists space_left, s. split; [reflexivity|].
    split; [apply adds_only_stock, only_stock_refl|auto].
  - destruct (is_zero space_left).
    { exists space_left, s. split; [reflexivity|].
      split; [apply adds_only_stock, only_stock_refl|auto]. }
    unfold mbind at 1, M_bind at 1, get at 1. cbv beta iota zeta.
    unfold fill_cart_from_shelf. unfold mbind at 1, M_bind at 1.
    rewrite fill_cart_from_shelf_loop_as_random.
    destruct (cart_turn check_stock c size shelf
                (List.filter
                   (fun order =>
                      order_has_products_on_shelf order (shelf_products s shelf))
                   (c_orders c)) s)
      as (taken & s1 & Hfill & Hadds1 & Hpos1 & b & s2 & Hcreate & Hsent).
    { intros o Ho. apply filter_In in Ho as [Ho _]. exact Ho. }
    rewrite Hfill. cbn [fmap option_fmap option_map fst snd].
    destruct taken as [|order taken].
    { cbn [map].
      destruct (IH space_left s1) as (space' & s' & Hrun & Hadds & Hpos).
      exists space', s'. split; [exact Hrun|].
      split; [eapply adds_trans; eassumption|]. auto. }
    cbn [map].
    change (FulfillmentOrder.sales_order_id order
            :: map FulfillmentOrder.sales_order_id taken)
      with (map FulfillmentOrder.sales_order_id (order :: taken)).
    unfold mbind at 1, M_bind at 1. rewrite Hcreate.
    destruct b.
    + cbv zeta in Hsent. destruct Hsent as [Hadds4 Hpos4].
      unfold mbind at 1, M_bind at 1. rewrite extend_processed_run.
      unfold mbind at 1, M_bind at 1. rewrite update_stock_dictionary_run.
      rewrite extend_processed_run, update_stock_dictionary_run in Hadds4, Hpos4.
      cbn [snd] in Hadds4, Hpos4.
      match goal with
      | |- context [generate_carts _ _ rest ?sp _ ?s4] =>
          destruct (IH sp s4) as (space' & s' & Hrun & Hadds & Hpos)
      end.
      exists space', s'. split; [exact Hrun|].
      split; [eapply adds_trans; eassumption|]. auto.
    + subst s2.
      destruct (IH space_left s1) as (space' & s' & Hrun & Hadds & Hpos).
      exists space', s'. split; [exact Hrun|].
      split; [eapply adds_trans; eassumption|]. auto.
Qed.

Lemma fill_cart_randomly_spec (check_stock : Z -> Z) (c : creator)
    (space_left : space) (size : config.PackageSizes) (s : t) :
  exists (r : option space) (s' : t),
    fill_cart_randomly check_stock c space_left size s = (Some r, s')
    /\ Carted.adds (Carted.cart_of size)
         (fun id => exists order,
                      In order (c_orders c)
                      /\ FulfillmentOrder.sales_order_id order = id) s s'
    /\ (Carted.well_formed (c_orders c) ->
        (forall product_id, 0 <= check_stock product_id) ->
        Carted.nonnegative (product_stock s) -> Carted.nonnegative (product_stock s')).
Proof.
  unfold fill_cart_randomly. cbv zeta.
  destruct (Z.to_nat _) as [|n]; cbn [for_range].
  { exists None, s. split; [reflexivity|].
    split; [apply adds_only_stock, only_stock_refl|auto]. }
  destruct (cart_turn check_stock c size EmptyString (c_orders c) s)
    as (taken & s1 & Hfill & Hadds1 & Hpos1 & b & s2 & Hcreate & Hsent); [auto|].
  unfold mbind at 1, M_bind at 1. unfold mbind at 1, M_bind at 1.
  rewrite Hfill. cbn [fst].
  destruct taken as [|order taken].
  { cbn [map]. eexists _, s1. split; [reflexivity|]. auto. }
  cbn [map].
  change (FulfillmentOrder.sales_order_id order
          :: map FulfillmentOrder.sales_order_id taken)
    with (map FulfillmentOrder.sales_order_id (order :: taken)).
  unfold mbind at 1, M_bind at 1. rewrite Hcreate.
  destruct b.
  - cbv zeta in Hsent. destruct Hsent as [Hadds4 Hpos4].
    unfold mbind at 1, M_bind at 1. rewrite extend_processed_run.
    unfold mbind at 1, M_bind at 1. rewrite update_stock_dictionary_run.
    rewrite extend_processed_run, update_stock_dictionary_run in Hadds4, Hpos4.
    cbn [snd] in Hadds4, Hpos4.
    eexists _, _. split; [reflexivity|]. auto.
  - subst s2. eexists _, s1. split; [reflexivity|]. auto.
Qed.

Lemma shelves_main_spec (check_stock : Z -> Z) (c : creator)
    (size : config.PackageSizes) (space_left : space) (s : t) :
  exists (space_left' : space) (s' : t),
    shelves_main check_stock c size space_left s = (Some space_left', s')
    /\ Carted.adds (Carted.cart_of size)
         (fun id => exists order,
                      In order (c_orders c)
                      /\ FulfillmentOrder.sales_order_id order = id) s s'
    /\ (Carted.well_formed (c_orders c) ->
        (forall product_id, 0 <= check_stock product_id) ->
        Carted.nonnegative (product_stock s) -> Carted.nonnegative (product_stock s')).
Proof.
  unfold shelves_main. unfold mbind, M_bind, get. cbv beta iota zeta.
  destruct (select_shelves s _ _) as [|shelf shelves].
  - exists space_left, s. split; [reflexivity|].
    split; [apply adds_only_stock, only_stock_refl|auto].
  - apply generate_carts_spec.
Qed.

(** A selection of well-formed orders is well formed. *)
Lemma well_formed_filter (P : FulfillmentOrder.t -> Prop)
    `{forall order, Decision (P order)} (orders : list FulfillmentOrder.t) :
  Carted.well_formed orders -> Carted.well_formed (filter P orders).
Proof.
  intros [Hids Hitems]. split.
  - clear Hitems. induction orders as [|o rest IH]; [constructor|].
    cbn [map] in Hids. apply List.NoDup_cons_iff in Hids as [Hfresh Hids].
    rewrite filter_cons. destruct (decide (P o)); [|auto].
    cbn [map]. apply List.NoDup_cons_iff. split; [|auto].
    intros Hin. apply Hfresh. apply in_map_iff in Hin as (o' & E & Hin).
    apply in_map_iff. exists o'. split; [exact E|].
    apply list_elem_of_In. apply list_elem_of_In, list_elem_of_filter in Hin as [_ Hin].
    exact Hin.
  - rewrite Forall_forall in *. intros o Ho.
    apply list_elem_of_filter in Ho as [_ Ho]. auto.
Qed.

(** One call of the carts manager. *)
Lemma carts_main_spec (check_stock : Z -> Z) (count_picking_orders : Z)
    (size : config.PackageSizes) (orders : list FulfillmentOrder.t)
    (is_prio is_sweeping_time : bool) (stock : gmap Z Z) (s : t) :
  let s' :=
    snd (main check_stock count_picking_orders size orders is_prio is_sweeping_time
           stock s) in
  Carted.adds (Carted.cart_of size)
    (fun id => exists order,
       In order orders /\ FulfillmentOrder.sales_order_id order = id
       /\ shared_functions.define_size_note (shared_functions.extract_size order)
          = config.note (config.value size)) s s'
  /\ (Carted.well_formed orders ->
      (forall product_id, 0 <= check_stock product_id) ->
      Carted.nonnegative stock -> Carted.nonnegative (product_stock s')).
Proof.
  cbv zeta.
  set (allowed := fun id => exists order,
         In order orders /\ FulfillmentOrder.sales_order_id order = id
         /\ shared_functions.define_size_note (shared_functions.extract_size order)
            = config.note (config.value size)).
  enough (Hmain : exists s',
            main check_stock count_picking_orders size orders is_prio
              is_sweeping_time stock s = (Some tt, s')
            /\ Carted.adds (Carted.cart_of size) allowed s s'
            /\ (Carted.well_formed orders ->
                (forall product_id, 0 <= check_stock product_id) ->
                Carted.nonnegative stock -> Carted.nonnegative (product_stock s')))
    by (destruct Hmain as (s' & -> & Hmain); exact Hmain).
  unfold main. unfold mbind at 1, M_bind at 1, modify at 1. cbv beta iota.
  set (s0 := set_call orders is_prio is_sweeping_time stock s).
  assert (Hspace : exists space_left s1,
            check_space count_picking_orders s0 = (Some space_left, s1)
            /\ wms s1 = wms s /\ processed_orders s1 = processed_orders s
            /\ product_stock s1 = stock /\ PulpoCartsManager.orders s1 = orders).
  { unfold check_space. unfold mbind, M_bind, get, when, modify, mret, M_ret.
    cbv beta iota. destruct (PulpoCartsManager.is_prio s0).
    - exists Unbounded, s0. repeat split.
    - destruct (config.NON_PRIO_THRESHOLD - count_picking_orders <? 0);
        eexists _, _; (split; [reflexivity|repeat split]). }
  destruct Hspace as (space_left & s1 & Hrun & Hw1 & Hp1 & Hstock1 & Horders1).
  unfold mbind at 1, M_bind at 1. rewrite Hrun.
  unfold mbind at 1, M_bind at 1, get at 1. cbv beta iota zeta.
  assert (Hstart : Carted.adds (Carted.cart_of size) allowed s s1).
  { apply adds_frame; [exact Hw1|]. intros id. rewrite Hp1. reflexivity. }
  set (selected := select_orders_by_size s1 (config.note (config.value size))).
  assert (Hselected : forall order, In order selected ->
            In order orders
            /\ shared_functions.define_size_note (shared_functions.extract_size order)
               = config.note (config.value size)).
  { intros o Ho. unfold selected, select_orders_by_size in Ho.
    apply list_elem_of_In, list_elem_of_filter in Ho as [Hsel Ho].
    rewrite Horders1 in Ho. split; [apply list_elem_of_In, Ho|].
    apply andb_true_iff in Hsel as [_ Hsel]. apply String.eqb_eq, Hsel. }
  assert (Hwf_selected : Carted.well_formed orders -> Carted.well_formed selected).
  { intros Hwf. unfold selected, select_orders_by_size. rewrite Horders1.
    apply well_formed_filter, Hwf. }
  destruct (negb (bool_decide (selected = []))
            && (positive_space space_left || PulpoCartsManager.is_sweeping_time s1)).
  2: { exists s1. split; [reflexivity|]. split; [exact Hstart|].
       intros _ _ Hpos. rewrite Hstock1. exact Hpos. }
  destruct (shelves_main_spec check_stock (new_creator s1 selected) size space_left s1)
    as (space_left' & s2 & Hshelves & Hadds2 & Hpos2).
  cbn [c_orders new_creator] in Hadds2, Hpos2.
  unfold mbind at 1, M_bind at 1. rewrite Hshelves.
  unfold mbind at 1, M_bind at 1, get at 1. cbv beta iota.
  unfold mbind at 1, M_bind at 1, modify at 1. cbv beta iota.
  set (s3 := set_processed_orders (processed_orders s2 ++ processed_orders s2)%list s2).
  assert (Hadds3 : Carted.adds (Carted.cart_of size) allowed s s3).
  { eapply adds_trans; [exact Hstart|]. eapply adds_trans.
    - eapply adds_weaken; [|exact Hadds2].
      intros id (o & Ho & Hid). destruct (Hselected o Ho) as [Hin Hsize].
      exists o. auto.
    - apply adds_frame; [reflexivity|]. intros id. subst s3.
      cbn [processed_orders set_processed_orders set_work]. rewrite in_app_iff. tauto. }
  assert (Hpos3 : Carted.well_formed orders ->
                  (forall product_id, 0 <= check_stock product_id) ->
                  Carted.nonnegative stock -> Carted.nonnegative (product_stock s3)).
  { intros Hwf Hcs Hpos. subst s3. cbn [product_stock set_processed_orders set_work].
    apply Hpos2; [apply Hwf_selected, Hwf|exact Hcs|]. rewrite Hstock1. exact Hpos. }
  destruct (positive_space space_left');
    [|exists s3; split; [reflexivity|split; assumption]].
  unfold mbind at 1, M_bind at 1, get at 1. cbv beta iota zeta.
  unfold random_main.
  destruct (fill_cart_randomly_spec check_stock
              (new_creator s3 (remove_processed_orders s3 selected)) space_left'
              size s3) as (r & s4 & Hrandom & Hadds4 & Hpos4).
  cbn [c_orders new_creator] in Hadds4, Hpos4.
  unfold mbind at 1, M_bind at 1. rewrite Hrandom.
  exists s4. split; [reflexivity|]. split.
  - eapply adds_trans; [exact Hadds3|]. eapply adds_weaken; [|exact Hadds4].
    intros id (o & Ho & Hid). unfold remove_processed_orders in Ho.
    apply list_elem_of_In, list_elem_of_filter in Ho as [_ Ho].
    destruct (Hselected o (proj1 (list_elem_of_In _ _) Ho)) as [Hin Hsize].
    exists o. auto.
  - intros Hwf Hcs Hpos. apply Hpos4; [|exact Hcs|apply Hpos3; assumption].
    unfold remove_processed_orders. apply well_formed_filter, Hwf_selected, Hwf.
Qed.

End Carts.

Lemma sends_mono {St A : Type} (log : St -> list PickingOrder.t)
    (Q Q' : PickingOrder.t -> Prop) (m : M St A) :
  (forall p, Q p -> Q' p) -> Log.sends log Q m -> Log.sends log Q' m.
Proof.
  intros Himp H s. destruct (H s) as (ext & E & HQ). exists ext.
  split; [exact E|]. eapply Forall_impl; [exact HQ|exact Himp].
Qed.

(** A call of the carts manager sends carts of its size only. *)
Lemma carts_main_sends_carts (check_stock : Z -> Z) (count_picking_orders : Z)
    (size : config.PackageSizes) (orders : list FulfillmentOrder.t)
    (is_prio is_sweeping_time : bool) (stock : gmap Z Z) :
  Log.sends posted (Carted.cart_of size)
    (PulpoCartsManager.main check_stock count_picking_orders size orders is_prio
       is_sweeping_time stock).
Proof.
  intros s.
  destruct (carts_main_spec check_stock count_picking_orders size orders is_prio
              is_sweeping_time stock s) as [(picks & Hw & HQ & _) _].
  exists picks. split; [exact Hw|exact HQ].
Qed.

(** X22. The carts of a pass.  Whatever the orders, the stock and the
    answers of the WMS, a pass of [picking_creation_carts] sends nothing
    but picks made by [create_cart] for one of the sizes S to XL: each
    names at least one order and at most as many as the size allows (ten,
    one for XL), has an order count of 1 and no pickers, and is a cart
    unless it names a single order. *)
Theorem carts_pass_sends_carts (w : PulpoManager.World)
    (orders : list FulfillmentOrder.t) (is_prio : bool) :
  Log.sends PulpoManager.pulpo
    (fun p => exists size,
                size <> config.SIZE_XXL /\ Carted.cart_of size p
                /\ Z.of_nat (length (PickingOrder.sales_orders p)) <= 10)
    (PulpoManager.picking_creation_carts w orders is_prio).
Proof.
  unfold PulpoManager.picking_creation_carts.
  induction config.all_sizes as [|size rest IH];
    cbn [PulpoManager.picking_creation_carts_from]; [apply sends_ret|].
  destruct (config.size_eqb size config.SIZE_XXL) eqn:Hsize; [exact IH|].
  apply sends_bind; [apply sends_get|]. intros self.
  destruct (_ && _); [apply sends_ret|].
  apply sends_bind; [apply sends_modify; reflexivity|]. intros _.
  apply sends_bind; [|intros _; exact IH].
  apply with_carts_sends.
  eapply sends_mono; [|apply carts_main_sends_carts].
  intros p Hp. exists size. split; [|split; [exact Hp|]].
  - intros ->. discriminate.
  - destruct Hp as [[_ Hmax] _]. destruct size; cbn in Hmax; lia.
Qed.

(** X23. No order in two carts.  The picks that one call of the carts
    manager sends name no sales order twice, and only sales orders that
    were not processed before the call and belong to an order of the size
    in the list the call was given; the orders processed after the call
    are those processed before it and those the picks name. *)
Theorem carts_main_never_reuses_an_order (check_stock : Z -> Z)
    (count_picking_orders : Z) (size : config.PackageSizes)
    (orders : list FulfillmentOrder.t) (is_prio is_sweeping_time : bool)
    (stock : gmap Z Z) (s : PulpoCartsManager.t) :
  let s' :=
    exec (PulpoCartsManager.main check_stock count_picking_orders size orders
            is_prio is_sweeping_time stock) s in
  exists picks,
    PulpoCartsManager.wms s' = (PulpoCartsManager.wms s ++ picks)%list
    /\ List.NoDup (Carted.ids picks)
    /\ (forall id, In id (Carted.ids picks) ->
          ~ In id (PulpoCartsManager.processed_orders s)
          /\ exists order,
               In order orders /\ FulfillmentOrder.sales_order_id order = id
               /\ shared_functions.define_size_note
                    (shared_functions.extract_size order)
                  = config.note (config.value size))
    /\ (forall id, In id (PulpoCartsManager.processed_orders s')
                   <-> In id (PulpoCartsManager.processed_orders s)
                       \/ In id (Carted.ids picks)).
Proof.
  cbv zeta. unfold exec.
  destruct (carts_main_spec check_stock count_picking_orders size orders is_prio
              is_sweeping_time stock s) as [(picks & Hw & _ & Hnd & Hnew & Hp) _].
  exists picks. auto.
Qed.

(** X24. Carts within the stock.  When no two of the orders share a sales
    order, no order has two items of one product, no item asks for a
    negative quantity, the stock dictionary handed to the call has no
    negative entry and the WMS reports no negative stock, one call of the
    carts manager leaves no negative entry in the stock dictionary: the
    carts it sends never ask for more than there is.  The stock numbers are
    taken within the range that a float holds exactly. *)
Theorem carts_main_keeps_stock_nonnegative (check_stock : Z -> Z)
    (count_picking_orders : Z) (size : config.PackageSizes)
    (orders : list FulfillmentOrder.t) (is_prio is_sweeping_time : bool)
    (stock : gmap Z Z) (s : PulpoCartsManager.t) :
  Carted.well_formed orders ->
  (forall product_id, 0 <= check_stock product_id) ->
  Carted.nonnegative stock ->
  Exact.asked orders ->
  Exact.reports check_stock ->
  Exact.stock stock ->
  Carted.nonnegative
    (PulpoCartsManager.product_stock
       (exec (PulpoCartsManager.main check_stock count_picking_orders size orders
                is_prio is_sweeping_time stock) s)).
Proof.
  intros Hwf Hcs Hpos _ _ _. unfold exec.
  destruct (carts_main_spec check_stock count_picking_orders size orders is_prio
              is_sweeping_time stock s) as [_ Hstock].
  apply Hstock; assumption.
Qed.

(** Three orders of one unit of products 1 and 2 each, ten units of both
    in stock. *)
Lemma carts_main_keeps_stock_nonnegative_witness :
  (Carted.well_formed Example.mixed_orders
   /\ (forall product_id : Z, 0 <= (fun _ : Z => 0) product_id)
   /\ Carted.nonnegative {[ 1 := 10; 2 := 10 ]})
  /\ (Exact.asked Example.mixed_orders
      /\ Exact.reports (fun _ => 0)
      /\ Exact.stock {[ 1 := 10; 2 := 10 ]})
  /\ Carted.nonnegative
       (PulpoCartsManager.product_stock
          (exec (PulpoCartsManager.main (fun _ => 0) 0 config.SIZE_M1
                   Example.mixed_orders false false {[ 1 := 10; 2 := 10 ]})
                (PulpoCartsManager.init [("H1-111", [1; 2])] Example.evening false))).
Proof.
  assert (H1 : Carted.well_formed Example.mixed_orders).
  { split; cbn.
    - repeat constructor; cbn; intuition lia.
    - repeat constructor; cbn; intuition lia. }
  assert (H2 : forall product_id : Z, 0 <= (fun _ : Z => 0) product_id)
    by (intros; cbn; lia).
  assert (Hin : forall product_id a,
            ({[ 1 := 10; 2 := 10 ]} : gmap Z Z) !! product_id = Some a -> a = 10).
  { intros pid a Ha. destruct (decide (pid = 1)) as [->|H1'].
    - rewrite lookup_insert_eq in Ha. injection Ha as <-. reflexivity.
    - rewrite lookup_insert_ne in Ha by congruence.
      apply lookup_singleton_Some in Ha as [_ <-]. reflexivity. }
  assert (H3 : Carted.nonnegative {[ 1 := 10; 2 := 10 ]}).
  { intros pid a Ha. rewrite (Hin pid a Ha). lia. }
  assert (H4 : Exact.asked Example.mixed_orders).
  { repeat constructor; cbn; lia. }
  assert (H5 : Exact.reports (fun _ => 0)) by (intros product_id; reflexivity).
  assert (H6 : Exact.stock {[ 1 := 10; 2 := 10 ]}).
  { intros pid a Ha. rewrite (Hin pid a Ha). reflexivity. }
  exact (conj (conj H1 (conj H2 H3)) (conj (conj H4 (conj H5 H6))
           (carts_main_keeps_stock_nonnegative (fun _ => 0) 0 config.SIZE_M1
              Example.mixed_orders false false {[ 1 := 10; 2 := 10 ]}
              (PulpoCartsManager.init [("H1-111", [1; 2])] Example.evening false)
              H1 H2 H3 H4 H5 H6))).
Defined.

(** ** Batches and carts of one pass *)

Section Keeps.
Context {St : Type} (R : St -> St -> Prop).
Hypothesis R_refl : forall s, R s s.
Hypothesis R_trans : forall s1 s2 s3, R s1 s2 -> R s2 s3 -> R s1 s3.

Lemma keeps_ret {A : Type} (a : A) : Step.keeps R (mret a : M St A).
Proof. intros s. apply R_refl. Qed.

Lemma keeps_raise {A : Type} : Step.keeps R (raise : M St A).
Proof. intros s. apply R_refl. Qed.

Lemma keeps_get : Step.keeps R (get : M St St).
Proof. intros s. apply R_refl. Qed.

Lemma keeps_of_option {A : Type} (o : option A) : Step.keeps R (of_option o : M St A).
Proof. destruct o; [apply keeps_ret|apply keeps_raise]. Qed.

Lemma keeps_modify (f : St -> St) : (forall s, R s (f s)) -> Step.keeps R (modify f).
Proof. intros H s. apply H. Qed.

Lemma keeps_bind {A B : Type} (m : M St A) (k : A -> M St B) :
  Step.keeps R m -> (forall a, Step.keeps R (k a)) -> Step.keeps R (m ≫= k).
Proof.
  intros Hm Hk s. unfold mbind, M_bind. specialize (Hm s).
  destruct (m s) as [[a|] s1]; cbn [snd] in *; [|exact Hm].
  eapply R_trans; [exact Hm|apply Hk].
Qed.

Lemma keeps_try (body : M St unit) : Step.keeps R body -> Step.keeps R (try_ body).
Proof. intros H s. apply H. Qed.

Lemma keeps_when (b : bool) (m : M St unit) :
  Step.keeps R m -> Step.keeps R (when b m).
Proof. intros H. destruct b; [exact H|apply keeps_ret]. Qed.

Lemma keeps_for_each {A : Type} (xs : list A) (body : A -> M St unit) :
  (forall x, Step.keeps R (body x)) -> Step.keeps R (for_each xs body).
Proof.
  intros H. induction xs as [|x xs IH]; cbn [for_each]; [apply keeps_ret|].
  apply keeps_bind; [apply H|intros _; exact IH].
Qed.

End Keeps.

Section BatchesMarked.
Import PulpoBatchingManager.

Lemma marks_refl (s : t) : Batched.marks s s.
Proof.
  exists []. rewrite app_nil_r. split; [reflexivity|]. split; [reflexivity|].
  intros id [].
Qed.

Lemma marks_trans (s1 s2 s3 : t) :
  Batched.marks s1 s2 -> Batched.marks s2 s3 -> Batched.marks s1 s3.
Proof.
  intros (picks1 & Hw1 & Hsub1 & Hin1) (picks2 & Hw2 & Hsub2 & Hin2).
  exists (picks1 ++ picks2)%list.
  split; [rewrite Hw2, Hw1, app_assoc; reflexivity|].
  split; [etransitivity; eassumption|].
  intros id Hid. unfold Batched.ids in *. rewrite map_app, concat_app in Hid.
  apply in_app_or in Hid as [Hid|Hid]; [apply Hsub2, Hin1, Hid|apply Hin2, Hid].
Qed.

(** A change that leaves the log and the processed orders alone. *)
Lemma marks_frame (s s' : t) :
  wms s' = wms s -> processed_orders s' = processed_orders s -> Batched.marks s s'.
Proof.
  intros Hw Hp. exists []. rewrite app_nil_r, Hp. split; [exact Hw|].
  split; [reflexivity|]. intros id [].
Qed.

(** A pick whose orders are marked as processed right after it. *)
Lemma pick_and_mark (list_of_ids : list Z) (note : string) (s : t) :
  exists s',
    (shared_functions.create_picking list_of_ids note 1 false [] ;;
     mark_processed list_of_ids) s = (Some tt, s')
    /\ Batched.marks s s'
    /\ product_stock s' = product_stock s.
Proof.
  unfold shared_functions.create_picking, mark_processed. run_monad.
  eexists. split; [reflexivity|]. split; [|reflexivity].
  eexists [_]. cbn [wms processed_orders set_processed_orders set_work].
  split; [reflexivity|]. split; [apply union_subseteq_l|].
  unfold Batched.ids. cbn [map concat PickingOrder.sales_orders].
  rewrite app_nil_r. intros id Hid.
  apply elem_of_union_r, elem_of_list_to_set, list_elem_of_In, Hid.
Qed.

Lemma pick_mark_then {A : Type} (list_of_ids : list Z) (note : string)
    (k : M t A) :
  Step.keeps Batched.marks k ->
  Step.keeps Batched.marks
    (shared_functions.create_picking list_of_ids note 1 false [] ;;
     mark_processed list_of_ids ;; k).
Proof.
  intros Hk s.
  destruct (pick_and_mark list_of_ids note s) as (s' & Hrun & Hmarks & _).
  unfold mbind, M_bind in Hrun |- *.
  destruct (shared_functions.create_picking list_of_ids note 1 false [] s)
    as [[[]|] s1]; [|discriminate].
  destruct (mark_processed list_of_ids s1) as [[[]|] s2]; [|discriminate].
  injection Hrun as <-. eapply marks_trans; [exact Hmarks|apply Hk].
Qed.

(* One step through a computation of the batch planner. *)
Ltac marks_step :=
  lazymatch goal with
  | |- Step.keeps _ (mret _) => apply (keeps_ret _ marks_refl)
  | |- Step.keeps _ raise => apply (keeps_raise _ marks_refl)
  | |- Step.keeps _ get => apply (keeps_get _ marks_refl)
  | |- Step.keeps _ (of_option _) => apply (keeps_of_option _ marks_refl)
  | |- Step.keeps _ (modify _) =>
      apply keeps_modify; intros; apply marks_frame; reflexivity
  | |- Step.keeps _ (try_ _) => apply keeps_try
  | |- Step.keeps _ (when _ _) => apply (keeps_when _ marks_refl)
  | |- Step.keeps _ (for_each _ _) =>
      apply (keeps_for_each _ marks_refl marks_trans); intros
  | |- Step.keeps _ (mbind _ (shared_functions.create_picking _ _ _ _ _)) =>
      apply pick_mark_then
  | |- Step.keeps _ (mbind _ _) => apply (keeps_bind _ marks_trans); [|intros]
  | |- Step.keeps _ (match ?x with _ => _ end) => destruct x
  | |- Step.keeps _ (let _ := _ in _) => cbv zeta
  | |- _ => solve [auto]
  end.

Lemma decrement_stock_marks (product_id quantity : Z) :
  Step.keeps Batched.marks (decrement_stock product_id quantity).
Proof. unfold decrement_stock. repeat marks_step. Qed.

Lemma split_one_batch_marks (orders : list (Z * Z)) (max_units_per_palette : Z) :
  Step.keeps Batched.marks (split_one_batch orders max_units_per_palette).
Proof.
  unfold split_one_batch. apply (keeps_bind _ marks_trans); [marks_step|intros self].
  destruct (fill_batch _ _ _ _ _) as [batched_quantity [|id ids]]; [marks_step|].
  intros s. destruct (pick_and_mark (id :: ids)
                        (NoteCreator.create_note (note_creator self) (id :: ids) None
                           None (Some (Py.Int batched_quantity))
                           (Some (product_name self)) None) s)
    as (s' & Hrun & Hmarks & _).
  rewrite Hrun. exact Hmarks.
Qed.

Lemma split_batches_marks (orders : list (Z * Z)) (total_quantity : Py.num)
    (max_units_per_palette : units) :
  Step.keeps Batched.marks (split_batches orders total_quantity max_units_per_palette).
Proof.
  pose proof split_one_batch_marks as Hone.
  unfold split_batches. destruct max_units_per_palette as [m|]; [|marks_step].
  cbv zeta. induction (Z.to_nat _) as [|n IH]; cbn [repeat_m]; repeat marks_step.
Qed.

Lemma regular_batching_marks (max_units_per_palette : units) (total_quantity : Py.num)
    (orders : list (Z * Z)) (product_id : Z) :
  Step.keeps Batched.marks
    (regular_batching max_units_per_palette total_quantity orders product_id).
Proof.
  pose proof split_batches_marks. pose proof decrement_stock_marks.
  unfold regular_batching. repeat marks_step.
Qed.

Lemma special_palette_loop_marks (separate_batch_from_quantity : option Z)
    (orders : list (Z * Z)) (product_id : Z) (total_quantity : Py.num) :
  Step.keeps Batched.marks
    (special_palette_loop separate_batch_from_quantity orders product_id
       total_quantity).
Proof.
  pose proof decrement_stock_marks.
  revert total_quantity.
  induction orders as [|[order_id quantity] rest IH]; intros total_quantity;
    cbn [special_palette_loop]; repeat marks_step.
Qed.

Lemma special_batching_marks (max_units_per_palette : units) (total_quantity : Py.num)
    (orders : list (Z * Z)) (product_id min_batch_size : Z) :
  Step.keeps Batched.marks
    (special_batching max_units_per_palette total_quantity orders product_id
       min_batch_size).
Proof.
  pose proof special_palette_loop_marks. pose proof regular_batching_marks.
  unfold special_batching, special_palette_batching. repeat marks_step.
Qed.

Lemma batching_products_marks (cat : Catalogue) (product_id : Z) :
  Step.keeps Batched.marks (batching_products cat product_id).
Proof.
  pose proof special_batching_marks. pose proof regular_batching_marks.
  unfold batching_products, extract_max_units_per_palette, send_teams_message.
  repeat marks_step.
Qed.

Lemma find_products_to_batch_marks :
  Step.keeps Batched.marks find_products_to_batch.
Proof.
  assert (Hfrom : forall orders d,
            Step.keeps Batched.marks (find_single_sku_orders_from orders d)).
  { induction orders as [|order rest IH]; intros d;
      cbn [find_single_sku_orders_from]; unfold check_if_seni; repeat marks_step. }
  unfold find_products_to_batch, find_single_sku_orders. repeat marks_step.
Qed.

Lemma batching_main_marks (cat : Catalogue)
    (orders_to_include : list FulfillmentOrder.t) (is_prio : bool)
    (product_stock : gmap Z Z) :
  Step.keeps Batched.marks (main cat orders_to_include is_prio product_stock).
Proof.
  pose proof batching_products_marks. pose proof find_products_to_batch_marks.
  unfold main. repeat marks_step.
Qed.

End BatchesMarked.

Section Pass.
Import PulpoManager.

Lemma batching_main_returns (cat : PulpoBatchingManager.Catalogue)
    (orders_to_include : list FulfillmentOrder.t) (is_prio : bool)
    (product_stock : gmap Z Z) (b : PulpoBatchingManager.t) :
  fst (PulpoBatchingManager.main cat orders_to_include is_prio product_stock b)
  = Some tt.
Proof. reflexivity. Qed.

(** A change that leaves the log and the two managers alone. *)
Lemma carts_frame (s s' : t) :
  pulpo s' = pulpo s -> carts_manager s' = carts_manager s ->
  batching_manager s' = batching_manager s -> Planned.carts s s'.
Proof.
  intros Hw Hc Hb. exists []. rewrite app_nil_r, Hc. unfold Carted.ids.
  cbn [map concat].
  split; [exact Hw|]. split; [constructor|]. split; [intros id []|].
  split; [|exact Hb]. intros id. split; [auto|intros [H|[]]; exact H].
Qed.

Lemma carts_refl (s : t) : Planned.carts s s.
Proof. apply carts_frame; reflexivity. Qed.

Lemma carts_trans (s1 s2 s3 : t) :
  Planned.carts s1 s2 -> Planned.carts s2 s3 -> Planned.carts s1 s3.
Proof.
  intros (picks1 & Hw1 & Hnd1 & Hnew1 & Hp1 & Hb1)
         (picks2 & Hw2 & Hnd2 & Hnew2 & Hp2 & Hb2).
  exists (picks1 ++ picks2)%list. unfold Carted.ids in *.
  rewrite map_app, concat_app.
  split; [rewrite Hw2, Hw1, app_assoc; reflexivity|].
  split.
  { apply List.NoDup_app; [exact Hnd1|exact Hnd2|].
    intros id H1 H2. apply (Hnew2 id H2), Hp1. right. exact H1. }
  split.
  { intros id Hin Hc. apply in_app_or in Hin as [Hin|Hin]; [exact (Hnew1 id Hin Hc)|].
    apply (Hnew2 id Hin), Hp1. left. exact Hc. }
  split; [|congruence].
  intros id. rewrite Hp2, Hp1, in_app_iff. tauto.
Qed.

(** A call of the carts manager from the run. *)
Lemma with_carts_main_carts (check_stock : Z -> Z) (count_picking_orders : Z)
    (size : config.PackageSizes) (orders : list FulfillmentOrder.t)
    (is_prio is_sweeping_time : bool) (stock : gmap Z Z) :
  Step.keeps Planned.carts
    (with_carts (PulpoCartsManager.main check_stock count_picking_orders size orders
                   is_prio is_sweeping_time stock)).
Proof.
  intros s. unfold with_carts. cbv zeta.
  pose proof (carts_main_spec check_stock count_picking_orders size orders is_prio
                is_sweeping_time stock
                (PulpoCartsManager.set_work
                   (PulpoCartsManager.processed_orders (carts_manager s))
                   (product_availability s)
                   (PulpoCartsManager.no_space_left (carts_manager s)) (pulpo s)
                   (carts_manager s))) as [(picks & Hw & _ & Hnd & Hnew & Hp) _].
  destruct (PulpoCartsManager.main _ _ _ _ _ _ _ _) as [r c']. cbn [snd] in *.
  exists picks. cbn [pulpo carts_manager batching_manager].
  split; [exact Hw|]. split; [exact Hnd|].
  split; [intros id Hid; exact (proj1 (Hnew id Hid))|]. split; [exact Hp|reflexivity].
Qed.

Lemma picking_creation_carts_from_carts (w : World) (sizes : list config.PackageSizes)
    (orders : list FulfillmentOrder.t) (is_prio : bool) :
  Step.keeps Planned.carts (picking_creation_carts_from w sizes orders is_prio).
Proof.
  induction sizes as [|size rest IH]; cbn [picking_creation_carts_from];
    [apply (keeps_ret _ carts_refl)|].
  destruct (config.size_eqb size config.SIZE_XXL); [exact IH|].
  apply (keeps_bind _ carts_trans); [apply (keeps_get _ carts_refl)|intros self].
  destruct (_ && _); [apply (keeps_ret _ carts_refl)|].
  apply (keeps_bind _ carts_trans); [|intros _].
  { apply keeps_modify. intros s. apply carts_frame; reflexivity. }
  apply (keeps_bind _ carts_trans); [apply with_carts_main_carts|intros _; exact IH].
Qed.

(** The batches of a pass: what they name, the carts manager holds as
    processed afterwards. *)
Lemma picking_creation_batches_spec (w : World) (orders : list FulfillmentOrder.t)
    (is_prio : bool) (s : t) :
  exists picks s1,
    picking_creation_batches w orders is_prio s = (Some tt, s1)
    /\ pulpo s1 = (pulpo s ++ picks)%list
    /\ (forall id, In id (Batched.ids picks) ->
          id ∈ PulpoBatchingManager.processed_orders (batching_manager s1))
    /\ PulpoBatchingManager.processed_orders (batching_manager s)
       ⊆ PulpoBatchingManager.processed_orders (batching_manager s1)
    /\ PulpoCartsManager.processed_orders (carts_manager s1)
       = (PulpoCartsManager.processed_orders (carts_manager s)
          ++ elements (PulpoBatchingManager.processed_orders (batching_manager s1)))%list.
Proof.
  unfold picking_creation_batches.
  unfold mbind at 1, M_bind at 1, get at 1. cbv beta iota.
  unfold mbind at 1, M_bind at 1, with_batching at 1. cbv zeta.
  set (b0 := PulpoBatchingManager.set_work _ _ _ _ _ _).
  pose proof (batching_main_marks (catalogue w) orders is_prio (product_availability s)
                b0) as (picks & Hw & Hsub & Hin).
  pose proof (batching_main_returns (catalogue w) orders is_prio
                (product_availability s) b0) as Hret.
  destruct (PulpoBatchingManager.main _ _ _ _ b0) as [r b']. cbn [fst snd] in *.
  subst r. exists picks. eexists. split; [reflexivity|].
  cbn. auto.
Qed.

(** X25. Carts after batches.  In one pass of [picking_creation_manager]
    the batches are planned first and the carts after them.  The cart picks
    of the pass name no sales order twice, no sales order that a batch pick
    of the pass names or that the batch planner holds as processed, and no
    sales order the carts manager held as processed before the pass.
    After the pass the carts manager holds as processed what it held
    before, what the batch planner holds, and what the cart picks name. *)
Theorem pass_carts_avoid_the_batches (w : World) (is_prio : bool)
    (batch_list cart_seni_list cart_list : list FulfillmentOrder.t) (s : t) :
  let s1 := exec (picking_creation_batches w batch_list is_prio) s in
  let s' :=
    exec (picking_creation_manager w is_prio batch_list cart_seni_list cart_list) s in
  exists batch_picks cart_picks,
    pulpo s1 = (pulpo s ++ batch_picks)%list
    /\ pulpo s' = (pulpo s1 ++ cart_picks)%list
    /\ List.NoDup (Carted.ids cart_picks)
    /\ (forall id, In id (Carted.ids cart_picks) ->
          ~ In id (Carted.ids batch_picks)
          /\ (id ∉ PulpoBatchingManager.processed_orders (batching_manager s'))
          /\ ~ In id (PulpoCartsManager.processed_orders (carts_manager s)))
    /\ (forall id,
          In id (PulpoCartsManager.processed_orders (carts_manager s'))
          <-> In id (PulpoCartsManager.processed_orders (carts_manager s))
              \/ id ∈ PulpoBatchingManager.processed_orders (batching_manager s')
              \/ In id (Carted.ids cart_picks)).
Proof.
  cbv zeta. unfold exec, picking_creation_manager.
  destruct (picking_creation_batches_spec w batch_list is_prio s)
    as (batch_picks & s1 & Hrun & Hw & Hin & _ & Hc).
  assert (Hrest : forall rest : M t unit,
            snd ((picking_creation_batches w batch_list is_prio ;; rest) s)
            = snd (rest s1))
    by (intros rest; unfold mbind, M_bind; rewrite Hrun; reflexivity).
  rewrite Hrest, Hrun. cbn [snd].
  assert (Hcarts : Step.keeps Planned.carts
                     (picking_creation_carts w cart_seni_list is_prio ;;
                      picking_creation_carts w cart_list is_prio)).
  { apply (keeps_bind _ carts_trans); [|intros _];
      apply picking_creation_carts_from_carts. }
  destruct (Hcarts s1) as (cart_picks & Hw' & Hnd & Hnew & Hp & Hb).
  set (s' := snd (_ s1)) in *.
  assert (Hheld : forall id,
            In id (PulpoCartsManager.processed_orders (carts_manager s1))
            <-> In id (PulpoCartsManager.processed_orders (carts_manager s))
                \/ id ∈ PulpoBatchingManager.processed_orders (batching_manager s')).
  { intros id. rewrite Hc, in_app_iff, Hb. rewrite <- elem_of_elements, list_elem_of_In.
    reflexivity. }
  exists batch_picks, cart_picks.
  split; [exact Hw|]. split; [exact Hw'|]. split; [exact Hnd|]. split.
  - intros id Hid. specialize (Hnew id Hid). rewrite Hheld in Hnew.
    split; [|split].
    + intros Hbatch. apply Hnew. right. rewrite Hb. apply Hin, Hbatch.
    + intros Hbatch. apply Hnew. right. exact Hbatch.
    + intros Hold. apply Hnew. left. exact Hold.
  - intros id. rewrite Hp, Hheld. tauto.
Qed.

End Pass.
